(** * Magic mirror: sticker anchoring, gesture interaction and arcade mode

    A shallow embedding of the TypeScript sources of the repository:

    - [types.ts]                  the data model and the asset catalogue;
    - [services/visionService]    [getAnchorData], the anchor resolver;
    - [components/StickerCanvas]  the pointer handlers that update stickers;
    - [components/AssetSelector]  the controls that the virtual touch reads;
    - [services/geminiService]    [analyzeStyle];
    - three versions of the [App] component, each with its own frame loop:
      - [MirrorApp]  the version without the arcade game
                     (cool-down 1000 ms, four-finger face swap);
      - [ArcadeApp]  the version with [handleStartGame]
                     (cool-down 1000 ms, four-finger face swap, coin game);
      - [GameApp]    the version with the game toggle button and the
                     five-finger face swipe (cool-down 800 ms).

    Conventions.  A JavaScript [number] is a rational ([Q]); comparisons are
    the boolean tests [Qltb], [Qle_bool], [Qeq_bool], so every definition
    evaluates.  Division is [Qdiv], which is total ([x / 0 == 0]) where
    JavaScript yields an infinity or NaN; no statement below relies on the
    value of a division by zero being meaningful.  The library functions
    [Math.sqrt], [Math.hypot], [Math.atan2] and the constant [Math.PI] are
    not rational and are taken as an interface ([MathLib]).  React state
    updates queued in one frame are applied in the order in which they are
    queued; a ref ([useRef]) is a field of the application state.  A
    property read on [undefined] raises a [TypeError]: such code returns an
    [outcome]. *)

From Stdlib Require Import QArith Qabs Qminmax Qround Lqa.
From Stdlib Require Import List String Ascii Bool Arith Lia ZArith.
Import ListNotations.

Open Scope string_scope.
Open Scope list_scope.
Open Scope Q_scope.

(* ================================================================= *)
(** ** Numbers, truthiness and thrown errors *)

Definition Qltb (a b : Q) : bool := negb (Qle_bool b a).

(** [v ? ... : ...] on an optional number: [undefined] and [0] are falsy. *)
Definition truthy (o : option Q) : bool :=
  match o with
  | Some q => negb (Qeq_bool q 0)
  | None => false
  end.

(** Truthiness of an optional string: [null] and the empty string are
    falsy. *)
Definition truthyStr (o : option string) : bool :=
  match o with
  | Some s => negb (String.eqb s "")
  | None => false
  end.

(** [a || b] on an optional number. *)
Definition orElse (o : option Q) (d : Q) : Q :=
  match o with
  | Some q => if Qeq_bool q 0 then d else q
  | None => d
  end.

(** [a === b] on optional strings ([null] is only equal to [null]). *)
Definition optStrEq (a b : option string) : bool :=
  match a, b with
  | Some s, Some t => String.eqb s t
  | None, None => true
  | _, _ => false
  end.

(** The result of code that may raise a [TypeError]. *)
Inductive outcome (A : Type) : Type :=
| Return (a : A)
| Throw.
Arguments Return {A} a.
Arguments Throw {A}.

Definition bind {A B : Type} (m : outcome A) (k : A -> outcome B) : outcome B :=
  match m with
  | Return a => k a
  | Throw => Throw
  end.

Notation "'do' x <- m ; k" := (bind m (fun x => k))
  (at level 10, x name, m at level 100, k at level 200).

(** Reading a property of a value that may be [undefined]. *)
Definition deref {A : Type} (o : option A) : outcome A :=
  match o with
  | Some a => Return a
  | None => Throw
  end.

(** [Array.prototype.map] with a callback that may throw. *)
Fixpoint mapM {A B : Type} (f : A -> outcome B) (l : list A) : outcome (list B) :=
  match l with
  | [] => Return []
  | a :: l' => do b <- f a; do bs <- mapM f l'; Return (b :: bs)
  end.

(** The part of the JavaScript [Math] object that has no rational model. *)
Class MathLib : Type := {
  Math_sqrt : Q -> Q;
  Math_hypot : Q -> Q -> Q;
  Math_atan2 : Q -> Q -> Q;
  Math_PI : Q
}.

(** A rational stand-in for [Math], used only to evaluate concrete
    scenarios.  [sqrtQ] is the exact square root of every rational square
    (and rounds down elsewhere); [atan2] is only ever evaluated at level
    eyes ([y = 0], [0 < x]), where its value is [0]. *)
Definition sqrtQ (q : Q) : Q :=
  Z.sqrt (Qnum q * Zpos (Qden q)) # Qden q.

Definition scenarioMath : MathLib := {|
  Math_sqrt := sqrtQ;
  Math_hypot := fun a b => sqrtQ (a * a + b * b);
  Math_atan2 := fun _ _ => 0;
  Math_PI := 355 # 113
|}.

(* ================================================================= *)
(** ** types.ts *)

Inductive Category : Type :=
  hats | glasses | tops | hair | accessories | faces.

Inductive AnchorType : Type :=
  head | eyes | body | face | none.

Inductive StickerType : Type := emoji | svg.

Definition Category_eqb (a b : Category) : bool :=
  match a, b with
  | hats, hats | glasses, glasses | tops, tops | hair, hair
  | accessories, accessories | faces, faces => true
  | _, _ => false
  end.

Definition AnchorType_eqb (a b : AnchorType) : bool :=
  match a, b with
  | head, head | eyes, eyes | body, body | face, face | none, none => true
  | _, _ => false
  end.

(** The string that an [AnchorType] is at run time. *)
Definition anchorKey (a : AnchorType) : string :=
  match a with
  | head => "head"
  | eyes => "eyes"
  | body => "body"
  | face => "face"
  | none => "none"
  end.

(** [{ x: number; y: number }]: an offset, a hand position, a landmark. *)
Module Pt.
Record t : Type := mk { x : Q; y : Q }.
End Pt.

Module StickerItem.
Record t : Type := mk {
    id : string;
    type : StickerType;
    content : string;
    category : Category;
    x : Q;
    y : Q;
    scale : Q;
    rotation : Q;
    opacity : option Q;
    anchorType : AnchorType;
    anchorOffset : Pt.t;
    baseScale : Q;
    baseRotation : Q;
    createdAt : option Q;
    lifespan : option Q
  }.

  (** [{ ...s, x: x', y: y' }] *)
Definition with_xy (s : t) (x' y' : Q) : t :=
    mk (id s) (type s) (content s) (category s) x' y' (scale s) (rotation s)
       (opacity s) (anchorType s) (anchorOffset s) (baseScale s)
       (baseRotation s) (createdAt s) (lifespan s).

  (** [{ ...s, scale: k }] *)
Definition with_scale (s : t) (k : Q) : t :=
    mk (id s) (type s) (content s) (category s) (x s) (y s) k (rotation s)
       (opacity s) (anchorType s) (anchorOffset s) (baseScale s)
       (baseRotation s) (createdAt s) (lifespan s).

  (** [{ ...s, rotation: r }] *)
Definition with_rotation (s : t) (r : Q) : t :=
    mk (id s) (type s) (content s) (category s) (x s) (y s) (scale s) r
       (opacity s) (anchorType s) (anchorOffset s) (baseScale s)
       (baseRotation s) (createdAt s) (lifespan s).

  (** [{ ...s, opacity: o }] *)
Definition with_opacity (s : t) (o : Q) : t :=
    mk (id s) (type s) (content s) (category s) (x s) (y s) (scale s)
       (rotation s) (Some o) (anchorType s) (anchorOffset s) (baseScale s)
       (baseRotation s) (createdAt s) (lifespan s).

  (** [{ ...s, baseScale: b }] *)
Definition with_baseScale (s : t) (b : Q) : t :=
    mk (id s) (type s) (content s) (category s) (x s) (y s) (scale s)
       (rotation s) (opacity s) (anchorType s) (anchorOffset s) b
       (baseRotation s) (createdAt s) (lifespan s).

  (** [{ ...s, x, y, scale, rotation }]: the live transform. *)
Definition with_transform (s : t) (x' y' k r : Q) : t :=
    mk (id s) (type s) (content s) (category s) x' y' k r
       (opacity s) (anchorType s) (anchorOffset s) (baseScale s)
       (baseRotation s) (createdAt s) (lifespan s).

  (** [{ ...s, anchorOffset, baseScale, baseRotation }]: the binding. *)
Definition with_binding (s : t) (off : Pt.t) (b r : Q) : t :=
    mk (id s) (type s) (content s) (category s) (x s) (y s) (scale s)
       (rotation s) (opacity s) (anchorType s) off b r
       (createdAt s) (lifespan s).
End StickerItem.

Module CoinItem.
Record t : Type := mk {
    id : string;
    x : Q;
    y : Q;
    scale : Q;
    value : Q;
    collected : bool
  }.
End CoinItem.

Module Asset.
Record t : Type := mk {
    id : string;
    type : StickerType;
    content : string;
    category : Category;
    label : string;
    anchorType : AnchorType;
    defaultScale : Q;
    defaultOffsetY : option Q;
    effectItems : option (list string)
  }.
End Asset.

(** The catalogue.  The payload of an asset (SVG markup or an emoji) is
    only ever compared for equality; each is written here as the name of
    its [SVG_ASSETS] entry or of its glyph. *)
Definition ASSETS : list Asset.t := [
  Asset.mk "f1_rabbit" svg "SVG_ASSETS.rabbit_face" faces "Rabbit" face 1.6
           None (Some ["carrot"; "carrot"]);
  Asset.mk "f2_panda" svg "SVG_ASSETS.panda_face" faces "Panda" face 1.5
           None (Some ["pine"; "tanabata"]);
  Asset.mk "f3_dog" svg "SVG_ASSETS.dog_face" faces "Dog" face 1.6
           None (Some ["bone"; "meat"]);
  Asset.mk "f4_cat" svg "SVG_ASSETS.cat_face" faces "Cat" face 1.5
           None (Some ["paws"; "fish"]);
  Asset.mk "h1" svg "SVG_ASSETS.cap_blue" hats "Cap" head 1.5
           (Some (-0.6)) None;
  Asset.mk "h2" emoji "crown" hats "Crown" head 0.8 (Some (-0.8)) None;
  Asset.mk "h3" emoji "top hat" hats "Top Hat" head 1.0 (Some (-0.8)) None;
  Asset.mk "g1" svg "SVG_ASSETS.glasses_dark" glasses "Shades" eyes 1.0
           None None;
  Asset.mk "g2" svg "SVG_ASSETS.glasses_reading" glasses "Round" eyes 1.0
           None None;
  Asset.mk "t1" svg "SVG_ASSETS.tshirt_white" tops "Tee" body 2.5
           (Some 1.2) None;
  Asset.mk "t2" emoji "dress" tops "Dress" body 2.2 (Some 1.2) None;
  Asset.mk "ha1" svg "SVG_ASSETS.hair_long" hair "Blonde" head 1.8
           (Some 0.2) None;
  Asset.mk "ha2" emoji "curly" hair "Curly" head 1.4 (Some (-0.2)) None;
  Asset.mk "a1" svg "SVG_ASSETS.bowtie" accessories "Bowtie" body 0.8
           (Some 0.6) None;
  Asset.mk "a2" emoji "scarf" accessories "Scarf" body 1.5 (Some 0.8) None
].

(* ================================================================= *)
(** ** services/visionService: the anchor resolver *)

Module AnchorData.
Record t : Type := mk { x : Q; y : Q; scale : Q; rotation : Q }.
End AnchorData.

Record FaceLandmarkerResult : Type := {
  faceLandmarks : list (list Pt.t)
}.

Section AnchorResolver.
Context {M : MathLib}.

  (** [getAnchorData(result, anchorType)].  The seven key landmarks are
      read by index; the cheeks and the eyes are dereferenced before the
      [switch], the others inside their [case]. *)
Definition getAnchorData (result : FaceLandmarkerResult) (anchorType : string)
    : outcome (option AnchorData.t) :=
    match faceLandmarks result with
    | [] => Return None
    | landmarks :: _ =>
        let noseTip := nth_error landmarks 1 in
        let leftEye := nth_error landmarks 33 in
        let rightEye := nth_error landmarks 263 in
        let topHead := nth_error landmarks 10 in
        let chin := nth_error landmarks 152 in
        let leftCheek := nth_error landmarks 234 in
        let rightCheek := nth_error landmarks 454 in
        do rc <- deref rightCheek;
        do lc <- deref leftCheek;
        let faceWidth := Math_hypot (Pt.x rc - Pt.x lc) (Pt.y rc - Pt.y lc) in
        do re <- deref rightEye;
        do le <- deref leftEye;
        let angleRad := Math_atan2 (Pt.y re - Pt.y le) (Pt.x re - Pt.x le) in
        let angleDeg := angleRad * (180 / Math_PI) in
        let scale := faceWidth in
        if anchorType =? "eyes" then
          Return (Some (AnchorData.mk ((Pt.x le + Pt.x re) / 2)
                                      ((Pt.y le + Pt.y re) / 2) scale angleDeg))
        else if anchorType =? "head" then
          do th <- deref topHead;
          Return (Some (AnchorData.mk (Pt.x th) (Pt.y th) scale angleDeg))
        else if anchorType =? "face" then
          do nt <- deref noseTip;
          Return (Some (AnchorData.mk (Pt.x nt) (Pt.y nt) scale angleDeg))
        else if anchorType =? "body" then
          do ch <- deref chin;
          Return (Some (AnchorData.mk (Pt.x ch) (Pt.y ch) scale angleDeg))
        else Return None
    end.
End AnchorResolver.

(** A face mesh is complete when it has every landmark the resolver
    reads (the detector returns 478 points per face). *)
Definition completeMesh (result : FaceLandmarkerResult) : bool :=
  match faceLandmarks result with
  | [] => false
  | landmarks :: _ => (454 <? List.length landmarks)%nat
  end.

Definition knownSelector (anchorType : string) : bool :=
  (anchorType =? "eyes") || (anchorType =? "head")
  || (anchorType =? "face") || (anchorType =? "body").

(* ================================================================= *)
(** ** State shared by the three versions of [App] *)

Inductive Status : Type :=
  idle | hovering | dragging | dropping_wait | resizing.

Inductive TargetType : Type :=
  sticker | button_asset | button_cat.

Definition Status_eqb (a b : Status) : bool :=
  match a, b with
  | idle, idle | hovering, hovering | dragging, dragging
  | dropping_wait, dropping_wait | resizing, resizing => true
  | _, _ => false
  end.

Definition TargetType_eqb (a b : TargetType) : bool :=
  match a, b with
  | sticker, sticker | button_asset, button_asset
  | button_cat, button_cat => true
  | _, _ => false
  end.

(** [interactionState]; [interactionStateRef.current] is its value when
    the frame starts. *)
Record InteractionState : Type := mkInteraction {
  status : Status;
  targetId : option string;
  targetType : TargetType;
  progress : Q
}.

(** [{ status: 'idle', targetId: null, targetType: 'sticker', progress: 0 }] *)
Definition idleState : InteractionState := mkInteraction idle None sticker 0.

(** The React state and the refs of the component.  [handCursor] and the
    analysis modal only feed the rendering and are left out. *)
Record AppState : Type := mkApp {
  stickers : list StickerItem.t;
  activeStickerId : option string;
  selectedCategory : string;
  interactionState : InteractionState;
  isPlaying : bool;
  score : Q;
  coins : list CoinItem.t;
  showWinModal : bool;
  interactingIdRef : option string;
  lastFaceDataRef : option AnchorData.t;
  hoverStartTimeRef : Q;
  dropStartTimeRef : Q;
  lastEffectSpawnTimeRef : Q;
  lastGestureTimeRef : Q;
  lastHandPosRef : option Pt.t;
  scoreRef : Q;
  lastCoinSpawnTimeRef : Q
}.

Definition initialState : AppState :=
  mkApp [] None "faces" idleState false 0 [] false None None 0 0 0 0 None 0 0.

Definition setStickers (f : list StickerItem.t -> list StickerItem.t)
  (a : AppState) : AppState :=
  mkApp (f (stickers a)) (activeStickerId a) (selectedCategory a)
    (interactionState a) (isPlaying a) (score a) (coins a) (showWinModal a)
    (interactingIdRef a) (lastFaceDataRef a) (hoverStartTimeRef a)
    (dropStartTimeRef a) (lastEffectSpawnTimeRef a) (lastGestureTimeRef a)
    (lastHandPosRef a) (scoreRef a) (lastCoinSpawnTimeRef a).

Definition setActiveStickerId (v : option string) (a : AppState) : AppState :=
  mkApp (stickers a) v (selectedCategory a)
    (interactionState a) (isPlaying a) (score a) (coins a) (showWinModal a)
    (interactingIdRef a) (lastFaceDataRef a) (hoverStartTimeRef a)
    (dropStartTimeRef a) (lastEffectSpawnTimeRef a) (lastGestureTimeRef a)
    (lastHandPosRef a) (scoreRef a) (lastCoinSpawnTimeRef a).

Definition setSelectedCategory (v : string) (a : AppState) : AppState :=
  mkApp (stickers a) (activeStickerId a) v
    (interactionState a) (isPlaying a) (score a) (coins a) (showWinModal a)
    (interactingIdRef a) (lastFaceDataRef a) (hoverStartTimeRef a)
    (dropStartTimeRef a) (lastEffectSpawnTimeRef a) (lastGestureTimeRef a)
    (lastHandPosRef a) (scoreRef a) (lastCoinSpawnTimeRef a).

Definition setInteractionState (f : InteractionState -> InteractionState)
  (a : AppState) : AppState :=
  mkApp (stickers a) (activeStickerId a) (selectedCategory a)
    (f (interactionState a)) (isPlaying a) (score a) (coins a)
    (showWinModal a)
    (interactingIdRef a) (lastFaceDataRef a) (hoverStartTimeRef a)
    (dropStartTimeRef a) (lastEffectSpawnTimeRef a) (lastGestureTimeRef a)
    (lastHandPosRef a) (scoreRef a) (lastCoinSpawnTimeRef a).

Definition setIsPlaying (v : bool) (a : AppState) : AppState :=
  mkApp (stickers a) (activeStickerId a) (selectedCategory a)
    (interactionState a) v (score a) (coins a) (showWinModal a)
    (interactingIdRef a) (lastFaceDataRef a) (hoverStartTimeRef a)
    (dropStartTimeRef a) (lastEffectSpawnTimeRef a) (lastGestureTimeRef a)
    (lastHandPosRef a) (scoreRef a) (lastCoinSpawnTimeRef a).

Definition setScore (v : Q) (a : AppState) : AppState :=
  mkApp (stickers a) (activeStickerId a) (selectedCategory a)
    (interactionState a) (isPlaying a) v (coins a) (showWinModal a)
    (interactingIdRef a) (lastFaceDataRef a) (hoverStartTimeRef a)
    (dropStartTimeRef a) (lastEffectSpawnTimeRef a) (lastGestureTimeRef a)
    (lastHandPosRef a) (scoreRef a) (lastCoinSpawnTimeRef a).

Definition setCoins (f : list CoinItem.t -> list CoinItem.t)
  (a : AppState) : AppState :=
  mkApp (stickers a) (activeStickerId a) (selectedCategory a)
    (interactionState a) (isPlaying a) (score a) (f (coins a))
    (showWinModal a)
    (interactingIdRef a) (lastFaceDataRef a) (hoverStartTimeRef a)
    (dropStartTimeRef a) (lastEffectSpawnTimeRef a) (lastGestureTimeRef a)
    (lastHandPosRef a) (scoreRef a) (lastCoinSpawnTimeRef a).

Definition setShowWinModal (v : bool) (a : AppState) : AppState :=
  mkApp (stickers a) (activeStickerId a) (selectedCategory a)
    (interactionState a) (isPlaying a) (score a) (coins a) v
    (interactingIdRef a) (lastFaceDataRef a) (hoverStartTimeRef a)
    (dropStartTimeRef a) (lastEffectSpawnTimeRef a) (lastGestureTimeRef a)
    (lastHandPosRef a) (scoreRef a) (lastCoinSpawnTimeRef a).

Definition setInteractingIdRef (v : option string) (a : AppState) : AppState :=
  mkApp (stickers a) (activeStickerId a) (selectedCategory a)
    (interactionState a) (isPlaying a) (score a) (coins a) (showWinModal a)
    v (lastFaceDataRef a) (hoverStartTimeRef a)
    (dropStartTimeRef a) (lastEffectSpawnTimeRef a) (lastGestureTimeRef a)
    (lastHandPosRef a) (scoreRef a) (lastCoinSpawnTimeRef a).

Definition setLastFaceDataRef (v : option AnchorData.t) (a : AppState)
  : AppState :=
  mkApp (stickers a) (activeStickerId a) (selectedCategory a)
    (interactionState a) (isPlaying a) (score a) (coins a) (showWinModal a)
    (interactingIdRef a) v (hoverStartTimeRef a)
    (dropStartTimeRef a) (lastEffectSpawnTimeRef a) (lastGestureTimeRef a)
    (lastHandPosRef a) (scoreRef a) (lastCoinSpawnTimeRef a).

Definition setHoverStartTimeRef (v : Q) (a : AppState) : AppState :=
  mkApp (stickers a) (activeStickerId a) (selectedCategory a)
    (interactionState a) (isPlaying a) (score a) (coins a) (showWinModal a)
    (interactingIdRef a) (lastFaceDataRef a) v
    (dropStartTimeRef a) (lastEffectSpawnTimeRef a) (lastGestureTimeRef a)
    (lastHandPosRef a) (scoreRef a) (lastCoinSpawnTimeRef a).

Definition setDropStartTimeRef (v : Q) (a : AppState) : AppState :=
  mkApp (stickers a) (activeStickerId a) (selectedCategory a)
    (interactionState a) (isPlaying a) (score a) (coins a) (showWinModal a)
    (interactingIdRef a) (lastFaceDataRef a) (hoverStartTimeRef a)
    v (lastEffectSpawnTimeRef a) (lastGestureTimeRef a)
    (lastHandPosRef a) (scoreRef a) (lastCoinSpawnTimeRef a).

Definition setLastEffectSpawnTimeRef (v : Q) (a : AppState) : AppState :=
  mkApp (stickers a) (activeStickerId a) (selectedCategory a)
    (interactionState a) (isPlaying a) (score a) (coins a) (showWinModal a)
    (interactingIdRef a) (lastFaceDataRef a) (hoverStartTimeRef a)
    (dropStartTimeRef a) v (lastGestureTimeRef a)
    (lastHandPosRef a) (scoreRef a) (lastCoinSpawnTimeRef a).

Definition setLastGestureTimeRef (v : Q) (a : AppState) : AppState :=
  mkApp (stickers a) (activeStickerId a) (selectedCategory a)
    (interactionState a) (isPlaying a) (score a) (coins a) (showWinModal a)
    (interactingIdRef a) (lastFaceDataRef a) (hoverStartTimeRef a)
    (dropStartTimeRef a) (lastEffectSpawnTimeRef a) v
    (lastHandPosRef a) (scoreRef a) (lastCoinSpawnTimeRef a).

Definition setLastHandPosRef (v : option Pt.t) (a : AppState) : AppState :=
  mkApp (stickers a) (activeStickerId a) (selectedCategory a)
    (interactionState a) (isPlaying a) (score a) (coins a) (showWinModal a)
    (interactingIdRef a) (lastFaceDataRef a) (hoverStartTimeRef a)
    (dropStartTimeRef a) (lastEffectSpawnTimeRef a) (lastGestureTimeRef a)
    v (scoreRef a) (lastCoinSpawnTimeRef a).

Definition setScoreRef (v : Q) (a : AppState) : AppState :=
  mkApp (stickers a) (activeStickerId a) (selectedCategory a)
    (interactionState a) (isPlaying a) (score a) (coins a) (showWinModal a)
    (interactingIdRef a) (lastFaceDataRef a) (hoverStartTimeRef a)
    (dropStartTimeRef a) (lastEffectSpawnTimeRef a) (lastGestureTimeRef a)
    (lastHandPosRef a) v (lastCoinSpawnTimeRef a).

Definition setLastCoinSpawnTimeRef (v : Q) (a : AppState) : AppState :=
  mkApp (stickers a) (activeStickerId a) (selectedCategory a)
    (interactionState a) (isPlaying a) (score a) (coins a) (showWinModal a)
    (interactingIdRef a) (lastFaceDataRef a) (hoverStartTimeRef a)
    (dropStartTimeRef a) (lastEffectSpawnTimeRef a) (lastGestureTimeRef a)
    (lastHandPosRef a) (scoreRef a) v.

(* ================================================================= *)
(** ** What a frame reads from the outside *)

(** A DOM element as the loop inspects it: its tag and its [id]. *)
Record DomElement : Type := mkElement {
  tagName : string;
  domId : string
}.

(** The nine landmarks that the loop reads out of the 21 of the first
    detected hand: indices 4, 8, 12, 16, 20 (tips) and 5, 9, 13, 17
    (knuckles). *)
Module Hand.
Record t : Type := mk {
  thumbTip : Pt.t;
  indexTip : Pt.t;
  middleTip : Pt.t;
  ringTip : Pt.t;
  pinkyTip : Pt.t;
  indexMCP : Pt.t;
  middleMCP : Pt.t;
  ringMCP : Pt.t;
  pinkyMCP : Pt.t
}.
End Hand.

Record Frame : Type := mkFrame {
  (** [performance.now()] *)
  now : Q;
  (** [videoRef.current.getBoundingClientRect()]: [scaleX], [scaleY] *)
  rectWidth : Q;
  rectHeight : Q;
  (** [window.innerWidth], [window.innerHeight] *)
  innerWidth : Q;
  innerHeight : Q;
  (** [detectFace], [detectHands] *)
  faceResult : option FaceLandmarkerResult;
  handResult : option Hand.t;
  (** [document.elementFromPoint(cursorX, cursorY)] followed by its
      ancestors, innermost first; empty when there is no element *)
  elementFromPoint : list DomElement;
  (** the texts of [Date.now()] and of [now], and the successive values of
      [Math.random()] with the text of one of them *)
  dateNow : string;
  nowText : string;
  random : nat -> Q;
  randomText : string
}.

(* ================================================================= *)
(** ** Constants and code that the three versions share verbatim *)

Definition HOVER_THRESHOLD_MS : Q := 2500.
Definition BUTTON_HOVER_THRESHOLD_MS : Q := 1500.
Definition DROP_THRESHOLD_MS : Q := 1500.
Definition INTERACTION_RADIUS : Q := 60.
Definition RESIZE_START_THRESHOLD : Q := 0.05.
Definition RESIZE_FACTOR : Q := 15.

(** The value of an optional number that has been tested truthy. *)
Definition num (o : option Q) : Q :=
  match o with
  | Some q => q
  | None => 0
  end.

Definition hasId (i : string) (s : StickerItem.t) : bool :=
  String.eqb (StickerItem.id s) i.

Definition isFace (s : StickerItem.t) : bool :=
  Category_eqb (StickerItem.category s) faces.

(** Section 0 of the loop, "Lifecycle Management": expired effects are
    filtered out, then the survivors inside the fade window get their
    opacity.  [fade] is [EFFECT_FADE_DURATION]. *)
Definition lifecycle (fade now : Q) (prev : list StickerItem.t)
  : list StickerItem.t :=
  let alive :=
    filter (fun s =>
      if negb (truthy (StickerItem.lifespan s))
         || negb (truthy (StickerItem.createdAt s))
      then true
      else Qltb (now - num (StickerItem.createdAt s))
                (num (StickerItem.lifespan s))) prev in
  map (fun s =>
    if truthy (StickerItem.lifespan s) && truthy (StickerItem.createdAt s)
    then
      let age := now - num (StickerItem.createdAt s) in
      let timeRemaining := num (StickerItem.lifespan s) - age in
      if Qltb timeRemaining fade
      then StickerItem.with_opacity s (timeRemaining / fade)
      else s
    else s) alive.

(** What section 1, "Hand Processing", derives from the hand. *)
Record Gesture : Type := mkGesture {
  cursorX : Q;
  cursorY : Q;
  isResizingGesture : bool;
  isOpenPalm : bool;
  pinchDistance : Q;
  fingerCount : nat;
  isIndexExt : bool;
  isMiddleExt : bool;
  isRingExt : bool;
  isPinkyExt : bool;
  isThumbExt : bool;
  currentHandX : Q;
  currentHandY : Q
}.

Definition b2n (b : bool) : nat := if b then 1%nat else 0%nat.

Section Classifier.
Context {M : MathLib}.

Definition classify (h : Hand.t) (scaleX scaleY : Q) : Gesture :=
  let isIndexExt := Qltb (Pt.y (Hand.indexTip h)) (Pt.y (Hand.indexMCP h)) in
  let isMiddleExt := Qltb (Pt.y (Hand.middleTip h)) (Pt.y (Hand.middleMCP h)) in
  let isRingExt := Qltb (Pt.y (Hand.ringTip h)) (Pt.y (Hand.ringMCP h)) in
  let isPinkyExt := Qltb (Pt.y (Hand.pinkyTip h)) (Pt.y (Hand.pinkyMCP h)) in
  let isThumbExt :=
    Qltb 0.05 (Qabs (Pt.x (Hand.thumbTip h) - Pt.x (Hand.indexMCP h))) in
  let fingerCount :=
    (b2n isThumbExt + b2n isIndexExt + b2n isMiddleExt + b2n isRingExt
     + b2n isPinkyExt)%nat in
  let distX := Pt.x (Hand.thumbTip h) - Pt.x (Hand.indexTip h) in
  let distY := Pt.y (Hand.thumbTip h) - Pt.y (Hand.indexTip h) in
  let pinchDistance := Math_sqrt (distX * distX + distY * distY) in
  mkGesture ((1 - Pt.x (Hand.indexTip h)) * scaleX)
            (Pt.y (Hand.indexTip h) * scaleY)
            (Qltb pinchDistance RESIZE_START_THRESHOLD)
            (fingerCount =? 5)%nat
            pinchDistance fingerCount
            isIndexExt isMiddleExt isRingExt isPinkyExt isThumbExt
            (Pt.x (Hand.middleMCP h)) (Pt.y (Hand.middleMCP h)).
End Classifier.

(** The pinch drives the base scale of the target:
    [prev.map(s => s.id === targetId ? { ...s, baseScale } : s)]. *)
Definition resizeSticker (target : string) (pinch : Q)
  (prev : list StickerItem.t) : list StickerItem.t :=
  let newScaleMultiplier := Qmax 0.2 (pinch * RESIZE_FACTOR) in
  map (fun s => if hasId target s
                then StickerItem.with_baseScale s newScaleMultiplier
                else s) prev.

(** The dragged sticker tracks the cursor. *)
Definition dragSticker (target : string) (cx cy : Q)
  (prev : list StickerItem.t) : list StickerItem.t :=
  map (fun s => if hasId target s then StickerItem.with_xy s cx cy else s)
      prev.

(** [handleDeleteSticker]: the store update. *)
Definition deleteSticker (i : string) (prev : list StickerItem.t)
  : list StickerItem.t :=
  filter (fun s => negb (hasId i s)) prev.

(** The three objects that [StickerCanvas] passes to [onUpdate]: from the
    move, the scale and the rotate handle. *)
Inductive StickerUpdate : Type :=
| UpdateXY (x y : Q)
| UpdateScale (scale : Q)
| UpdateRotation (rotation : Q).

(** [handleUpdateSticker]:
    [prev.map(s => s.id === id ? { ...s, ...updates } : s)]. *)
Definition handleUpdateSticker (i : string) (updates : StickerUpdate)
  (prev : list StickerItem.t) : list StickerItem.t :=
  map (fun s =>
    if hasId i s then
      match updates with
      | UpdateXY x y => StickerItem.with_xy s x y
      | UpdateScale k => StickerItem.with_scale s k
      | UpdateRotation r => StickerItem.with_rotation s r
      end
    else s) prev.

(** [btn.id.replace(prefix, '')] for an [id] that starts with [prefix]. *)
Definition stripPrefix (prefix i : string) : string :=
  substring (String.length prefix) (String.length i - String.length prefix) i.

(** The next face asset of [cycleAnimalFace]: the successor, in the face
    assets, of the asset whose payload the current face sticker shows. *)
Fixpoint findIndex {A : Type} (p : A -> bool) (l : list A) : Z :=
  match l with
  | [] => -1
  | a :: l' =>
      if p a then 0%Z
      else let i := findIndex p l' in
           if (i <? 0)%Z then (-1)%Z else (i + 1)%Z
  end.

Definition faceAssets : list Asset.t :=
  filter (fun a => Category_eqb (Asset.category a) faces) ASSETS.

Definition nextFaceAsset (prev : list StickerItem.t) : outcome Asset.t :=
  let nextIndex :=
    match find isFace prev with
    | Some currentFace =>
        let currentIndex :=
          findIndex (fun a => String.eqb (Asset.content a)
                                         (StickerItem.content currentFace))
                    faceAssets in
        Z.rem (currentIndex + 1) (Z.of_nat (List.length faceAssets))
    | None => 0%Z
    end in
  deref (nth_error faceAssets (Z.to_nat nextIndex)).

(** What a recognised swipe does. *)
Inductive SwipeAction : Type :=
| ClearScreen
| ChangeAnimal.

(** [dist < minDst] where [minDst] starts as [Infinity] ([None]). *)
Definition belowMin (dist : Q) (minDst : option Q) : bool :=
  match minDst with
  | Some m => Qltb dist m
  | None => true
  end.

(** [{ ...prev, progress }] *)
Definition withProgress (p : Q) (prev : InteractionState) : InteractionState :=
  mkInteraction (status prev) (targetId prev) (targetType prev) p.

(** Runs of the component: the events it reacts to, one after the other,
    until one of them throws; and the swipes recognised on the way, each
    with the time of its frame. *)
Section Runs.
Variable Event : Type.
Variable react : Event -> AppState -> outcome AppState.
Variable swipeAt : Event -> AppState -> option (Q * SwipeAction).

Fixpoint run (events : list Event) (a : AppState) : outcome AppState :=
  match events with
  | [] => Return a
  | e :: rest => do a' <- react e a; run rest a'
  end.

Fixpoint swipeLog (events : list Event) (a : AppState)
  : list (Q * SwipeAction) :=
  match events with
  | [] => []
  | e :: rest =>
      match react e a with
      | Return a' =>
          match swipeAt e a with
          | Some fired => fired :: swipeLog rest a'
          | None => swipeLog rest a'
          end
      | Throw => []
      end
  end.
End Runs.
Arguments run {Event} react events a.
Arguments swipeLog {Event} react swipeAt events a.

(* ================================================================= *)
(** ** [MirrorApp]: the version of [App] without the arcade game *)

Module MirrorApp.

Definition SWIPE_VELOCITY_THRESHOLD : Q := 0.02.
Definition GESTURE_COOLDOWN_MS : Q := 1000.
Definition EFFECT_COOLDOWN_MS : Q := 200.
Definition EFFECT_LIFESPAN : Q := 2000.
Definition EFFECT_FADE_DURATION : Q := 500.

(** The updater of [cycleAnimalFace]: the old face is filtered out and the
    next one appended in one replacement of the collection. *)
Definition cycleAnimalFace (f : Frame) (prev : list StickerItem.t)
  : outcome (list StickerItem.t) :=
  do nextAsset <- nextFaceAsset prev;
  let others := filter (fun s => negb (isFace s)) prev in
  let newFace :=
    StickerItem.mk (dateNow f ++ "auto")%string (Asset.type nextAsset)
      (Asset.content nextAsset) (Asset.category nextAsset)
      (innerWidth f / 2) (innerHeight f / 2)
      (Asset.defaultScale nextAsset) 0 None (Asset.anchorType nextAsset)
      (Pt.mk 0 0) (Asset.defaultScale nextAsset) 0 None None in
  Return (others ++ [newFace]).

(** The updater of [handleHandDrop]: the drop conversion. *)
Definition dropConversion (f : Frame) (i : string)
  (cached : option AnchorData.t) (prev : list StickerItem.t)
  : list StickerItem.t :=
  match find (hasId i) prev, cached with
  | Some found, Some faceData =>
      let faceX := (1 - AnchorData.x faceData) * rectWidth f in
      let faceY := AnchorData.y faceData * rectHeight f in
      let faceWidthPx := AnchorData.scale faceData * rectWidth f in
      let newOffsetX := StickerItem.x found - faceX in
      let newOffsetY := StickerItem.y found - faceY in
      let newBaseScale := StickerItem.scale found / (faceWidthPx / 100) in
      map (fun s =>
        if hasId i s
        then StickerItem.with_binding s (Pt.mk newOffsetX newOffsetY)
               newBaseScale
               (StickerItem.rotation found + AnchorData.rotation faceData)
        else s) prev
  | _, _ => prev
  end.

Definition handleHandDrop (f : Frame) (i : string) (a : AppState) : AppState :=
  let a := setInteractingIdRef None a in
  setStickers (dropConversion f i (lastFaceDataRef a)) a.

(** The sticker that [handleAddSticker] builds, and its store update. *)
Definition newItem (f : Frame) (asset : Asset.t) (spawnX spawnY : option Q)
  : StickerItem.t :=
  StickerItem.mk (dateNow f ++ randomText f)%string (Asset.type asset)
    (Asset.content asset) (Asset.category asset)
    (orElse spawnX (innerWidth f / 2)) (orElse spawnY (innerHeight f / 2))
    (Asset.defaultScale asset) 0 None (Asset.anchorType asset)
    (Pt.mk 0 (orElse (Asset.defaultOffsetY asset) 0 * 100))
    (Asset.defaultScale asset) 0 None None.

Definition addSticker (asset : Asset.t) (item : StickerItem.t)
  (prev : list StickerItem.t) : list StickerItem.t :=
  if Category_eqb (Asset.category asset) faces
  then filter (fun s => negb (isFace s)) prev ++ [item]
  else prev ++ [item].

Definition handleAddSticker (f : Frame) (asset : Asset.t)
  (spawnX spawnY : option Q) (a : AppState) : AppState * string :=
  let item := newItem f asset spawnX spawnY in
  let a := setStickers (addSticker asset item) a in
  (setActiveStickerId (Some (StickerItem.id item)) a, StickerItem.id item).

Definition handleDeleteSticker (i : string) (a : AppState) : AppState :=
  let a := setStickers (deleteSticker i) a in
  if optStrEq (activeStickerId a) (Some i) then setActiveStickerId None a
  else a.

(** [onInteractionStart], [onInteractionEnd] of the sticker canvas. *)
Definition handleInteractionStart (i : string) (a : AppState) : AppState :=
  setInteractingIdRef (Some i) a.

Definition handleInteractionEnd (f : Frame) (i : string) (a : AppState)
  : AppState :=
  handleHandDrop f i a.

(** "GESTURE SWIPE LOGIC": which action, if any, this frame recognises. *)
Definition recognizeSwipe (f : Frame) (g : Gesture) (a : AppState)
  : option SwipeAction :=
  match lastHandPosRef a with
  | Some lastHandPos =>
      if Qltb GESTURE_COOLDOWN_MS (now f - lastGestureTimeRef a) then
        let dx := currentHandX g - Pt.x lastHandPos in
        let isSwipe := Qltb SWIPE_VELOCITY_THRESHOLD (Qabs dx) in
        if isSwipe then
          if (fingerCount g =? 3)%nat && isIndexExt g && isMiddleExt g
             && isRingExt g
          then Some ClearScreen
          else if (fingerCount g =? 4)%nat && isIndexExt g && isMiddleExt g
                  && isRingExt g && isPinkyExt g
          then Some ChangeAnimal
          else None
        else None
      else None
  | None => None
  end.

Definition performSwipe (f : Frame) (act : option SwipeAction) (a : AppState)
  : outcome AppState :=
  match act with
  | Some ClearScreen =>
      Return (setLastGestureTimeRef (now f)
                (setActiveStickerId None (setStickers (fun _ => []) a)))
  | Some ChangeAnimal =>
      do l <- cycleAnimalFace f (stickers a);
      Return (setLastGestureTimeRef (now f) (setStickers (fun _ => l) a))
  | None => Return a
  end.

Section WithMath.
Context {M : MathLib}.

(** Section 1 of the loop, "Hand Processing". *)
Definition handProcessing (f : Frame) (a : AppState)
  : outcome (AppState * option Gesture) :=
  match handResult f with
  | Some h =>
      let g := classify h (rectWidth f) (rectHeight f) in
      do a <- performSwipe f (recognizeSwipe f g a) a;
      Return (setLastHandPosRef
                (Some (Pt.mk (currentHandX g) (currentHandY g))) a, Some g)
  | None => Return (setLastHandPosRef None a, None)
  end.

(** "A. ANIMAL EFFECT SPAWNING (Open Palm)" *)
Definition spawnEffect (f : Frame) (g : Gesture) (a : AppState) : AppState :=
  if isOpenPalm g
     && Qltb EFFECT_COOLDOWN_MS (now f - lastEffectSpawnTimeRef a) then
    match find isFace (stickers a) with
    | Some activeFace =>
        match find (fun asset => String.eqb (StickerItem.content activeFace)
                                   (Asset.content asset)) ASSETS with
        | Some matchingAsset =>
            match Asset.effectItems matchingAsset with
            | Some items =>
                let randomItem :=
                  nth (Z.to_nat (Qfloor (random f 0
                         * inject_Z (Z.of_nat (List.length items)))))
                      items "undefined" in
                let offsetX := (random f 1 - 0.5) * 150 in
                let offsetY := (random f 2 - 0.5) * 150 in
                let effectId := ("eff-" ++ dateNow f ++ "-" ++ randomText f)%string in
                let newEffect :=
                  StickerItem.mk effectId emoji randomItem accessories
                    (cursorX g + offsetX) (cursorY g + offsetY) 2.0
                    ((random f 4 - 0.5) * 40) (Some 1) none (Pt.mk 0 0)
                    2.0 0 (Some (now f)) (Some EFFECT_LIFESPAN) in
                setStickers (fun prev => prev ++ [newEffect])
                  (setLastEffectSpawnTimeRef (now f) a)
            | None => a
            end
        | None => a
        end
    | None => a
    end
  else a.

(** The button under the cursor: [element.closest('button')], kept when
    its [id] names an asset or a category control. *)
Definition hoveredButton (path : list DomElement)
  : option (string * TargetType) :=
  match find (fun e => String.eqb (tagName e) "button") path with
  | Some btn =>
      if negb (String.eqb (domId btn) "") then
        if prefix "asset-btn-" (domId btn)
        then Some (stripPrefix "asset-btn-" (domId btn), button_asset)
        else if prefix "cat-btn-" (domId btn)
        then Some (stripPrefix "cat-btn-" (domId btn), button_cat)
        else None
      else None
  | None => None
  end.

(** Distance from a sticker's centre to the cursor. *)
Definition distanceTo (cx cy : Q) (s : StickerItem.t) : Q :=
  let dx := StickerItem.x s - cx in
  let dy := StickerItem.y s - cy in
  Math_sqrt (dx * dx + dy * dy).

(** One turn of the [for (const s of interactableStickers)] loop. *)
Definition closestStep (cx cy : Q) (acc : option string * option Q)
  (s : StickerItem.t) : option string * option Q :=
  let dist := distanceTo cx cy s in
  if Qltb dist INTERACTION_RADIUS && belowMin dist (snd acc)
  then (Some (StickerItem.id s), Some dist)
  else acc.

(** "Only interact with non-expiring stickers". *)
Definition interactableStickers (currentStickers : list StickerItem.t)
  : list StickerItem.t :=
  filter (fun s => negb (truthy (StickerItem.lifespan s))) currentStickers.

Definition closestSticker (cx cy : Q) (currentStickers : list StickerItem.t)
  : option string :=
  fst (fold_left (closestStep cx cy) (interactableStickers currentStickers)
                 (None, None)).

(** The target under the cursor: a button when there is one, else the
    closest sticker. *)
Definition resolveTarget (f : Frame) (g : Gesture)
  (currentStickers : list StickerItem.t) : option (string * TargetType) :=
  match hoveredButton (elementFromPoint f) with
  | Some (hoveredButtonId, hoveredType) =>
      if negb (String.eqb hoveredButtonId "")
      then Some (hoveredButtonId, hoveredType)
      else
        match closestSticker (cursorX g) (cursorY g) currentStickers with
        | Some closestId =>
            if negb (String.eqb closestId "") then Some (closestId, sticker)
            else None
        | None => None
        end
  | None =>
      match closestSticker (cursorX g) (cursorY g) currentStickers with
      | Some closestId =>
          if negb (String.eqb closestId "") then Some (closestId, sticker)
          else None
      | None => None
      end
  end.

(** "MODE: IDLE or HOVERING (Selection Logic)" *)
Definition hoverLogic (f : Frame) (g : Gesture)
  (currentStickers : list StickerItem.t) (currentState : InteractionState)
  (a : AppState) : AppState :=
  match resolveTarget f g currentStickers with
  | Some (hoveredButtonId, sticker) =>
      let closestId := hoveredButtonId in
      if negb (optStrEq (targetId currentState) (Some closestId)) then
        setInteractionState
          (fun _ => mkInteraction hovering (Some closestId) sticker 0)
          (setHoverStartTimeRef (now f) a)
      else
        let elapsed := now f - hoverStartTimeRef a in
        let progress := Qmin (elapsed / HOVER_THRESHOLD_MS) 1 in
        let a := setInteractionState (withProgress progress) a in
        if Qle_bool 1 progress then
          setActiveStickerId (Some closestId)
            (setInteractingIdRef (Some closestId)
               (setDropStartTimeRef (now f)
                  (setInteractionState
                     (fun _ => mkInteraction dragging (Some closestId)
                                 sticker 0) a)))
        else a
  | Some (hoveredButtonId, hoveredType) =>
      if negb (optStrEq (targetId currentState) (Some hoveredButtonId)) then
        setInteractionState
          (fun _ => mkInteraction hovering (Some hoveredButtonId)
                      hoveredType 0)
          (setHoverStartTimeRef (now f) a)
      else
        let elapsed := now f - hoverStartTimeRef a in
        let progress := Qmin (elapsed / BUTTON_HOVER_THRESHOLD_MS) 1 in
        let a := setInteractionState (withProgress progress) a in
        if Qle_bool 1 progress then
          let a :=
            match hoveredType with
            | button_cat =>
                setInteractionState (fun _ => idleState)
                  (setSelectedCategory hoveredButtonId a)
            | _ =>
                match find (fun asset => String.eqb (Asset.id asset)
                                           hoveredButtonId) ASSETS with
                | Some asset =>
                    let (a, newId) :=
                      handleAddSticker f asset (Some (cursorX g))
                        (Some (cursorY g)) a in
                    setDropStartTimeRef (now f)
                      (setInteractionState
                         (fun _ => mkInteraction dragging (Some newId)
                                     sticker 0)
                         (setInteractingIdRef (Some newId) a))
                | None => a
                end
            end in
          setHoverStartTimeRef 0 a
        else a
  | None =>
      setHoverStartTimeRef 0 (setInteractionState (fun _ => idleState) a)
  end.

(** Section 2 of the loop when a hand is detected: effect spawning, then
    resizing, else dragging, else hovering. *)
Definition handInteraction (f : Frame) (g : Gesture)
  (currentStickers : list StickerItem.t) (currentState : InteractionState)
  (a : AppState) : AppState :=
  let a := spawnEffect f g a in
  if isResizingGesture g
     && (truthyStr (targetId currentState)
         || Status_eqb (status currentState) hovering) then
    let target :=
      if truthyStr (targetId currentState) then targetId currentState
      else interactingIdRef a in
    match target with
    | Some i =>
        if negb (String.eqb i "")
           && TargetType_eqb (targetType currentState) sticker
        then setStickers (resizeSticker i (pinchDistance g)) a
        else a
    | None => a
    end
  else if Status_eqb (status currentState) dragging
          && truthyStr (targetId currentState)
          && TargetType_eqb (targetType currentState) sticker then
    match targetId currentState with
    | Some i =>
        let a := setStickers (dragSticker i (cursorX g) (cursorY g)) a in
        let a := if Qeq_bool (dropStartTimeRef a) 0
                 then setDropStartTimeRef (now f) a else a in
        let dropProgress :=
          Qmin ((now f - dropStartTimeRef a) / DROP_THRESHOLD_MS) 1 in
        let a := setInteractionState
                   (fun prev => mkInteraction dragging (targetId prev)
                                  (targetType prev) dropProgress) a in
        if Qle_bool 1 dropProgress then
          setDropStartTimeRef 0
            (setInteractionState (fun _ => idleState) (handleHandDrop f i a))
        else a
    | None => a
    end
  else hoverLogic f g currentStickers currentState a.

(** Section 2 of the loop when no hand is detected: a drag in progress is
    dropped, then the interaction is cleared. *)
Definition handLost (f : Frame) (currentState : InteractionState)
  (a : AppState) : AppState :=
  let a :=
    match targetId currentState with
    | Some i =>
        if Status_eqb (status currentState) dragging
           && negb (String.eqb i "")
           && TargetType_eqb (targetType currentState) sticker
        then handleHandDrop f i a
        else a
    | None => a
    end in
  setInteractionState (fun _ => idleState) a.

Definition interactionLogic (f : Frame) (g : option Gesture)
  (currentStickers : list StickerItem.t) (currentState : InteractionState)
  (a : AppState) : AppState :=
  match g with
  | Some g => handInteraction f g currentStickers currentState a
  | None => handLost f currentState a
  end.

(** Section 3 of the loop, "Face Tracking (Auto Positioning)": what the
    [map] callback does to one sticker, and the anchor sample it stores in
    [lastFaceDataRef], if any. *)
Definition autoPosition (f : Frame) (r : FaceLandmarkerResult)
  (currentState : InteractionState) (interacting : option string)
  (s : StickerItem.t) : outcome (StickerItem.t * option AnchorData.t) :=
  if optStrEq interacting (Some (StickerItem.id s))
     || AnchorType_eqb (StickerItem.anchorType s) none
     || Status_eqb (status currentState) dragging
     || truthy (StickerItem.lifespan s)
  then Return (s, None)
  else
    do anchorData <- getAnchorData r (anchorKey (StickerItem.anchorType s));
    match anchorData with
    | Some d =>
        let screenX := (1 - AnchorData.x d) * rectWidth f in
        let screenY := AnchorData.y d * rectHeight f in
        let screenScale := AnchorData.scale d * rectWidth f in
        Return
          (StickerItem.with_transform s
             (screenX + Pt.x (StickerItem.anchorOffset s))
             (screenY + Pt.y (StickerItem.anchorOffset s))
             ((screenScale / 100) * StickerItem.baseScale s)
             (StickerItem.baseRotation s - AnchorData.rotation d),
           Some d)
    | None => Return (s, None)
    end.

Fixpoint trackStickers (f : Frame) (r : FaceLandmarkerResult)
  (currentState : InteractionState) (interacting : option string)
  (cached : option AnchorData.t) (prevStickers : list StickerItem.t)
  : outcome (list StickerItem.t * option AnchorData.t) :=
  match prevStickers with
  | [] => Return ([], cached)
  | s :: rest =>
      do p <- autoPosition f r currentState interacting s;
      let cached' := match snd p with Some d => Some d | None => cached end in
      do q <- trackStickers f r currentState interacting cached' rest;
      Return (fst p :: fst q, snd q)
  end.

Definition faceTracking (f : Frame) (currentState : InteractionState)
  (a : AppState) : outcome AppState :=
  match faceResult f with
  | Some r =>
      match faceLandmarks r with
      | [] => Return a
      | _ :: _ =>
          do p <- trackStickers f r currentState (interactingIdRef a)
                    (lastFaceDataRef a) (stickers a);
          Return (setLastFaceDataRef (snd p) (setStickers (fun _ => fst p) a))
      end
  | None => Return a
  end.

(** One run of [loop] on a ready video.  [stickers] and
    [interactionStateRef.current] are read as they are when the frame
    starts. *)
Definition loop (f : Frame) (a : AppState) : outcome AppState :=
  let currentStickers := stickers a in
  let currentState := interactionState a in
  let a := setStickers (lifecycle EFFECT_FADE_DURATION (now f)) a in
  do p <- handProcessing f a;
  let a := interactionLogic f (snd p) currentStickers currentState (fst p) in
  faceTracking f currentState a.

(** What the component reacts to: an animation frame, or a callback of the
    asset selector or of the sticker canvas. *)
Inductive Event : Type :=
| Tick (f : Frame)
| SelectAsset (f : Frame) (asset : Asset.t)
| CategoryChange (c : string)
| CanvasUpdate (i : string) (updates : StickerUpdate)
| CanvasSelect (i : option string)
| CanvasDelete (i : string)
| InteractionStart (i : string)
| InteractionEnd (f : Frame) (i : string).

Definition react (e : Event) (a : AppState) : outcome AppState :=
  match e with
  | Tick f => loop f a
  | SelectAsset f asset => Return (fst (handleAddSticker f asset None None a))
  | CategoryChange c => Return (setSelectedCategory c a)
  | CanvasUpdate i updates => Return (setStickers (handleUpdateSticker i updates) a)
  | CanvasSelect i => Return (setActiveStickerId i a)
  | CanvasDelete i => Return (handleDeleteSticker i a)
  | InteractionStart i => Return (handleInteractionStart i a)
  | InteractionEnd f i => Return (handleInteractionEnd f i a)
  end.

(** The swipe that a frame recognises, with the time of the frame. *)
Definition swipeAt (e : Event) (a : AppState) : option (Q * SwipeAction) :=
  match e with
  | Tick f =>
      match handResult f with
      | Some h =>
          match recognizeSwipe f (classify h (rectWidth f) (rectHeight f)) a with
          | Some act => Some (now f, act)
          | None => None
          end
      | None => None
      end
  | _ => None
  end.

End WithMath.
End MirrorApp.

(* ================================================================= *)
(** ** The coin game of [ArcadeApp] and [GameApp] (the same text in both) *)

Module Game.

Definition COIN_SPAWN_RATE_MS : Q := 800.
Definition BASE_COIN_SPEED : Q := 5.
Definition FAST_COIN_SPEED : Q := 9.
Definition COIN_RADIUS : Q := 40.
Definition AVATAR_COLLISION_RADIUS : Q := 80.
Definition POINTS_PER_COIN : Q := 10.
Definition SPEED_UP_THRESHOLD : Q := 150.
Definition WIN_SCORE_THRESHOLD : Q := 400.

(** The win check that opens the game block: the frame stops there. *)
Definition won (a : AppState) : bool :=
  isPlaying a && Qle_bool WIN_SCORE_THRESHOLD (scoreRef a).

Definition declareWin (a : AppState) : AppState :=
  setCoins (fun _ => []) (setShowWinModal true (setIsPlaying false a)).

Definition spawnCoin (f : Frame) (a : AppState) : AppState :=
  if Qltb COIN_SPAWN_RATE_MS (now f - lastCoinSpawnTimeRef a) then
    let spawnX := random f 0 * (rectWidth f - 100) + 50 in
    let newCoin :=
      CoinItem.mk ("coin-" ++ nowText f)%string spawnX (-50) 1
                  POINTS_PER_COIN false in
    setLastCoinSpawnTimeRef (now f) (setCoins (fun prev => prev ++ [newCoin]) a)
  else a.

(** The nose tip mirrored into screen space, or far away without a face. *)
Definition avatarPosition (f : Frame) : outcome (Q * Q) :=
  match faceResult f with
  | Some r =>
      match faceLandmarks r with
      | landmarks :: _ =>
          do noseTip <- deref (nth_error landmarks 1);
          Return ((1 - Pt.x noseTip) * rectWidth f,
                  Pt.y noseTip * rectHeight f)
      | [] => Return (-1000, -1000)
      end
  | None => Return (-1000, -1000)
  end.

Section WithMath.
Context {M : MathLib}.

(** One turn of [prevCoins.forEach]: the coins kept so far and the score
    increment. *)
Definition coinStep (avatarX avatarY currentSpeed scaleY : Q)
  (acc : list CoinItem.t * Q) (coin : CoinItem.t) : list CoinItem.t * Q :=
  if CoinItem.collected coin then acc
  else
    let nextY := CoinItem.y coin + currentSpeed in
    let dx := CoinItem.x coin - avatarX in
    let dy := nextY - avatarY in
    let dist := Math_sqrt (dx * dx + dy * dy) in
    if Qltb dist (COIN_RADIUS + AVATAR_COLLISION_RADIUS)
    then (fst acc, snd acc + CoinItem.value coin)
    else if Qle_bool nextY (scaleY + 50)
    then (fst acc ++ [CoinItem.mk (CoinItem.id coin) (CoinItem.x coin) nextY
                         (CoinItem.scale coin) (CoinItem.value coin)
                         (CoinItem.collected coin)],
          snd acc)
    else acc.

(** The game block of a frame that is not the winning one. *)
Definition play (f : Frame) (a : AppState) : outcome AppState :=
  let a := spawnCoin f a in
  do avatar <- avatarPosition f;
  let currentSpeed :=
    if Qle_bool SPEED_UP_THRESHOLD (scoreRef a)
    then FAST_COIN_SPEED else BASE_COIN_SPEED in
  let result :=
    fold_left (coinStep (fst avatar) (snd avatar) currentSpeed (rectHeight f))
              (coins a) ([], 0) in
  let a := setCoins (fun _ => fst result) a in
  Return (if Qltb 0 (snd result)
          then setScore (scoreRef a + snd result)
                 (setScoreRef (scoreRef a + snd result) a)
          else a).

End WithMath.
End Game.

(* ================================================================= *)
(** ** [ArcadeApp]: the version of [App] with [handleStartGame]

    Its constants, its handlers ([cycleAnimalFace], [handleHandDrop],
    [handleAddSticker], ...), its selection logic and its face tracking
    are those of [MirrorApp], word for word; what differs is written
    here. *)

Module ArcadeApp.

Definition GESTURE_COOLDOWN_MS : Q := MirrorApp.GESTURE_COOLDOWN_MS.
Definition EFFECT_FADE_DURATION : Q := MirrorApp.EFFECT_FADE_DURATION.

Definition handleStartGame (a : AppState) : AppState :=
  let hasFace := existsb isFace (stickers a) in
  if negb hasFace then a
  else
    setShowWinModal false
      (setIsPlaying true
         (setCoins (fun _ => []) (setScoreRef 0 (setScore 0 a)))).

Definition handleStopGame (a : AppState) : AppState :=
  setCoins (fun _ => []) (setIsPlaying false a).

Definition handleRestart (a : AppState) : AppState :=
  setShowWinModal false (handleStopGame a).

(** The swipe is only looked for outside the game. *)
Definition recognizeSwipe (f : Frame) (g : Gesture) (a : AppState)
  : option SwipeAction :=
  if negb (isPlaying a) then MirrorApp.recognizeSwipe f g a else None.

Section WithMath.
Context {M : MathLib}.

Definition handProcessing (f : Frame) (a : AppState)
  : outcome (AppState * option Gesture) :=
  match handResult f with
  | Some h =>
      let g := classify h (rectWidth f) (rectHeight f) in
      do a <- MirrorApp.performSwipe f (recognizeSwipe f g a) a;
      Return (setLastHandPosRef
                (Some (Pt.mk (currentHandX g) (currentHandY g))) a, Some g)
  | None => Return (setLastHandPosRef None a, None)
  end.

(** "Interaction Logic (Only when not playing game)":
    [if (handDetected && !isPlaying) ... else if (!handDetected) ...]. *)
Definition interactionLogic (f : Frame) (g : option Gesture)
  (currentStickers : list StickerItem.t) (currentState : InteractionState)
  (a : AppState) : AppState :=
  match g with
  | Some g =>
      if negb (isPlaying a)
      then MirrorApp.handInteraction f g currentStickers currentState a
      else a
  | None => MirrorApp.handLost f currentState a
  end.

(** One run of [loop].  The effect that owns the loop is re-run only when
    [isVisionReady] or [isPlaying] change, so the [stickers] that the
    selection logic reads are the ones [captured] at that moment. *)
Definition loop (captured : list StickerItem.t) (f : Frame) (a : AppState)
  : outcome AppState :=
  if Game.won a then Return (Game.declareWin a)
  else
    do a <- (if isPlaying a then Game.play f a else Return a);
    let currentState := interactionState a in
    let a := setStickers (lifecycle EFFECT_FADE_DURATION (now f)) a in
    do p <- handProcessing f a;
    let a := interactionLogic f (snd p) captured currentState (fst p) in
    MirrorApp.faceTracking f currentState a.

Inductive Event : Type :=
| Tick (captured : list StickerItem.t) (f : Frame)
| SelectAsset (f : Frame) (asset : Asset.t)
| CategoryChange (c : string)
| CanvasUpdate (i : string) (updates : StickerUpdate)
| CanvasSelect (i : option string)
| CanvasDelete (i : string)
| InteractionStart (i : string)
| InteractionEnd (f : Frame) (i : string)
| StartGame
| StopGame
| Restart.

Definition react (e : Event) (a : AppState) : outcome AppState :=
  match e with
  | Tick captured f => loop captured f a
  | SelectAsset f asset =>
      Return (fst (MirrorApp.handleAddSticker f asset None None a))
  | CategoryChange c => Return (setSelectedCategory c a)
  | CanvasUpdate i updates => Return (setStickers (handleUpdateSticker i updates) a)
  | CanvasSelect i => Return (setActiveStickerId i a)
  | CanvasDelete i => Return (MirrorApp.handleDeleteSticker i a)
  | InteractionStart i => Return (MirrorApp.handleInteractionStart i a)
  | InteractionEnd f i => Return (MirrorApp.handleInteractionEnd f i a)
  | StartGame => Return (handleStartGame a)
  | StopGame => Return (handleStopGame a)
  | Restart => Return (handleRestart a)
  end.

Definition swipeAt (e : Event) (a : AppState) : option (Q * SwipeAction) :=
  match e with
  | Tick _ f =>
      if Game.won a then None
      else
        match handResult f with
        | Some h =>
            match recognizeSwipe f (classify h (rectWidth f) (rectHeight f)) a with
            | Some act => Some (now f, act)
            | None => None
            end
        | None => None
        end
  | _ => None
  end.

End WithMath.
End ArcadeApp.

(* ================================================================= *)
(** ** [GameApp]: the version of [App] with the game toggle and the
       five-finger face swipe *)

Module GameApp.

Definition SWIPE_VELOCITY_THRESHOLD : Q := 0.015.
Definition GESTURE_COOLDOWN_MS : Q := 800.
Definition FACE_SWIPE_RADIUS_MIN : Q := 120.
Definition EFFECT_LIFESPAN : Q := 3000.
Definition EFFECT_FADE_DURATION : Q := 1000.
Definition EFFECT_SPAWN_RATE : Q := 150.

Definition handleDeleteSticker (i : string) (a : AppState) : AppState :=
  let a := setStickers (deleteSticker i) a in
  if optStrEq (activeStickerId a) (Some i) then setActiveStickerId None a
  else a.

(** The sticker that [handleSelectAsset] builds, and its store update. *)
Definition newSticker (f : Frame) (asset : Asset.t) : StickerItem.t :=
  StickerItem.mk (Asset.id asset ++ "-" ++ dateNow f)%string (Asset.type asset)
    (Asset.content asset) (Asset.category asset)
    (innerWidth f / 2) (innerHeight f / 2)
    (Asset.defaultScale asset) 0 None (Asset.anchorType asset)
    (Pt.mk 0 (orElse (Asset.defaultOffsetY asset) 0))
    (Asset.defaultScale asset) 0 None None.

Definition selectAsset (asset : Asset.t) (item : StickerItem.t)
  (prev : list StickerItem.t) : list StickerItem.t :=
  if Category_eqb (Asset.category asset) faces
  then filter (fun s => negb (isFace s)) prev ++ [item]
  else prev ++ [item].

Definition handleSelectAsset (f : Frame) (asset : Asset.t) (a : AppState)
  : AppState :=
  setStickers (selectAsset asset (newSticker f asset)) a.

(** The updater of [cycleAnimalFace]. *)
Definition cycleAnimalFace (f : Frame) (prev : list StickerItem.t)
  : outcome (list StickerItem.t) :=
  do nextAsset <- nextFaceAsset prev;
  let others := filter (fun s => negb (isFace s)) prev in
  let newFace :=
    StickerItem.mk ("face-" ++ dateNow f)%string (Asset.type nextAsset)
      (Asset.content nextAsset) faces 0 0
      (Asset.defaultScale nextAsset) 0 None (Asset.anchorType nextAsset)
      (Pt.mk 0 (orElse (Asset.defaultOffsetY nextAsset) 0))
      (Asset.defaultScale nextAsset) 0 None None in
  Return (others ++ [newFace]).

(** [handleHandDrop]: the refs are cleared; the store is not touched. *)
Definition handleHandDrop (i : string) (a : AppState) : AppState :=
  setActiveStickerId None (setInteractingIdRef None a).

(** [onInteractionStart], [onInteractionEnd] of the sticker canvas. *)
Definition onInteractionStart (i : string) (a : AppState) : AppState :=
  setInteractingIdRef (Some i) a.

Definition onInteractionEnd (i : string) (a : AppState) : AppState :=
  setInteractingIdRef None a.

(** The game button: it toggles [isPlaying]; when the game starts the
    score and the coins are reset and only face stickers are kept. *)
Definition toggleGame (a : AppState) : AppState :=
  let wasPlaying := isPlaying a in
  let a := setIsPlaying (negb wasPlaying) a in
  if negb wasPlaying then
    setStickers (filter isFace)
      (setCoins (fun _ => []) (setScoreRef 0 (setScore 0 a)))
  else a.

(** The clear button. *)
Definition clearAll (a : AppState) : AppState :=
  setActiveStickerId None (setStickers (fun _ => []) a).

Section WithMath.
Context {M : MathLib}.

(** The swipe logic: which action, if any, this frame recognises.
    [currentStickers] is [stickersRef.current]. *)
Definition recognizeSwipe (f : Frame) (g : Gesture)
  (currentStickers : list StickerItem.t) (a : AppState)
  : option SwipeAction :=
  match lastHandPosRef a with
  | Some lastHandPos =>
      if Qltb GESTURE_COOLDOWN_MS (now f - lastGestureTimeRef a)
         && negb (isPlaying a) then
        let dx := currentHandX g - Pt.x lastHandPos in
        let isSwipe := Qltb SWIPE_VELOCITY_THRESHOLD (Qabs dx) in
        if isSwipe then
          if (fingerCount g =? 3)%nat && isIndexExt g && isMiddleExt g
             && isRingExt g
          then Some ClearScreen
          else
            let hasFaceSticker := existsb isFace currentStickers in
            match lastFaceDataRef a, faceResult f with
            | Some lastFaceData, Some r =>
                if (fingerCount g =? 5)%nat && hasFaceSticker
                   && negb (Nat.eqb (List.length (faceLandmarks r)) 0) then
                  let faceX := (1 - AnchorData.x lastFaceData) * rectWidth f in
                  let faceY := AnchorData.y lastFaceData * rectHeight f in
                  let faceWidthPx :=
                    AnchorData.scale lastFaceData * rectWidth f in
                  let swipeRadius :=
                    Qmax FACE_SWIPE_RADIUS_MIN (faceWidthPx * 1.5) in
                  let distToFace :=
                    Math_hypot (cursorX g - faceX) (cursorY g - faceY) in
                  if Qltb distToFace swipeRadius then Some ChangeAnimal
                  else None
                else None
            | _, _ => None
            end
        else None
      else None
  | None => None
  end.

Definition performSwipe (f : Frame) (act : option SwipeAction) (a : AppState)
  : outcome AppState :=
  match act with
  | Some ClearScreen =>
      Return (setLastGestureTimeRef (now f)
                (setActiveStickerId None (setStickers (fun _ => []) a)))
  | Some ChangeAnimal =>
      do l <- cycleAnimalFace f (stickers a);
      Return (setLastGestureTimeRef (now f) (setStickers (fun _ => l) a))
  | None => Return a
  end.

(** "Magic Effect Spawn Logic" *)
Definition spawnEffect (f : Frame) (g : Gesture)
  (currentStickers : list StickerItem.t) (a : AppState) : AppState :=
  if isOpenPalm g && negb (isPlaying a)
     && Qltb EFFECT_SPAWN_RATE (now f - lastEffectSpawnTimeRef a) then
    match find isFace currentStickers with
    | Some activeFace =>
        match find (fun asset => String.eqb (Asset.content asset)
                                   (StickerItem.content activeFace)) ASSETS with
        | Some faceAsset =>
            match Asset.effectItems faceAsset with
            | Some items =>
                if (0 <? List.length items)%nat then
                  let randomItem :=
                    nth (Z.to_nat (Qfloor (random f 0
                           * inject_Z (Z.of_nat (List.length items)))))
                        items "undefined" in
                  let newEffect :=
                    StickerItem.mk ("fx-" ++ nowText f)%string emoji randomItem
                      accessories
                      (cursorX g + (random f 1 - 0.5) * 40)
                      (cursorY g + (random f 2 - 0.5) * 40)
                      (0.8 + random f 3 * 0.4) (random f 4 * 360) (Some 1)
                      none (Pt.mk 0 0) 1 0 (Some (now f))
                      (Some EFFECT_LIFESPAN) in
                  setLastEffectSpawnTimeRef (now f)
                    (setStickers (fun prev => prev ++ [newEffect]) a)
                else a
            | None => a
            end
        | None => a
        end
    | None => a
    end
  else a.

(** Section 1 of the loop, "Hand Processing". *)
Definition handProcessing (f : Frame) (currentStickers : list StickerItem.t)
  (a : AppState) : outcome (AppState * option Gesture) :=
  match handResult f with
  | Some h =>
      let g := classify h (rectWidth f) (rectHeight f) in
      do a <- performSwipe f (recognizeSwipe f g currentStickers a) a;
      let a := setLastHandPosRef
                 (Some (Pt.mk (currentHandX g) (currentHandY g))) a in
      Return (spawnEffect f g currentStickers a, Some g)
  | None => Return (setLastHandPosRef None a, None)
  end.

(** [element.closest('[id^="..."]')]: the innermost element, from the one
    under the cursor upwards, whose [id] starts with the prefix. *)
Definition closestWithIdPrefix (p : string) (path : list DomElement)
  : option DomElement :=
  find (fun e => prefix p (domId e)) path.

(** The button part of the target resolution. *)
Definition hoveredButton (path : list DomElement)
  : option (string * TargetType) :=
  match closestWithIdPrefix "asset-btn-" path with
  | Some btnAsset =>
      Some (stripPrefix "asset-btn-" (domId btnAsset), button_asset)
  | None =>
      match closestWithIdPrefix "cat-btn-" path with
      | Some btnCat => Some (stripPrefix "cat-btn-" (domId btnCat), button_cat)
      | None => None
      end
  end.

(** The sticker scan: from the last sticker of the store down to the
    first, stopping at the first one inside the interaction radius.
    [rev_stickers] is the store in reverse order. *)
Fixpoint scanStickers (cx cy : Q) (rev_stickers : list StickerItem.t)
  : option string :=
  match rev_stickers with
  | [] => None
  | s :: rest =>
      let dist := Math_hypot (StickerItem.x s - cx) (StickerItem.y s - cy) in
      if Qltb dist INTERACTION_RADIUS then Some (StickerItem.id s)
      else scanStickers cx cy rest
  end.

Definition resolveTarget (f : Frame) (g : Gesture)
  (currentStickers : list StickerItem.t) : option (string * TargetType) :=
  let fromButton :=
    match hoveredButton (elementFromPoint f) with
    | Some (i, ty) => if negb (String.eqb i "") then Some (i, ty) else None
    | None => None
    end in
  match fromButton with
  | Some target => Some target
  | None =>
      match scanStickers (cursorX g) (cursorY g) (rev currentStickers) with
      | Some i => if negb (String.eqb i "") then Some (i, sticker) else None
      | None => None
      end
  end.

Definition hoverLogic (f : Frame) (g : Gesture)
  (currentStickers : list StickerItem.t) (currentState : InteractionState)
  (a : AppState) : AppState :=
  match resolveTarget f g currentStickers with
  | Some (target, ty) =>
      if optStrEq (targetId currentState) (Some target)
         && Status_eqb (status currentState) hovering then
        let elapsed := now f - hoverStartTimeRef a in
        let threshold :=
          if TargetType_eqb ty sticker then HOVER_THRESHOLD_MS
          else BUTTON_HOVER_THRESHOLD_MS in
        let progress := Qmin (elapsed / threshold) 1 in
        let a := setInteractionState
                   (fun _ => mkInteraction hovering (Some target) ty progress)
                   a in
        if Qle_bool 1 progress then
          let a :=
            match ty with
            | sticker =>
                setActiveStickerId (Some target)
                  (setInteractionState
                     (fun _ => mkInteraction dragging (Some target) ty 0)
                     (setInteractingIdRef (Some target) a))
            | button_asset =>
                let a :=
                  match find (fun asset => String.eqb (Asset.id asset) target)
                             ASSETS with
                  | Some asset => handleSelectAsset f asset a
                  | None => a
                  end in
                setInteractionState (fun _ => idleState) a
            | button_cat =>
                setInteractionState (fun _ => idleState)
                  (setSelectedCategory target a)
            end in
          setHoverStartTimeRef 0 a
        else a
      else if negb (optStrEq (targetId currentState) (Some target)) then
        setInteractionState
          (fun _ => mkInteraction hovering (Some target) ty 0)
          (setHoverStartTimeRef (now f) a)
      else a
  | None =>
      setHoverStartTimeRef 0 (setInteractionState (fun _ => idleState) a)
  end.

(** Section 2 of the loop, "Interaction Logic":
    [if (handDetected && !isPlaying) { ... }], with no other branch. *)
Definition interactionLogic (f : Frame) (g : option Gesture)
  (currentStickers : list StickerItem.t) (currentState : InteractionState)
  (a : AppState) : AppState :=
  match g with
  | Some g =>
      if negb (isPlaying a) then
        if isResizingGesture g
           && (truthyStr (targetId currentState)
               || Status_eqb (status currentState) hovering) then
          let target :=
            if truthyStr (targetId currentState) then targetId currentState
            else interactingIdRef a in
          match target with
          | Some i =>
              if negb (String.eqb i "")
                 && TargetType_eqb (targetType currentState) sticker
              then setStickers (resizeSticker i (pinchDistance g)) a
              else a
          | None => a
          end
        else if Status_eqb (status currentState) dragging
                && truthyStr (targetId currentState)
                && TargetType_eqb (targetType currentState) sticker then
          match targetId currentState with
          | Some i =>
              let a := setStickers (dragSticker i (cursorX g) (cursorY g)) a in
              let a := if Qeq_bool (dropStartTimeRef a) 0
                       then setDropStartTimeRef (now f) a else a in
              let dropProgress :=
                Qmin ((now f - dropStartTimeRef a) / DROP_THRESHOLD_MS) 1 in
              let a := setInteractionState
                         (fun prev => mkInteraction dragging (targetId prev)
                                        (targetType prev) dropProgress) a in
              if Qle_bool 1 dropProgress then
                setDropStartTimeRef 0
                  (setInteractionState (fun _ => idleState)
                     (handleHandDrop i a))
              else a
          | None => a
          end
        else hoverLogic f g currentStickers currentState a
      else a
  | None => a
  end.

(** [anchorDataMap]: the four samples taken before the store update. *)
Record AnchorDataMap : Type := mkAnchorDataMap {
  map_head : option AnchorData.t;
  map_eyes : option AnchorData.t;
  map_face : option AnchorData.t;
  map_body : option AnchorData.t
}.

Definition anchorDataMap (r : FaceLandmarkerResult) : outcome AnchorDataMap :=
  do h <- getAnchorData r "head";
  do e <- getAnchorData r "eyes";
  do c <- getAnchorData r "face";
  do b <- getAnchorData r "body";
  Return (mkAnchorDataMap h e c b).

(** [anchorDataMap[s.anchorType]] for an anchor type other than ['none']. *)
Definition lookupAnchor (m : AnchorDataMap) (ty : AnchorType)
  : option AnchorData.t :=
  match ty with
  | head => map_head m
  | eyes => map_eyes m
  | face => map_face m
  | body => map_body m
  | none => None
  end.

(** Section 3 of the loop, "Face Anchoring Update": the [map] callback. *)
Definition anchorSticker (f : Frame) (m : AnchorDataMap)
  (currentState : InteractionState) (interacting : option string)
  (s : StickerItem.t) : StickerItem.t :=
  if optStrEq (Some (StickerItem.id s)) interacting
     || (Status_eqb (status currentState) dragging
         && optStrEq (targetId currentState) (Some (StickerItem.id s)))
  then s
  else if negb (AnchorType_eqb (StickerItem.anchorType s) none) then
    match lookupAnchor m (StickerItem.anchorType s) with
    | Some data =>
        let rawX := (1 - AnchorData.x data) * rectWidth f in
        let rawY := AnchorData.y data * rectHeight f in
        let faceWidthPx := AnchorData.scale data * rectWidth f in
        let targetScale := (faceWidthPx / 128) * StickerItem.baseScale s in
        StickerItem.with_transform s
          (rawX + Pt.x (StickerItem.anchorOffset s) * rectWidth f * 0.1)
          (rawY + Pt.y (StickerItem.anchorOffset s) * rectHeight f * 0.1)
          targetScale
          (StickerItem.baseRotation s + AnchorData.rotation data)
    | None => s
    end
  else s.

Definition faceAnchoring (f : Frame) (currentState : InteractionState)
  (a : AppState) : outcome AppState :=
  match faceResult f with
  | Some r =>
      match faceLandmarks r with
      | [] => Return a
      | _ :: _ =>
          do m <- anchorDataMap r;
          let a := match map_face m with
                   | Some d => setLastFaceDataRef (Some d) a
                   | None => a
                   end in
          Return (setStickers
                    (map (anchorSticker f m currentState
                            (interactingIdRef a))) a)
      end
  | None => Return a
  end.

(** One run of [loop].  [stickersRef.current] and
    [interactionStateRef.current] are read as they are when the frame
    starts. *)
Definition loop (f : Frame) (a : AppState) : outcome AppState :=
  if Game.won a then Return (Game.declareWin a)
  else
    do a <- (if isPlaying a then Game.play f a else Return a);
    let currentStickers := stickers a in
    let currentState := interactionState a in
    let a := setStickers (lifecycle EFFECT_FADE_DURATION (now f)) a in
    do p <- handProcessing f currentStickers a;
    let a := interactionLogic f (snd p) currentStickers currentState (fst p) in
    faceAnchoring f currentState a.

(** What the component reacts to.  While the game runs the asset selector
    is not rendered and the callbacks of the canvas do nothing. *)
Inductive Event : Type :=
| Tick (f : Frame)
| SelectAsset (f : Frame) (asset : Asset.t)
| CategoryChange (c : string)
| CanvasUpdate (i : string) (updates : StickerUpdate)
| CanvasSelect (i : option string)
| CanvasDelete (i : string)
| InteractionStart (i : string)
| InteractionEnd (i : string)
| GameButton
| ClearButton
| CloseWinModal.

Definition react (e : Event) (a : AppState) : outcome AppState :=
  match e with
  | Tick f => loop f a
  | GameButton => Return (toggleGame a)
  | CloseWinModal => Return (setShowWinModal false a)
  | _ =>
      if isPlaying a then Return a
      else
        match e with
        | SelectAsset f asset => Return (handleSelectAsset f asset a)
        | CategoryChange c => Return (setSelectedCategory c a)
        | CanvasUpdate i updates =>
            Return (setStickers (handleUpdateSticker i updates) a)
        | CanvasSelect i => Return (setActiveStickerId i a)
        | CanvasDelete i => Return (handleDeleteSticker i a)
        | InteractionStart i => Return (onInteractionStart i a)
        | InteractionEnd i => Return (onInteractionEnd i a)
        | ClearButton => Return (clearAll a)
        | _ => Return a
        end
  end.

Definition swipeAt (e : Event) (a : AppState) : option (Q * SwipeAction) :=
  match e with
  | Tick f =>
      if Game.won a then None
      else
        match handResult f with
        | Some h =>
            match recognizeSwipe f (classify h (rectWidth f) (rectHeight f))
                    (stickers a) a with
            | Some act => Some (now f, act)
            | None => None
            end
        | None => None
        end
  | _ => None
  end.

End WithMath.
End GameApp.

(* ================================================================= *)
(** ** Notions used to state the properties *)

(** At most one sticker of category ['faces']. *)
Definition atMostOneFace (l : list StickerItem.t) : Prop :=
  (List.length (filter isFace l) <= 1)%nat.

(** A sticker is lifespan-bound when the lifecycle pass treats it as such:
    [s.lifespan && s.createdAt]. *)
Definition lifespanBound (s : StickerItem.t) : bool :=
  truthy (StickerItem.lifespan s) && truthy (StickerItem.createdAt s).

(** The mirrored screen position of an anchor sample. *)
Definition mirroredX (d : AnchorData.t) (f : Frame) : Q :=
  (1 - AnchorData.x d) * rectWidth f.

Definition mirroredY (d : AnchorData.t) (f : Frame) : Q :=
  AnchorData.y d * rectHeight f.

(** Successive entries of a log are more than [c] apart, the first one
    more than [c] after [last]. *)
Fixpoint spaced (c last : Q) (log : list (Q * SwipeAction)) : Prop :=
  match log with
  | [] => True
  | (t, _) :: rest => c < t - last /\ spaced c t rest
  end.

(* ================================================================= *)
(** ** A continuous swipe signal *)

Definition ofNat (k : nat) : Q := inject_Z (Z.of_nat k).

(** The position that a frame with hand [h] leaves in [lastHandPosRef]. *)
Definition knuckle (h : Hand.t) : Pt.t :=
  Pt.mk (Pt.x (Hand.middleMCP h)) (Pt.y (Hand.middleMCP h)).

(** The face of the frame, if any, is a complete mesh. *)
Definition safeFace (f : Frame) : bool :=
  match faceResult f with
  | Some r => completeMesh r || (List.length (faceLandmarks r) =? 0)%nat
  | None => true
  end.

(** The pure cool-down gate: of the given times, those that come more
    than [c] after the previous time let through ([last] at first). *)
Fixpoint gate (c last : Q) (times : list Q) : list Q :=
  match times with
  | [] => []
  | t :: rest =>
      if Qltb c (t - last) then t :: gate c t rest else gate c last rest
  end.

(** Frames 0 to [n] are sampled every [p] milliseconds from [t0] on. *)
Definition sampledAt (t0 p : Q) (frame : nat -> Frame) (n : nat) : Prop :=
  forall k, (k <= n)%nat -> now (frame k) == t0 + ofNat k * p.

Section Signal.
Context {M : MathLib}.

(** The hand shows three fingers (index, middle and ring among them) and
    its knuckle has moved by more than [thr] since [prev]. *)
Definition threeFingerMove (thr : Q) (f : Frame) (h : Hand.t) (prev : Pt.t)
  : bool :=
  let g := classify h (rectWidth f) (rectHeight f) in
  Qltb thr (Qabs (currentHandX g - Pt.x prev))
  && (fingerCount g =? 3)%nat && isIndexExt g && isMiddleExt g && isRingExt g.

(** A continuous qualifying signal: every frame shows such a hand, moved
    since the frame before. *)
Fixpoint continuousSwipe (thr : Q) (prev : Pt.t) (frames : list Frame)
  : Prop :=
  match frames with
  | [] => True
  | f :: rest =>
      exists h, handResult f = Some h
                /\ threeFingerMove thr f h prev = true
                /\ safeFace f = true
                /\ continuousSwipe thr (knuckle h) rest
  end.
End Signal.

(** A signal of three cool-down windows [c], sampled every [p] from [t0]:
    frames 0 to [n] cover the three windows, and the period is at most
    half a window. *)
Definition threeWindows (c t0 p : Q) (frame : nat -> Frame) (n : nat)
  : Prop :=
  0 < p /\ p <= c / 2 /\ sampledAt t0 p frame n
  /\ ofNat n * p <= 3 * c /\ 3 * c < ofNat (S n) * p.

(** A log of exactly three clear-screen swipes, at the frames 0, [m] and
    [2 m] for some [m]: evenly spaced, more than [c] apart. *)
Definition threeSwipes (c : Q) (frame : nat -> Frame)
  (log : list (Q * SwipeAction)) : Prop :=
  exists m,
    log = [(now (frame 0%nat), ClearScreen); (now (frame m), ClearScreen);
           (now (frame (2 * m)%nat), ClearScreen)]
    /\ now (frame m) - now (frame 0%nat)
       == now (frame (2 * m)%nat) - now (frame m)
    /\ c < now (frame m) - now (frame 0%nat).

(** The frames 0 to [n] of a signal. *)
Definition framesTo (frame : nat -> Frame) (n : nat) : list Frame :=
  map frame (seq 0 (S n)).

(* ================================================================= *)
(** ** components/StickerCanvas: the pointer handlers *)

Module StickerCanvas.

Inductive DragMode : Type := move | rotate | scale.

(** The three refs of the component. *)
Record Refs : Type := mkRefs {
  dragMode : option DragMode;
  lastPos : Pt.t;
  centerPos : Pt.t
}.

Definition initialRefs : Refs := mkRefs None (Pt.mk 0 0) (Pt.mk 0 0).

(** The calls that a handler makes on the props of the component. *)
Inductive Callback : Type :=
| onUpdate (i : string) (updates : StickerUpdate)
| onSelect (i : option string)
| onDelete (i : string)
| onInteractionStart (i : string)
| onInteractionEnd (i : string).

(** [e.clientX], [e.clientY]. *)
Record PointerEvent : Type := mkPointer {
  clientX : Q;
  clientY : Q
}.

Definition handlePointerDown (stickers : list StickerItem.t)
  (activeId : option string) (e : PointerEvent) (i : string)
  (mode : DragMode) (c : Refs) : Refs * list Callback :=
  let calls :=
    (if negb (optStrEq activeId (Some i)) then [onSelect (Some i)] else [])
    ++ [onInteractionStart i] in
  match find (hasId i) stickers with
  | Some found =>
      (mkRefs (Some mode) (Pt.mk (clientX e) (clientY e))
              (Pt.mk (StickerItem.x found) (StickerItem.y found)),
       calls)
  | None => (c, calls)
  end.

Section WithMath.
Context {M : MathLib}.

Definition handlePointerMove (stickers : list StickerItem.t)
  (activeId : option string) (e : PointerEvent) (c : Refs)
  : Refs * list Callback :=
  match dragMode c, activeId with
  | Some mode, Some aid =>
      if negb (String.eqb aid "") then
        match find (hasId aid) stickers with
        | Some found =>
            match mode with
            | move =>
                let dx := clientX e - Pt.x (lastPos c) in
                let dy := clientY e - Pt.y (lastPos c) in
                (mkRefs (dragMode c) (Pt.mk (clientX e) (clientY e))
                        (centerPos c),
                 [onUpdate aid (UpdateXY (StickerItem.x found + dx)
                                         (StickerItem.y found + dy))])
            | scale =>
                let dxFromCenter := clientX e - Pt.x (centerPos c) in
                let dyFromCenter := clientY e - Pt.y (centerPos c) in
                let dist :=
                  Math_sqrt (dxFromCenter * dxFromCenter
                             + dyFromCenter * dyFromCenter) in
                let newScale := dist / 50 in
                let newScale := if Qltb newScale 0.2 then 0.2 else newScale in
                let newScale := if Qltb 10 newScale then 10 else newScale in
                (c, [onUpdate aid (UpdateScale newScale)])
            | rotate =>
                let angle :=
                  Math_atan2 (clientY e - Pt.y (centerPos c))
                             (clientX e - Pt.x (centerPos c)) in
                let degrees := angle * (180 / Math_PI) in
                (c, [onUpdate aid (UpdateRotation (degrees + 90))])
            end
        | None => (c, [])
        end
      else (c, [])
  | _, _ => (c, [])
  end.

End WithMath.

Definition handlePointerUp (activeId : option string) (c : Refs)
  : Refs * list Callback :=
  (mkRefs None (lastPos c) (centerPos c),
   match activeId, dragMode c with
   | Some aid, Some _ =>
       if negb (String.eqb aid "") then [onInteractionEnd aid] else []
   | _, _ => []
   end).

(** What the pointer does on the canvas: it goes down on a sticker, on
    the rotate or scale handle or on the delete handle of the active
    sticker, or on the background; it moves; it goes up or leaves. *)
Inductive Pointer : Type :=
| DownOnSticker (e : PointerEvent) (i : string)
| DownOnHandle (e : PointerEvent) (i : string) (mode : DragMode)
| DownOnDelete (i : string)
| DownOnBackground
| Move (e : PointerEvent)
| Up.

Section Handlers.
Context {M : MathLib}.

Definition handle (p : Pointer) (stickers : list StickerItem.t)
  (activeId : option string) (c : Refs) : Refs * list Callback :=
  match p with
  | DownOnSticker e i => handlePointerDown stickers activeId e i move c
  | DownOnHandle e i mode => handlePointerDown stickers activeId e i mode c
  | DownOnDelete i => (c, [onDelete i])
  | DownOnBackground => (c, [onSelect None])
  | Move e => handlePointerMove stickers activeId e c
  | Up => handlePointerUp activeId c
  end.

(** The props that [MirrorApp] passes to the canvas. *)
Definition mirrorProp (f : Frame) (call : Callback) : MirrorApp.Event :=
  match call with
  | onUpdate i updates => MirrorApp.CanvasUpdate i updates
  | onSelect i => MirrorApp.CanvasSelect i
  | onDelete i => MirrorApp.CanvasDelete i
  | onInteractionStart i => MirrorApp.InteractionStart i
  | onInteractionEnd i => MirrorApp.InteractionEnd f i
  end.

(** The canvas inside [MirrorApp]: a pointer event is handled with the
    [stickers] and the [activeId] of the last render, and its calls reach
    the handlers of the component in order.  [f] gives the rectangle of
    the video, which the drop reads. *)
Definition mirrorPointer (f : Frame) (st : Refs * AppState) (p : Pointer)
  : outcome (Refs * AppState) :=
  let r := handle p (stickers (snd st)) (activeStickerId (snd st)) (fst st) in
  do a' <- run MirrorApp.react (map (mirrorProp f) (snd r)) (snd st);
  Return (fst r, a').

Fixpoint mirrorPointers (f : Frame) (ps : list Pointer)
  (st : Refs * AppState) : outcome (Refs * AppState) :=
  match ps with
  | [] => Return st
  | p :: rest => do st' <- mirrorPointer f st p; mirrorPointers f rest st'
  end.

End Handlers.
End StickerCanvas.

(* ================================================================= *)
(** ** components/AssetSelector: the controls of the selector *)

Module AssetSelector.

(** The string that a [Category] is at run time. *)
Definition categoryKey (c : Category) : string :=
  match c with
  | hats => "hats"
  | glasses => "glasses"
  | tops => "tops"
  | hair => "hair"
  | accessories => "accessories"
  | faces => "faces"
  end.

Definition CATEGORIES : list Category :=
  [faces; hats; glasses; hair; tops; accessories].

Definition filteredAssets (selectedCategory : string) : list Asset.t :=
  filter (fun a => String.eqb (categoryKey (Asset.category a))
                              selectedCategory) ASSETS.

(** The two kinds of [<button>] that the selector renders, with the ids
    that the virtual touch reads. *)
Definition categoryButton (cat : Category) : DomElement :=
  mkElement "button" ("cat-btn-" ++ categoryKey cat)%string.

Definition assetButton (asset : Asset.t) : DomElement :=
  mkElement "button" ("asset-btn-" ++ Asset.id asset)%string.

Definition buttons (selectedCategory : string) : list DomElement :=
  map categoryButton CATEGORIES
  ++ map assetButton (filteredAssets selectedCategory).

End AssetSelector.

(* ================================================================= *)
(** ** services/geminiService: [analyzeStyle] *)

Module GeminiService.

(** The three headers that
    [/^data:image\/(png|jpeg|jpg);base64,/] matches. *)
Definition dataUrlHeaders : list string :=
  ["data:image/png;base64,"; "data:image/jpeg;base64,";
   "data:image/jpg;base64,"].

(** [base64Image.replace(/^data:image\/(png|jpeg|jpg);base64,/, '')] *)
Definition cleanBase64 (base64Image : string) : string :=
  match find (fun h => prefix h base64Image) dataUrlHeaders with
  | Some h => stripPrefix h base64Image
  | None => base64Image
  end.

Definition EMPTY_ANSWER : string :=
  "You look great! (Couldn't generate specific advice right now).".

Definition ERROR_ANSWER : string :=
  "Oops! My fashion sense is offline right now. Try again later!".

(** [analyzeStyle].  [generateContent] stands for the request to the
    model with the inline image data it is given: it fails ([Throw], a
    rejected promise or a response that is not an object) or yields the
    [text] of the response, which may be [undefined]. *)
Definition analyzeStyle (generateContent : string -> outcome (option string))
  (base64Image : string) : string :=
  match generateContent (cleanBase64 base64Image) with
  | Return text =>
      if truthyStr text
      then match text with Some t => t | None => EMPTY_ANSWER end
      else EMPTY_ANSWER
  | Throw => ERROR_ANSWER
  end.

End GeminiService.

(* ================================================================= *)
(** ** The coin game, coin by coin *)

Section CoinNotions.
Context {M : MathLib}.

(** A coin still in play that touches the avatar once it has fallen by
    [speed]. *)
Definition coinHit (avatarX avatarY speed : Q) (coin : CoinItem.t) : bool :=
  negb (CoinItem.collected coin)
  && Qltb (Math_sqrt ((CoinItem.x coin - avatarX) * (CoinItem.x coin - avatarX)
                      + (CoinItem.y coin + speed - avatarY)
                        * (CoinItem.y coin + speed - avatarY)))
          (Game.COIN_RADIUS + Game.AVATAR_COLLISION_RADIUS).

(** A coin still in play that misses the avatar and is still above the
    line 50 pixels under the video once it has fallen. *)
Definition coinStays (avatarX avatarY speed scaleY : Q) (coin : CoinItem.t)
  : bool :=
  negb (CoinItem.collected coin)
  && negb (coinHit avatarX avatarY speed coin)
  && Qle_bool (CoinItem.y coin + speed) (scaleY + 50).

End CoinNotions.

Definition coinFall (speed : Q) (coin : CoinItem.t) : CoinItem.t :=
  CoinItem.mk (CoinItem.id coin) (CoinItem.x coin) (CoinItem.y coin + speed)
              (CoinItem.scale coin) (CoinItem.value coin)
              (CoinItem.collected coin).

Fixpoint totalValue (l : list CoinItem.t) : Q :=
  match l with
  | [] => 0
  | coin :: rest => CoinItem.value coin + totalValue rest
  end.

(** The speed of the coins at a given score. *)
Definition coinSpeed (a : AppState) : Q :=
  if Qle_bool Game.SPEED_UP_THRESHOLD (scoreRef a)
  then Game.FAST_COIN_SPEED else Game.BASE_COIN_SPEED.

(** Every coin is worth [POINTS_PER_COIN] and not collected, as
    [spawnCoin] makes them. *)
Definition freshCoins (l : list CoinItem.t) : Prop :=
  Forall (fun coin => CoinItem.value coin = Game.POINTS_PER_COIN
                      /\ CoinItem.collected coin = false) l.

(** The score shown is the score counted, the coins are fresh, and the
    score is a multiple of [POINTS_PER_COIN]. *)
Definition scoreSound (a : AppState) : Prop :=
  score a = scoreRef a
  /\ freshCoins (coins a)
  /\ exists n : nat, scoreRef a == ofNat n * Game.POINTS_PER_COIN.

(** [a'] has the game of [a]: the part of the state that the game owns
    is the same. *)
Definition sameGame (a a' : AppState) : Prop :=
  coins a' = coins a /\ score a' = score a /\ scoreRef a' = scoreRef a
  /\ isPlaying a' = isPlaying a.

(** An interaction state as the cursor shows it: the progress ring is at
    most full, the state is idle exactly when it has no target, and what
    is dragged is a sticker. *)
Definition interactionOk (s : InteractionState) : Prop :=
  progress s <= 1
  /\ (status s = idle <-> targetId s = None)
  /\ (status s = dragging -> targetType s = sticker).

(* ================================================================= *)
(** ** Concrete inputs *)

(** A complete face mesh of 478 points: level eyes, the nose tip in the
    middle of the picture, cheeks a fifth of the picture apart. *)
Definition scenarioLandmark (i : nat) : Pt.t :=
  if (i =? 33)%nat then Pt.mk 0.45 0.4
  else if (i =? 263)%nat then Pt.mk 0.55 0.4
  else if (i =? 234)%nat then Pt.mk 0.4 0.5
  else if (i =? 454)%nat then Pt.mk 0.6 0.5
  else if (i =? 10)%nat then Pt.mk 0.5 0.2
  else if (i =? 152)%nat then Pt.mk 0.5 0.8
  else Pt.mk 0.5 0.5.

Definition scenarioFace : FaceLandmarkerResult :=
  {| faceLandmarks := [map scenarioLandmark (seq 0 478)] |}.

(** A frame on a 640 by 480 video with no hand, no face and no element
    under the cursor, at a given time. *)
Definition quietFrame (t : Q) : Frame :=
  mkFrame t 640 480 1280 720 None None [] "1700000000000" "5000"
          (fun _ => 0.5) "0.5".

Definition withFace (r : FaceLandmarkerResult) (f : Frame) : Frame :=
  mkFrame (now f) (rectWidth f) (rectHeight f) (innerWidth f) (innerHeight f)
          (Some r) (handResult f) (elementFromPoint f) (dateNow f) (nowText f)
          (random f) (randomText f).

Definition withHand (h : Hand.t) (f : Frame) : Frame :=
  mkFrame (now f) (rectWidth f) (rectHeight f) (innerWidth f) (innerHeight f)
          (faceResult f) (Some h) (elementFromPoint f) (dateNow f) (nowText f)
          (random f) (randomText f).

(** A permanent sticker and an effect sticker. *)
Definition permanent (i : string) (c : Category) (ty : AnchorType) (x y : Q)
  : StickerItem.t :=
  StickerItem.mk i emoji "glyph" c x y 1 0 None ty (Pt.mk 0 0) 1 0 None None.

Definition effect (i : string) (x y created life : Q) : StickerItem.t :=
  StickerItem.mk i emoji "glyph" accessories x y 1 0 (Some 1) none (Pt.mk 0 0)
                 1 0 (Some created) (Some life).

(** Two face assets and a hat of the catalogue. *)
Definition rabbit : Asset.t :=
  Asset.mk "f1_rabbit" svg "SVG_ASSETS.rabbit_face" faces "Rabbit" face 1.6
           None (Some ["carrot"; "carrot"]).

Definition panda : Asset.t :=
  Asset.mk "f2_panda" svg "SVG_ASSETS.panda_face" faces "Panda" face 1.5
           None (Some ["pine"; "tanabata"]).

Definition crown : Asset.t :=
  Asset.mk "h2" emoji "crown" hats "Crown" head 0.8 (Some (-0.8)) None.

(** The rabbit, then the crown, then the panda are picked in the asset
    selector of [MirrorApp], and a frame passes. *)
Definition twoFaces : list MirrorApp.Event :=
  [MirrorApp.SelectAsset (quietFrame 0) rabbit;
   MirrorApp.SelectAsset (quietFrame 10) crown;
   MirrorApp.SelectAsset (quietFrame 20) panda;
   MirrorApp.Tick (withFace scenarioFace (quietFrame 32))].

(** The crown as [handleSelectAsset] of [GameApp] makes it, alone in the
    store; and a frame that sees [scenarioFace]. *)
Definition crownSticker : StickerItem.t :=
  GameApp.newSticker (quietFrame 0) crown.

Definition crownOnly : AppState :=
  setStickers (fun _ => [crownSticker]) initialState.

Definition faceFrame : Frame := withFace scenarioFace (quietFrame 16).

(** [MirrorApp]: a face sticker in the store while another sticker,
    ["hat-1"], is being dragged by the hand. *)
Definition maskSticker : StickerItem.t :=
  permanent "mask-1" faces face 100 100.

Definition draggingHat : InteractionState :=
  mkInteraction dragging (Some "hat-1") sticker 0.

Definition maskAndHat : AppState :=
  setInteractingIdRef (Some "hat-1")
    (setInteractionState (fun _ => draggingHat)
       (setStickers (fun _ => [maskSticker;
                               permanent "hat-1" hats head 300 200])
          initialState)).

(** A hand that points: only the index finger is extended, its tip at the
    given place of the picture; the thumb is tucked in, the knuckle of
    the middle finger stays in the middle of the picture. *)
Definition pointingHand (tipX tipY : Q) : Hand.t :=
  Hand.mk (Pt.mk tipX (tipY + 0.25)) (Pt.mk tipX tipY)
          (Pt.mk 0.5 0.9) (Pt.mk 0.55 0.9) (Pt.mk 0.6 0.9)
          (Pt.mk tipX (tipY + 0.2)) (Pt.mk 0.5 0.8) (Pt.mk 0.55 0.8)
          (Pt.mk 0.6 0.8).

(** An open palm: five fingers extended, the index tip at the given
    place. *)
Definition openPalm (tipX tipY : Q) : Hand.t :=
  Hand.mk (Pt.mk (tipX + 0.25) (tipY + 0.25)) (Pt.mk tipX tipY)
          (Pt.mk 0.5 0.6) (Pt.mk 0.55 0.6) (Pt.mk 0.6 0.6)
          (Pt.mk tipX (tipY + 0.2)) (Pt.mk 0.5 0.8) (Pt.mk 0.55 0.8)
          (Pt.mk 0.6 0.8).

(** A frame at time [t] (whose text is [txt]) that sees [scenarioFace]. *)
Definition seen (t : Q) (txt : string) : Frame :=
  mkFrame t 640 480 1280 720 (Some scenarioFace) None [] "1700000000000" txt
          (fun _ => 0.5) "0.5".

(** The user picks the anchored rabbit up: a frame anchors it on the face,
    the hand points at it for more than 2.5 s, then carries it to
    (480, 120). *)
Definition pickUp : list Frame :=
  [seen 1000 "1000";
   withHand (pointingHand 0.5 0.5) (seen 1016 "1016");
   withHand (pointingHand 0.5 0.5) (seen 3600 "3600");
   withHand (pointingHand 0.25 0.25) (seen 3616 "3616")].

(** ... holds it there for more than 1.5 s, which drops it ... *)
Definition holdStill : list Frame :=
  [withHand (pointingHand 0.25 0.25) (seen 5200 "5200")].

(** ... and takes the hand away. *)
Definition handAway : list Frame :=
  [seen 5216 "5216"].

(** Or the hand leaves the picture in the middle of the drag. *)
Definition handLostMidDrag : list Frame :=
  [seen 3632 "3632"; seen 3648 "3648"].

(** An open palm at (160, 120) casts an effect; then the hand points at
    the same place. *)
Definition castThenPoint : list Frame :=
  [withHand (openPalm 0.75 0.25) (seen 1000 "1000");
   withHand (pointingHand 0.75 0.25) (seen 1016 "1016")].

Definition mirrorTrace (frames : list Frame) : list MirrorApp.Event :=
  MirrorApp.SelectAsset (quietFrame 0) rabbit :: map MirrorApp.Tick frames.

Definition gameTrace (frames : list Frame) : list GameApp.Event :=
  GameApp.SelectAsset (quietFrame 0) rabbit :: map GameApp.Tick frames.

(** The transform of the stickers of a state, for display. *)
Definition placed (a : AppState) : list (string * Q * Q) :=
  map (fun s => (StickerItem.id s, Qred (StickerItem.x s),
                 Qred (StickerItem.y s))) (stickers a).

(** Two permanent stickers inside the radius of a cursor at (320, 240):
    the first one under the cursor, the second one 5 pixels away; and the
    frame whose hand points there. *)
Definition nearAndFar : list StickerItem.t :=
  [permanent "near" hats head 320 240; permanent "far" hats head 323 244].

Definition pointingFrame : Frame :=
  withHand (pointingHand 0.5 0.5) (seen 1016 "1016").

Definition pointingGesture : Gesture :=
  classify (M := scenarioMath) (pointingHand 0.5 0.5) 640 480.

(** A store with the rabbit face and the crown, before the game starts. *)
Definition dressedUp : AppState :=
  setStickers (fun _ => [MirrorApp.newItem (quietFrame 0) rabbit None None;
                         MirrorApp.newItem (quietFrame 10) crown None None])
    (setCoins (fun _ => [CoinItem.mk "coin-1" 100 50 1 10 false])
       (setScoreRef 120 (setScore 120 initialState))).

(** A hand that swipes with three fingers: index, middle and ring finger
    extended, thumb and little finger tucked in, the knuckles at [x]. *)
Definition threeFingers (x : Q) : Hand.t :=
  Hand.mk (Pt.mk x 0.7) (Pt.mk x 0.5) (Pt.mk x 0.5) (Pt.mk x 0.5)
          (Pt.mk x 0.9)
          (Pt.mk x 0.8) (Pt.mk x 0.8) (Pt.mk x 0.8) (Pt.mk x 0.8).

(** Frame [k] of a swipe that goes on and on: sampled every [p] from
    [t0], the hand a fifth of the picture away from where it was in the
    frame before. *)
Definition swipingFrame (t0 p : Q) (k : nat) : Frame :=
  withHand (threeFingers (if Nat.even k then 0.4 else 0.6))
    (seen (t0 + ofNat k * p) "0").

(** A store that saw a hand at 0.6 in the frame before the signal. *)
Definition handSeen : AppState :=
  setLastHandPosRef (Some (Pt.mk 0.6 0.8)) initialState.

(** The frame [f] with the cursor on an element whose ancestors, from the
    innermost on, are [path]. *)
Definition touching (path : list DomElement) (f : Frame) : Frame :=
  mkFrame (now f) (rectWidth f) (rectHeight f) (innerWidth f) (innerHeight f)
          (faceResult f) (handResult f) path (dateNow f) (nowText f)
          (random f) (randomText f).

(** An interaction that hovers over the button of the crown. *)
Definition overCrownButton : InteractionState :=
  mkInteraction hovering (Some "h2") button_asset 0.


(** A hand that pinches: the tips of the thumb and of the index finger
    are 0.03 apart. *)
Definition pinchingHand : Hand.t :=
  Hand.mk (Pt.mk 0.5 0.53) (Pt.mk 0.5 0.5)
          (Pt.mk 0.5 0.9) (Pt.mk 0.55 0.9) (Pt.mk 0.6 0.9)
          (Pt.mk 0.5 0.7) (Pt.mk 0.5 0.8) (Pt.mk 0.55 0.8) (Pt.mk 0.6 0.8).


(** The sample that the resolver takes of [scenarioFace] for the anchor
    type ['face']. *)
Definition scenarioSample : AnchorData.t :=
  match getAnchorData (M := scenarioMath) scenarioFace "face" with
  | Return (Some d) => d
  | _ => AnchorData.mk 0 0 0 0
  end.

(** [maskAndHat] once a frame has cached that sample. *)
Definition maskAndHatSeen : AppState :=
  setLastFaceDataRef (Some scenarioSample) maskAndHat.

(** A face whose mesh stops short of the right cheek (landmark 454). *)
Definition shortFace : FaceLandmarkerResult :=
  {| faceLandmarks := [map scenarioLandmark (seq 0 300)] |}.


(** The rabbit, then the crown, then the panda are picked in the asset
    selector of [GameApp], and a frame passes. *)
Definition gameTwoFaces : list GameApp.Event :=
  [GameApp.SelectAsset (quietFrame 0) rabbit;
   GameApp.SelectAsset (quietFrame 10) crown;
   GameApp.SelectAsset (quietFrame 20) panda;
   GameApp.Tick (withFace scenarioFace (quietFrame 32))].

(** A three-finger swipe that goes on and on, sampled at the given
    times: the hand is a fifth of the picture away from where it was in
    the frame before. *)
Fixpoint swipingAt (left : bool) (times : list Q) : list Frame :=
  match times with
  | [] => []
  | t :: rest =>
      withHand (threeFingers (if left then 0.4 else 0.6)) (seen t "0")
      :: swipingAt (negb left) rest
  end.

(** Three cool-down windows of [MirrorApp] sampled once per window, and
    sampled at uneven times. *)
Definition oncePerWindow : list Q := [2000; 3000; 4000; 5000].

Definition unevenTimes : list Q :=
  [2000; 2505; 3010; 3510; 4011; 4500; 5000].

(** The [<div>] that wraps the picture of an asset inside its button. *)
Definition iconWrapper : DomElement := mkElement "div" "".

(** The sample that the resolver takes of [scenarioFace] for the anchor
    type ['head']. *)
Definition headSample : AnchorData.t :=
  match getAnchorData (M := scenarioMath) scenarioFace "head" with
  | Return (Some d) => d
  | _ => AnchorData.mk 0 0 0 0
  end.

(* ================================================================= *)
(** * Properties *)

(** ** Arithmetic and list facts *)

Lemma Qltb_lt (a b : Q) : Qltb a b = true <-> a < b.
Proof.
  unfold Qltb. rewrite negb_true_iff.
  split; intro H.
  - apply Qnot_le_lt. intro Hle. apply Qle_bool_iff in Hle. congruence.
  - destruct (Qle_bool b a) eqn:E; [|reflexivity].
    apply Qle_bool_iff in E. exfalso. apply (Qlt_not_le _ _ H E).
Qed.

Lemma Qltb_ge (a b : Q) : Qltb a b = false <-> b <= a.
Proof.
  unfold Qltb. rewrite negb_false_iff. apply Qle_bool_iff.
Qed.

Lemma truthy_Some (q : Q) : ~ q == 0 -> truthy (Some q) = true.
Proof.
  intro H. unfold truthy. apply negb_true_iff.
  destruct (Qeq_bool q 0) eqn:E; [|reflexivity].
  apply Qeq_bool_iff in E. contradiction.
Qed.

Lemma filter_length_le {A : Type} (p q : A -> bool) (l : list A) :
  (List.length (filter p (filter q l)) <= List.length (filter p l))%nat.
Proof.
  induction l as [|a l IH]; simpl; [lia|].
  destruct (q a); simpl; destruct (p a); simpl; lia.
Qed.

Lemma filter_map_same {A : Type} (p : A -> bool) (g : A -> A) (l : list A) :
  (forall a, p (g a) = p a) ->
  List.length (filter p (map g l)) = List.length (filter p l).
Proof.
  intro H. induction l as [|a l IH]; simpl; [reflexivity|].
  rewrite H. destruct (p a); simpl; lia.
Qed.

Lemma filter_negb_none {A : Type} (p : A -> bool) (l : list A) :
  filter p (filter (fun a => negb (p a)) l) = [].
Proof.
  induction l as [|a l IH]; simpl; [reflexivity|].
  destruct (p a) eqn:E; simpl; [assumption|]. rewrite E. assumption.
Qed.

(** ** The anchor resolver *)

Lemma complete_has {A : Type} (l : list A) (i : nat) :
  (454 <? List.length l)%nat = true -> (i <= 454)%nat ->
  exists a, nth_error l i = Some a.
Proof.
  intros H Hi. apply Nat.ltb_lt in H.
  destruct (nth_error l i) as [a|] eqn:E; [exists a; reflexivity|].
  apply nth_error_None in E. lia.
Qed.

(** On a complete mesh the resolver returns a sample for each of the four
    anchor types. *)
Lemma getAnchorData_known (M : MathLib) (r : FaceLandmarkerResult)
  (ty : AnchorType) :
  completeMesh r = true -> ty <> none ->
  exists d, getAnchorData r (anchorKey ty) = Return (Some d).
Proof.
  unfold completeMesh, getAnchorData. intros H Hty.
  destruct (faceLandmarks r) as [|l rest]; [discriminate|].
  destruct (complete_has l 454 H) as [rc ->]; [lia|].
  destruct (complete_has l 234 H) as [lc ->]; [lia|].
  destruct (complete_has l 263 H) as [re ->]; [lia|].
  destruct (complete_has l 33 H) as [le ->]; [lia|].
  destruct (complete_has l 10 H) as [th ->]; [lia|].
  destruct (complete_has l 1 H) as [nt ->]; [lia|].
  destruct (complete_has l 152 H) as [ch ->]; [lia|].
  destruct ty; simpl; try (eexists; reflexivity). contradiction.
Qed.

(** C9, as amended.  [getAnchorData] returns [null], and does not
    throw, when the result holds no face; and, for a selector that is
    none of ['head'], ['eyes'], ['face'], ['body'], when the first face
    has the four landmarks that the function reads before it looks at
    the selector (the cheeks 234 and 454 and the eyes 33 and 263; a
    complete mesh has them).  When the first face lacks one of the four,
    the function throws, whatever the selector. *)
Theorem getAnchorData_null (M : MathLib) (result : FaceLandmarkerResult)
  (anchorType : string) :
  (faceLandmarks result = []
   \/ (knownSelector anchorType = false /\ completeMesh result = true) ->
   getAnchorData result anchorType = Return None)
  /\ (forall lm others le re lc rc,
        faceLandmarks result = lm :: others ->
        knownSelector anchorType = false ->
        nth_error lm 33 = Some le -> nth_error lm 263 = Some re ->
        nth_error lm 234 = Some lc -> nth_error lm 454 = Some rc ->
        getAnchorData result anchorType = Return None)
  /\ (forall lm others,
        faceLandmarks result = lm :: others ->
        nth_error lm 33 = None \/ nth_error lm 263 = None
        \/ nth_error lm 234 = None \/ nth_error lm 454 = None ->
        getAnchorData result anchorType = Throw).
Proof.
  split; [|split].
  - unfold getAnchorData, completeMesh, knownSelector.
    intros [H | [Hsel H]].
    + rewrite H. reflexivity.
    + destruct (faceLandmarks result) as [|l rest]; [reflexivity|].
      destruct (complete_has l 454 H) as [rc ->]; [lia|].
      destruct (complete_has l 234 H) as [lc ->]; [lia|].
      destruct (complete_has l 263 H) as [re ->]; [lia|].
      destruct (complete_has l 33 H) as [le ->]; [lia|].
      simpl.
      destruct (anchorType =? "eyes")%string; [discriminate|].
      destruct (anchorType =? "head")%string; [discriminate|].
      destruct (anchorType =? "face")%string; [discriminate|].
      destruct (anchorType =? "body")%string; [discriminate|].
      reflexivity.
  - intros lm others le re lc rc Hl Hsel H33 H263 H234 H454.
    unfold getAnchorData, knownSelector in *. rewrite Hl. cbv zeta.
    rewrite H33, H263, H234, H454. simpl.
    destruct (anchorType =? "eyes")%string; [discriminate|].
    destruct (anchorType =? "head")%string; [discriminate|].
    destruct (anchorType =? "face")%string; [discriminate|].
    destruct (anchorType =? "body")%string; [discriminate|].
    reflexivity.
  - intros lm others Hl H. unfold getAnchorData. rewrite Hl. cbv zeta.
    destruct (nth_error lm 454) as [rc|]; [|reflexivity].
    destruct (nth_error lm 234) as [lc|]; [|reflexivity].
    destruct (nth_error lm 263) as [re|]; [|reflexivity].
    destruct (nth_error lm 33) as [le|]; [|reflexivity].
    destruct H as [H|[H|[H|H]]]; discriminate H.
Qed.

Lemma getAnchorData_null_witness :
  (knownSelector "nose" = false /\ completeMesh scenarioFace = true)
  /\ getAnchorData (M := scenarioMath) scenarioFace "nose" = Return None
  /\ getAnchorData (M := scenarioMath) {| faceLandmarks := [] |} "head"
     = Return None.
Proof.
  split; [split; reflexivity|].
  split.
  - apply (proj1 (getAnchorData_null scenarioMath scenarioFace "nose")).
    right. split; reflexivity.
  - apply (proj1 (getAnchorData_null scenarioMath {| faceLandmarks := [] |}
                    "head")).
    left. reflexivity.
Defined.

Lemma getAnchorData_null_counterexample :
  knownSelector "tail" = false
  /\ List.length (faceLandmarks shortFace) = 1%nat
  /\ getAnchorData (M := scenarioMath) shortFace "tail" = Throw.
Proof. repeat split. Qed.

(** ** The lifecycle pass *)

Lemma lifecycle_app (fade now : Q) (l1 l2 : list StickerItem.t) :
  lifecycle fade now (l1 ++ l2) = lifecycle fade now l1 ++ lifecycle fade now l2.
Proof.
  unfold lifecycle. rewrite filter_app, map_app. reflexivity.
Qed.

Lemma lifecycle_cons (fade now : Q) (s : StickerItem.t)
  (pre post : list StickerItem.t) :
  lifecycle fade now (pre ++ s :: post)
  = lifecycle fade now pre ++ lifecycle fade now [s] ++ lifecycle fade now post.
Proof.
  change (s :: post) with ([s] ++ post).
  rewrite !lifecycle_app. reflexivity.
Qed.

Lemma lifecycle_expired (fade now : Q) (s : StickerItem.t) :
  lifespanBound s = true ->
  num (StickerItem.lifespan s) <= now - num (StickerItem.createdAt s) ->
  lifecycle fade now [s] = [].
Proof.
  unfold lifespanBound, lifecycle. intros Hb Hage.
  apply andb_true_iff in Hb. destruct Hb as [Hl Hc].
  simpl. rewrite Hl, Hc. simpl.
  apply Qltb_ge in Hage. rewrite Hage. reflexivity.
Qed.

Lemma lifecycle_fading (fade now : Q) (s : StickerItem.t) :
  lifespanBound s = true ->
  now - num (StickerItem.createdAt s) < num (StickerItem.lifespan s) ->
  num (StickerItem.lifespan s) - (now - num (StickerItem.createdAt s)) < fade ->
  lifecycle fade now [s]
  = [StickerItem.with_opacity s
       ((num (StickerItem.lifespan s)
         - (now - num (StickerItem.createdAt s))) / fade)].
Proof.
  unfold lifespanBound, lifecycle. intros Hb Hage Hfade.
  apply andb_true_iff in Hb. destruct Hb as [Hl Hc].
  simpl. rewrite Hl, Hc. simpl.
  apply Qltb_lt in Hage. rewrite Hage. simpl. rewrite Hl, Hc. simpl.
  apply Qltb_lt in Hfade. rewrite Hfade. reflexivity.
Qed.

Lemma lifecycle_steady (fade now : Q) (s : StickerItem.t) :
  lifespanBound s = true ->
  now - num (StickerItem.createdAt s) < num (StickerItem.lifespan s) ->
  fade <= num (StickerItem.lifespan s) - (now - num (StickerItem.createdAt s)) ->
  lifecycle fade now [s] = [s].
Proof.
  unfold lifespanBound, lifecycle. intros Hb Hage Hfade.
  apply andb_true_iff in Hb. destruct Hb as [Hl Hc].
  simpl. rewrite Hl, Hc. simpl.
  apply Qltb_lt in Hage. rewrite Hage. simpl. rewrite Hl, Hc. simpl.
  apply Qltb_ge in Hfade. rewrite Hfade. reflexivity.
Qed.

(** C8.  For a lifespan-bound sticker [s] anywhere in the store, with
    [age = now - createdAt]: once [age] reaches the lifespan the pass
    drops [s]; while [s] survives with less than the fade window left, the
    sticker that the pass returns in its place has the time remaining
    over the fade window as its [opacity] and is [s] in every other
    field; with at least the fade window left it is [s] itself.  With a
    lifespan of 2000 ms and a fade window of 500 ms (the constants of
    [MirrorApp] and [ArcadeApp]) the opacity is 0.4 at 1800 ms of age and
    the sticker is gone at 2000 ms. *)
Theorem lifecycle_expiry_and_fade (fade now : Q) (s : StickerItem.t)
  (pre post : list StickerItem.t) :
  lifespanBound s = true ->
  let lifespan := num (StickerItem.lifespan s) in
  let age := now - num (StickerItem.createdAt s) in
  (lifespan <= age ->
   lifecycle fade now (pre ++ s :: post)
   = lifecycle fade now pre ++ lifecycle fade now post)
  /\ (age < lifespan -> lifespan - age < fade ->
      lifecycle fade now (pre ++ s :: post)
      = lifecycle fade now pre
        ++ StickerItem.with_opacity s ((lifespan - age) / fade)
        :: lifecycle fade now post)
  /\ (lifespan == MirrorApp.EFFECT_LIFESPAN ->
      fade == MirrorApp.EFFECT_FADE_DURATION ->
      lifespan == 2000 /\ fade == 500
      /\ (age == 1800 ->
          exists o, o == 0.4
            /\ lifecycle fade now (pre ++ s :: post)
               = lifecycle fade now pre
                 ++ StickerItem.with_opacity s o :: lifecycle fade now post)
      /\ (age == 2000 ->
          lifecycle fade now (pre ++ s :: post)
          = lifecycle fade now pre ++ lifecycle fade now post))
  /\ (age < lifespan -> lifespan - age < fade ->
      exists s',
        lifecycle fade now (pre ++ s :: post)
        = lifecycle fade now pre ++ s' :: lifecycle fade now post
        /\ StickerItem.opacity s' = Some ((lifespan - age) / fade)
        /\ StickerItem.id s' = StickerItem.id s
        /\ StickerItem.content s' = StickerItem.content s
        /\ StickerItem.x s' = StickerItem.x s
        /\ StickerItem.y s' = StickerItem.y s
        /\ StickerItem.scale s' = StickerItem.scale s
        /\ StickerItem.rotation s' = StickerItem.rotation s
        /\ StickerItem.createdAt s' = StickerItem.createdAt s
        /\ StickerItem.lifespan s' = StickerItem.lifespan s)
  /\ (age < lifespan -> fade <= lifespan - age ->
      lifecycle fade now (pre ++ s :: post)
      = lifecycle fade now pre ++ s :: lifecycle fade now post)
  /\ (lifespan == MirrorApp.EFFECT_LIFESPAN ->
      fade == MirrorApp.EFFECT_FADE_DURATION ->
      age == 1800 ->
      exists s' o,
        lifecycle fade now (pre ++ s :: post)
        = lifecycle fade now pre ++ s' :: lifecycle fade now post
        /\ StickerItem.opacity s' = Some o /\ o == 0.4
        /\ StickerItem.id s' = StickerItem.id s).
Proof.
  intros Hb lifespan age. rewrite lifecycle_cons.
  split; [|split; [|split; [|split; [|split]]]].
  - intro H. rewrite (lifecycle_expired fade now s Hb H). reflexivity.
  - intros H1 H2. rewrite (lifecycle_fading fade now s Hb H1 H2). reflexivity.
  - intros HL HF.
    unfold MirrorApp.EFFECT_LIFESPAN in HL.
    unfold MirrorApp.EFFECT_FADE_DURATION in HF.
    split; [exact HL|]. split; [exact HF|]. split.
    + intro Hage. exists ((lifespan - age) / fade). split.
      * rewrite HL, HF, Hage. reflexivity.
      * rewrite (lifecycle_fading fade now s Hb); [reflexivity| |];
          fold lifespan; fold age; lra.
    + intro Hage.
      rewrite (lifecycle_expired fade now s Hb); [reflexivity|].
      fold lifespan; fold age. lra.
  - intros H1 H2. rewrite (lifecycle_fading fade now s Hb H1 H2).
    eexists. split; [reflexivity|]. repeat split; reflexivity.
  - intros H1 H2. rewrite (lifecycle_steady fade now s Hb H1 H2). reflexivity.
  - intros HL HF Hage.
    unfold MirrorApp.EFFECT_LIFESPAN in HL.
    unfold MirrorApp.EFFECT_FADE_DURATION in HF.
    rewrite (lifecycle_fading fade now s Hb);
      [| fold lifespan; fold age; lra | fold lifespan; fold age; lra].
    eexists. exists ((lifespan - age) / fade).
    split; [reflexivity|]. split; [reflexivity|].
    split; [rewrite HL, HF, Hage; reflexivity | reflexivity].
Qed.

Lemma lifecycle_expiry_and_fade_witness :
  lifespanBound (effect "fx-1" 100 100 1000 2000) = true
  /\ (exists o, o == 0.4
        /\ lifecycle MirrorApp.EFFECT_FADE_DURATION 2800
             [effect "fx-1" 100 100 1000 2000]
           = [StickerItem.with_opacity (effect "fx-1" 100 100 1000 2000) o])
  /\ lifecycle MirrorApp.EFFECT_FADE_DURATION 3000
       [effect "fx-1" 100 100 1000 2000] = []
  /\ (exists s' o,
        lifecycle MirrorApp.EFFECT_FADE_DURATION 2800
          [effect "fx-1" 100 100 1000 2000] = [s']
        /\ StickerItem.opacity s' = Some o /\ o == 0.4
        /\ StickerItem.id s' = "fx-1"%string).
Proof.
  split; [reflexivity|].
  pose proof (lifecycle_expiry_and_fade MirrorApp.EFFECT_FADE_DURATION 2800
                (effect "fx-1" 100 100 1000 2000) [] [] eq_refl) as H28.
  pose proof (lifecycle_expiry_and_fade MirrorApp.EFFECT_FADE_DURATION 3000
                (effect "fx-1" 100 100 1000 2000) [] [] eq_refl) as H30.
  simpl in H28, H30.
  destruct H28 as [_ [_ [A [_ [_ B]]]]]. destruct H30 as [_ [_ [C _]]].
  split; [apply A; reflexivity|].
  split; [apply C; reflexivity|].
  apply B; reflexivity.
Defined.

(** ** At most one face sticker *)

Create HintDb faces.

Lemma amo_nil : atMostOneFace [].
Proof. unfold atMostOneFace. simpl. lia. Qed.

Lemma amo_filter (p : StickerItem.t -> bool) (l : list StickerItem.t) :
  atMostOneFace l -> atMostOneFace (filter p l).
Proof.
  unfold atMostOneFace. intro H.
  pose proof (filter_length_le isFace p l). lia.
Qed.

Lemma amo_map (g : StickerItem.t -> StickerItem.t) (l : list StickerItem.t) :
  (forall s, isFace (g s) = isFace s) ->
  atMostOneFace l -> atMostOneFace (map g l).
Proof.
  unfold atMostOneFace. intros Hg H.
  rewrite (filter_map_same isFace g l Hg). exact H.
Qed.

Lemma amo_app_other (e : StickerItem.t) (l : list StickerItem.t) :
  isFace e = false -> atMostOneFace l -> atMostOneFace (l ++ [e]).
Proof.
  unfold atMostOneFace. intros He H.
  rewrite filter_app, length_app. simpl. rewrite He. simpl. lia.
Qed.

Lemma amo_replace (e : StickerItem.t) (l : list StickerItem.t) :
  atMostOneFace (filter (fun s => negb (isFace s)) l ++ [e]).
Proof.
  unfold atMostOneFace.
  rewrite filter_app, filter_negb_none. simpl.
  destruct (isFace e); simpl; lia.
Qed.

#[export] Hint Resolve amo_nil amo_filter amo_app_other amo_replace : faces.

Lemma amo_lifecycle (fade now : Q) (l : list StickerItem.t) :
  atMostOneFace l -> atMostOneFace (lifecycle fade now l).
Proof.
  intro H. unfold lifecycle. apply amo_map.
  - intro s. destruct (truthy (StickerItem.lifespan s)
                       && truthy (StickerItem.createdAt s));
      [|reflexivity].
    match goal with |- context [if ?b then _ else _] => destruct b end;
      reflexivity.
  - apply amo_filter. exact H.
Qed.

Lemma amo_resize (i : string) (pinch : Q) (l : list StickerItem.t) :
  atMostOneFace l -> atMostOneFace (resizeSticker i pinch l).
Proof.
  intro H. unfold resizeSticker. apply amo_map; [|exact H].
  intro s. destruct (hasId i s); reflexivity.
Qed.

Lemma amo_drag (i : string) (cx cy : Q) (l : list StickerItem.t) :
  atMostOneFace l -> atMostOneFace (dragSticker i cx cy l).
Proof.
  intro H. unfold dragSticker. apply amo_map; [|exact H].
  intro s. destruct (hasId i s); reflexivity.
Qed.

Lemma amo_update (i : string) (u : StickerUpdate) (l : list StickerItem.t) :
  atMostOneFace l -> atMostOneFace (handleUpdateSticker i u l).
Proof.
  intro H. unfold handleUpdateSticker. apply amo_map; [|exact H].
  intro s. destruct (hasId i s); [destruct u|]; reflexivity.
Qed.

Lemma amo_delete (i : string) (l : list StickerItem.t) :
  atMostOneFace l -> atMostOneFace (deleteSticker i l).
Proof. intro H. unfold deleteSticker. apply amo_filter. exact H. Qed.

Lemma amo_dropConversion (f : Frame) (i : string)
  (cached : option AnchorData.t) (l : list StickerItem.t) :
  atMostOneFace l -> atMostOneFace (MirrorApp.dropConversion f i cached l).
Proof.
  intro H. unfold MirrorApp.dropConversion.
  destruct (find (hasId i) l); [|exact H].
  destruct cached; [|exact H].
  apply amo_map; [|exact H].
  intro s. destruct (hasId i s); reflexivity.
Qed.

Lemma amo_addSticker (f : Frame) (asset : Asset.t) (sx sy : option Q)
  (l : list StickerItem.t) :
  atMostOneFace l ->
  atMostOneFace (MirrorApp.addSticker asset (MirrorApp.newItem f asset sx sy) l).
Proof.
  intro H. unfold MirrorApp.addSticker.
  destruct (Category_eqb (Asset.category asset) faces) eqn:E.
  - apply amo_replace.
  - apply amo_app_other; [|exact H]. exact E.
Qed.

Lemma amo_selectAsset (f : Frame) (asset : Asset.t) (l : list StickerItem.t) :
  atMostOneFace l ->
  atMostOneFace (GameApp.selectAsset asset (GameApp.newSticker f asset) l).
Proof.
  intro H. unfold GameApp.selectAsset.
  destruct (Category_eqb (Asset.category asset) faces) eqn:E.
  - apply amo_replace.
  - apply amo_app_other; [|exact H]. exact E.
Qed.

Lemma amo_cycle_mirror (f : Frame) (l l' : list StickerItem.t) :
  MirrorApp.cycleAnimalFace f l = Return l' -> atMostOneFace l'.
Proof.
  unfold MirrorApp.cycleAnimalFace. destruct (nextFaceAsset l); simpl;
    [|discriminate].
  intro H. injection H as <-. apply amo_replace.
Qed.

Lemma amo_cycle_game (f : Frame) (l l' : list StickerItem.t) :
  GameApp.cycleAnimalFace f l = Return l' -> atMostOneFace l'.
Proof.
  unfold GameApp.cycleAnimalFace. destruct (nextFaceAsset l); simpl;
    [|discriminate].
  intro H. injection H as <-. apply amo_replace.
Qed.

#[export] Hint Resolve amo_lifecycle amo_resize amo_drag amo_update amo_delete
  amo_dropConversion amo_addSticker amo_selectAsset : faces.

(** The face-cycling updater never throws: the catalogue has face assets. *)
Lemma nextFaceAsset_returns (l : list StickerItem.t) :
  exists asset, nextFaceAsset l = Return asset
                /\ Asset.category asset = faces.
Proof.
  unfold nextFaceAsset.
  destruct (find isFace l) as [cur|].
  - set (i := findIndex _ faceAssets).
    assert (Hi : (i = -1 \/ i = 0 \/ i = 1 \/ i = 2 \/ i = 3)%Z).
    { subst i. unfold faceAssets. simpl.
      repeat match goal with
             | |- context [if ?b then _ else _] => destruct b
             end; simpl; lia. }
    destruct Hi as [-> | [-> | [-> | [-> | ->]]]]; simpl;
      eexists; (split; [reflexivity | reflexivity]).
  - simpl. eexists. split; reflexivity.
Qed.

Ltac break_match :=
  match goal with
  | |- context [if ?b then _ else _] => destruct b eqn:?
  | |- context [match ?x with _ => _ end] => destruct x eqn:?
  end.

Ltac store_auto :=
  repeat break_match; cbn [stickers setStickers setActiveStickerId
    setSelectedCategory setInteractionState setIsPlaying setScore setCoins
    setShowWinModal setInteractingIdRef setLastFaceDataRef
    setHoverStartTimeRef setDropStartTimeRef setLastEffectSpawnTimeRef
    setLastGestureTimeRef setLastHandPosRef setScoreRef
    setLastCoinSpawnTimeRef fst snd];
  auto with faces.

Section MirrorFaces.
Context {M : MathLib}.

Lemma mirror_handleHandDrop_faces (f : Frame) (i : string) (a : AppState) :
  atMostOneFace (stickers a) ->
  atMostOneFace (stickers (MirrorApp.handleHandDrop f i a)).
Proof. intro H. unfold MirrorApp.handleHandDrop. store_auto. Qed.

Lemma mirror_handleAddSticker_faces (f : Frame) (asset : Asset.t)
  (sx sy : option Q) (a : AppState) :
  atMostOneFace (stickers a) ->
  atMostOneFace (stickers (fst (MirrorApp.handleAddSticker f asset sx sy a))).
Proof. intro H. unfold MirrorApp.handleAddSticker. store_auto. Qed.

Lemma mirror_performSwipe_faces (f : Frame) (act : option SwipeAction)
  (a a' : AppState) :
  atMostOneFace (stickers a) ->
  MirrorApp.performSwipe f act a = Return a' ->
  atMostOneFace (stickers a').
Proof.
  intros H E. destruct act as [[|]|]; simpl in E.
  - injection E as <-. simpl. apply amo_nil.
  - destruct (MirrorApp.cycleAnimalFace f (stickers a)) as [l|] eqn:C;
      simpl in E; [|discriminate].
    injection E as <-. simpl. exact (amo_cycle_mirror f _ _ C).
  - injection E as <-. exact H.
Qed.

Lemma mirror_spawnEffect_faces (f : Frame) (g : Gesture) (a : AppState) :
  atMostOneFace (stickers a) ->
  atMostOneFace (stickers (MirrorApp.spawnEffect f g a)).
Proof. intro H. unfold MirrorApp.spawnEffect. store_auto. Qed.

Lemma mirror_hoverLogic_faces (f : Frame) (g : Gesture)
  (cur : list StickerItem.t) (cs : InteractionState) (a : AppState) :
  atMostOneFace (stickers a) ->
  atMostOneFace (stickers (MirrorApp.hoverLogic f g cur cs a)).
Proof.
  intro H. unfold MirrorApp.hoverLogic, MirrorApp.handleAddSticker.
  store_auto.
Qed.

Lemma mirror_handInteraction_faces (f : Frame) (g : Gesture)
  (cur : list StickerItem.t) (cs : InteractionState) (a : AppState) :
  atMostOneFace (stickers a) ->
  atMostOneFace (stickers (MirrorApp.handInteraction f g cur cs a)).
Proof.
  intro H. unfold MirrorApp.handInteraction.
  pose proof (mirror_spawnEffect_faces f g a H) as Hs.
  set (a1 := MirrorApp.spawnEffect f g a) in *. clearbody a1.
  repeat break_match; try exact Hs;
    try (apply mirror_hoverLogic_faces; exact Hs);
    unfold MirrorApp.handleHandDrop;
    cbn [stickers setStickers setInteractionState setDropStartTimeRef
         setInteractingIdRef lastFaceDataRef];
    auto with faces.
Qed.

Lemma mirror_handLost_faces (f : Frame) (cs : InteractionState)
  (a : AppState) :
  atMostOneFace (stickers a) ->
  atMostOneFace (stickers (MirrorApp.handLost f cs a)).
Proof.
  intro H. unfold MirrorApp.handLost, MirrorApp.handleHandDrop. store_auto.
Qed.

Lemma mirror_autoPosition_face (f : Frame) (r : FaceLandmarkerResult)
  (cs : InteractionState) (i : option string) (s s' : StickerItem.t)
  (d : option AnchorData.t) :
  MirrorApp.autoPosition f r cs i s = Return (s', d) ->
  isFace s' = isFace s.
Proof.
  unfold MirrorApp.autoPosition.
  destruct (_ || _ || _ || _).
  - intro E. injection E as <- _. reflexivity.
  - destruct (getAnchorData r _) as [[d0|]|]; simpl; intro E;
      try discriminate; injection E as <- _; reflexivity.
Qed.

Lemma mirror_trackStickers_faces (f : Frame) (r : FaceLandmarkerResult)
  (cs : InteractionState) (i : option string) (l : list StickerItem.t) :
  forall (c : option AnchorData.t) (l' : list StickerItem.t)
         (c' : option AnchorData.t),
    MirrorApp.trackStickers f r cs i c l = Return (l', c') ->
    List.length (filter isFace l') = List.length (filter isFace l).
Proof.
  induction l as [|s l IH]; intros c l' c' E; simpl in E.
  - injection E as <- _. reflexivity.
  - destruct (MirrorApp.autoPosition f r cs i s) as [[s1 d1]|] eqn:A;
      simpl in E; [|discriminate].
    destruct (MirrorApp.trackStickers f r cs i _ l) as [[l1 c1]|] eqn:T;
      simpl in E; [|discriminate].
    injection E as <- _. simpl.
    rewrite (mirror_autoPosition_face _ _ _ _ _ _ _ A).
    specialize (IH _ _ _ T).
    destruct (isFace s); simpl; lia.
Qed.

Lemma mirror_faceTracking_faces (f : Frame) (cs : InteractionState)
  (a a' : AppState) :
  atMostOneFace (stickers a) ->
  MirrorApp.faceTracking f cs a = Return a' ->
  atMostOneFace (stickers a').
Proof.
  intros H E. unfold MirrorApp.faceTracking in E.
  destruct (faceResult f) as [r|]; [|injection E as <-; exact H].
  destruct (faceLandmarks r) as [|x xs]; [injection E as <-; exact H|].
  destruct (MirrorApp.trackStickers f r cs (interactingIdRef a)
              (lastFaceDataRef a) (stickers a)) as [[l c]|] eqn:T;
    simpl in E; [|discriminate].
  injection E as <-. simpl. unfold atMostOneFace in *.
  rewrite (mirror_trackStickers_faces _ _ _ _ _ _ _ _ T). exact H.
Qed.

Lemma mirror_handProcessing_faces (f : Frame) (a a' : AppState)
  (g : option Gesture) :
  atMostOneFace (stickers a) ->
  MirrorApp.handProcessing f a = Return (a', g) ->
  atMostOneFace (stickers a').
Proof.
  intros H E. unfold MirrorApp.handProcessing in E.
  destruct (handResult f) as [h|].
  - destruct (MirrorApp.performSwipe f _ a) as [a1|] eqn:P; simpl in E;
      [|discriminate].
    injection E as <- _. simpl.
    exact (mirror_performSwipe_faces _ _ _ _ H P).
  - injection E as <- _. exact H.
Qed.

Lemma mirror_loop_faces (f : Frame) (a a' : AppState) :
  atMostOneFace (stickers a) ->
  MirrorApp.loop f a = Return a' ->
  atMostOneFace (stickers a').
Proof.
  intros H E. unfold MirrorApp.loop in E.
  destruct (MirrorApp.handProcessing f _) as [[a1 g]|] eqn:P; simpl in E;
    [|discriminate].
  apply mirror_handProcessing_faces in P;
    [|simpl; apply amo_lifecycle; exact H].
  refine (mirror_faceTracking_faces _ _ _ _ _ E).
  unfold MirrorApp.interactionLogic. destruct g.
  - apply mirror_handInteraction_faces. exact P.
  - apply mirror_handLost_faces. exact P.
Qed.

Lemma mirror_react_faces (e : MirrorApp.Event) (a a' : AppState) :
  atMostOneFace (stickers a) ->
  MirrorApp.react e a = Return a' ->
  atMostOneFace (stickers a').
Proof.
  intros H E. destruct e; simpl in E;
    try (injection E as <-).
  - exact (mirror_loop_faces _ _ _ H E).
  - apply mirror_handleAddSticker_faces. exact H.
  - exact H.
  - simpl. auto with faces.
  - exact H.
  - unfold MirrorApp.handleDeleteSticker. store_auto.
  - exact H.
  - apply mirror_handleHandDrop_faces. exact H.
Qed.

End MirrorFaces.

Section ArcadeFaces.
Context {M : MathLib}.

Lemma play_stickers (f : Frame) (a a' : AppState) :
  Game.play f a = Return a' -> stickers a' = stickers a.
Proof.
  unfold Game.play, Game.spawnCoin. intro E.
  destruct (Game.avatarPosition f) as [av|]; simpl in E; [|discriminate].
  injection E as <-. repeat break_match; reflexivity.
Qed.

Lemma arcade_handProcessing_faces (f : Frame) (a a' : AppState)
  (g : option Gesture) :
  atMostOneFace (stickers a) ->
  ArcadeApp.handProcessing f a = Return (a', g) ->
  atMostOneFace (stickers a').
Proof.
  intros H E. unfold ArcadeApp.handProcessing in E.
  destruct (handResult f) as [h|].
  - destruct (MirrorApp.performSwipe f _ a) as [a1|] eqn:P; simpl in E;
      [|discriminate].
    injection E as <- _. simpl.
    exact (mirror_performSwipe_faces _ _ _ _ H P).
  - injection E as <- _. exact H.
Qed.

Lemma arcade_loop_faces (captured : list StickerItem.t) (f : Frame)
  (a a' : AppState) :
  atMostOneFace (stickers a) ->
  ArcadeApp.loop captured f a = Return a' ->
  atMostOneFace (stickers a').
Proof.
  intros H E. unfold ArcadeApp.loop in E.
  destruct (Game.won a); [injection E as <-; exact H|].
  destruct (if isPlaying a then Game.play f a else Return a) as [a0|] eqn:G;
    simpl in E; [|discriminate].
  assert (H0 : atMostOneFace (stickers a0)).
  { destruct (isPlaying a).
    - rewrite (play_stickers _ _ _ G). exact H.
    - injection G as <-. exact H. }
  destruct (ArcadeApp.handProcessing f _) as [[a1 g]|] eqn:P; simpl in E;
    [|discriminate].
  apply arcade_handProcessing_faces in P;
    [|simpl; apply amo_lifecycle; exact H0].
  refine (mirror_faceTracking_faces _ _ _ _ _ E).
  unfold ArcadeApp.interactionLogic. destruct g.
  - destruct (negb (isPlaying a1)); [|exact P].
    apply mirror_handInteraction_faces. exact P.
  - apply mirror_handLost_faces. exact P.
Qed.

Lemma arcade_react_faces (e : ArcadeApp.Event) (a a' : AppState) :
  atMostOneFace (stickers a) ->
  ArcadeApp.react e a = Return a' ->
  atMostOneFace (stickers a').
Proof.
  intros H E. destruct e; simpl in E;
    try (injection E as <-).
  - exact (arcade_loop_faces _ _ _ _ H E).
  - apply mirror_handleAddSticker_faces. exact H.
  - exact H.
  - simpl. auto with faces.
  - exact H.
  - unfold MirrorApp.handleDeleteSticker. store_auto.
  - exact H.
  - apply mirror_handleHandDrop_faces. exact H.
  - unfold ArcadeApp.handleStartGame. store_auto.
  - exact H.
  - exact H.
Qed.

End ArcadeFaces.

Section GameFaces.
Context {M : MathLib}.

Lemma game_performSwipe_faces (f : Frame) (act : option SwipeAction)
  (a a' : AppState) :
  atMostOneFace (stickers a) ->
  GameApp.performSwipe f act a = Return a' ->
  atMostOneFace (stickers a').
Proof.
  intros H E. destruct act as [[|]|]; simpl in E.
  - injection E as <-. simpl. apply amo_nil.
  - destruct (GameApp.cycleAnimalFace f (stickers a)) as [l|] eqn:C;
      simpl in E; [|discriminate].
    injection E as <-. simpl. exact (amo_cycle_game f _ _ C).
  - injection E as <-. exact H.
Qed.

Lemma game_spawnEffect_faces (f : Frame) (g : Gesture)
  (cur : list StickerItem.t) (a : AppState) :
  atMostOneFace (stickers a) ->
  atMostOneFace (stickers (GameApp.spawnEffect f g cur a)).
Proof. intro H. unfold GameApp.spawnEffect. store_auto. Qed.

Lemma game_handProcessing_faces (f : Frame) (cur : list StickerItem.t)
  (a a' : AppState) (g : option Gesture) :
  atMostOneFace (stickers a) ->
  GameApp.handProcessing f cur a = Return (a', g) ->
  atMostOneFace (stickers a').
Proof.
  intros H E. unfold GameApp.handProcessing in E.
  destruct (handResult f) as [h|].
  - destruct (GameApp.performSwipe f _ a) as [a1|] eqn:P; simpl in E;
      [|discriminate].
    injection E as <- _. apply game_spawnEffect_faces. simpl.
    exact (game_performSwipe_faces _ _ _ _ H P).
  - injection E as <- _. exact H.
Qed.

Lemma game_interactionLogic_faces (f : Frame) (g : option Gesture)
  (cur : list StickerItem.t) (cs : InteractionState) (a : AppState) :
  atMostOneFace (stickers a) ->
  atMostOneFace (stickers (GameApp.interactionLogic f g cur cs a)).
Proof.
  intro H.
  unfold GameApp.interactionLogic, GameApp.hoverLogic, GameApp.handleHandDrop,
    GameApp.handleSelectAsset.
  store_auto.
Qed.

Lemma game_faceAnchoring_faces (f : Frame) (cs : InteractionState)
  (a a' : AppState) :
  atMostOneFace (stickers a) ->
  GameApp.faceAnchoring f cs a = Return a' ->
  atMostOneFace (stickers a').
Proof.
  intros H E. unfold GameApp.faceAnchoring in E.
  destruct (faceResult f) as [r|]; [|injection E as <-; exact H].
  destruct (faceLandmarks r) as [|x xs]; [injection E as <-; exact H|].
  destruct (GameApp.anchorDataMap r) as [m|]; simpl in E; [|discriminate].
  injection E as <-. cbn [stickers setStickers].
  apply amo_map.
  - intro s. unfold GameApp.anchorSticker. repeat break_match; reflexivity.
  - destruct (GameApp.map_face m); exact H.
Qed.

Lemma game_loop_faces (f : Frame) (a a' : AppState) :
  atMostOneFace (stickers a) ->
  GameApp.loop f a = Return a' ->
  atMostOneFace (stickers a').
Proof.
  intros H E. unfold GameApp.loop in E.
  destruct (Game.won a); [injection E as <-; exact H|].
  destruct (if isPlaying a then Game.play f a else Return a) as [a0|] eqn:G;
    simpl in E; [|discriminate].
  assert (H0 : atMostOneFace (stickers a0)).
  { destruct (isPlaying a).
    - rewrite (play_stickers _ _ _ G). exact H.
    - injection G as <-. exact H. }
  destruct (GameApp.handProcessing f _ _) as [[a1 g]|] eqn:P; simpl in E;
    [|discriminate].
  apply game_handProcessing_faces in P;
    [|simpl; apply amo_lifecycle; exact H0].
  refine (game_faceAnchoring_faces _ _ _ _ _ E).
  apply game_interactionLogic_faces. exact P.
Qed.

Lemma game_react_faces (e : GameApp.Event) (a a' : AppState) :
  atMostOneFace (stickers a) ->
  GameApp.react e a = Return a' ->
  atMostOneFace (stickers a').
Proof.
  intros H E. destruct e; simpl in E;
    try (exact (game_loop_faces _ _ _ H E));
    try (destruct (isPlaying a)); injection E as <-; try exact H;
    unfold GameApp.handleSelectAsset, GameApp.handleDeleteSticker,
      GameApp.toggleGame, GameApp.clearAll;
    store_auto.
Qed.

End GameFaces.

(** The invariant along a run. *)
Lemma run_faces {Event : Type}
  (react : Event -> AppState -> outcome AppState) :
  (forall e a a', atMostOneFace (stickers a) -> react e a = Return a' ->
                  atMostOneFace (stickers a')) ->
  forall events a a',
    atMostOneFace (stickers a) -> run react events a = Return a' ->
    atMostOneFace (stickers a').
Proof.
  intros Hstep events. induction events as [|e rest IH]; intros a a' H E;
    simpl in E.
  - injection E as <-. exact H.
  - destruct (react e a) as [a1|] eqn:R; simpl in E; [|discriminate].
    exact (IH _ _ (Hstep _ _ _ H R) E).
Qed.

Lemma replace_faces (e : StickerItem.t) (l : list StickerItem.t) :
  isFace e = true ->
  filter isFace (filter (fun s => negb (isFace s)) l ++ [e]) = [e].
Proof.
  intro He. rewrite filter_app, filter_negb_none. simpl. rewrite He.
  reflexivity.
Qed.

(** C2.  In each of the three versions, whatever events the component
    reacts to (frames, with their swipes, effects, drags and drops; the
    callbacks of the asset selector and of the canvas; the game and clear
    buttons), a store with at most one face sticker keeps at most one; the
    store is empty at first.  Adding a face asset with [handleAddSticker]
    or [handleSelectAsset], or cycling the face, is one replacement of the
    collection, in which the previous face stickers are filtered out and
    the new one appended, so that it is the only face; adding any other
    asset appends its sticker and leaves the faces as they are.  The
    selector callback of each version is that handler, and the face swipe
    is that cycle. *)
Theorem at_most_one_face (M : MathLib) :
  atMostOneFace (stickers initialState)
  /\ (forall events a a',
        atMostOneFace (stickers a) ->
        run MirrorApp.react events a = Return a' ->
        atMostOneFace (stickers a'))
  /\ (forall events a a',
        atMostOneFace (stickers a) ->
        run ArcadeApp.react events a = Return a' ->
        atMostOneFace (stickers a'))
  /\ (forall events a a',
        atMostOneFace (stickers a) ->
        run GameApp.react events a = Return a' ->
        atMostOneFace (stickers a'))
  /\ (forall f asset sx sy prev,
        Asset.category asset = faces ->
        let item := MirrorApp.newItem f asset sx sy in
        MirrorApp.addSticker asset item prev
        = filter (fun s => negb (isFace s)) prev ++ [item]
        /\ filter isFace (MirrorApp.addSticker asset item prev) = [item])
  /\ (forall f asset prev,
        Asset.category asset = faces ->
        let item := GameApp.newSticker f asset in
        GameApp.selectAsset asset item prev
        = filter (fun s => negb (isFace s)) prev ++ [item]
        /\ filter isFace (GameApp.selectAsset asset item prev) = [item])
  /\ (forall f prev,
        exists newFace,
          MirrorApp.cycleAnimalFace f prev
          = Return (filter (fun s => negb (isFace s)) prev ++ [newFace])
          /\ filter isFace (filter (fun s => negb (isFace s)) prev ++ [newFace])
             = [newFace])
  /\ (forall f prev,
        exists newFace,
          GameApp.cycleAnimalFace f prev
          = Return (filter (fun s => negb (isFace s)) prev ++ [newFace])
          /\ filter isFace (filter (fun s => negb (isFace s)) prev ++ [newFace])
             = [newFace])
  /\ (forall f asset sx sy a,
        let item := MirrorApp.newItem f asset sx sy in
        let a' := fst (MirrorApp.handleAddSticker f asset sx sy a) in
        isFace item = Category_eqb (Asset.category asset) faces
        /\ (Asset.category asset = faces ->
            stickers a'
            = filter (fun s => negb (isFace s)) (stickers a) ++ [item]
            /\ filter isFace (stickers a') = [item])
        /\ (Asset.category asset <> faces ->
            stickers a' = stickers a ++ [item]
            /\ filter isFace (stickers a') = filter isFace (stickers a)))
  /\ (forall f asset a,
        let item := GameApp.newSticker f asset in
        let a' := GameApp.handleSelectAsset f asset a in
        isFace item = Category_eqb (Asset.category asset) faces
        /\ (Asset.category asset = faces ->
            stickers a'
            = filter (fun s => negb (isFace s)) (stickers a) ++ [item]
            /\ filter isFace (stickers a') = [item])
        /\ (Asset.category asset <> faces ->
            stickers a' = stickers a ++ [item]
            /\ filter isFace (stickers a') = filter isFace (stickers a)))
  /\ (forall f asset a,
        MirrorApp.react (MirrorApp.SelectAsset f asset) a
        = Return (fst (MirrorApp.handleAddSticker f asset None None a))
        /\ ArcadeApp.react (ArcadeApp.SelectAsset f asset) a
           = Return (fst (MirrorApp.handleAddSticker f asset None None a))
        /\ (isPlaying a = false ->
            GameApp.react (GameApp.SelectAsset f asset) a
            = Return (GameApp.handleSelectAsset f asset a)))
  /\ (forall f a a',
        MirrorApp.performSwipe f (Some ChangeAnimal) a = Return a' ->
        MirrorApp.cycleAnimalFace f (stickers a) = Return (stickers a'))
  /\ (forall f a a',
        GameApp.performSwipe f (Some ChangeAnimal) a = Return a' ->
        GameApp.cycleAnimalFace f (stickers a) = Return (stickers a')).
Proof.
  split; [apply amo_nil|].
  split; [apply run_faces; apply mirror_react_faces|].
  split; [apply run_faces; apply arcade_react_faces|].
  split; [apply run_faces; apply game_react_faces|].
  assert (NF : forall c, c <> faces -> Category_eqb c faces = false).
  { intros c Hc. destruct c; try reflexivity. contradiction. }
  split; [|split; [|split; [|split; [|split; [|split; [|split; [|split]]]]]]].
  - intros f asset sx sy prev Hc item.
    unfold MirrorApp.addSticker. rewrite Hc. simpl.
    split; [reflexivity|]. apply replace_faces.
    unfold isFace, item. simpl. rewrite Hc. reflexivity.
  - intros f asset prev Hc item.
    unfold GameApp.selectAsset. rewrite Hc. simpl.
    split; [reflexivity|]. apply replace_faces.
    unfold isFace, item. simpl. rewrite Hc. reflexivity.
  - intros f prev. unfold MirrorApp.cycleAnimalFace.
    destruct (nextFaceAsset_returns prev) as [asset [-> Hc]]. simpl.
    eexists. split; [reflexivity|]. apply replace_faces.
    unfold isFace. simpl. rewrite Hc. reflexivity.
  - intros f prev. unfold GameApp.cycleAnimalFace.
    destruct (nextFaceAsset_returns prev) as [asset [-> Hc]]. simpl.
    eexists. split; [reflexivity|]. apply replace_faces. reflexivity.
  - intros f asset sx sy a item a'.
    assert (Hi : isFace item = Category_eqb (Asset.category asset) faces)
      by reflexivity.
    split; [exact Hi|].
    subst a'. unfold MirrorApp.handleAddSticker.
    cbn [fst stickers setStickers setActiveStickerId].
    fold item. unfold MirrorApp.addSticker. split.
    + intro Hc. rewrite Hc. cbn [Category_eqb].
      split; [reflexivity|]. apply replace_faces. rewrite Hi, Hc. reflexivity.
    + intro Hc. rewrite (NF _ Hc). split; [reflexivity|].
      rewrite filter_app. cbn [filter]. rewrite Hi, (NF _ Hc).
      apply app_nil_r.
  - intros f asset a item a'.
    assert (Hi : isFace item = Category_eqb (Asset.category asset) faces)
      by reflexivity.
    split; [exact Hi|].
    subst a'. unfold GameApp.handleSelectAsset.
    cbn [stickers setStickers]. fold item. unfold GameApp.selectAsset. split.
    + intro Hc. rewrite Hc. cbn [Category_eqb].
      split; [reflexivity|]. apply replace_faces. rewrite Hi, Hc. reflexivity.
    + intro Hc. rewrite (NF _ Hc). split; [reflexivity|].
      rewrite filter_app. cbn [filter]. rewrite Hi, (NF _ Hc).
      apply app_nil_r.
  - intros f asset a. split; [reflexivity|]. split; [reflexivity|].
    intro Hp. cbn [GameApp.react]. rewrite Hp. reflexivity.
  - intros f a a' E. cbn [MirrorApp.performSwipe] in E.
    destruct (MirrorApp.cycleAnimalFace f (stickers a)) as [l|];
      cbn [bind] in E; [|discriminate].
    injection E as <-. reflexivity.
  - intros f a a' E. cbn [GameApp.performSwipe] in E.
    destruct (GameApp.cycleAnimalFace f (stickers a)) as [l|];
      cbn [bind] in E; [|discriminate].
    injection E as <-. reflexivity.
Qed.

Lemma at_most_one_face_witness :
  (exists a',
     run (MirrorApp.react (M := scenarioMath)) twoFaces initialState = Return a'
     /\ atMostOneFace (stickers a')
     /\ map StickerItem.content (stickers a')
        = ["crown"; "SVG_ASSETS.panda_face"])
  /\ (exists a',
        run (GameApp.react (M := scenarioMath)) gameTwoFaces initialState
        = Return a'
        /\ atMostOneFace (stickers a')
        /\ map StickerItem.content (stickers a')
           = ["crown"; "SVG_ASSETS.panda_face"]).
Proof.
  split.
  - destruct (run (MirrorApp.react (M := scenarioMath)) twoFaces initialState)
      as [a'|] eqn:E.
    + exists a'. split; [reflexivity|]. split.
      * exact (proj1 (proj2 (at_most_one_face scenarioMath)) twoFaces
                 initialState a' amo_nil E).
      * vm_compute in E. injection E as <-. reflexivity.
    + vm_compute in E. discriminate.
  - destruct (run (GameApp.react (M := scenarioMath)) gameTwoFaces
                initialState) as [a'|] eqn:E.
    + exists a'. split; [reflexivity|]. split.
      * exact (proj1 (proj2 (proj2 (proj2 (at_most_one_face scenarioMath))))
                 gameTwoFaces initialState a' amo_nil E).
      * vm_compute in E. injection E as <-. reflexivity.
    + vm_compute in E. discriminate.
Defined.

(** ** The face-anchoring pass *)

Lemma optStrEq_false (o : option string) (i : string) :
  o <> Some i -> optStrEq o (Some i) = false /\ optStrEq (Some i) o = false.
Proof.
  intro H. destruct o as [j|]; simpl; [|split; reflexivity].
  split; apply String.eqb_neq; congruence.
Qed.

Lemma AnchorType_eqb_none (ty : AnchorType) :
  ty <> none -> AnchorType_eqb ty none = false.
Proof. destruct ty; intro H; try reflexivity. contradiction. Qed.

Lemma Status_eqb_false (s t : Status) : s <> t -> Status_eqb s t = false.
Proof. destruct s, t; intro H; try reflexivity; contradiction. Qed.

Section MirrorTracking.
Context {M : MathLib}.

(** What the pass of [MirrorApp] does to a sticker it repositions. *)
Lemma mirror_autoPosition_moves (f : Frame) (r : FaceLandmarkerResult)
  (cs : InteractionState) (i : option string) (s : StickerItem.t) :
  completeMesh r = true ->
  StickerItem.anchorType s <> none ->
  i <> Some (StickerItem.id s) ->
  status cs <> dragging ->
  truthy (StickerItem.lifespan s) = false ->
  exists d,
    getAnchorData r (anchorKey (StickerItem.anchorType s)) = Return (Some d)
    /\ MirrorApp.autoPosition f r cs i s
       = Return
           (StickerItem.with_transform s
              (mirroredX d f + Pt.x (StickerItem.anchorOffset s))
              (mirroredY d f + Pt.y (StickerItem.anchorOffset s))
              ((AnchorData.scale d * rectWidth f / 100)
               * StickerItem.baseScale s)
              (StickerItem.baseRotation s - AnchorData.rotation d),
            Some d).
Proof.
  intros Hm Hty Hi Hcs Hl.
  destruct (getAnchorData_known M r _ Hm Hty) as [d Hd].
  exists d. split; [exact Hd|].
  unfold MirrorApp.autoPosition.
  rewrite (proj1 (optStrEq_false _ _ Hi)), (AnchorType_eqb_none _ Hty),
    (Status_eqb_false _ _ Hcs), Hl. simpl. rewrite Hd. reflexivity.
Qed.

Lemma mirror_autoPosition_returns (f : Frame) (r : FaceLandmarkerResult)
  (cs : InteractionState) (i : option string) (s : StickerItem.t) :
  completeMesh r = true ->
  exists p, MirrorApp.autoPosition f r cs i s = Return p.
Proof.
  intro Hm. unfold MirrorApp.autoPosition.
  destruct (optStrEq i (Some (StickerItem.id s))); simpl;
    [eexists; reflexivity|].
  destruct (AnchorType_eqb (StickerItem.anchorType s) none) eqn:E; simpl;
    [eexists; reflexivity|].
  destruct (Status_eqb (status cs) dragging); simpl; [eexists; reflexivity|].
  destruct (truthy (StickerItem.lifespan s)); simpl; [eexists; reflexivity|].
  assert (Hty : StickerItem.anchorType s <> none).
  { intro H. rewrite H in E. discriminate. }
  destruct (getAnchorData_known M r _ Hm Hty) as [d ->]. simpl.
  eexists; reflexivity.
Qed.

Lemma mirror_trackStickers_returns (f : Frame) (r : FaceLandmarkerResult)
  (cs : InteractionState) (i : option string) (l : list StickerItem.t) :
  completeMesh r = true ->
  forall c, exists p, MirrorApp.trackStickers f r cs i c l = Return p.
Proof.
  intro Hm. induction l as [|s l IH]; intro c; simpl.
  - eexists; reflexivity.
  - destruct (mirror_autoPosition_returns f r cs i s Hm) as [p ->]. simpl.
    destruct (IH (match snd p with Some d => Some d | None => c end))
      as [q ->].
    simpl. eexists; reflexivity.
Qed.

Lemma mirror_trackStickers_nth (f : Frame) (r : FaceLandmarkerResult)
  (cs : InteractionState) (i : option string) (l : list StickerItem.t) :
  forall c l' c' n s,
    MirrorApp.trackStickers f r cs i c l = Return (l', c') ->
    nth_error l n = Some s ->
    exists s' d, nth_error l' n = Some s'
                 /\ MirrorApp.autoPosition f r cs i s = Return (s', d).
Proof.
  induction l as [|s0 l IH]; intros c l' c' n s E Hn.
  - destruct n; discriminate.
  - simpl in E.
    destruct (MirrorApp.autoPosition f r cs i s0) as [[s1 d1]|] eqn:A;
      simpl in E; [|discriminate].
    destruct (MirrorApp.trackStickers f r cs i _ l) as [[l1 c1]|] eqn:T;
      simpl in E; [|discriminate].
    injection E as <- _.
    destruct n as [|n]; simpl in Hn.
    + injection Hn as <-. exists s1, d1. split; [reflexivity|exact A].
    + simpl. exact (IH _ _ _ _ _ T Hn).
Qed.

End MirrorTracking.

Section GameAnchoring.
Context {M : MathLib}.

Lemma game_anchorDataMap_complete (r : FaceLandmarkerResult) :
  completeMesh r = true ->
  exists m,
    GameApp.anchorDataMap r = Return m
    /\ forall ty, ty <> none ->
         exists d, GameApp.lookupAnchor m ty = Some d
                   /\ getAnchorData r (anchorKey ty) = Return (Some d).
Proof.
  intro Hm. unfold GameApp.anchorDataMap.
  destruct (getAnchorData_known M r head Hm) as [dh Hh]; [discriminate|].
  destruct (getAnchorData_known M r eyes Hm) as [de He]; [discriminate|].
  destruct (getAnchorData_known M r face Hm) as [df Hf]; [discriminate|].
  destruct (getAnchorData_known M r body Hm) as [db Hb]; [discriminate|].
  simpl in Hh, He, Hf, Hb. rewrite Hh, He, Hf, Hb. simpl.
  eexists. split; [reflexivity|].
  intros ty Hty. destruct ty; simpl; try (eexists; split; [reflexivity|]);
    try assumption.
  contradiction.
Qed.

End GameAnchoring.

(** C1, as amended.  Take a frame that sees a complete face mesh and a
    sticker of the store whose [anchorType] is not ['none'] and which is
    not the one held through [interactingIdRef].  In [MirrorApp] (and
    [ArcadeApp], which runs the same pass), provided no drag is in
    progress and the sticker has no lifespan, the pass returns and puts
    the sticker at the mirrored screen position of the sample for its
    anchor type plus its stored [anchorOffset].  In [GameApp], provided
    the sticker is not the target of a drag, the pass returns and puts it
    at the mirrored position plus the stored offset scaled by a tenth of
    the video size.  The pass is a function of the frame and the state:
    the same inputs give the same result. *)
Theorem anchoring_position (M : MathLib) (f : Frame)
  (r : FaceLandmarkerResult) (cs : InteractionState) (a : AppState)
  (n : nat) (s : StickerItem.t) :
  faceResult f = Some r ->
  completeMesh r = true ->
  nth_error (stickers a) n = Some s ->
  StickerItem.anchorType s <> none ->
  interactingIdRef a <> Some (StickerItem.id s) ->
  (status cs <> dragging ->
   truthy (StickerItem.lifespan s) = false ->
   exists a' s' d,
     MirrorApp.faceTracking f cs a = Return a'
     /\ nth_error (stickers a') n = Some s'
     /\ getAnchorData r (anchorKey (StickerItem.anchorType s))
        = Return (Some d)
     /\ StickerItem.x s' = mirroredX d f + Pt.x (StickerItem.anchorOffset s)
     /\ StickerItem.y s' = mirroredY d f + Pt.y (StickerItem.anchorOffset s))
  /\ (~ (status cs = dragging /\ targetId cs = Some (StickerItem.id s)) ->
      exists a' s' d,
        GameApp.faceAnchoring f cs a = Return a'
        /\ nth_error (stickers a') n = Some s'
        /\ getAnchorData r (anchorKey (StickerItem.anchorType s))
           = Return (Some d)
        /\ StickerItem.x s'
           = mirroredX d f
             + Pt.x (StickerItem.anchorOffset s) * rectWidth f * 0.1
        /\ StickerItem.y s'
           = mirroredY d f
             + Pt.y (StickerItem.anchorOffset s) * rectHeight f * 0.1)
  /\ (forall a1 a2,
        MirrorApp.faceTracking f cs a = Return a1 ->
        MirrorApp.faceTracking f cs a = Return a2 -> a1 = a2)
  /\ (forall a1 a2,
        GameApp.faceAnchoring f cs a = Return a1 ->
        GameApp.faceAnchoring f cs a = Return a2 -> a1 = a2).
Proof.
  intros Hf Hm Hn Hty Hi.
  assert (Hne : exists x xs, faceLandmarks r = x :: xs).
  { unfold completeMesh in Hm. destruct (faceLandmarks r) as [|x xs];
      [discriminate|]. eauto. }
  destruct Hne as [x [xs Hx]].
  split; [|split; [|split]].
  - intros Hcs Hl.
    unfold MirrorApp.faceTracking. rewrite Hf, Hx.
    destruct (mirror_trackStickers_returns f r cs (interactingIdRef a)
                (stickers a) Hm (lastFaceDataRef a)) as [[l' c'] T].
    rewrite T. simpl.
    destruct (mirror_trackStickers_nth _ _ _ _ _ _ _ _ _ _ T Hn)
      as [s' [d0 [Hn' A]]].
    destruct (mirror_autoPosition_moves f r cs (interactingIdRef a) s
                Hm Hty Hi Hcs Hl) as [d [Hd A']].
    rewrite A' in A. injection A as <- _.
    eexists. exists (StickerItem.with_transform s
                       (mirroredX d f + Pt.x (StickerItem.anchorOffset s))
                       (mirroredY d f + Pt.y (StickerItem.anchorOffset s))
                       ((AnchorData.scale d * rectWidth f / 100)
                        * StickerItem.baseScale s)
                       (StickerItem.baseRotation s - AnchorData.rotation d)).
    exists d.
    split; [reflexivity|]. split; [exact Hn'|]. split; [exact Hd|].
    split; reflexivity.
  - intros Hdrag.
    unfold GameApp.faceAnchoring. rewrite Hf, Hx.
    destruct (game_anchorDataMap_complete r Hm) as [m [Em Hlook]].
    rewrite Em. simpl.
    destruct (Hlook _ Hty) as [d [Hl Hd]].
    eexists. eexists. exists d.
    split; [reflexivity|].
    cbn [stickers setStickers].
    assert (Hid : interactingIdRef
                    (match GameApp.map_face m with
                     | Some d0 => setLastFaceDataRef (Some d0) a
                     | None => a
                     end) = interactingIdRef a).
    { destruct (GameApp.map_face m); reflexivity. }
    assert (Hst : stickers
                    (match GameApp.map_face m with
                     | Some d0 => setLastFaceDataRef (Some d0) a
                     | None => a
                     end) = stickers a).
    { destruct (GameApp.map_face m); reflexivity. }
    rewrite Hid, Hst.
    split.
    { rewrite nth_error_map, Hn. simpl. reflexivity. }
    split; [exact Hd|].
    unfold GameApp.anchorSticker.
    rewrite (proj2 (optStrEq_false _ _ Hi)).
    assert (Hg : Status_eqb (status cs) dragging
                 && optStrEq (targetId cs) (Some (StickerItem.id s)) = false).
    { destruct (Status_eqb (status cs) dragging) eqn:E1; [|reflexivity].
      simpl. destruct (targetId cs) as [j|] eqn:E2; [|reflexivity].
      simpl. apply String.eqb_neq. intro Hj. apply Hdrag. split.
      - destruct (status cs); try discriminate. reflexivity.
      - congruence. }
    rewrite Hg, (AnchorType_eqb_none _ Hty), Hl. simpl.
    split; reflexivity.
  - intros a1 a2 H1 H2. congruence.
  - intros a1 a2 H1 H2. congruence.
Qed.

Lemma anchoring_position_witness :
  exists a' s',
    GameApp.faceAnchoring (M := scenarioMath) faceFrame idleState crownOnly
    = Return a'
    /\ nth_error (stickers a') 0 = Some s'
    /\ StickerItem.x s' == 320
    /\ StickerItem.y s' == 96 - 38.4.
Proof.
  destruct (proj1 (proj2
              (anchoring_position scenarioMath faceFrame scenarioFace
                 idleState crownOnly 0 crownSticker
                 eq_refl eq_refl eq_refl
                 ltac:(discriminate) ltac:(discriminate))))
    as [a' [s' [d [E [Hn [Hd [Hx Hy]]]]]]].
  - intros [H _]. discriminate.
  - exists a', s'. split; [exact E|]. split; [exact Hn|].
    vm_compute in Hd. injection Hd as <-.
    rewrite Hx, Hy. split; reflexivity.
Defined.

Lemma anchoring_position_counterexample :
  (exists a' s' d,
     GameApp.faceAnchoring (M := scenarioMath) faceFrame idleState crownOnly
     = Return a'
     /\ stickers a' = [s']
     /\ StickerItem.anchorType crownSticker = head
     /\ getAnchorData (M := scenarioMath) scenarioFace "head" = Return (Some d)
     /\ ~ (StickerItem.y s'
           == mirroredY d faceFrame
              + Pt.y (StickerItem.anchorOffset crownSticker)))
  /\ (exists a' s' d,
        MirrorApp.faceTracking (M := scenarioMath) faceFrame draggingHat
          maskAndHat = Return a'
        /\ nth_error (stickers a') 0 = Some s'
        /\ StickerItem.anchorType maskSticker = face
        /\ interactingIdRef maskAndHat <> Some (StickerItem.id maskSticker)
        /\ targetId draggingHat <> Some (StickerItem.id maskSticker)
        /\ getAnchorData (M := scenarioMath) scenarioFace "face"
           = Return (Some d)
        /\ ~ (StickerItem.x s'
              == mirroredX d faceFrame
                 + Pt.x (StickerItem.anchorOffset maskSticker))).
Proof.
  split.
  - eexists. eexists. eexists.
    split; [vm_compute; reflexivity|].
    split; [reflexivity|]. split; [reflexivity|].
    split; [vm_compute; reflexivity|].
    vm_compute. intro H. discriminate.
  - eexists. eexists. eexists.
    split; [vm_compute; reflexivity|].
    split; [reflexivity|]. split; [reflexivity|].
    split; [discriminate|]. split; [discriminate|].
    split; [vm_compute; reflexivity|].
    vm_compute. intro H. discriminate.
Qed.

(** ** Resolving the element under the cursor *)

Section MirrorTargets.
Context {M : MathLib}.

(** The scan of [MirrorApp] returns the first of the nearest among the
    scanned stickers that lie inside the radius. *)
Lemma mirror_closest_fold (cx cy : Q) (l : list StickerItem.t) :
  match fold_left (MirrorApp.closestStep cx cy) l (None, None) with
  | (Some i, Some m) =>
      exists pre s post,
        l = pre ++ s :: post
        /\ StickerItem.id s = i
        /\ MirrorApp.distanceTo cx cy s = m
        /\ m < INTERACTION_RADIUS
        /\ (forall s', In s' pre -> m < MirrorApp.distanceTo cx cy s')
        /\ (forall s', In s' post -> m <= MirrorApp.distanceTo cx cy s')
  | (None, None) =>
      forall s', In s' l -> INTERACTION_RADIUS <= MirrorApp.distanceTo cx cy s'
  | _ => False
  end.
Proof.
  induction l as [|x l IH] using rev_ind.
  - simpl. intros s' [].
  - rewrite fold_left_app. simpl.
    destruct (fold_left (MirrorApp.closestStep cx cy) l (None, None))
      as [[i|] [m|]]; try contradiction.
    + destruct IH as [pre [s [post [Hl [Hi [Hm [Hr [Hpre Hpost]]]]]]]].
      subst m.
      unfold MirrorApp.closestStep. simpl.
      destruct (Qltb (MirrorApp.distanceTo cx cy x) INTERACTION_RADIUS) eqn:E1;
        simpl.
      * destruct (Qltb (MirrorApp.distanceTo cx cy x)
                       (MirrorApp.distanceTo cx cy s)) eqn:E2.
        -- apply Qltb_lt in E1, E2.
           exists l, x, []. split; [reflexivity|].
           do 3 (split; [reflexivity || assumption|]).
           split; [|intros s' []].
           intros s' Hin. rewrite Hl in Hin. apply in_app_or in Hin.
           destruct Hin as [Hin | [<- | Hin]].
           ++ specialize (Hpre _ Hin). lra.
           ++ lra.
           ++ specialize (Hpost _ Hin). lra.
        -- apply Qltb_ge in E2.
           exists pre, s, (post ++ [x]). split.
           { rewrite Hl, <- app_assoc. reflexivity. }
           do 4 (split; [reflexivity || assumption|]).
           intros s' Hin. apply in_app_or in Hin.
           destruct Hin as [Hin | [<- | []]]; [auto | exact E2].
      * apply Qltb_ge in E1.
        exists pre, s, (post ++ [x]). split.
        { rewrite Hl, <- app_assoc. reflexivity. }
        do 4 (split; [reflexivity || assumption|]).
        intros s' Hin. apply in_app_or in Hin.
        destruct Hin as [Hin | [<- | []]]; [auto | lra].
    + unfold MirrorApp.closestStep. simpl.
      rewrite andb_true_r.
      destruct (Qltb (MirrorApp.distanceTo cx cy x) INTERACTION_RADIUS) eqn:E1.
      * apply Qltb_lt in E1.
        exists l, x, []. split; [reflexivity|].
        do 3 (split; [reflexivity || assumption|]).
        split; [|intros s' []].
        intros s' Hin. specialize (IH _ Hin). lra.
      * apply Qltb_ge in E1.
        intros s' Hin. apply in_app_or in Hin.
        destruct Hin as [Hin | [<- | []]]; [auto | exact E1].
Qed.

Lemma mirror_closestSticker_spec (cx cy : Q) (cur : list StickerItem.t)
  (i : string) :
  MirrorApp.closestSticker cx cy cur = Some i ->
  exists pre s post,
    MirrorApp.interactableStickers cur = pre ++ s :: post
    /\ StickerItem.id s = i
    /\ MirrorApp.distanceTo cx cy s < INTERACTION_RADIUS
    /\ (forall s', In s' pre ->
          MirrorApp.distanceTo cx cy s < MirrorApp.distanceTo cx cy s')
    /\ (forall s', In s' post ->
          MirrorApp.distanceTo cx cy s <= MirrorApp.distanceTo cx cy s').
Proof.
  unfold MirrorApp.closestSticker. intro H.
  pose proof (mirror_closest_fold cx cy (MirrorApp.interactableStickers cur))
    as F.
  destruct (fold_left _ _ _) as [[j|] [m|]]; simpl in H; try discriminate;
    try contradiction.
  injection H as ->.
  destruct F as [pre [s [post [Hl [Hi [Hm [Hr [Hpre Hpost]]]]]]]].
  exists pre, s, post. rewrite Hm. auto.
Qed.


(** A sticker that the scan of [MirrorApp] picks has no lifespan. *)
Lemma mirror_closestSticker_permanent (cx cy : Q)
  (cur : list StickerItem.t) (i : string) :
  MirrorApp.closestSticker cx cy cur = Some i ->
  exists s, In s cur /\ StickerItem.id s = i
            /\ truthy (StickerItem.lifespan s) = false.
Proof.
  intro H.
  destruct (mirror_closestSticker_spec cx cy cur i H)
    as [pre [s [post [Hl [Hi _]]]]].
  assert (Hin : In s (MirrorApp.interactableStickers cur)).
  { rewrite Hl. apply in_or_app. right. left. reflexivity. }
  unfold MirrorApp.interactableStickers in Hin.
  apply filter_In in Hin. destruct Hin as [Hin Hl'].
  exists s. split; [exact Hin|]. split; [exact Hi|].
  apply negb_true_iff. exact Hl'.
Qed.

End MirrorTargets.

Section GameTargets.
Context {M : MathLib}.


End GameTargets.



Lemma eqb_empty_false (i : string) : i <> "" -> negb (String.eqb i "") = true.
Proof. intro H. apply negb_true_iff. apply String.eqb_neq. exact H. Qed.

Section TargetsComplete.
Context {M : MathLib}.







End TargetsComplete.




(** ** Starting the game *)

(** C7, as amended.  Activating the game resets the score to 0 and clears
    the coins in both versions that have a game.  The game button of
    [GameApp] also removes every sticker that is not a face and keeps the
    faces.  [handleStartGame] of [ArcadeApp] activates the game only when
    a face sticker is present, and leaves the sticker store as it is. *)
Theorem game_activation (a : AppState) :
  (isPlaying a = false ->
   isPlaying (GameApp.toggleGame a) = true
   /\ score (GameApp.toggleGame a) = 0
   /\ scoreRef (GameApp.toggleGame a) = 0
   /\ coins (GameApp.toggleGame a) = []
   /\ stickers (GameApp.toggleGame a) = filter isFace (stickers a)
   /\ (forall s, In s (stickers (GameApp.toggleGame a))
                 <-> In s (stickers a) /\ StickerItem.category s = faces))
  /\ (existsb isFace (stickers a) = true ->
      isPlaying (ArcadeApp.handleStartGame a) = true
      /\ score (ArcadeApp.handleStartGame a) = 0
      /\ scoreRef (ArcadeApp.handleStartGame a) = 0
      /\ coins (ArcadeApp.handleStartGame a) = []
      /\ stickers (ArcadeApp.handleStartGame a) = stickers a)
  /\ (existsb isFace (stickers a) = false ->
      ArcadeApp.handleStartGame a = a).
Proof.
  split; [|split].
  - intro Hp. unfold GameApp.toggleGame. rewrite Hp. simpl.
    repeat (split; [reflexivity|]).
    intro s. rewrite filter_In. unfold isFace.
    split; intros [H1 H2]; (split; [exact H1|]).
    + destruct (StickerItem.category s); try discriminate. reflexivity.
    + rewrite H2. reflexivity.
  - intro Hf. unfold ArcadeApp.handleStartGame. rewrite Hf. simpl.
    repeat (split; [reflexivity|]). reflexivity.
  - intro Hf. unfold ArcadeApp.handleStartGame. rewrite Hf. reflexivity.
Qed.

Lemma game_activation_witness :
  isPlaying dressedUp = false
  /\ isPlaying (GameApp.toggleGame dressedUp) = true
  /\ score (GameApp.toggleGame dressedUp) = 0
  /\ coins (GameApp.toggleGame dressedUp) = []
  /\ map StickerItem.content (stickers (GameApp.toggleGame dressedUp))
     = ["SVG_ASSETS.rabbit_face"].
Proof.
  split; [reflexivity|].
  destruct (proj1 (game_activation dressedUp) eq_refl)
    as [Hp [Hs [_ [Hc [Hst _]]]]].
  split; [exact Hp|]. split; [exact Hs|]. split; [exact Hc|].
  rewrite Hst. reflexivity.
Defined.

Lemma game_activation_counterexample :
  isPlaying dressedUp = false
  /\ isPlaying (ArcadeApp.handleStartGame dressedUp) = true
  /\ exists s, In s (stickers (ArcadeApp.handleStartGame dressedUp))
               /\ StickerItem.category s = hats.
Proof.
  split; [reflexivity|]. split; [reflexivity|].
  exists (MirrorApp.newItem (quietFrame 10) crown None None).
  split; [right; left; reflexivity | reflexivity].
Qed.

(** ** Losing the hand *)

Section HandLost.
Context {M : MathLib}.

Lemma play_keeps (f : Frame) (a a' : AppState) :
  Game.play f a = Return a' ->
  interactionState a' = interactionState a
  /\ interactingIdRef a' = interactingIdRef a
  /\ lastGestureTimeRef a' = lastGestureTimeRef a
  /\ lastHandPosRef a' = lastHandPosRef a
  /\ lastFaceDataRef a' = lastFaceDataRef a
  /\ isPlaying a' = isPlaying a.
Proof.
  unfold Game.play, Game.spawnCoin. intro E.
  destruct (Game.avatarPosition f) as [av|]; simpl in E; [|discriminate].
  injection E as <-. repeat break_match; repeat split; reflexivity.
Qed.

Lemma mirror_faceTracking_keeps (f : Frame) (cs : InteractionState)
  (a a' : AppState) :
  MirrorApp.faceTracking f cs a = Return a' ->
  interactionState a' = interactionState a
  /\ interactingIdRef a' = interactingIdRef a
  /\ lastGestureTimeRef a' = lastGestureTimeRef a
  /\ lastHandPosRef a' = lastHandPosRef a
  /\ isPlaying a' = isPlaying a.
Proof.
  unfold MirrorApp.faceTracking. intro E.
  destruct (faceResult f) as [r|];
    [|injection E as <-; repeat split; reflexivity].
  destruct (faceLandmarks r);
    [injection E as <-; repeat split; reflexivity|].
  destruct (MirrorApp.trackStickers _ _ _ _ _ _) as [p|]; simpl in E;
    [|discriminate].
  injection E as <-. repeat split; reflexivity.
Qed.

Lemma game_faceAnchoring_keeps (f : Frame) (cs : InteractionState)
  (a a' : AppState) :
  GameApp.faceAnchoring f cs a = Return a' ->
  interactionState a' = interactionState a
  /\ interactingIdRef a' = interactingIdRef a
  /\ lastGestureTimeRef a' = lastGestureTimeRef a
  /\ lastHandPosRef a' = lastHandPosRef a
  /\ isPlaying a' = isPlaying a.
Proof.
  unfold GameApp.faceAnchoring. intro E.
  destruct (faceResult f) as [r|];
    [|injection E as <-; repeat split; reflexivity].
  destruct (faceLandmarks r);
    [injection E as <-; repeat split; reflexivity|].
  destruct (GameApp.anchorDataMap r) as [m|]; simpl in E; [|discriminate].
  injection E as <-. destruct (GameApp.map_face m); repeat split; reflexivity.
Qed.

(** In [MirrorApp] a drag in progress is dropped when the hand is lost,
    and the interaction is cleared afterwards. *)
Lemma mirror_handLost_drops (f : Frame) (cs : InteractionState)
  (a : AppState) (i : string) :
  status cs = dragging -> targetId cs = Some i -> i <> "" ->
  targetType cs = sticker ->
  MirrorApp.handLost f cs a
  = setInteractionState (fun _ => idleState) (MirrorApp.handleHandDrop f i a).
Proof.
  intros Hs Ht Hi Hty. unfold MirrorApp.handLost.
  rewrite Hs, Ht, Hty, (eqb_empty_false _ Hi). reflexivity.
Qed.

(** In [MirrorApp] every frame without a hand ends idle. *)
Lemma mirror_loop_no_hand (f : Frame) (a a' : AppState) :
  handResult f = None ->
  MirrorApp.loop f a = Return a' ->
  interactionState a' = idleState.
Proof.
  intros Hh E. unfold MirrorApp.loop, MirrorApp.handProcessing in E.
  rewrite Hh in E. simpl in E.
  apply mirror_faceTracking_keeps in E. destruct E as [E _].
  rewrite E. unfold MirrorApp.handLost. reflexivity.
Qed.

(** So does every frame of [ArcadeApp] that the win check lets through. *)
Lemma arcade_loop_no_hand (captured : list StickerItem.t) (f : Frame)
  (a a' : AppState) :
  handResult f = None ->
  Game.won a = false ->
  ArcadeApp.loop captured f a = Return a' ->
  interactionState a' = idleState.
Proof.
  intros Hh Hw E. unfold ArcadeApp.loop, ArcadeApp.handProcessing in E.
  rewrite Hw, Hh in E.
  destruct (if isPlaying a then Game.play f a else Return a) as [a0|];
    simpl in E; [|discriminate].
  apply mirror_faceTracking_keeps in E. destruct E as [E _].
  rewrite E. unfold MirrorApp.handLost. reflexivity.
Qed.

(** In [GameApp] a frame without a hand leaves the interaction as it is. *)
Lemma game_loop_no_hand (f : Frame) (a a' : AppState) :
  handResult f = None ->
  GameApp.loop f a = Return a' ->
  Game.won a = false ->
  interactionState a' = interactionState a
  /\ interactingIdRef a' = interactingIdRef a.
Proof.
  intros Hh E Hw. unfold GameApp.loop, GameApp.handProcessing in E.
  rewrite Hw, Hh in E.
  destruct (if isPlaying a then Game.play f a else Return a) as [a0|] eqn:G;
    simpl in E; [|discriminate].
  apply game_faceAnchoring_keeps in E. destruct E as [E1 [E2 _]].
  rewrite E1, E2. simpl.
  destruct (isPlaying a).
  - apply play_keeps in G. destruct G as [G1 [G2 _]]. auto.
  - injection G as <-. auto.
Qed.

End HandLost.

(** C6 on [GameApp].  The rabbit is picked up with the hand, and then the
    hand leaves the picture for two frames.  [GameApp] still has the
    interaction in state [dragging] and the sticker still held: its
    interaction logic has no branch for a lost hand.  On the same frames
    [MirrorApp] is idle and has released the sticker. *)
Theorem hand_lost_mid_drag :
  (exists a,
     run (GameApp.react (M := scenarioMath))
         (gameTrace (pickUp ++ handLostMidDrag)) initialState = Return a
     /\ interactionState a
        = mkInteraction dragging (Some "f1_rabbit-1700000000000") sticker
                        (0 # 1500)
     /\ interactingIdRef a = Some "f1_rabbit-1700000000000")
  /\ (exists a,
        run (MirrorApp.react (M := scenarioMath))
            (mirrorTrace (pickUp ++ handLostMidDrag)) initialState = Return a
        /\ interactionState a = idleState
        /\ interactingIdRef a = None).
Proof.
  split.
  - eexists. split; [vm_compute; reflexivity|]. split; reflexivity.
  - eexists. split; [vm_compute; reflexivity|]. split; reflexivity.
Qed.

(** C10 on [GameApp].  With the rabbit face in the store, an open palm
    casts an effect sticker at (160, 120), and the hand then points there.
    [GameApp] makes the effect sticker, which has a lifespan, its hover
    target: its scan reads the whole store.  [MirrorApp], which scans the
    stickers without a lifespan only, stays idle. *)
Theorem effect_sticker_hovered :
  (exists a fx,
     run (GameApp.react (M := scenarioMath)) (gameTrace castThenPoint)
         initialState = Return a
     /\ nth_error (stickers a) 1 = Some fx
     /\ StickerItem.id fx = "fx-1000"
     /\ truthy (StickerItem.lifespan fx) = true
     /\ interactionState a
        = mkInteraction hovering (Some "fx-1000") sticker 0)
  /\ (exists a fx,
        run (MirrorApp.react (M := scenarioMath)) (mirrorTrace castThenPoint)
            initialState = Return a
        /\ nth_error (stickers a) 1 = Some fx
        /\ truthy (StickerItem.lifespan fx) = true
        /\ interactionState a = idleState).
Proof.
  split.
  - eexists. eexists. split; [vm_compute; reflexivity|].
    split; [reflexivity|]. repeat split; reflexivity.
  - eexists. eexists. split; [vm_compute; reflexivity|].
    split; [reflexivity|]. repeat split; reflexivity.
Qed.

(** ** Dropping a sticker *)

Lemma find_hasId_map (i : string) (g : StickerItem.t -> StickerItem.t)
  (l : list StickerItem.t) :
  (forall s, StickerItem.id (g s) = StickerItem.id s) ->
  find (hasId i) (map g l) = option_map g (find (hasId i) l).
Proof.
  intro Hg. induction l as [|s l IH]; simpl; [reflexivity|].
  unfold hasId at 1. rewrite Hg. fold (hasId i s).
  destruct (hasId i s); [reflexivity | exact IH].
Qed.

Section MirrorDrop.
Context {M : MathLib}.

Lemma mirror_autoPosition_id (f : Frame) (r : FaceLandmarkerResult)
  (cs : InteractionState) (i : option string) (s s' : StickerItem.t)
  (d : option AnchorData.t) :
  MirrorApp.autoPosition f r cs i s = Return (s', d) ->
  StickerItem.id s' = StickerItem.id s.
Proof.
  unfold MirrorApp.autoPosition.
  destruct (_ || _ || _ || _).
  - intro E. injection E as <- _. reflexivity.
  - destruct (getAnchorData r _) as [[d0|]|]; simpl; intro E;
      try discriminate; injection E as <- _; reflexivity.
Qed.

Lemma mirror_trackStickers_find (f : Frame) (r : FaceLandmarkerResult)
  (cs : InteractionState) (i : option string) (j : string)
  (l : list StickerItem.t) :
  forall c l' c' s,
    MirrorApp.trackStickers f r cs i c l = Return (l', c') ->
    find (hasId j) l = Some s ->
    exists s' d, find (hasId j) l' = Some s'
                 /\ MirrorApp.autoPosition f r cs i s = Return (s', d).
Proof.
  induction l as [|s0 l IH]; intros c l' c' s E Hf; [discriminate|].
  simpl in E.
  destruct (MirrorApp.autoPosition f r cs i s0) as [[s1 d1]|] eqn:A;
    simpl in E; [|discriminate].
  destruct (MirrorApp.trackStickers f r cs i _ l) as [[l1 c1]|] eqn:T;
    simpl in E; [|discriminate].
  injection E as <- _. simpl in Hf |- *.
  unfold hasId at 1. rewrite (mirror_autoPosition_id _ _ _ _ _ _ _ A).
  fold (hasId j s0).
  destruct (hasId j s0).
  - injection Hf as <-. exists s1, d1. split; [reflexivity | exact A].
  - exact (IH _ _ _ _ T Hf).
Qed.

(** The drop conversion with the cached sample [d0], followed by the face
    tracking pass that samples [d] for the anchor of the sticker. *)
Lemma mirror_drop_then_track_shift (f : Frame) (r : FaceLandmarkerResult)
  (cs : InteractionState) (a : AppState) (i : string)
  (found : StickerItem.t) (d0 d : AnchorData.t) :
  faceResult f = Some r ->
  completeMesh r = true ->
  find (hasId i) (stickers a) = Some found ->
  lastFaceDataRef a = Some d0 ->
  StickerItem.anchorType found <> none ->
  truthy (StickerItem.lifespan found) = false ->
  status cs <> dragging ->
  getAnchorData r (anchorKey (StickerItem.anchorType found))
  = Return (Some d) ->
  ~ AnchorData.scale d0 * rectWidth f == 0 ->
  exists a2 s2,
    MirrorApp.faceTracking f cs (MirrorApp.handleHandDrop f i a) = Return a2
    /\ find (hasId i) (stickers a2) = Some s2
    /\ StickerItem.x s2
       == StickerItem.x found
          + (AnchorData.x d0 - AnchorData.x d) * rectWidth f
    /\ StickerItem.y s2
       == StickerItem.y found
          + (AnchorData.y d - AnchorData.y d0) * rectHeight f
    /\ StickerItem.scale s2
       == StickerItem.scale found * (AnchorData.scale d / AnchorData.scale d0)
    /\ StickerItem.rotation s2
       == StickerItem.rotation found
          + (AnchorData.rotation d0 - AnchorData.rotation d).
Proof.
  intros Hf Hm Hfind Hc Hty Hlife Hcs Hd Hw.
  assert (Hne : exists x xs, faceLandmarks r = x :: xs).
  { unfold completeMesh in Hm. destruct (faceLandmarks r) as [|x xs];
      [discriminate|]. eauto. }
  destruct Hne as [x0 [xs Hx]].
  unfold MirrorApp.faceTracking, MirrorApp.handleHandDrop. rewrite Hf, Hx.
  cbn [stickers setStickers setInteractingIdRef lastFaceDataRef
       interactingIdRef].
  rewrite Hc.
  destruct (mirror_trackStickers_returns f r cs None
              (MirrorApp.dropConversion f i (Some d0) (stickers a)) Hm
              (Some d0)) as [[l' c'] T].
  rewrite T. simpl.
  unfold MirrorApp.dropConversion in T. rewrite Hfind in T.
  match type of T with
  | MirrorApp.trackStickers _ _ _ _ _ (map ?g _) = _ => set (conv := g) in T
  end.
  assert (Hfind' : find (hasId i) (map conv (stickers a)) = Some (conv found)).
  { rewrite find_hasId_map; [rewrite Hfind; reflexivity|].
    intro s. unfold conv. destruct (hasId i s); reflexivity. }
  destruct (mirror_trackStickers_find _ _ _ _ _ _ _ _ _ _ T Hfind')
    as [s2 [d2 [Hs2 A]]].
  eexists. exists s2. split; [reflexivity|]. split; [exact Hs2|].
  assert (Hid : hasId i found = true).
  { apply find_some in Hfind. apply Hfind. }
  unfold conv in A. rewrite Hid in A.
  unfold MirrorApp.autoPosition in A. simpl in A.
  rewrite (AnchorType_eqb_none _ Hty), (Status_eqb_false _ _ Hcs), Hlife in A.
  simpl in A. rewrite Hd in A.
  simpl in A. injection A as <- _. simpl.
  split; [ring|]. split; [ring|]. split; [|ring].
  field. split; intro H; apply Hw; rewrite H; ring.
Qed.

(** The sample that the tracking pass leaves in [lastFaceDataRef] is the
    one of the last sticker it positions, whatever its anchor type. *)
Lemma mirror_trackStickers_cache (f : Frame) (r : FaceLandmarkerResult)
  (cs : InteractionState) (i : option string) (pre : list StickerItem.t)
  (s s' : StickerItem.t) (d : AnchorData.t) :
  forall c l' c',
    MirrorApp.trackStickers f r cs i c (pre ++ [s]) = Return (l', c') ->
    MirrorApp.autoPosition f r cs i s = Return (s', Some d) ->
    c' = Some d.
Proof.
  induction pre as [|s0 pre IH]; intros c l' c' E A.
  - cbn [app MirrorApp.trackStickers] in E. rewrite A in E.
    cbn [bind fst snd] in E. injection E as _ <-. reflexivity.
  - cbn [app MirrorApp.trackStickers] in E.
    destruct (MirrorApp.autoPosition f r cs i s0) as [p|]; cbn [bind] in E;
      [|discriminate].
    destruct (MirrorApp.trackStickers f r cs i _ (pre ++ [s]))
      as [[l1 c1]|] eqn:T; cbn [bind fst snd] in E; [|discriminate].
    injection E as _ <-. exact (IH _ _ _ T A).
Qed.

End MirrorDrop.

(** C3 on [GameApp].  The rabbit, anchored on the face at (320, 240), is
    picked up with the hand, carried to (480, 120) and held there until it
    drops; then the hand goes away while the face stays where it was.  In
    [GameApp] the drop leaves the binding of the sticker untouched
    ([handleHandDrop] only clears the refs), and the next anchoring pass
    puts the sticker back at (320, 240).  On the same frames [MirrorApp]
    converts the position into an offset, and the sticker stays at
    (480, 120) with its scale and rotation. *)
Theorem dropped_sticker_snaps_back :
  (exists a b s t,
     run (GameApp.react (M := scenarioMath)) (gameTrace (pickUp ++ holdStill))
         initialState = Return a
     /\ interactionState a = idleState
     /\ stickers a = [s]
     /\ StickerItem.x s == 480 /\ StickerItem.y s == 120
     /\ Pt.x (StickerItem.anchorOffset s) == 0
     /\ Pt.y (StickerItem.anchorOffset s) == 0
     /\ run (GameApp.react (M := scenarioMath))
            (gameTrace (pickUp ++ holdStill ++ handAway)) initialState
        = Return b
     /\ stickers b = [t]
     /\ StickerItem.x t == 320 /\ StickerItem.y t == 240)
  /\ (exists a b s t,
        run (MirrorApp.react (M := scenarioMath))
            (mirrorTrace (pickUp ++ holdStill)) initialState = Return a
        /\ interactionState a = idleState
        /\ stickers a = [s]
        /\ StickerItem.x s == 480 /\ StickerItem.y s == 120
        /\ Pt.x (StickerItem.anchorOffset s) == 160
        /\ Pt.y (StickerItem.anchorOffset s) == -120
        /\ run (MirrorApp.react (M := scenarioMath))
               (mirrorTrace (pickUp ++ holdStill ++ handAway)) initialState
           = Return b
        /\ stickers b = [t]
        /\ StickerItem.x t == 480 /\ StickerItem.y t == 120
        /\ StickerItem.scale t == StickerItem.scale s
        /\ StickerItem.rotation t == StickerItem.rotation s).
Proof.
  split.
  - eexists. eexists. eexists. eexists.
    split; [vm_compute; reflexivity|]. split; [reflexivity|].
    split; [reflexivity|].
    do 4 (split; [vm_compute; reflexivity|]).
    split; [vm_compute; reflexivity|]. split; [reflexivity|].
    split; vm_compute; reflexivity.
  - eexists. eexists. eexists. eexists.
    split; [vm_compute; reflexivity|]. split; [reflexivity|].
    split; [reflexivity|].
    do 4 (split; [vm_compute; reflexivity|]).
    split; [vm_compute; reflexivity|]. split; [reflexivity|].
    do 3 (split; [vm_compute; reflexivity|]).
    vm_compute; reflexivity.
Qed.

(** ** The cool-down of the swipe *)

(** Along a run whose steps obey the cool-down, the log is spaced. *)
Section Cooldown.
Variable Event : Type.
Variable react : Event -> AppState -> outcome AppState.
Variable swipeAt : Event -> AppState -> option (Q * SwipeAction).
Variable c : Q.

Hypothesis fires_after :
  forall e a t act, swipeAt e a = Some (t, act) -> c < t - lastGestureTimeRef a.

Hypothesis stamps :
  forall e a a', react e a = Return a' ->
    lastGestureTimeRef a'
    = match swipeAt e a with
      | Some (t, _) => t
      | None => lastGestureTimeRef a
      end.

Lemma swipeLog_spaced (events : list Event) :
  forall a, spaced c (lastGestureTimeRef a) (swipeLog react swipeAt events a).
Proof.
  induction events as [|e rest IH]; intro a; simpl; [exact I|].
  destruct (react e a) as [a'|] eqn:R; [|exact I].
  pose proof (stamps _ _ _ R) as S.
  destruct (swipeAt e a) as [[t act]|] eqn:W.
  - simpl. split; [exact (fires_after _ _ _ _ W)|].
    rewrite <- S. apply IH.
  - rewrite <- S. apply IH.
Qed.

End Cooldown.

Section SwipeSteps.
Context {M : MathLib}.

Lemma mirror_recognize_cooldown (f : Frame) (g : Gesture) (a : AppState)
  (act : SwipeAction) :
  MirrorApp.recognizeSwipe f g a = Some act ->
  MirrorApp.GESTURE_COOLDOWN_MS < now f - lastGestureTimeRef a.
Proof.
  unfold MirrorApp.recognizeSwipe. intro H.
  destruct (lastHandPosRef a); [|discriminate].
  destruct (Qltb MirrorApp.GESTURE_COOLDOWN_MS _) eqn:E; [|discriminate].
  apply Qltb_lt. exact E.
Qed.

Lemma game_recognize_cooldown (f : Frame) (g : Gesture)
  (cur : list StickerItem.t) (a : AppState) (act : SwipeAction) :
  GameApp.recognizeSwipe f g cur a = Some act ->
  GameApp.GESTURE_COOLDOWN_MS < now f - lastGestureTimeRef a.
Proof.
  unfold GameApp.recognizeSwipe. intro H.
  destruct (lastHandPosRef a); [|discriminate].
  destruct (Qltb GameApp.GESTURE_COOLDOWN_MS _) eqn:E;
    [|simpl in H; discriminate].
  apply Qltb_lt. exact E.
Qed.

Lemma mirror_performSwipe_stamp (f : Frame) (act : option SwipeAction)
  (a a' : AppState) :
  MirrorApp.performSwipe f act a = Return a' ->
  lastGestureTimeRef a'
  = match act with Some _ => now f | None => lastGestureTimeRef a end
  /\ lastHandPosRef a' = lastHandPosRef a
  /\ isPlaying a' = isPlaying a
  /\ interactionState a' = interactionState a.
Proof.
  destruct act as [[|]|]; simpl; intro E.
  - injection E as <-. repeat split; reflexivity.
  - destruct (MirrorApp.cycleAnimalFace f (stickers a)); simpl in E;
      [|discriminate].
    injection E as <-. repeat split; reflexivity.
  - injection E as <-. repeat split; reflexivity.
Qed.

Lemma game_performSwipe_stamp (f : Frame) (act : option SwipeAction)
  (a a' : AppState) :
  GameApp.performSwipe f act a = Return a' ->
  lastGestureTimeRef a'
  = match act with Some _ => now f | None => lastGestureTimeRef a end
  /\ lastHandPosRef a' = lastHandPosRef a
  /\ isPlaying a' = isPlaying a
  /\ interactionState a' = interactionState a.
Proof.
  destruct act as [[|]|]; simpl; intro E.
  - injection E as <-. repeat split; reflexivity.
  - destruct (GameApp.cycleAnimalFace f (stickers a)); simpl in E;
      [|discriminate].
    injection E as <-. repeat split; reflexivity.
  - injection E as <-. repeat split; reflexivity.
Qed.

Ltac fields_auto :=
  repeat break_match;
  cbn [lastGestureTimeRef lastHandPosRef isPlaying setStickers
       setActiveStickerId setSelectedCategory setInteractionState
       setIsPlaying setScore setCoins setShowWinModal setInteractingIdRef
       setLastFaceDataRef setHoverStartTimeRef setDropStartTimeRef
       setLastEffectSpawnTimeRef setLastGestureTimeRef setLastHandPosRef
       setScoreRef setLastCoinSpawnTimeRef fst snd];
  repeat split; reflexivity.

Lemma mirror_interactionLogic_keeps (f : Frame) (g : option Gesture)
  (cur : list StickerItem.t) (cs : InteractionState) (a : AppState) :
  lastGestureTimeRef (MirrorApp.interactionLogic f g cur cs a)
  = lastGestureTimeRef a
  /\ lastHandPosRef (MirrorApp.interactionLogic f g cur cs a)
     = lastHandPosRef a
  /\ isPlaying (MirrorApp.interactionLogic f g cur cs a) = isPlaying a.
Proof.
  unfold MirrorApp.interactionLogic, MirrorApp.handInteraction,
    MirrorApp.handLost, MirrorApp.hoverLogic, MirrorApp.spawnEffect,
    MirrorApp.handleHandDrop, MirrorApp.handleAddSticker.
  fields_auto.
Qed.

Lemma mirror_handInteraction_keeps (f : Frame) (g : Gesture)
  (cur : list StickerItem.t) (cs : InteractionState) (a : AppState) :
  lastGestureTimeRef (MirrorApp.handInteraction f g cur cs a)
  = lastGestureTimeRef a
  /\ lastHandPosRef (MirrorApp.handInteraction f g cur cs a)
     = lastHandPosRef a
  /\ isPlaying (MirrorApp.handInteraction f g cur cs a) = isPlaying a.
Proof. exact (mirror_interactionLogic_keeps f (Some g) cur cs a). Qed.

Lemma mirror_handLost_keeps (f : Frame) (cs : InteractionState)
  (a : AppState) :
  lastGestureTimeRef (MirrorApp.handLost f cs a) = lastGestureTimeRef a
  /\ lastHandPosRef (MirrorApp.handLost f cs a) = lastHandPosRef a
  /\ isPlaying (MirrorApp.handLost f cs a) = isPlaying a.
Proof. exact (mirror_interactionLogic_keeps f None [] cs a). Qed.

Lemma game_interactionLogic_keeps (f : Frame) (g : option Gesture)
  (cur : list StickerItem.t) (cs : InteractionState) (a : AppState) :
  lastGestureTimeRef (GameApp.interactionLogic f g cur cs a)
  = lastGestureTimeRef a
  /\ lastHandPosRef (GameApp.interactionLogic f g cur cs a)
     = lastHandPosRef a
  /\ isPlaying (GameApp.interactionLogic f g cur cs a) = isPlaying a.
Proof.
  unfold GameApp.interactionLogic, GameApp.hoverLogic,
    GameApp.handleHandDrop, GameApp.handleSelectAsset.
  fields_auto.
Qed.

Lemma game_spawnEffect_keeps (f : Frame) (g : Gesture)
  (cur : list StickerItem.t) (a : AppState) :
  lastGestureTimeRef (GameApp.spawnEffect f g cur a) = lastGestureTimeRef a
  /\ lastHandPosRef (GameApp.spawnEffect f g cur a) = lastHandPosRef a
  /\ isPlaying (GameApp.spawnEffect f g cur a) = isPlaying a.
Proof. unfold GameApp.spawnEffect. fields_auto. Qed.

End SwipeSteps.

Section SwipeStamps.
Context {M : MathLib}.

Lemma mirror_loop_stamp (f : Frame) (a a' : AppState) :
  MirrorApp.loop f a = Return a' ->
  lastGestureTimeRef a'
  = match MirrorApp.swipeAt (MirrorApp.Tick f) a with
    | Some (t, _) => t
    | None => lastGestureTimeRef a
    end
  /\ lastHandPosRef a' = option_map knuckle (handResult f).
Proof.
  unfold MirrorApp.loop, MirrorApp.handProcessing, MirrorApp.swipeAt.
  intro E. destruct (handResult f) as [h|].
  - set (g := classify h (rectWidth f) (rectHeight f)) in *.
    change (MirrorApp.recognizeSwipe f g
              (setStickers (lifecycle MirrorApp.EFFECT_FADE_DURATION (now f)) a))
      with (MirrorApp.recognizeSwipe f g a) in E.
    destruct (MirrorApp.performSwipe f (MirrorApp.recognizeSwipe f g a) _)
      as [a1|] eqn:P; simpl in E; [|discriminate].
    apply mirror_performSwipe_stamp in P. destruct P as [P1 [P2 _]].
    apply mirror_faceTracking_keeps in E. destruct E as [_ [_ [E1 [E2 _]]]].
    match type of E1 with
    | _ = lastGestureTimeRef (MirrorApp.handInteraction ?f0 ?g0 ?c0 ?s0 ?x0) =>
        destruct (mirror_handInteraction_keeps f0 g0 c0 s0 x0) as [K1 [K2 _]]
    end.
    rewrite K1 in E1. rewrite K2 in E2. simpl in E1, E2.
    split; [|exact E2].
    rewrite E1, P1. destruct (MirrorApp.recognizeSwipe f g a); reflexivity.
  - simpl in E.
    apply mirror_faceTracking_keeps in E. destruct E as [_ [_ [E1 [E2 _]]]].
    match type of E1 with
    | _ = lastGestureTimeRef (MirrorApp.handLost ?f0 ?s0 ?x0) =>
        destruct (mirror_handLost_keeps f0 s0 x0) as [K1 [K2 _]]
    end.
    rewrite K1 in E1. rewrite K2 in E2.
    split; assumption.
Qed.

Lemma mirror_react_stamp (e : MirrorApp.Event) (a a' : AppState) :
  MirrorApp.react e a = Return a' ->
  lastGestureTimeRef a'
  = match MirrorApp.swipeAt e a with
    | Some (t, _) => t
    | None => lastGestureTimeRef a
    end.
Proof.
  destruct e; try (simpl; intro E; injection E as <-);
    try reflexivity.
  - intro E. exact (proj1 (mirror_loop_stamp _ _ _ E)).
  - unfold MirrorApp.handleDeleteSticker. repeat break_match; reflexivity.
Qed.

Lemma mirror_swipeAt_cooldown (e : MirrorApp.Event) (a : AppState) (t : Q)
  (act : SwipeAction) :
  MirrorApp.swipeAt e a = Some (t, act) ->
  MirrorApp.GESTURE_COOLDOWN_MS < t - lastGestureTimeRef a.
Proof.
  destruct e; simpl; try discriminate.
  destruct (handResult f) as [h|]; [|discriminate].
  destruct (MirrorApp.recognizeSwipe f _ a) as [act'|] eqn:R; [|discriminate].
  intro E. injection E as <- _.
  exact (mirror_recognize_cooldown _ _ _ _ R).
Qed.

Lemma arcade_loop_stamp (captured : list StickerItem.t) (f : Frame)
  (a a' : AppState) :
  ArcadeApp.loop captured f a = Return a' ->
  lastGestureTimeRef a'
  = match ArcadeApp.swipeAt (ArcadeApp.Tick captured f) a with
    | Some (t, _) => t
    | None => lastGestureTimeRef a
    end.
Proof.
  unfold ArcadeApp.loop, ArcadeApp.handProcessing, ArcadeApp.swipeAt.
  intro E. destruct (Game.won a); [injection E as <-; reflexivity|].
  destruct (if isPlaying a then Game.play f a else Return a) as [a0|] eqn:G;
    simpl in E; [|discriminate].
  assert (K : lastGestureTimeRef a0 = lastGestureTimeRef a
              /\ lastHandPosRef a0 = lastHandPosRef a
              /\ isPlaying a0 = isPlaying a).
  { destruct (isPlaying a) eqn:Hp.
    - apply play_keeps in G. destruct G as [_ [_ [G1 [G2 [_ G3]]]]].
      rewrite Hp in G3. auto.
    - injection G as <-. auto. }
  destruct K as [K1 [K2 K3]].
  destruct (handResult f) as [h|].
  - set (g := classify h (rectWidth f) (rectHeight f)) in *.
    assert (R : ArcadeApp.recognizeSwipe f g
                  (setStickers
                     (lifecycle ArcadeApp.EFFECT_FADE_DURATION (now f)) a0)
                = ArcadeApp.recognizeSwipe f g a).
    { unfold ArcadeApp.recognizeSwipe, MirrorApp.recognizeSwipe.
      cbn [isPlaying lastHandPosRef lastGestureTimeRef setStickers].
      rewrite K1, K2, K3. reflexivity. }
    rewrite R in E.
    destruct (MirrorApp.performSwipe f (ArcadeApp.recognizeSwipe f g a) _)
      as [a1|] eqn:P; simpl in E; [|discriminate].
    apply mirror_performSwipe_stamp in P. destruct P as [P1 _].
    apply mirror_faceTracking_keeps in E. destruct E as [_ [_ [E1 _]]].
    rewrite E1. clear E1.
    unfold ArcadeApp.interactionLogic. cbn [snd fst].
    match goal with
    | |- lastGestureTimeRef (if ?b then MirrorApp.handInteraction ?f0 ?g0 ?c0 ?s0 ?x0 else _) = _ =>
        destruct (mirror_handInteraction_keeps f0 g0 c0 s0 x0) as [L1 _];
        destruct b; [rewrite L1|]
    end; simpl; rewrite P1; simpl; rewrite K1;
      destruct (ArcadeApp.recognizeSwipe f g a); reflexivity.
  - simpl in E.
    apply mirror_faceTracking_keeps in E. destruct E as [_ [_ [E1 _]]].
    rewrite E1. clear E1.
    unfold ArcadeApp.interactionLogic. cbn [snd fst].
    match goal with
    | |- lastGestureTimeRef (MirrorApp.handLost ?f0 ?s0 ?x0) = _ =>
        destruct (mirror_handLost_keeps f0 s0 x0) as [L1 _]; rewrite L1
    end.
    simpl. exact K1.
Qed.

Lemma arcade_react_stamp (e : ArcadeApp.Event) (a a' : AppState) :
  ArcadeApp.react e a = Return a' ->
  lastGestureTimeRef a'
  = match ArcadeApp.swipeAt e a with
    | Some (t, _) => t
    | None => lastGestureTimeRef a
    end.
Proof.
  destruct e; try (simpl; intro E; injection E as <-);
    try reflexivity.
  - intro E. exact (arcade_loop_stamp _ _ _ _ E).
  - unfold MirrorApp.handleDeleteSticker. repeat break_match; reflexivity.
  - unfold ArcadeApp.handleStartGame. repeat break_match; reflexivity.
Qed.

Lemma arcade_swipeAt_cooldown (e : ArcadeApp.Event) (a : AppState) (t : Q)
  (act : SwipeAction) :
  ArcadeApp.swipeAt e a = Some (t, act) ->
  ArcadeApp.GESTURE_COOLDOWN_MS < t - lastGestureTimeRef a.
Proof.
  destruct e; simpl; try discriminate.
  destruct (Game.won a); [discriminate|].
  destruct (handResult f) as [h|]; [|discriminate].
  destruct (ArcadeApp.recognizeSwipe f _ a) as [act'|] eqn:R; [|discriminate].
  intro E. injection E as <- _.
  unfold ArcadeApp.recognizeSwipe in R.
  destruct (negb (isPlaying a)); [|discriminate].
  exact (mirror_recognize_cooldown _ _ _ _ R).
Qed.

Lemma game_loop_stamp (f : Frame) (a a' : AppState) :
  GameApp.loop f a = Return a' ->
  lastGestureTimeRef a'
  = match GameApp.swipeAt (GameApp.Tick f) a with
    | Some (t, _) => t
    | None => lastGestureTimeRef a
    end
  /\ (Game.won a = false ->
      lastHandPosRef a' = option_map knuckle (handResult f)
      /\ isPlaying a' = isPlaying a).
Proof.
  unfold GameApp.loop, GameApp.handProcessing, GameApp.swipeAt.
  intro E. destruct (Game.won a).
  { injection E as <-. split; [reflexivity | discriminate]. }
  destruct (if isPlaying a then Game.play f a else Return a) as [a0|] eqn:G;
    cbn [bind] in E; [|discriminate].
  assert (K : lastGestureTimeRef a0 = lastGestureTimeRef a
              /\ lastHandPosRef a0 = lastHandPosRef a
              /\ isPlaying a0 = isPlaying a
              /\ lastFaceDataRef a0 = lastFaceDataRef a
              /\ stickers a0 = stickers a).
  { destruct (isPlaying a) eqn:Hp.
    - pose proof (play_stickers _ _ _ G).
      apply play_keeps in G. destruct G as [_ [_ [G1 [G2 [G3 G4]]]]].
      rewrite Hp in G4. auto.
    - injection G as <-. auto. }
  destruct K as [K1 [K2 [K3 [K4 K5]]]].
  destruct (handResult f) as [h|].
  - set (g := classify h (rectWidth f) (rectHeight f)) in *.
    assert (R : GameApp.recognizeSwipe f g (stickers a0)
                  (setStickers
                     (lifecycle GameApp.EFFECT_FADE_DURATION (now f)) a0)
                = GameApp.recognizeSwipe f g (stickers a) a).
    { unfold GameApp.recognizeSwipe.
      cbn [isPlaying lastHandPosRef lastGestureTimeRef lastFaceDataRef
           setStickers].
      rewrite K1, K2, K3, K4, K5. reflexivity. }
    rewrite R in E.
    destruct (GameApp.performSwipe f
                (GameApp.recognizeSwipe f g (stickers a) a) _)
      as [a1|] eqn:P; cbn [bind fst snd] in E; [|discriminate].
    apply game_performSwipe_stamp in P. destruct P as [P1 [P2 [P3 _]]].
    apply game_faceAnchoring_keeps in E.
    destruct E as [_ [_ [E1 [E2 E3]]]].
    match type of E1 with
    | _ = lastGestureTimeRef (GameApp.interactionLogic ?f0 ?g0 ?c0 ?s0 ?x0) =>
        destruct (game_interactionLogic_keeps f0 g0 c0 s0 x0) as [L1 [L2 L3]]
    end.
    rewrite L1 in E1. rewrite L2 in E2. rewrite L3 in E3.
    match type of E1 with
    | _ = lastGestureTimeRef (GameApp.spawnEffect ?f0 ?g0 ?c0 ?x0) =>
        destruct (game_spawnEffect_keeps f0 g0 c0 x0) as [S1 [S2 S3]]
    end.
    rewrite S1 in E1. rewrite S2 in E2. rewrite S3 in E3.
    cbn [lastGestureTimeRef lastHandPosRef isPlaying setLastHandPosRef
         setStickers] in E1, E2, E3, P1.
    split.
    + rewrite E1, P1, K1.
      destruct (GameApp.recognizeSwipe f g (stickers a) a); reflexivity.
    + intros _. split; [exact E2|]. rewrite E3, P3. exact K3.
  - cbn [bind fst snd] in E.
    apply game_faceAnchoring_keeps in E.
    destruct E as [_ [_ [E1 [E2 E3]]]].
    match type of E1 with
    | _ = lastGestureTimeRef (GameApp.interactionLogic ?f0 ?g0 ?c0 ?s0 ?x0) =>
        destruct (game_interactionLogic_keeps f0 g0 c0 s0 x0) as [L1 [L2 L3]]
    end.
    rewrite L1 in E1. rewrite L2 in E2. rewrite L3 in E3.
    cbn [lastGestureTimeRef lastHandPosRef isPlaying setLastHandPosRef
         setStickers] in E1, E2, E3.
    split.
    + rewrite E1. exact K1.
    + intros _. split; [exact E2|]. rewrite E3. exact K3.
Qed.

Lemma game_react_stamp (e : GameApp.Event) (a a' : AppState) :
  GameApp.react e a = Return a' ->
  lastGestureTimeRef a'
  = match GameApp.swipeAt e a with
    | Some (t, _) => t
    | None => lastGestureTimeRef a
    end.
Proof.
  destruct e; simpl; intro E;
    try (exact (proj1 (game_loop_stamp _ _ _ E)));
    try (destruct (isPlaying a)); injection E as <-; try reflexivity;
    unfold GameApp.handleDeleteSticker, GameApp.toggleGame;
    repeat break_match; reflexivity.
Qed.

Lemma game_swipeAt_cooldown (e : GameApp.Event) (a : AppState) (t : Q)
  (act : SwipeAction) :
  GameApp.swipeAt e a = Some (t, act) ->
  GameApp.GESTURE_COOLDOWN_MS < t - lastGestureTimeRef a.
Proof.
  destruct e; simpl; try discriminate.
  destruct (Game.won a); [discriminate|].
  destruct (handResult f) as [h|]; [|discriminate].
  destruct (GameApp.recognizeSwipe f _ _ a) as [act'|] eqn:R; [|discriminate].
  intro E. injection E as <- _.
  exact (game_recognize_cooldown _ _ _ _ _ R).
Qed.

End SwipeStamps.

(** *** The gate on a regular sampling *)

Lemma ofNat_plus (a b : nat) : ofNat (a + b) == ofNat a + ofNat b.
Proof.
  unfold ofNat. rewrite Nat2Z.inj_add, inject_Z_plus. reflexivity.
Qed.

Lemma ofNat_le (a b : nat) : (a <= b)%nat -> ofNat a <= ofNat b.
Proof.
  intro H. unfold ofNat. rewrite <- Zle_Qle. lia.
Qed.

Lemma ofNat_scale_le (a b : nat) (p : Q) :
  0 < p -> (a <= b)%nat -> ofNat a * p <= ofNat b * p.
Proof.
  intros Hp H. apply Qmult_le_compat_r; [apply ofNat_le; exact H|].
  apply Qlt_le_weak. exact Hp.
Qed.

Lemma gate_quiet (c last : Q) (T : nat -> Q) (rest : list Q) (len : nat) :
  forall i,
    (forall k, (i <= k < i + len)%nat -> T k - last <= c) ->
    gate c last (map T (seq i len) ++ rest) = gate c last rest.
Proof.
  induction len as [|len IH]; intros i H; simpl; [reflexivity|].
  assert (Hi : T i - last <= c) by (apply H; lia).
  apply Qltb_ge in Hi. rewrite Hi.
  apply IH. intros k Hk. apply H. lia.
Qed.

Lemma gate_fire (c last t : Q) (rest : list Q) :
  c < t - last -> gate c last (t :: rest) = t :: gate c t rest.
Proof.
  intro H. simpl. apply Qltb_lt in H. rewrite H. reflexivity.
Qed.

Lemma seq_window (a k r : nat) :
  seq a (k + S r) = seq a k ++ (a + k)%nat :: seq (S (a + k)) r.
Proof.
  rewrite seq_app. reflexivity.
Qed.

Lemma seq_three_windows (n m : nat) :
  (1 <= m)%nat -> (2 * m <= n)%nat ->
  seq 0 (S n)
  = 0%nat :: seq 1 (m - 1) ++ m :: seq (S m) (m - 1)
    ++ (2 * m)%nat :: seq (S (2 * m)) (n - 2 * m).
Proof.
  intros Hm Hn.
  assert (E : n = ((m - 1) + S ((m - 1) + S (n - 2 * m)))%nat) by lia.
  rewrite E at 1. cbn [seq]. f_equal.
  rewrite (seq_window 1 (m - 1)).
  replace (1 + (m - 1))%nat with m by lia. f_equal. f_equal.
  rewrite (seq_window (S m) (m - 1)).
  replace (S m + (m - 1))%nat with (2 * m)%nat by lia. reflexivity.
Qed.

(** On frames sampled every [p] from [t0], with [m] frames per window,
    the gate opens at frames 0, [m] and [2 m] and at no other of the
    frames 0 to [n], when [2 m <= n < 3 m]. *)
Lemma gate_three_windows (c last t0 p : Q) (T : nat -> Q) (n m : nat) :
  (forall k, (k <= n)%nat -> T k == t0 + ofNat k * p) ->
  0 < p -> c < t0 - last ->
  (1 <= m)%nat -> ofNat (m - 1) * p <= c -> c < ofNat m * p ->
  (2 * m <= n)%nat -> (n < 3 * m)%nat ->
  gate c last (map T (seq 0 (S n))) = [T 0%nat; T m; T (2 * m)%nat].
Proof.
  intros HT Hp H0 Hm Hlo Hhi Hn2 Hn3.
  assert (D : forall j k, (j <= k)%nat -> (k <= n)%nat ->
                T k - T j == ofNat (k - j) * p).
  { intros j k Hjk Hk. rewrite (HT k Hk), (HT j) by lia.
    replace k with (j + (k - j))%nat at 1 by lia.
    rewrite ofNat_plus. ring. }
  rewrite (seq_three_windows n m Hm Hn2).
  rewrite map_cons, map_app, map_cons, map_app, map_cons.
  rewrite gate_fire.
  2:{ rewrite (HT 0%nat) by lia. change (ofNat 0) with 0. lra. }
  f_equal. rewrite gate_quiet.
  2:{ intros k Hk. rewrite D by lia.
      apply Qle_trans with (ofNat (m - 1) * p); [|exact Hlo].
      apply ofNat_scale_le; [exact Hp | lia]. }
  rewrite gate_fire.
  2:{ rewrite D by lia. replace (m - 0)%nat with m by lia. exact Hhi. }
  f_equal. rewrite gate_quiet.
  2:{ intros k Hk. rewrite D by lia.
      apply Qle_trans with (ofNat (m - 1) * p); [|exact Hlo].
      apply ofNat_scale_le; [exact Hp | lia]. }
  rewrite gate_fire.
  2:{ rewrite D by lia. replace (2 * m - m)%nat with m by lia. exact Hhi. }
  f_equal.
  rewrite <- (app_nil_r (map T _)). rewrite gate_quiet; [reflexivity|].
  intros k Hk. rewrite D by lia.
  apply Qle_trans with (ofNat (m - 1) * p); [|exact Hlo].
  apply ofNat_scale_le; [exact Hp | lia].
Qed.

(** A period of at most half a window and a signal of three windows give
    such an [m]. *)
Lemma frames_per_window (c p : Q) (n : nat) :
  0 < c -> 0 < p -> p <= c / 2 ->
  ofNat n * p <= 3 * c -> 3 * c < ofNat (S n) * p ->
  exists m, (1 <= m)%nat /\ ofNat (m - 1) * p <= c /\ c < ofNat m * p
            /\ (2 * m <= n)%nat /\ (n < 3 * m)%nat.
Proof.
  intros Hc Hp Hhalf Hn Hn'.
  assert (Hh : 2 * p <= c).
  { apply (Qmult_le_compat_r _ _ 2) in Hhalf; [|discriminate].
    setoid_replace (c / 2 * 2) with c in Hhalf by field. lra. }
  clear Hhalf.
  set (z := Qfloor (c / p)).
  assert (Hz0 : (0 <= z)%Z).
  { unfold z. change 0%Z with (Qfloor 0). apply Qfloor_resp_le.
    apply Qle_shift_div_l; [exact Hp|]. lra. }
  assert (Hzlo : inject_Z z * p <= c).
  { assert (H : inject_Z z <= c / p) by apply Qfloor_le.
    apply (Qmult_le_compat_r _ _ p) in H; [|lra].
    setoid_replace (c / p * p) with c in H by (field; lra). exact H. }
  assert (Hzhi : c < (inject_Z z + 1) * p).
  { assert (H : c / p < inject_Z (z + 1)) by apply Qlt_floor.
    rewrite inject_Z_plus in H. change (inject_Z 1) with 1 in H.
    apply (Qmult_lt_compat_r _ _ p) in H; [|exact Hp].
    setoid_replace (c / p * p) with c in H by (field; lra). exact H. }
  set (m := S (Z.to_nat z)).
  assert (Hm1 : ofNat (m - 1) == inject_Z z).
  { unfold ofNat, m. simpl. rewrite Nat.sub_0_r, Z2Nat.id by exact Hz0.
    reflexivity. }
  assert (Hm : ofNat m == inject_Z z + 1).
  { unfold m. change (S (Z.to_nat z)) with (1 + Z.to_nat z)%nat.
    rewrite ofNat_plus. unfold ofNat at 2. rewrite Z2Nat.id by exact Hz0.
    unfold ofNat. simpl. ring. }
  exists m. split; [unfold m; lia|].
  split; [rewrite Hm1; exact Hzlo|].
  split; [rewrite Hm; exact Hzhi|].
  split.
  - destruct (le_lt_dec (2 * m) n) as [H|H]; [exact H|exfalso].
    assert (H1 : ofNat (S n) * p <= ofNat (2 * m) * p)
      by (apply ofNat_scale_le; [exact Hp | lia]).
    replace (2 * m)%nat with (m + m)%nat in H1 by lia.
    rewrite ofNat_plus, Hm in H1.
    setoid_replace ((inject_Z z + 1 + (inject_Z z + 1)) * p)
      with (2 * (inject_Z z * p) + 2 * p) in H1 by ring.
    revert Hzlo Hn' H1.
    generalize (inject_Z z * p) (ofNat (S n) * p). clear - Hh.
    intros u v ? ? ?. lra.
  - destruct (le_lt_dec (3 * m) n) as [H|H]; [exfalso | exact H].
    assert (H1 : ofNat (3 * m) * p <= ofNat n * p)
      by (apply ofNat_scale_le; [exact Hp | lia]).
    replace (3 * m)%nat with (m + (m + m))%nat in H1 by lia.
    rewrite !ofNat_plus, Hm in H1.
    setoid_replace ((inject_Z z + 1 + (inject_Z z + 1 + (inject_Z z + 1))) * p)
      with (3 * ((inject_Z z + 1) * p)) in H1 by ring.
    revert Hzhi Hn H1.
    generalize ((inject_Z z + 1) * p) (ofNat n * p). clear.
    intros u v ? ? ?. lra.
Qed.

(** *** The log of a continuous swipe signal *)

Section SwipeSignal.
Context {M : MathLib}.

Lemma threeFingerMove_inv (thr : Q) (f : Frame) (h : Hand.t) (prev : Pt.t) :
  threeFingerMove thr f h prev = true ->
  let g := classify h (rectWidth f) (rectHeight f) in
  Qltb thr (Qabs (currentHandX g - Pt.x prev)) = true
  /\ ((fingerCount g =? 3)%nat && isIndexExt g && isMiddleExt g
      && isRingExt g) = true.
Proof.
  unfold threeFingerMove. intro H. cbv zeta in *.
  rewrite <- !andb_assoc in H. apply andb_prop in H. destruct H as [H1 H2].
  split; [exact H1|]. rewrite <- !andb_assoc. exact H2.
Qed.

Lemma mirror_recognize_signal (f : Frame) (h : Hand.t) (prev : Pt.t)
  (a : AppState) :
  lastHandPosRef a = Some prev ->
  threeFingerMove MirrorApp.SWIPE_VELOCITY_THRESHOLD f h prev = true ->
  MirrorApp.recognizeSwipe f (classify h (rectWidth f) (rectHeight f)) a
  = if Qltb MirrorApp.GESTURE_COOLDOWN_MS (now f - lastGestureTimeRef a)
    then Some ClearScreen else None.
Proof.
  intros Hp Hs. apply threeFingerMove_inv in Hs. destruct Hs as [H1 H2].
  unfold MirrorApp.recognizeSwipe. rewrite Hp. cbv zeta.
  rewrite H1, H2. reflexivity.
Qed.

Lemma safeFace_mesh (f : Frame) (r : FaceLandmarkerResult) x xs :
  safeFace f = true -> faceResult f = Some r -> faceLandmarks r = x :: xs ->
  completeMesh r = true.
Proof.
  unfold safeFace. intros H Hf Hx. rewrite Hf, Hx in H. simpl in H.
  rewrite orb_false_r in H. exact H.
Qed.

Lemma mirror_faceTracking_returns (f : Frame) (cs : InteractionState)
  (a : AppState) :
  safeFace f = true -> exists a', MirrorApp.faceTracking f cs a = Return a'.
Proof.
  intro H. unfold MirrorApp.faceTracking.
  destruct (faceResult f) as [r|] eqn:Hf; [|eexists; reflexivity].
  destruct (faceLandmarks r) as [|x xs] eqn:Hx; [eexists; reflexivity|].
  destruct (mirror_trackStickers_returns f r cs (interactingIdRef a)
              (stickers a) (safeFace_mesh f r x xs H Hf Hx)
              (lastFaceDataRef a)) as [p ->].
  simpl. eexists; reflexivity.
Qed.

Lemma game_faceAnchoring_returns (f : Frame) (cs : InteractionState)
  (a : AppState) :
  safeFace f = true -> exists a', GameApp.faceAnchoring f cs a = Return a'.
Proof.
  intro H. unfold GameApp.faceAnchoring.
  destruct (faceResult f) as [r|] eqn:Hf; [|eexists; reflexivity].
  destruct (faceLandmarks r) as [|x xs] eqn:Hx; [eexists; reflexivity|].
  destruct (game_anchorDataMap_complete r (safeFace_mesh f r x xs H Hf Hx))
    as [m [-> _]].
  simpl. eexists; reflexivity.
Qed.

(** A frame of the signal runs to its end, recognises the three-finger
    swipe exactly when the cool-down has passed, and leaves the knuckle of
    its hand behind. *)
Lemma mirror_loop_signal (f : Frame) (h : Hand.t) (prev : Pt.t)
  (a : AppState) :
  handResult f = Some h ->
  threeFingerMove MirrorApp.SWIPE_VELOCITY_THRESHOLD f h prev = true ->
  safeFace f = true ->
  lastHandPosRef a = Some prev ->
  exists a',
    MirrorApp.loop f a = Return a'
    /\ MirrorApp.swipeAt (MirrorApp.Tick f) a
       = (if Qltb MirrorApp.GESTURE_COOLDOWN_MS (now f - lastGestureTimeRef a)
          then Some (now f, ClearScreen) else None)
    /\ lastHandPosRef a' = Some (knuckle h).
Proof.
  intros Hh Hs Hf Hp.
  assert (W : MirrorApp.swipeAt (MirrorApp.Tick f) a
              = (if Qltb MirrorApp.GESTURE_COOLDOWN_MS
                      (now f - lastGestureTimeRef a)
                 then Some (now f, ClearScreen) else None)).
  { unfold MirrorApp.swipeAt. rewrite Hh.
    rewrite (mirror_recognize_signal f h prev a Hp Hs).
    destruct (Qltb _ _); reflexivity. }
  assert (R : exists a', MirrorApp.loop f a = Return a').
  { unfold MirrorApp.loop, MirrorApp.handProcessing. rewrite Hh. cbv zeta.
    change (MirrorApp.recognizeSwipe f (classify h (rectWidth f) (rectHeight f))
              (setStickers (lifecycle MirrorApp.EFFECT_FADE_DURATION (now f)) a))
      with (MirrorApp.recognizeSwipe f
              (classify h (rectWidth f) (rectHeight f)) a).
    rewrite (mirror_recognize_signal f h prev a Hp Hs).
    destruct (Qltb _ _); simpl; apply mirror_faceTracking_returns; exact Hf. }
  destruct R as [a' R]. exists a'. split; [exact R|]. split; [exact W|].
  destruct (mirror_loop_stamp f a a' R) as [_ L]. rewrite L, Hh. reflexivity.
Qed.

Lemma mirror_signal_log (frames : list Frame) :
  forall prev a,
    continuousSwipe MirrorApp.SWIPE_VELOCITY_THRESHOLD prev frames ->
    lastHandPosRef a = Some prev ->
    swipeLog MirrorApp.react MirrorApp.swipeAt (map MirrorApp.Tick frames) a
    = map (fun t => (t, ClearScreen))
        (gate MirrorApp.GESTURE_COOLDOWN_MS (lastGestureTimeRef a)
           (map now frames)).
Proof.
  induction frames as [|f rest IH]; intros prev a Hc Hp; [reflexivity|].
  destruct Hc as [h [Hh [Hs [Hf Hc]]]].
  destruct (mirror_loop_signal f h prev a Hh Hs Hf Hp) as [a' [R [W L]]].
  pose proof (proj1 (mirror_loop_stamp f a a' R)) as S.
  cbn [map swipeLog gate]. change (MirrorApp.react (MirrorApp.Tick f) a)
    with (MirrorApp.loop f a).
  rewrite R. rewrite W in S |- *.
  destruct (Qltb MirrorApp.GESTURE_COOLDOWN_MS (now f - lastGestureTimeRef a)).
  - cbn [map]. f_equal. rewrite <- S. exact (IH _ _ Hc L).
  - rewrite <- S. exact (IH _ _ Hc L).
Qed.

Lemma game_recognize_signal (f : Frame) (h : Hand.t) (prev : Pt.t)
  (cur : list StickerItem.t) (a : AppState) :
  lastHandPosRef a = Some prev ->
  isPlaying a = false ->
  threeFingerMove GameApp.SWIPE_VELOCITY_THRESHOLD f h prev = true ->
  GameApp.recognizeSwipe f (classify h (rectWidth f) (rectHeight f)) cur a
  = if Qltb GameApp.GESTURE_COOLDOWN_MS (now f - lastGestureTimeRef a)
    then Some ClearScreen else None.
Proof.
  intros Hp Hg Hs. apply threeFingerMove_inv in Hs. destruct Hs as [H1 H2].
  unfold GameApp.recognizeSwipe. rewrite Hp, Hg. cbv zeta.
  rewrite H1, H2. cbn [negb]. rewrite andb_true_r. reflexivity.
Qed.

Lemma game_loop_signal (f : Frame) (h : Hand.t) (prev : Pt.t)
  (a : AppState) :
  handResult f = Some h ->
  threeFingerMove GameApp.SWIPE_VELOCITY_THRESHOLD f h prev = true ->
  safeFace f = true ->
  lastHandPosRef a = Some prev ->
  isPlaying a = false ->
  exists a',
    GameApp.loop f a = Return a'
    /\ GameApp.swipeAt (GameApp.Tick f) a
       = (if Qltb GameApp.GESTURE_COOLDOWN_MS (now f - lastGestureTimeRef a)
          then Some (now f, ClearScreen) else None)
    /\ lastHandPosRef a' = Some (knuckle h)
    /\ isPlaying a' = false.
Proof.
  intros Hh Hs Hf Hp Hg.
  assert (Hw : Game.won a = false) by (unfold Game.won; rewrite Hg; reflexivity).
  assert (W : GameApp.swipeAt (GameApp.Tick f) a
              = (if Qltb GameApp.GESTURE_COOLDOWN_MS
                      (now f - lastGestureTimeRef a)
                 then Some (now f, ClearScreen) else None)).
  { unfold GameApp.swipeAt. rewrite Hw, Hh.
    rewrite (game_recognize_signal f h prev (stickers a) a Hp Hg Hs).
    destruct (Qltb _ _); reflexivity. }
  assert (R : exists a', GameApp.loop f a = Return a').
  { unfold GameApp.loop, GameApp.handProcessing. rewrite Hw, Hg, Hh.
    cbn [bind]. cbv zeta.
    change (GameApp.recognizeSwipe f (classify h (rectWidth f) (rectHeight f))
              (stickers a)
              (setStickers (lifecycle GameApp.EFFECT_FADE_DURATION (now f)) a))
      with (GameApp.recognizeSwipe f
              (classify h (rectWidth f) (rectHeight f)) (stickers a) a).
    rewrite (game_recognize_signal f h prev (stickers a) a Hp Hg Hs).
    destruct (Qltb _ _); cbn [GameApp.performSwipe bind fst snd];
      apply game_faceAnchoring_returns; exact Hf. }
  destruct R as [a' R]. exists a'. split; [exact R|]. split; [exact W|].
  destruct (game_loop_stamp f a a' R) as [_ L].
  destruct (L Hw) as [L1 L2]. rewrite L1, L2, Hh, Hg. split; reflexivity.
Qed.

Lemma game_signal_log (frames : list Frame) :
  forall prev a,
    continuousSwipe GameApp.SWIPE_VELOCITY_THRESHOLD prev frames ->
    lastHandPosRef a = Some prev ->
    isPlaying a = false ->
    swipeLog GameApp.react GameApp.swipeAt (map GameApp.Tick frames) a
    = map (fun t => (t, ClearScreen))
        (gate GameApp.GESTURE_COOLDOWN_MS (lastGestureTimeRef a)
           (map now frames)).
Proof.
  induction frames as [|f rest IH]; intros prev a Hc Hp Hg; [reflexivity|].
  destruct Hc as [h [Hh [Hs [Hf Hc]]]].
  destruct (game_loop_signal f h prev a Hh Hs Hf Hp Hg) as [a' [R [W [L G]]]].
  pose proof (proj1 (game_loop_stamp f a a' R)) as S.
  cbn [map swipeLog gate]. change (GameApp.react (GameApp.Tick f) a)
    with (GameApp.loop f a).
  rewrite R. rewrite W in S |- *.
  destruct (Qltb GameApp.GESTURE_COOLDOWN_MS (now f - lastGestureTimeRef a)).
  - cbn [map]. f_equal. rewrite <- S. exact (IH _ _ Hc L G).
  - rewrite <- S. exact (IH _ _ Hc L G).
Qed.

Lemma arcade_interactionLogic_keeps (f : Frame) (g : option Gesture)
  (cur : list StickerItem.t) (cs : InteractionState) (a : AppState) :
  lastHandPosRef (ArcadeApp.interactionLogic f g cur cs a) = lastHandPosRef a
  /\ isPlaying (ArcadeApp.interactionLogic f g cur cs a) = isPlaying a.
Proof.
  unfold ArcadeApp.interactionLogic.
  destruct g as [g|]; [destruct (negb (isPlaying a))|].
  - exact (proj2 (mirror_handInteraction_keeps f g cur cs a)).
  - split; reflexivity.
  - exact (proj2 (mirror_handLost_keeps f cs a)).
Qed.

Lemma arcade_loop_signal (captured : list StickerItem.t) (f : Frame)
  (h : Hand.t) (prev : Pt.t) (a : AppState) :
  handResult f = Some h ->
  threeFingerMove MirrorApp.SWIPE_VELOCITY_THRESHOLD f h prev = true ->
  safeFace f = true ->
  lastHandPosRef a = Some prev ->
  isPlaying a = false ->
  exists a',
    ArcadeApp.loop captured f a = Return a'
    /\ ArcadeApp.swipeAt (ArcadeApp.Tick captured f) a
       = (if Qltb ArcadeApp.GESTURE_COOLDOWN_MS (now f - lastGestureTimeRef a)
          then Some (now f, ClearScreen) else None)
    /\ lastHandPosRef a' = Some (knuckle h)
    /\ isPlaying a' = false.
Proof.
  intros Hh Hs Hf Hp Hg.
  assert (Hw : Game.won a = false) by (unfold Game.won; rewrite Hg; reflexivity).
  assert (Hr : ArcadeApp.recognizeSwipe f
                 (classify h (rectWidth f) (rectHeight f)) a
               = if Qltb ArcadeApp.GESTURE_COOLDOWN_MS
                      (now f - lastGestureTimeRef a)
                 then Some ClearScreen else None).
  { unfold ArcadeApp.recognizeSwipe. rewrite Hg. cbn [negb].
    exact (mirror_recognize_signal f h prev a Hp Hs). }
  assert (W : ArcadeApp.swipeAt (ArcadeApp.Tick captured f) a
              = (if Qltb ArcadeApp.GESTURE_COOLDOWN_MS
                      (now f - lastGestureTimeRef a)
                 then Some (now f, ClearScreen) else None)).
  { unfold ArcadeApp.swipeAt. rewrite Hw, Hh, Hr.
    destruct (Qltb _ _); reflexivity. }
  assert (R : exists a', ArcadeApp.loop captured f a = Return a'
                         /\ lastHandPosRef a' = Some (knuckle h)
                         /\ isPlaying a' = false).
  { unfold ArcadeApp.loop, ArcadeApp.handProcessing. rewrite Hw, Hg, Hh.
    cbn [bind]. cbv zeta.
    change (ArcadeApp.recognizeSwipe f
              (classify h (rectWidth f) (rectHeight f))
              (setStickers
                 (lifecycle ArcadeApp.EFFECT_FADE_DURATION (now f)) a))
      with (ArcadeApp.recognizeSwipe f
              (classify h (rectWidth f) (rectHeight f)) a).
    rewrite Hr.
    destruct (Qltb _ _); cbn [MirrorApp.performSwipe bind fst snd];
      match goal with
      | |- exists a', MirrorApp.faceTracking ?f0 ?cs ?x = _ /\ _ =>
          destruct (mirror_faceTracking_returns f0 cs x Hf) as [a' E];
          exists a'; split; [exact E|];
          apply mirror_faceTracking_keeps in E;
          destruct E as [_ [_ [_ [E2 E3]]]]; rewrite E2, E3
      end;
      match goal with
      | |- lastHandPosRef (ArcadeApp.interactionLogic ?f0 ?g0 ?c0 ?s0 ?x0) = _
           /\ _ =>
          destruct (arcade_interactionLogic_keeps f0 g0 c0 s0 x0) as [K1 K2];
          rewrite K1, K2
      end;
      (split; [reflexivity | exact Hg]). }
  destruct R as [a' [R [L G]]]. exists a'. auto.
Qed.

Lemma arcade_signal_log (captured : list StickerItem.t)
  (frames : list Frame) :
  forall prev a,
    continuousSwipe MirrorApp.SWIPE_VELOCITY_THRESHOLD prev frames ->
    lastHandPosRef a = Some prev ->
    isPlaying a = false ->
    swipeLog ArcadeApp.react ArcadeApp.swipeAt
      (map (ArcadeApp.Tick captured) frames) a
    = map (fun t => (t, ClearScreen))
        (gate ArcadeApp.GESTURE_COOLDOWN_MS (lastGestureTimeRef a)
           (map now frames)).
Proof.
  induction frames as [|f rest IH]; intros prev a Hc Hp Hg; [reflexivity|].
  destruct Hc as [h [Hh [Hs [Hf Hc]]]].
  destruct (arcade_loop_signal captured f h prev a Hh Hs Hf Hp Hg)
    as [a' [R [W [L G]]]].
  pose proof (arcade_loop_stamp captured f a a' R) as S.
  cbn [map swipeLog gate].
  change (ArcadeApp.react (ArcadeApp.Tick captured f) a)
    with (ArcadeApp.loop captured f a).
  rewrite R. rewrite W in S |- *.
  destruct (Qltb ArcadeApp.GESTURE_COOLDOWN_MS (now f - lastGestureTimeRef a)).
  - cbn [map]. f_equal. rewrite <- S. exact (IH _ _ Hc L G).
  - rewrite <- S. exact (IH _ _ Hc L G).
Qed.

End SwipeSignal.

(** A signal of three windows opens the gate three times, at evenly
    spaced frames. *)
Lemma three_windows_gate (c t0 p last : Q) (frame : nat -> Frame) (n : nat) :
  0 < c -> threeWindows c t0 p frame n -> c < t0 - last ->
  threeSwipes c frame
    (map (fun t => (t, ClearScreen))
       (gate c last (map now (framesTo frame n)))).
Proof.
  intros Hc [Hp [Hhalf [Hs [Hn Hn']]]] H0.
  destruct (frames_per_window c p n Hc Hp Hhalf Hn Hn')
    as [m [Hm [Hlo [Hhi [Hn2 Hn3]]]]].
  exists m. unfold framesTo. rewrite map_map.
  rewrite (gate_three_windows c last t0 p (fun k => now (frame k)) n m
             Hs Hp H0 Hm Hlo Hhi Hn2 Hn3).
  split; [reflexivity|].
  assert (E1 : now (frame m) - now (frame 0%nat) == ofNat m * p).
  { rewrite (Hs m), (Hs 0%nat) by lia. change (ofNat 0) with 0. ring. }
  assert (E2 : now (frame (2 * m)%nat) - now (frame m) == ofNat m * p).
  { rewrite (Hs (2 * m)%nat), (Hs m) by lia.
    replace (2 * m)%nat with (m + m)%nat by lia. rewrite ofNat_plus. ring. }
  split; [rewrite E1, E2; reflexivity|].
  rewrite E1. exact Hhi.
Qed.

(** C5, as amended.  In each of the three versions the cool-down is at
    least 800 ms (1000 ms in two of them); a frame recognises a swipe
    only if more than the cool-down has passed since
    [lastGestureTimeRef], the time of the last recognised swipe; so along
    any run the recognised swipes are more than one cool-down apart,
    however long the hand keeps moving.  A continuous three-finger swipe
    that lasts three cool-down windows is recognised exactly three times,
    at evenly spaced frames, when the frames are sampled at a constant
    period of at most half a window, the cool-down has already passed at
    the first frame, the position of the hand is known from the frame
    before, every frame sees no face or a complete mesh, and the game,
    where there is one, is not running. *)
Theorem swipe_cooldown (M : MathLib) :
  (800 <= MirrorApp.GESTURE_COOLDOWN_MS
   /\ 800 <= ArcadeApp.GESTURE_COOLDOWN_MS
   /\ 800 <= GameApp.GESTURE_COOLDOWN_MS)
  /\ (forall e a t act,
        MirrorApp.swipeAt e a = Some (t, act) ->
        MirrorApp.GESTURE_COOLDOWN_MS < t - lastGestureTimeRef a)
  /\ (forall e a t act,
        ArcadeApp.swipeAt e a = Some (t, act) ->
        ArcadeApp.GESTURE_COOLDOWN_MS < t - lastGestureTimeRef a)
  /\ (forall e a t act,
        GameApp.swipeAt e a = Some (t, act) ->
        GameApp.GESTURE_COOLDOWN_MS < t - lastGestureTimeRef a)
  /\ (forall events a,
        spaced MirrorApp.GESTURE_COOLDOWN_MS (lastGestureTimeRef a)
          (swipeLog MirrorApp.react MirrorApp.swipeAt events a))
  /\ (forall events a,
        spaced ArcadeApp.GESTURE_COOLDOWN_MS (lastGestureTimeRef a)
          (swipeLog ArcadeApp.react ArcadeApp.swipeAt events a))
  /\ (forall events a,
        spaced GameApp.GESTURE_COOLDOWN_MS (lastGestureTimeRef a)
          (swipeLog GameApp.react GameApp.swipeAt events a))
  /\ (forall t0 p frame n prev a,
        threeWindows MirrorApp.GESTURE_COOLDOWN_MS t0 p frame n ->
        MirrorApp.GESTURE_COOLDOWN_MS < t0 - lastGestureTimeRef a ->
        lastHandPosRef a = Some prev ->
        continuousSwipe MirrorApp.SWIPE_VELOCITY_THRESHOLD prev
          (framesTo frame n) ->
        threeSwipes MirrorApp.GESTURE_COOLDOWN_MS frame
          (swipeLog MirrorApp.react MirrorApp.swipeAt
             (map MirrorApp.Tick (framesTo frame n)) a))
  /\ (forall captured t0 p frame n prev a,
        threeWindows ArcadeApp.GESTURE_COOLDOWN_MS t0 p frame n ->
        ArcadeApp.GESTURE_COOLDOWN_MS < t0 - lastGestureTimeRef a ->
        lastHandPosRef a = Some prev ->
        isPlaying a = false ->
        continuousSwipe MirrorApp.SWIPE_VELOCITY_THRESHOLD prev
          (framesTo frame n) ->
        threeSwipes ArcadeApp.GESTURE_COOLDOWN_MS frame
          (swipeLog ArcadeApp.react ArcadeApp.swipeAt
             (map (ArcadeApp.Tick captured) (framesTo frame n)) a))
  /\ (forall t0 p frame n prev a,
        threeWindows GameApp.GESTURE_COOLDOWN_MS t0 p frame n ->
        GameApp.GESTURE_COOLDOWN_MS < t0 - lastGestureTimeRef a ->
        lastHandPosRef a = Some prev ->
        isPlaying a = false ->
        continuousSwipe GameApp.SWIPE_VELOCITY_THRESHOLD prev
          (framesTo frame n) ->
        threeSwipes GameApp.GESTURE_COOLDOWN_MS frame
          (swipeLog GameApp.react GameApp.swipeAt
             (map GameApp.Tick (framesTo frame n)) a)).
Proof.
  split; [repeat split; discriminate|].
  split; [exact mirror_swipeAt_cooldown|].
  split; [exact arcade_swipeAt_cooldown|].
  split; [exact game_swipeAt_cooldown|].
  split.
  { apply swipeLog_spaced;
      [exact mirror_swipeAt_cooldown | exact mirror_react_stamp]. }
  split.
  { apply swipeLog_spaced;
      [exact arcade_swipeAt_cooldown | exact arcade_react_stamp]. }
  split.
  { apply swipeLog_spaced;
      [exact game_swipeAt_cooldown | exact game_react_stamp]. }
  split; [|split].
  - intros t0 p frame n prev a Hw H0 Hp Hc.
    rewrite (mirror_signal_log _ prev a Hc Hp).
    apply (three_windows_gate _ t0 p); [reflexivity | exact Hw | exact H0].
  - intros captured t0 p frame n prev a Hw H0 Hp Hg Hc.
    rewrite (arcade_signal_log captured _ prev a Hc Hp Hg).
    apply (three_windows_gate _ t0 p); [reflexivity | exact Hw | exact H0].
  - intros t0 p frame n prev a Hw H0 Hp Hg Hc.
    rewrite (game_signal_log _ prev a Hc Hp Hg).
    apply (three_windows_gate _ t0 p); [reflexivity | exact Hw | exact H0].
Qed.

Lemma swipe_cooldown_witness :
  threeWindows MirrorApp.GESTURE_COOLDOWN_MS 2000 400
    (swipingFrame 2000 400) 7
  /\ threeSwipes MirrorApp.GESTURE_COOLDOWN_MS (swipingFrame 2000 400)
       (swipeLog (MirrorApp.react (M := scenarioMath))
          (MirrorApp.swipeAt (M := scenarioMath))
          (map MirrorApp.Tick (framesTo (swipingFrame 2000 400) 7))
          handSeen)
  /\ threeSwipes GameApp.GESTURE_COOLDOWN_MS (swipingFrame 2000 400)
       (swipeLog (GameApp.react (M := scenarioMath))
          (GameApp.swipeAt (M := scenarioMath))
          (map GameApp.Tick (framesTo (swipingFrame 2000 400) 6))
          handSeen).
Proof.
  assert (W : forall c n, c / 2 == 400 \/ c / 2 == 500 ->
                ofNat n * 400 <= 3 * c -> 3 * c < ofNat (S n) * 400 ->
                threeWindows c 2000 400 (swipingFrame 2000 400) n).
  { intros c n Hc H1 H2. split; [reflexivity|].
    split; [destruct Hc as [-> | ->]; discriminate|].
    split; [intros k _; reflexivity|]. split; assumption. }
  assert (S : forall n, (n <= 7)%nat ->
                continuousSwipe (M := scenarioMath)
                  MirrorApp.SWIPE_VELOCITY_THRESHOLD (Pt.mk 0.6 0.8)
                  (framesTo (swipingFrame 2000 400) n)
                /\ continuousSwipe (M := scenarioMath)
                     GameApp.SWIPE_VELOCITY_THRESHOLD (Pt.mk 0.6 0.8)
                     (framesTo (swipingFrame 2000 400) n)).
  { intros n Hn.
    do 8 (destruct n as [|n]; [
      split; unfold framesTo; cbn [seq map];
      repeat (cbn [continuousSwipe]; eexists; split; [reflexivity|];
              split; [vm_compute; reflexivity|];
              split; [vm_compute; reflexivity|]); exact I |]).
    lia. }
  split; [apply W; [right; reflexivity | discriminate | reflexivity]|].
  destruct (swipe_cooldown scenarioMath)
    as [_ [_ [_ [_ [_ [_ [_ [Hm [_ Hg]]]]]]]]].
  split.
  - apply (Hm 2000 400 _ 7%nat (Pt.mk 0.6 0.8)).
    + apply W; [right; reflexivity | discriminate | reflexivity].
    + reflexivity.
    + reflexivity.
    + apply S; lia.
  - apply (Hg 2000 400 _ 6%nat (Pt.mk 0.6 0.8)).
    + apply W; [left; reflexivity | discriminate | reflexivity].
    + reflexivity.
    + reflexivity.
    + reflexivity.
    + apply S; lia.
Defined.

Lemma swipe_cooldown_counterexample :
  continuousSwipe (M := scenarioMath) MirrorApp.SWIPE_VELOCITY_THRESHOLD
    (Pt.mk 0.6 0.8) (swipingAt true oncePerWindow)
  /\ map now (swipingAt true oncePerWindow) = [2000; 3000; 4000; 5000]
  /\ 5000 - 2000 == 3 * MirrorApp.GESTURE_COOLDOWN_MS
  /\ lastHandPosRef handSeen = Some (Pt.mk 0.6 0.8)
  /\ MirrorApp.GESTURE_COOLDOWN_MS < 2000 - lastGestureTimeRef handSeen
  /\ swipeLog (MirrorApp.react (M := scenarioMath))
       (MirrorApp.swipeAt (M := scenarioMath))
       (map MirrorApp.Tick (swipingAt true oncePerWindow)) handSeen
     = [(2000, ClearScreen); (4000, ClearScreen)]
  /\ continuousSwipe (M := scenarioMath) MirrorApp.SWIPE_VELOCITY_THRESHOLD
       (Pt.mk 0.6 0.8) (swipingAt true unevenTimes)
  /\ swipeLog (MirrorApp.react (M := scenarioMath))
       (MirrorApp.swipeAt (M := scenarioMath))
       (map MirrorApp.Tick (swipingAt true unevenTimes)) handSeen
     = [(2000, ClearScreen); (3010, ClearScreen); (4011, ClearScreen)]
  /\ ~ 3010 - 2000 == 4011 - 3010.
Proof.
  assert (S : forall times,
            times = oncePerWindow \/ times = unevenTimes ->
            continuousSwipe (M := scenarioMath)
              MirrorApp.SWIPE_VELOCITY_THRESHOLD (Pt.mk 0.6 0.8)
              (swipingAt true times)).
  { intros times [-> | ->]; unfold oncePerWindow, unevenTimes;
      cbn [swipingAt continuousSwipe negb];
      repeat (eexists; split; [reflexivity|];
              split; [vm_compute; reflexivity|];
              split; [vm_compute; reflexivity|]);
      exact I. }
  split; [exact (S _ (or_introl eq_refl))|].
  split; [reflexivity|].
  split; [reflexivity|].
  split; [reflexivity|].
  split; [reflexivity|].
  split; [vm_compute; reflexivity|].
  split; [exact (S _ (or_intror eq_refl))|].
  split; [vm_compute; reflexivity|].
  discriminate.
Qed.

(** ** The sticker canvas *)

Lemma last_cons_cons {A : Type} (x y : A) (l : list A) (d d' : A) :
  last (x :: y :: l) d = last (y :: l) d'.
Proof.
  change (last (x :: y :: l) d) with (last (y :: l) d).
  revert y. induction l as [|z l IH]; intro y; [reflexivity|].
  change (last (y :: z :: l) d) with (last (z :: l) d).
  change (last (y :: z :: l) d') with (last (z :: l) d').
  apply IH.
Qed.

Section CanvasPointer.
Context {M : MathLib}.

Lemma canvas_move_step (f : Frame) (e : StickerCanvas.PointerEvent)
  (c : StickerCanvas.Refs) (a : AppState) (i : string) (s : StickerItem.t) :
  StickerCanvas.dragMode c = Some StickerCanvas.move ->
  activeStickerId a = Some i -> i <> "" ->
  find (hasId i) (stickers a) = Some s ->
  StickerCanvas.mirrorPointer f (c, a) (StickerCanvas.Move e)
  = Return
      (StickerCanvas.mkRefs (Some StickerCanvas.move)
         (Pt.mk (StickerCanvas.clientX e) (StickerCanvas.clientY e))
         (StickerCanvas.centerPos c),
       setStickers
         (handleUpdateSticker i
            (UpdateXY
               (StickerItem.x s
                + (StickerCanvas.clientX e - Pt.x (StickerCanvas.lastPos c)))
               (StickerItem.y s
                + (StickerCanvas.clientY e - Pt.y (StickerCanvas.lastPos c)))))
         a).
Proof.
  intros Hd Ha Hi Hs.
  unfold StickerCanvas.mirrorPointer, StickerCanvas.handle,
    StickerCanvas.handlePointerMove.
  cbn [fst snd]. rewrite Hd, Ha, (eqb_empty_false _ Hi), Hs.
  reflexivity.
Qed.

Lemma canvas_update_find (i : string) (x y : Q) (l : list StickerItem.t)
  (s : StickerItem.t) :
  find (hasId i) l = Some s ->
  find (hasId i) (handleUpdateSticker i (UpdateXY x y) l)
  = Some (StickerItem.with_xy s x y).
Proof.
  intro Hs. unfold handleUpdateSticker.
  rewrite find_hasId_map.
  - rewrite Hs. simpl.
    assert (H : hasId i s = true).
    { apply find_some in Hs. exact (proj2 Hs). }
    rewrite H. reflexivity.
  - intro s0. destruct (hasId i s0); reflexivity.
Qed.

(** While the pointer moves in a drag, the sticker keeps the distance to
    the pointer that it had when the drag began. *)
Lemma canvas_moves (f : Frame) (i : string) (es : list StickerCanvas.PointerEvent) :
  i <> "" ->
  forall c a s,
    StickerCanvas.dragMode c = Some StickerCanvas.move ->
    activeStickerId a = Some i ->
    find (hasId i) (stickers a) = Some s ->
    exists c' a' s',
      StickerCanvas.mirrorPointers f (map StickerCanvas.Move es) (c, a)
      = Return (c', a')
      /\ StickerCanvas.dragMode c' = Some StickerCanvas.move
      /\ activeStickerId a' = Some i
      /\ interactingIdRef a' = interactingIdRef a
      /\ lastFaceDataRef a' = lastFaceDataRef a
      /\ find (hasId i) (stickers a') = Some s'
      /\ StickerItem.x s' - Pt.x (StickerCanvas.lastPos c')
         == StickerItem.x s - Pt.x (StickerCanvas.lastPos c)
      /\ StickerItem.y s' - Pt.y (StickerCanvas.lastPos c')
         == StickerItem.y s - Pt.y (StickerCanvas.lastPos c)
      /\ Pt.x (StickerCanvas.lastPos c')
         = StickerCanvas.clientX
             (last es (StickerCanvas.mkPointer
                         (Pt.x (StickerCanvas.lastPos c))
                         (Pt.y (StickerCanvas.lastPos c))))
      /\ Pt.y (StickerCanvas.lastPos c')
         = StickerCanvas.clientY
             (last es (StickerCanvas.mkPointer
                         (Pt.x (StickerCanvas.lastPos c))
                         (Pt.y (StickerCanvas.lastPos c)))).
Proof.
  intro Hi. induction es as [|e es IH]; intros c a s Hd Ha Hs.
  - exists c, a, s. simpl. repeat split; try reflexivity; assumption.
  - cbn [map StickerCanvas.mirrorPointers].
    rewrite (canvas_move_step f e c a i s Hd Ha Hi Hs). cbn [bind].
    match goal with
    | |- context [StickerCanvas.mirrorPointers f _ (?c1, ?a1)] =>
        destruct (IH c1 a1 _ eq_refl Ha (canvas_update_find i _ _ _ _ Hs))
          as [c' [a' [s' [E [Hd' [Ha' [Hi' [Hf' [Hs' [Hx [Hy [Lx Ly]]]]]]]]]]]]
    end.
    exists c', a', s'. split; [exact E|].
    split; [exact Hd'|]. split; [exact Ha'|]. split; [exact Hi'|].
    split; [exact Hf'|]. split; [exact Hs'|].
    cbn [StickerCanvas.lastPos Pt.x Pt.y StickerItem.x StickerItem.y
         StickerItem.with_xy] in Hx, Hy, Lx, Ly.
    split; [rewrite Hx; simpl; ring|]. split; [rewrite Hy; simpl; ring|].
    destruct es as [|e' es']; [split; [exact Lx | exact Ly]|].
    rewrite (last_cons_cons e e' es' _
               (StickerCanvas.mkPointer (StickerCanvas.clientX e)
                  (StickerCanvas.clientY e))).
    split; [exact Lx | exact Ly].
Qed.

End CanvasPointer.

Lemma optStrEq_true (o : option string) (i : string) :
  optStrEq o (Some i) = true -> o = Some i.
Proof.
  destruct o as [j|]; simpl; [|discriminate].
  intro H. apply String.eqb_eq in H. congruence.
Qed.

Lemma last_default {A : Type} (x : A) (l : list A) (d d' : A) :
  last (x :: l) d = last (x :: l) d'.
Proof.
  rewrite <- (last_cons_cons x x l d d'). reflexivity.
Qed.

Section CanvasDrag.
Context {M : MathLib}.

Lemma canvas_pointers_app (f : Frame) (ps qs : list StickerCanvas.Pointer) :
  forall st,
    StickerCanvas.mirrorPointers f (ps ++ qs) st
    = (do st' <- StickerCanvas.mirrorPointers f ps st;
       StickerCanvas.mirrorPointers f qs st').
Proof.
  induction ps as [|p ps IH]; intro st; simpl; [reflexivity|].
  destruct (StickerCanvas.mirrorPointer f st p) as [st'|]; simpl;
    [apply IH | reflexivity].
Qed.

Lemma canvas_down_step (f : Frame) (e : StickerCanvas.PointerEvent)
  (c : StickerCanvas.Refs) (a : AppState) (i : string) (s : StickerItem.t) :
  find (hasId i) (stickers a) = Some s ->
  exists a',
    StickerCanvas.mirrorPointer f (c, a) (StickerCanvas.DownOnSticker e i)
    = Return
        (StickerCanvas.mkRefs (Some StickerCanvas.move)
           (Pt.mk (StickerCanvas.clientX e) (StickerCanvas.clientY e))
           (Pt.mk (StickerItem.x s) (StickerItem.y s)), a')
    /\ stickers a' = stickers a
    /\ activeStickerId a' = Some i
    /\ interactingIdRef a' = Some i
    /\ lastFaceDataRef a' = lastFaceDataRef a.
Proof.
  intro Hs.
  unfold StickerCanvas.mirrorPointer, StickerCanvas.handle,
    StickerCanvas.handlePointerDown.
  cbn [fst snd]. rewrite Hs. cbn [fst snd].
  destruct (optStrEq (activeStickerId a) (Some i)) eqn:E; simpl.
  - eexists. split; [reflexivity|]. apply optStrEq_true in E.
    repeat split; try reflexivity. exact E.
  - eexists. split; [reflexivity|]. repeat split; reflexivity.
Qed.

End CanvasDrag.

(** X1.  The canvas inside [MirrorApp].  When the pointer goes down on a
    sticker of the store (with a non-empty id) and then moves, the sticker
    follows it: after any number of moves its position is where it was
    plus the displacement of the pointer since it went down, it is the
    active sticker, and it is held through [interactingIdRef].  When the
    pointer goes up the hold ends and the drop conversion of the store is
    committed. *)
Theorem canvas_drag_follows_pointer (M : MathLib) (f : Frame)
  (c : StickerCanvas.Refs) (a : AppState) (i : string) (s0 : StickerItem.t)
  (e0 : StickerCanvas.PointerEvent) (es : list StickerCanvas.PointerEvent) :
  i <> "" ->
  find (hasId i) (stickers a) = Some s0 ->
  exists c1 a1 s1 c2 a2,
    StickerCanvas.mirrorPointers f
      (StickerCanvas.DownOnSticker e0 i :: map StickerCanvas.Move es) (c, a)
    = Return (c1, a1)
    /\ find (hasId i) (stickers a1) = Some s1
    /\ StickerItem.x s1
       == StickerItem.x s0
          + (StickerCanvas.clientX (last es e0) - StickerCanvas.clientX e0)
    /\ StickerItem.y s1
       == StickerItem.y s0
          + (StickerCanvas.clientY (last es e0) - StickerCanvas.clientY e0)
    /\ activeStickerId a1 = Some i
    /\ interactingIdRef a1 = Some i
    /\ StickerCanvas.mirrorPointers f
         ((StickerCanvas.DownOnSticker e0 i :: map StickerCanvas.Move es)
          ++ [StickerCanvas.Up]) (c, a)
       = Return (c2, a2)
    /\ StickerCanvas.dragMode c2 = None
    /\ interactingIdRef a2 = None
    /\ stickers a2
       = MirrorApp.dropConversion f i (lastFaceDataRef a) (stickers a1).
Proof.
  intros Hi Hs.
  destruct (canvas_down_step f e0 c a i s0 Hs)
    as [a0 [D [Hst [Hact [Hint Hface]]]]].
  rewrite <- Hst in Hs.
  destruct (canvas_moves f i es Hi
              (StickerCanvas.mkRefs (Some StickerCanvas.move)
                 (Pt.mk (StickerCanvas.clientX e0) (StickerCanvas.clientY e0))
                 (Pt.mk (StickerItem.x s0) (StickerItem.y s0)))
              a0 s0 eq_refl Hact Hs)
    as [c1 [a1 [s1 [E [Hd [Ha [Hi1 [Hf1 [Hs1 [Hx [Hy [Lx Ly]]]]]]]]]]]].
  cbn [StickerCanvas.lastPos Pt.x Pt.y] in Hx, Hy, Lx, Ly.
  assert (R : StickerCanvas.mirrorPointers f
                (StickerCanvas.DownOnSticker e0 i
                 :: map StickerCanvas.Move es) (c, a) = Return (c1, a1)).
  { cbn [StickerCanvas.mirrorPointers]. rewrite D. cbn [bind]. exact E. }
  assert (Lx' : Pt.x (StickerCanvas.lastPos c1)
                = StickerCanvas.clientX (last es e0)).
  { rewrite Lx. destruct es as [|e es']; [reflexivity|].
    f_equal. apply last_default. }
  assert (Ly' : Pt.y (StickerCanvas.lastPos c1)
                = StickerCanvas.clientY (last es e0)).
  { rewrite Ly. destruct es as [|e es']; [reflexivity|].
    f_equal. apply last_default. }
  exists c1, a1, s1.
  exists (StickerCanvas.mkRefs None (StickerCanvas.lastPos c1)
            (StickerCanvas.centerPos c1)).
  exists (MirrorApp.handleHandDrop f i a1).
  split; [exact R|]. split; [exact Hs1|].
  split; [rewrite <- Lx'; lra|]. split; [rewrite <- Ly'; lra|].
  split; [exact Ha|]. split; [rewrite Hi1; exact Hint|].
  split.
  { rewrite canvas_pointers_app, R. cbn [bind StickerCanvas.mirrorPointers].
    unfold StickerCanvas.mirrorPointer, StickerCanvas.handle,
      StickerCanvas.handlePointerUp.
    cbn [fst snd]. rewrite Ha, Hd, (eqb_empty_false _ Hi). reflexivity. }
  split; [reflexivity|]. split; [reflexivity|].
  unfold MirrorApp.handleHandDrop.
  cbn [stickers setStickers setInteractingIdRef lastFaceDataRef].
  rewrite Hf1, Hface. reflexivity.
Qed.

Lemma canvas_drag_follows_pointer_witness :
  "mask-1" <> ""
  /\ find (hasId "mask-1") (stickers maskAndHat) = Some maskSticker
  /\ exists c1 a1 s1,
       StickerCanvas.mirrorPointers (M := scenarioMath) faceFrame
         [StickerCanvas.DownOnSticker (StickerCanvas.mkPointer 100 100)
            "mask-1";
          StickerCanvas.Move (StickerCanvas.mkPointer 110 120);
          StickerCanvas.Move (StickerCanvas.mkPointer 150 90)]
         (StickerCanvas.initialRefs, maskAndHat)
       = Return (c1, a1)
       /\ find (hasId "mask-1") (stickers a1) = Some s1
       /\ StickerItem.x s1 == 150 /\ StickerItem.y s1 == 90.
Proof.
  split; [discriminate|]. split; [reflexivity|].
  destruct (canvas_drag_follows_pointer scenarioMath faceFrame
              StickerCanvas.initialRefs maskAndHat "mask-1" maskSticker
              (StickerCanvas.mkPointer 100 100)
              [StickerCanvas.mkPointer 110 120;
               StickerCanvas.mkPointer 150 90]
              ltac:(discriminate) eq_refl)
    as [c1 [a1 [s1 [c2 [a2 [R [Hs [Hx [Hy _]]]]]]]]].
  exists c1, a1, s1. split; [exact R|]. split; [exact Hs|].
  split; [rewrite Hx | rewrite Hy]; reflexivity.
Defined.

(** X2.  The scale handle of the canvas.  While the pointer drags the
    scale handle of the active sticker, every move asks for one update of
    the scale, to the distance between the pointer and the centre recorded
    when the drag began divided by 50, clamped into the range from 0.2 to
    10, whatever the square root returns; the update gives the sticker
    that scale. *)
Theorem canvas_scale_bounds (M : MathLib) (l : list StickerItem.t)
  (activeId : option string) (e : StickerCanvas.PointerEvent)
  (c : StickerCanvas.Refs) (aid : string) (found : StickerItem.t) :
  StickerCanvas.dragMode c = Some StickerCanvas.scale ->
  activeId = Some aid -> aid <> "" ->
  find (hasId aid) l = Some found ->
  exists k s',
    StickerCanvas.handlePointerMove l activeId e c
    = (c, [StickerCanvas.onUpdate aid (UpdateScale k)])
    /\ 0.2 <= k /\ k <= 10
    /\ find (hasId aid) (handleUpdateSticker aid (UpdateScale k) l) = Some s'
    /\ StickerItem.scale s' = k.
Proof.
  intros Hd Ha Hi Hs.
  unfold StickerCanvas.handlePointerMove.
  rewrite Hd, Ha, (eqb_empty_false _ Hi), Hs. cbv zeta.
  set (raw := Math_sqrt _ / 50).
  eexists. exists (StickerItem.with_scale found
                     (if Qltb 10 (if Qltb raw 0.2 then 0.2 else raw)
                      then 10 else if Qltb raw 0.2 then 0.2 else raw)).
  split; [reflexivity|].
  split.
  { destruct (Qltb raw 0.2) eqn:E1.
    - destruct (Qltb 10 0.2) eqn:E2; [discriminate | apply Qle_refl].
    - apply Qltb_ge in E1.
      destruct (Qltb 10 raw) eqn:E2; [discriminate | exact E1]. }
  split.
  { destruct (Qltb 10 (if Qltb raw 0.2 then 0.2 else raw)) eqn:E2;
      [apply Qle_refl | apply Qltb_ge in E2; exact E2]. }
  split; [|reflexivity].
  unfold handleUpdateSticker. rewrite find_hasId_map.
  - rewrite Hs. simpl.
    assert (H : hasId aid found = true).
    { apply find_some in Hs. exact (proj2 Hs). }
    rewrite H. reflexivity.
  - intro s0. destruct (hasId aid s0); reflexivity.
Qed.

Lemma canvas_scale_bounds_witness :
  exists k,
    StickerCanvas.handlePointerMove (M := scenarioMath)
      (stickers maskAndHat) (Some "mask-1") (StickerCanvas.mkPointer 400 500)
      (StickerCanvas.mkRefs (Some StickerCanvas.scale) (Pt.mk 100 100)
         (Pt.mk 100 100))
    = (StickerCanvas.mkRefs (Some StickerCanvas.scale) (Pt.mk 100 100)
         (Pt.mk 100 100),
       [StickerCanvas.onUpdate "mask-1" (UpdateScale k)])
    /\ 0.2 <= k /\ k <= 10.
Proof.
  destruct (canvas_scale_bounds scenarioMath (stickers maskAndHat)
              (Some "mask-1") (StickerCanvas.mkPointer 400 500)
              (StickerCanvas.mkRefs (Some StickerCanvas.scale)
                 (Pt.mk 100 100) (Pt.mk 100 100))
              "mask-1" maskSticker eq_refl eq_refl ltac:(discriminate)
              eq_refl)
    as [k [s' [E [H1 [H2 _]]]]].
  exists k. split; [exact E|]. split; assumption.
Defined.

(** ** The controls of the selector under the virtual touch *)

Lemma prefix_app (p s : string) : prefix p (p ++ s)%string = true.
Proof.
  induction p as [|c p IH]; simpl; [destruct s; reflexivity|].
  destruct (ascii_dec c c) as [_|H]; [exact IH | contradiction].
Qed.

Lemma substring_all (s : string) : substring 0 (String.length s) s = s.
Proof.
  induction s as [|c s IH]; simpl; [reflexivity|]. rewrite IH. reflexivity.
Qed.

Lemma stripPrefix_app (p s : string) : stripPrefix p (p ++ s)%string = s.
Proof.
  unfold stripPrefix. induction p as [|c p IH]; simpl.
  - rewrite Nat.sub_0_r. apply substring_all.
  - exact IH.
Qed.

(** The ids of the catalogue are not empty and name one asset each. *)
Lemma assets_by_id (asset : Asset.t) :
  In asset ASSETS ->
  Asset.id asset <> ""
  /\ find (fun x => String.eqb (Asset.id x) (Asset.id asset)) ASSETS
     = Some asset.
Proof.
  intro H. unfold ASSETS in H.
  repeat (destruct H as [<-|H]; [split; [discriminate | reflexivity]|]).
  contradiction.
Qed.

(** The dwell timer: progress is the elapsed time over the threshold,
    capped at 1, and reaches 1 exactly when the threshold has elapsed. *)
Lemma dwell_done (thr elapsed : Q) :
  0 < thr -> thr <= elapsed -> Qle_bool 1 (Qmin (elapsed / thr) 1) = true.
Proof.
  intros Ht He. apply Qle_bool_iff. apply Q.min_glb; [|apply Qle_refl].
  apply Qle_shift_div_l; [exact Ht|]. lra.
Qed.

Lemma dwell_pending (thr elapsed : Q) :
  0 < thr -> elapsed < thr ->
  Qle_bool 1 (Qmin (elapsed / thr) 1) = false
  /\ Qmin (elapsed / thr) 1 == elapsed / thr.
Proof.
  intros Ht He.
  assert (H : elapsed / thr < 1).
  { apply Qlt_shift_div_r; [exact Ht|]. lra. }
  assert (E : Qmin (elapsed / thr) 1 == elapsed / thr).
  { apply Q.min_l. apply Qlt_le_weak. exact H. }
  split; [|exact E].
  destruct (Qle_bool 1 (Qmin (elapsed / thr) 1)) eqn:B; [|reflexivity].
  apply Qle_bool_iff in B. rewrite E in B. exfalso.
  exact (Qlt_not_le _ _ H B).
Qed.

Lemma find_skip {A : Type} (p : A -> bool) (pre : list A) (x : A)
  (post : list A) :
  (forall e, In e pre -> p e = false) -> p x = true ->
  find p (pre ++ x :: post) = Some x.
Proof.
  intros Hpre Hx. induction pre as [|e pre IH]; simpl.
  - rewrite Hx. reflexivity.
  - rewrite (Hpre e (or_introl eq_refl)). apply IH.
    intros e' He'. apply Hpre. right. exact He'.
Qed.

Lemma find_none {A : Type} (p : A -> bool) (l : list A) :
  (forall e, In e l -> p e = false) -> find p l = None.
Proof.
  intro H. induction l as [|e l IH]; [reflexivity|]. simpl.
  rewrite (H e (or_introl eq_refl)). apply IH.
  intros e' He'. apply H. right. exact He'.
Qed.

Lemma orElse_Some (q d : Q) :
  (~ q == 0 -> orElse (Some q) d = q) /\ (q == 0 -> orElse (Some q) d = d).
Proof.
  unfold orElse. destruct (Qeq_bool q 0) eqn:E; split; intro H;
    try reflexivity.
  - apply Qeq_bool_iff in E. contradiction.
  - apply Qeq_bool_iff in H. rewrite H in E. discriminate.
Qed.

Section SelectorTouch.
Context {M : MathLib}.

Lemma mirror_resolve_assetButton (f : Frame) (g : Gesture)
  (cur : list StickerItem.t) (asset : Asset.t) (pre post : list DomElement) :
  In asset ASSETS ->
  elementFromPoint f = pre ++ AssetSelector.assetButton asset :: post ->
  (forall e, In e pre -> String.eqb (tagName e) "button" = false) ->
  MirrorApp.resolveTarget f g cur = Some (Asset.id asset, button_asset).
Proof.
  intros Hin He Hpre. destruct (assets_by_id asset Hin) as [Hid _].
  unfold MirrorApp.resolveTarget, MirrorApp.hoveredButton. rewrite He.
  rewrite (find_skip (fun e => String.eqb (tagName e) "button") pre
             (AssetSelector.assetButton asset) post Hpre eq_refl).
  unfold AssetSelector.assetButton. cbn [tagName domId].
  change (negb (String.eqb ("asset-btn-" ++ Asset.id asset) "")) with true.
  cbv iota. rewrite prefix_app, stripPrefix_app.
  rewrite (eqb_empty_false _ Hid). reflexivity.
Qed.

Lemma mirror_resolve_categoryButton (f : Frame) (g : Gesture)
  (cur : list StickerItem.t) (cat : Category) (pre post : list DomElement) :
  elementFromPoint f = pre ++ AssetSelector.categoryButton cat :: post ->
  (forall e, In e pre -> String.eqb (tagName e) "button" = false) ->
  MirrorApp.resolveTarget f g cur
  = Some (AssetSelector.categoryKey cat, button_cat).
Proof.
  intros He Hpre.
  unfold MirrorApp.resolveTarget, MirrorApp.hoveredButton. rewrite He.
  rewrite (find_skip (fun e => String.eqb (tagName e) "button") pre
             (AssetSelector.categoryButton cat) post Hpre eq_refl).
  destruct cat; reflexivity.
Qed.

End SelectorTouch.

(** X3.  The virtual touch on the selector, in [MirrorApp].  When the
    cursor is on the button that the selector renders for an asset of the
    catalogue, or on an element inside it (the nearest enclosing button
    is that button): a frame that finds another target in the
    interaction state starts the dwell timer; while less than 1500 ms
    have elapsed the store is untouched and the progress is the elapsed
    share of the 1500 ms; once 1500 ms have elapsed, a sticker of that
    very asset is added (a face replaces the face), becomes the active
    sticker and is held in a drag.  The sticker is put at the cursor,
    except that a cursor coordinate of 0 is replaced by the middle of the
    window.  On the button of a category, the 1500 ms select that
    category and leave the store alone. *)
Theorem selector_touch (M : MathLib) (f : Frame) (g : Gesture)
  (cur : list StickerItem.t) (cs : InteractionState) (a : AppState) :
  (forall asset pre post,
     In asset ASSETS ->
     elementFromPoint f = pre ++ AssetSelector.assetButton asset :: post ->
     (forall e, In e pre -> String.eqb (tagName e) "button" = false) ->
     let a' := MirrorApp.hoverLogic f g cur cs a in
     let elapsed := now f - hoverStartTimeRef a in
     let item :=
       MirrorApp.newItem f asset (Some (cursorX g)) (Some (cursorY g)) in
     (targetId cs <> Some (Asset.id asset) ->
      a' = setInteractionState
             (fun _ => mkInteraction hovering (Some (Asset.id asset))
                         button_asset 0)
             (setHoverStartTimeRef (now f) a))
     /\ (targetId cs = Some (Asset.id asset) ->
         elapsed < BUTTON_HOVER_THRESHOLD_MS ->
         stickers a' = stickers a
         /\ status (interactionState a') = status (interactionState a)
         /\ progress (interactionState a')
            == elapsed / BUTTON_HOVER_THRESHOLD_MS)
     /\ (targetId cs = Some (Asset.id asset) ->
         BUTTON_HOVER_THRESHOLD_MS <= elapsed ->
         stickers a' = MirrorApp.addSticker asset item (stickers a)
         /\ interactionState a'
            = mkInteraction dragging (Some (StickerItem.id item)) sticker 0
         /\ interactingIdRef a' = Some (StickerItem.id item)
         /\ activeStickerId a' = Some (StickerItem.id item)
         /\ StickerItem.content item = Asset.content asset
         /\ (~ cursorX g == 0 -> StickerItem.x item = cursorX g)
         /\ (cursorX g == 0 -> StickerItem.x item = innerWidth f / 2)
         /\ (~ cursorY g == 0 -> StickerItem.y item = cursorY g)
         /\ (cursorY g == 0 -> StickerItem.y item = innerHeight f / 2)))
  /\ (forall cat pre post,
        elementFromPoint f = pre ++ AssetSelector.categoryButton cat :: post ->
        (forall e, In e pre -> String.eqb (tagName e) "button" = false) ->
        targetId cs = Some (AssetSelector.categoryKey cat) ->
        BUTTON_HOVER_THRESHOLD_MS <= now f - hoverStartTimeRef a ->
        let a' := MirrorApp.hoverLogic f g cur cs a in
        selectedCategory a' = AssetSelector.categoryKey cat
        /\ interactionState a' = idleState
        /\ stickers a' = stickers a).
Proof.
  split.
  - intros asset pre post Hin He Hpre a' elapsed item.
    pose proof (mirror_resolve_assetButton f g cur asset pre post Hin He Hpre)
      as R.
    destruct (assets_by_id asset Hin) as [_ Hfind].
    subst a'. unfold MirrorApp.hoverLogic. rewrite R.
    split; [|split].
    + intro Hne. rewrite (proj1 (optStrEq_false _ _ Hne)). reflexivity.
    + intros Heq Hlt. rewrite Heq. cbn [optStrEq]. rewrite String.eqb_refl.
      cbn [negb]. cbv zeta.
      destruct (dwell_pending BUTTON_HOVER_THRESHOLD_MS elapsed
                  ltac:(reflexivity) Hlt) as [B E].
      fold elapsed. rewrite B.
      split; [reflexivity|]. split; [reflexivity|]. exact E.
    + intros Heq Hge. rewrite Heq. cbn [optStrEq]. rewrite String.eqb_refl.
      cbn [negb]. cbv zeta.
      fold elapsed.
      rewrite (dwell_done BUTTON_HOVER_THRESHOLD_MS elapsed
                 ltac:(reflexivity) Hge).
      rewrite Hfind.
      do 5 (split; [reflexivity|]).
      unfold item, MirrorApp.newItem. cbn [StickerItem.x StickerItem.y].
      split; [apply orElse_Some|]. split; [apply orElse_Some|].
      split; apply orElse_Some.
  - intros cat pre post He Hpre Heq Hge a'.
    pose proof (mirror_resolve_categoryButton f g cur cat pre post He Hpre)
      as R.
    subst a'. unfold MirrorApp.hoverLogic. rewrite R, Heq.
    cbn [optStrEq]. rewrite String.eqb_refl. cbn [negb]. cbv zeta.
    rewrite (dwell_done BUTTON_HOVER_THRESHOLD_MS _ ltac:(reflexivity) Hge).
    repeat split; reflexivity.
Qed.

Lemma selector_touch_witness :
  In crown ASSETS
  /\ BUTTON_HOVER_THRESHOLD_MS <= 2000 - hoverStartTimeRef initialState
  /\ stickers
       (MirrorApp.hoverLogic (M := scenarioMath)
          (touching [iconWrapper; AssetSelector.assetButton crown]
             (quietFrame 2000))
          pointingGesture [] overCrownButton initialState)
     = [MirrorApp.newItem
          (touching [iconWrapper; AssetSelector.assetButton crown]
             (quietFrame 2000))
          crown (Some (cursorX pointingGesture))
          (Some (cursorY pointingGesture))].
Proof.
  assert (Hin : In crown ASSETS) by (unfold ASSETS, crown; simpl; tauto).
  split; [exact Hin|]. split; [discriminate|].
  destruct (proj1 (selector_touch scenarioMath
                     (touching [iconWrapper; AssetSelector.assetButton crown]
                        (quietFrame 2000))
                     pointingGesture [] overCrownButton initialState)
              crown [iconWrapper] [] Hin eq_refl
              ltac:(intros e [<- | []]; reflexivity)) as [_ [_ H]].
  destruct (H eq_refl ltac:(discriminate)) as [Hs _].
  exact Hs.
Defined.

(** ** The style service *)

(** X4.  [analyzeStyle] never answers with the empty string: it answers
    with the text of the model when there is one and it is not empty,
    with a stock compliment when the text is missing or empty, and with a
    stock apology when the request fails.  The model is sent the image
    data without its data-URL header when the header is the one of a PNG
    or JPEG image, and the string as it is when it starts with none of
    the three headers. *)
Theorem analyzeStyle_answers
  (generateContent : string -> outcome (option string)) :
  (forall img, GeminiService.analyzeStyle generateContent img <> "")
  /\ (forall h data,
        In h GeminiService.dataUrlHeaders ->
        GeminiService.analyzeStyle generateContent (h ++ data)%string
        = match generateContent data with
          | Return (Some t) =>
              if String.eqb t "" then GeminiService.EMPTY_ANSWER else t
          | Return None => GeminiService.EMPTY_ANSWER
          | Throw => GeminiService.ERROR_ANSWER
          end)
  /\ (forall img,
        (forall h, In h GeminiService.dataUrlHeaders -> prefix h img = false) ->
        GeminiService.cleanBase64 img = img).
Proof.
  split; [|split].
  - intro img. unfold GeminiService.analyzeStyle.
    destruct (generateContent _) as [[t|]|]; simpl; try discriminate.
    destruct (String.eqb t "") eqn:E; simpl; [discriminate|].
    apply String.eqb_neq. exact E.
  - intros h data Hin.
    assert (C : GeminiService.cleanBase64 (h ++ data) = data).
    { unfold GeminiService.cleanBase64, GeminiService.dataUrlHeaders.
      destruct Hin as [<-|[<-|[<-|[]]]].
      - cbn [find]. rewrite prefix_app. apply stripPrefix_app.
      - cbn [find].
        change (prefix "data:image/png;base64,"
                  ("data:image/jpeg;base64," ++ data)) with false.
        cbv iota. rewrite prefix_app. apply stripPrefix_app.
      - cbn [find].
        change (prefix "data:image/png;base64,"
                  ("data:image/jpg;base64," ++ data)) with false.
        change (prefix "data:image/jpeg;base64,"
                  ("data:image/jpg;base64," ++ data)) with false.
        cbv iota. rewrite prefix_app. apply stripPrefix_app. }
    unfold GeminiService.analyzeStyle. rewrite C.
    destruct (generateContent data) as [[t|]|]; simpl; try reflexivity.
    destruct (String.eqb t ""); reflexivity.
  - intros img H. unfold GeminiService.cleanBase64,
      GeminiService.dataUrlHeaders.
    cbn [find].
    rewrite (H "data:image/png;base64,"), (H "data:image/jpeg;base64,"),
      (H "data:image/jpg;base64,");
      unfold GeminiService.dataUrlHeaders; simpl; auto.
Qed.

Lemma analyzeStyle_answers_witness :
  In "data:image/png;base64,"%string GeminiService.dataUrlHeaders
  /\ GeminiService.analyzeStyle (fun data => Return (Some data))
       "data:image/png;base64,iVBORw0KGgo"
     = "iVBORw0KGgo"%string.
Proof.
  split; [left; reflexivity|].
  exact (proj1 (proj2 (analyzeStyle_answers (fun data => Return (Some data))))
           "data:image/png;base64,"%string "iVBORw0KGgo"%string
           (or_introl eq_refl)).
Defined.

(** ** What the lifecycle pass leaves alone *)

Lemma filter_length_le_all {A : Type} (p : A -> bool) (l : list A) :
  (List.length (filter p l) <= List.length l)%nat.
Proof.
  induction l as [|a l IH]; simpl; [lia|]. destruct (p a); simpl; lia.
Qed.

Lemma lifecycle_filter_map (fade now : Q) (l : list StickerItem.t) :
  exists keep fadeOut,
    lifecycle fade now l = map fadeOut (filter keep l)
    /\ (forall s, lifespanBound s = false -> keep s = true /\ fadeOut s = s)
    /\ (forall s, StickerItem.id (fadeOut s) = StickerItem.id s
                  /\ lifespanBound (fadeOut s) = lifespanBound s
                  /\ (fadeOut s = s
                      \/ fadeOut s
                         = StickerItem.with_opacity s
                             ((num (StickerItem.lifespan s)
                               - (now - num (StickerItem.createdAt s)))
                              / fade))).
Proof.
  unfold lifecycle. eexists. eexists. split; [reflexivity|]. split.
  - intros s Hb. unfold lifespanBound in Hb. cbv beta.
    rewrite Hb. split; [|reflexivity].
    apply andb_false_iff in Hb. destruct Hb as [-> | ->]; simpl;
      [reflexivity | rewrite orb_true_r; reflexivity].
  - intro s. cbv beta zeta. unfold lifespanBound.
    destruct (truthy (StickerItem.lifespan s)
              && truthy (StickerItem.createdAt s)) eqn:Hb;
      [|split; [reflexivity|]; split; [exact Hb | left; reflexivity]].
    destruct (Qltb _ fade);
      (split; [reflexivity|]; split; [exact Hb|]);
      [right | left]; reflexivity.
Qed.

(** X5.  The lifecycle pass never adds, reorders or renames a sticker,
    and it never drops or changes a sticker that is not lifespan-bound
    (no lifespan, or no creation time): the stickers that are not
    lifespan-bound come out as they went in, every sticker that comes out
    is one that went in, under the same id, either unchanged or with
    only its opacity set. *)
Theorem lifecycle_spares_permanent (fade now : Q) (l : list StickerItem.t) :
  filter (fun s => negb (lifespanBound s)) (lifecycle fade now l)
  = filter (fun s => negb (lifespanBound s)) l
  /\ (List.length (lifecycle fade now l) <= List.length l)%nat
  /\ (exists keep,
        map StickerItem.id (lifecycle fade now l)
        = map StickerItem.id (filter keep l))
  /\ (forall s', In s' (lifecycle fade now l) ->
        exists s, In s l
                  /\ (s' = s
                      \/ lifespanBound s = true
                         /\ s' = StickerItem.with_opacity s
                                   ((num (StickerItem.lifespan s)
                                     - (now - num (StickerItem.createdAt s)))
                                    / fade))).
Proof.
  destruct (lifecycle_filter_map fade now l) as [keep [fadeOut [E [Hp Hf]]]].
  rewrite E. split; [|split; [|split]].
  - clear E. induction l as [|s l IH]; [reflexivity|].
    cbn [filter]. destruct (lifespanBound s) eqn:Hb.
    + destruct (keep s); cbn [map filter negb];
        [rewrite (proj1 (proj2 (Hf s))), Hb; cbn [negb]|]; exact IH.
    + destruct (Hp s Hb) as [-> Hs]. cbn [map filter negb].
      rewrite Hs, Hb. cbn [negb]. f_equal. exact IH.
  - rewrite length_map. apply filter_length_le_all.
  - exists keep. rewrite map_map. apply map_ext. intro s. apply Hf.
  - intros s' Hin. apply in_map_iff in Hin. destruct Hin as [s [<- Hin]].
    apply filter_In in Hin. exists s. split; [exact (proj1 Hin)|].
    destruct (proj2 (proj2 (Hf s))) as [H|H]; [left; exact H|].
    destruct (lifespanBound s) eqn:Hb; [right; split; [reflexivity|exact H]|].
    left. exact (proj2 (Hp s Hb)).
Qed.

(** ** Effects come and go *)

Lemma transient_expires (fade t created span : Q) (e : StickerItem.t)
  (l : list StickerItem.t) :
  StickerItem.createdAt e = Some created ->
  StickerItem.lifespan e = Some span ->
  ~ created == 0 -> ~ span == 0 ->
  created + span <= t ->
  lifecycle fade t (l ++ [e]) = lifecycle fade t l.
Proof.
  intros Hc Hl Hc0 Hs0 Ht.
  rewrite lifecycle_app, lifecycle_expired, app_nil_r; [reflexivity| |].
  - unfold lifespanBound. rewrite Hc, Hl.
    rewrite (truthy_Some _ Hc0), (truthy_Some _ Hs0). reflexivity.
  - rewrite Hc, Hl. simpl. lra.
Qed.

(** X6.  The effect stickers of the open palm.  [spawnEffect] does
    nothing unless the palm is open, more than the spawn cool-down has
    passed since the last effect and the store has a face sticker (and,
    in [GameApp], the game is not running).  When it acts it appends
    exactly one sticker and stamps the spawn time; that sticker is
    unanchored, is no face, was created at the time of the frame and has
    the effect lifespan (2000 ms in [MirrorApp], 3000 ms in [GameApp]), so
    that the lifecycle pass of any frame from that age on drops it again.
    The last step needs the frame time not to be 0: a creation time of 0
    is falsy, and such a sticker is never treated as lifespan-bound. *)
Theorem effects_are_transient (M : MathLib) (f : Frame) (g : Gesture)
  (cur : list StickerItem.t) (a : AppState) :
  (isOpenPalm g = false
   \/ find isFace (stickers a) = None
   \/ now f - lastEffectSpawnTimeRef a <= MirrorApp.EFFECT_COOLDOWN_MS ->
   MirrorApp.spawnEffect f g a = a)
  /\ (stickers (MirrorApp.spawnEffect f g a) = stickers a
      \/ exists e,
           stickers (MirrorApp.spawnEffect f g a) = stickers a ++ [e]
           /\ lastEffectSpawnTimeRef (MirrorApp.spawnEffect f g a) = now f
           /\ StickerItem.anchorType e = none
           /\ isFace e = false
           /\ StickerItem.createdAt e = Some (now f)
           /\ StickerItem.lifespan e = Some MirrorApp.EFFECT_LIFESPAN
           /\ (~ now f == 0 ->
               forall fade t l,
                 now f + MirrorApp.EFFECT_LIFESPAN <= t ->
                 lifecycle fade t (l ++ [e]) = lifecycle fade t l))
  /\ (isOpenPalm g = false
      \/ isPlaying a = true
      \/ find isFace cur = None
      \/ now f - lastEffectSpawnTimeRef a <= GameApp.EFFECT_SPAWN_RATE ->
      GameApp.spawnEffect f g cur a = a)
  /\ (stickers (GameApp.spawnEffect f g cur a) = stickers a
      \/ exists e,
           stickers (GameApp.spawnEffect f g cur a) = stickers a ++ [e]
           /\ lastEffectSpawnTimeRef (GameApp.spawnEffect f g cur a) = now f
           /\ StickerItem.anchorType e = none
           /\ isFace e = false
           /\ StickerItem.createdAt e = Some (now f)
           /\ StickerItem.lifespan e = Some GameApp.EFFECT_LIFESPAN
           /\ (~ now f == 0 ->
               forall fade t l,
                 now f + GameApp.EFFECT_LIFESPAN <= t ->
                 lifecycle fade t (l ++ [e]) = lifecycle fade t l)).
Proof.
  split; [|split; [|split]].
  - unfold MirrorApp.spawnEffect. intros [H|[H|H]].
    + rewrite H. reflexivity.
    + rewrite H. destruct (_ && _); reflexivity.
    + apply Qltb_ge in H. rewrite H, andb_false_r. reflexivity.
  - unfold MirrorApp.spawnEffect.
    repeat break_match; try (left; reflexivity).
    right. eexists. split; [reflexivity|].
    do 5 (split; [reflexivity|]).
    intros Hnow fade' t' l' Ht.
    apply (transient_expires fade' t' (now f) MirrorApp.EFFECT_LIFESPAN);
      try reflexivity; try assumption. discriminate.
  - unfold GameApp.spawnEffect. intros [H|[H|[H|H]]].
    + rewrite H. reflexivity.
    + rewrite H, andb_false_r. reflexivity.
    + rewrite H. destruct (_ && _); reflexivity.
    + apply Qltb_ge in H. rewrite H, andb_false_r. reflexivity.
  - unfold GameApp.spawnEffect.
    repeat break_match; try (left; reflexivity).
    right. eexists. split; [reflexivity|].
    do 5 (split; [reflexivity|]).
    intros Hnow fade' t' l' Ht.
    apply (transient_expires fade' t' (now f) GameApp.EFFECT_LIFESPAN);
      try reflexivity; try assumption. discriminate.
Qed.

Lemma effects_are_transient_witness :
  exists e,
    stickers
      (MirrorApp.spawnEffect
         (withHand (openPalm 0.75 0.25) (seen 1000 "1000"))
         (classify (M := scenarioMath) (openPalm 0.75 0.25) 640 480)
         (fst (MirrorApp.handleAddSticker (quietFrame 0) rabbit None None
                 initialState)))
    = [MirrorApp.newItem (quietFrame 0) rabbit None None; e]
    /\ lifecycle MirrorApp.EFFECT_FADE_DURATION 3000
         [MirrorApp.newItem (quietFrame 0) rabbit None None; e]
       = [MirrorApp.newItem (quietFrame 0) rabbit None None].
Proof.
  destruct (proj1 (proj2
              (effects_are_transient scenarioMath
                 (withHand (openPalm 0.75 0.25) (seen 1000 "1000"))
                 (classify (M := scenarioMath) (openPalm 0.75 0.25) 640 480)
                 []
                 (fst (MirrorApp.handleAddSticker (quietFrame 0) rabbit None
                         None initialState)))))
    as [H|[e [H [_ [_ [_ [_ [_ X]]]]]]]].
  - apply (f_equal (@List.length _)) in H. vm_compute in H. discriminate.
  - exists e. split; [exact H|].
    exact (X ltac:(discriminate) MirrorApp.EFFECT_FADE_DURATION 3000
             [MirrorApp.newItem (quietFrame 0) rabbit None None]
             ltac:(discriminate)).
Defined.

(** ** Cycling the animal face *)

Lemma find_after_filter {A : Type} (p : A -> bool) (l : list A) (x : A) :
  p x = true ->
  find p (filter (fun a => negb (p a)) l ++ [x]) = Some x.
Proof.
  intro Hx. induction l as [|a l IH]; simpl; [rewrite Hx; reflexivity|].
  destruct (p a) eqn:E; simpl; [exact IH|]. rewrite E. exact IH.
Qed.

Lemma nextFaceAsset_successor (prev : list StickerItem.t)
  (c : StickerItem.t) (k : nat) (asset : Asset.t) :
  find isFace prev = Some c ->
  nth_error faceAssets k = Some asset ->
  StickerItem.content c = Asset.content asset ->
  exists next,
    nextFaceAsset prev = Return next
    /\ nth_error faceAssets (S k mod 4) = Some next
    /\ Asset.category next = faces.
Proof.
  intros Hf Hk Hc. unfold nextFaceAsset. rewrite Hf, Hc.
  do 4 (destruct k as [|k];
        [injection Hk as <-; eexists; split; [reflexivity|];
         split; reflexivity|]).
  destruct k; discriminate.
Qed.

Lemma mirror_cycle_successor (f : Frame) (prev : list StickerItem.t)
  (c : StickerItem.t) (k : nat) (asset : Asset.t) :
  find isFace prev = Some c ->
  nth_error faceAssets k = Some asset ->
  StickerItem.content c = Asset.content asset ->
  exists l' c' next,
    MirrorApp.cycleAnimalFace f prev = Return l'
    /\ l' = filter (fun s => negb (isFace s)) prev ++ [c']
    /\ find isFace l' = Some c'
    /\ nth_error faceAssets (S k mod 4) = Some next
    /\ StickerItem.content c' = Asset.content next.
Proof.
  intros Hf Hk Hc.
  destruct (nextFaceAsset_successor prev c k asset Hf Hk Hc)
    as [next [E [Hn Hcat]]].
  unfold MirrorApp.cycleAnimalFace. rewrite E. cbn [bind]. cbv zeta.
  eexists. eexists. exists next.
  split; [reflexivity|]. split; [reflexivity|].
  split; [|split; [exact Hn | reflexivity]].
  apply find_after_filter. unfold isFace. cbn [StickerItem.category].
  rewrite Hcat. reflexivity.
Qed.

Lemma game_cycle_successor (f : Frame) (prev : list StickerItem.t)
  (c : StickerItem.t) (k : nat) (asset : Asset.t) :
  find isFace prev = Some c ->
  nth_error faceAssets k = Some asset ->
  StickerItem.content c = Asset.content asset ->
  exists l' c' next,
    GameApp.cycleAnimalFace f prev = Return l'
    /\ l' = filter (fun s => negb (isFace s)) prev ++ [c']
    /\ find isFace l' = Some c'
    /\ nth_error faceAssets (S k mod 4) = Some next
    /\ StickerItem.content c' = Asset.content next.
Proof.
  intros Hf Hk Hc.
  destruct (nextFaceAsset_successor prev c k asset Hf Hk Hc)
    as [next [E [Hn Hcat]]].
  unfold GameApp.cycleAnimalFace. rewrite E. cbn [bind]. cbv zeta.
  eexists. eexists. exists next.
  split; [reflexivity|]. split; [reflexivity|].
  split; [|split; [exact Hn | reflexivity]].
  apply find_after_filter. reflexivity.
Qed.

Lemma four_steps_round (k : nat) :
  (k < 4)%nat -> (S (S (S (S k mod 4) mod 4) mod 4) mod 4 = k)%nat.
Proof.
  intro H. do 4 (destruct k as [|k]; [reflexivity|]). lia.
Qed.

(** X7.  [cycleAnimalFace] walks through the face assets of the catalogue
    in a circle.  When the face sticker of the store shows face number
    [k] of the catalogue, one cycle replaces it, in one update, by a new
    face sticker that shows face number [k + 1] modulo 4, and four cycles
    in a row bring back the face shown at first, in [MirrorApp] and in
    [GameApp].  From a store without a face sticker the cycle starts
    with the first face of the catalogue. *)
Theorem face_cycle (f1 f2 f3 f4 : Frame) (prev : list StickerItem.t)
  (c : StickerItem.t) (k : nat) (asset : Asset.t) :
  find isFace prev = Some c ->
  nth_error faceAssets k = Some asset ->
  StickerItem.content c = Asset.content asset ->
  (exists l1 c1 next,
     MirrorApp.cycleAnimalFace f1 prev = Return l1
     /\ l1 = filter (fun s => negb (isFace s)) prev ++ [c1]
     /\ nth_error faceAssets (S k mod 4) = Some next
     /\ StickerItem.content c1 = Asset.content next)
  /\ (exists l4 c4,
        (do l1 <- MirrorApp.cycleAnimalFace f1 prev;
         do l2 <- MirrorApp.cycleAnimalFace f2 l1;
         do l3 <- MirrorApp.cycleAnimalFace f3 l2;
         MirrorApp.cycleAnimalFace f4 l3) = Return l4
        /\ find isFace l4 = Some c4
        /\ StickerItem.content c4 = StickerItem.content c)
  /\ (exists l1 c1 next,
        GameApp.cycleAnimalFace f1 prev = Return l1
        /\ l1 = filter (fun s => negb (isFace s)) prev ++ [c1]
        /\ nth_error faceAssets (S k mod 4) = Some next
        /\ StickerItem.content c1 = Asset.content next)
  /\ (exists l4 c4,
        (do l1 <- GameApp.cycleAnimalFace f1 prev;
         do l2 <- GameApp.cycleAnimalFace f2 l1;
         do l3 <- GameApp.cycleAnimalFace f3 l2;
         GameApp.cycleAnimalFace f4 l3) = Return l4
        /\ find isFace l4 = Some c4
        /\ StickerItem.content c4 = StickerItem.content c)
  /\ (forall l0,
        find isFace l0 = None ->
        exists first,
          nth_error faceAssets 0 = Some first
          /\ nextFaceAsset l0 = Return first).
Proof.
  intros Hf Hk Hc.
  assert (Hlt : (k < 4)%nat).
  { change 4%nat with (List.length faceAssets). apply nth_error_Some.
    congruence. }
  split; [|split; [|split; [|split]]].
  - destruct (mirror_cycle_successor f1 prev c k asset Hf Hk Hc)
      as [l1 [c1 [n1 [E1 [L1 [F1 [N1 C1]]]]]]].
    exists l1, c1, n1. auto.
  - destruct (mirror_cycle_successor f1 prev c k asset Hf Hk Hc)
      as [l1 [c1 [n1 [E1 [_ [F1 [N1 C1]]]]]]].
    destruct (mirror_cycle_successor f2 l1 c1 _ n1 F1 N1 C1)
      as [l2 [c2 [n2 [E2 [_ [F2 [N2 C2]]]]]]].
    destruct (mirror_cycle_successor f3 l2 c2 _ n2 F2 N2 C2)
      as [l3 [c3 [n3 [E3 [_ [F3 [N3 C3]]]]]]].
    destruct (mirror_cycle_successor f4 l3 c3 _ n3 F3 N3 C3)
      as [l4 [c4 [n4 [E4 [_ [F4 [N4 C4]]]]]]].
    exists l4, c4. rewrite E1. cbn [bind]. rewrite E2. cbn [bind].
    rewrite E3. cbn [bind]. split; [exact E4|]. split; [exact F4|].
    rewrite (four_steps_round k Hlt), Hk in N4. injection N4 as <-.
    congruence.
  - destruct (game_cycle_successor f1 prev c k asset Hf Hk Hc)
      as [l1 [c1 [n1 [E1 [L1 [F1 [N1 C1]]]]]]].
    exists l1, c1, n1. auto.
  - destruct (game_cycle_successor f1 prev c k asset Hf Hk Hc)
      as [l1 [c1 [n1 [E1 [_ [F1 [N1 C1]]]]]]].
    destruct (game_cycle_successor f2 l1 c1 _ n1 F1 N1 C1)
      as [l2 [c2 [n2 [E2 [_ [F2 [N2 C2]]]]]]].
    destruct (game_cycle_successor f3 l2 c2 _ n2 F2 N2 C2)
      as [l3 [c3 [n3 [E3 [_ [F3 [N3 C3]]]]]]].
    destruct (game_cycle_successor f4 l3 c3 _ n3 F3 N3 C3)
      as [l4 [c4 [n4 [E4 [_ [F4 [N4 C4]]]]]]].
    exists l4, c4. rewrite E1. cbn [bind]. rewrite E2. cbn [bind].
    rewrite E3. cbn [bind]. split; [exact E4|]. split; [exact F4|].
    rewrite (four_steps_round k Hlt), Hk in N4. injection N4 as <-.
    congruence.
  - intros l0 H0. unfold nextFaceAsset. rewrite H0.
    eexists. split; reflexivity.
Qed.

Lemma face_cycle_witness :
  exists l4 c4,
    (do l1 <- GameApp.cycleAnimalFace (quietFrame 10)
                [GameApp.newSticker (quietFrame 0) panda];
     do l2 <- GameApp.cycleAnimalFace (quietFrame 20) l1;
     do l3 <- GameApp.cycleAnimalFace (quietFrame 30) l2;
     GameApp.cycleAnimalFace (quietFrame 40) l3) = Return l4
    /\ find isFace l4 = Some c4
    /\ StickerItem.content c4 = Asset.content panda.
Proof.
  exact (proj1 (proj2 (proj2 (proj2
           (face_cycle (quietFrame 10) (quietFrame 20) (quietFrame 30)
              (quietFrame 40) [GameApp.newSticker (quietFrame 0) panda]
              (GameApp.newSticker (quietFrame 0) panda) 1 panda
              eq_refl eq_refl eq_refl))))).
Defined.

(** ** The coin game *)

Section CoinRound.
Context {M : MathLib}.

Lemma coinStep_cases (ax ay speed scaleY : Q)
  (acc : list CoinItem.t * Q) (coin : CoinItem.t) :
  Game.coinStep ax ay speed scaleY acc coin
  = if coinHit ax ay speed coin
    then (fst acc, snd acc + CoinItem.value coin)
    else if coinStays ax ay speed scaleY coin
    then (fst acc ++ [coinFall speed coin], snd acc)
    else acc.
Proof.
  unfold Game.coinStep, coinStays, coinHit, coinFall. cbv zeta.
  destruct (CoinItem.collected coin); cbn [negb andb]; [reflexivity|].
  destruct (Qltb _ (Game.COIN_RADIUS + Game.AVATAR_COLLISION_RADIUS));
    cbn [negb andb]; [reflexivity|].
  destruct (Qle_bool _ _); reflexivity.
Qed.

Lemma coinHit_leaves (ax ay speed scaleY : Q) (coin : CoinItem.t) :
  coinHit ax ay speed coin = true -> coinStays ax ay speed scaleY coin = false.
Proof.
  intro H. unfold coinStays. rewrite H.
  destruct (negb (CoinItem.collected coin)); reflexivity.
Qed.

(** The [forEach] over the coins, as a filter, a map and a sum. *)
Lemma coinStep_fold (ax ay speed scaleY : Q) (l : list CoinItem.t) :
  forall kept inc,
    fst (fold_left (Game.coinStep ax ay speed scaleY) l (kept, inc))
    = kept ++ map (coinFall speed) (filter (coinStays ax ay speed scaleY) l)
    /\ snd (fold_left (Game.coinStep ax ay speed scaleY) l (kept, inc))
       == inc + totalValue (filter (coinHit ax ay speed) l).
Proof.
  induction l as [|coin l IH]; intros kept inc.
  - cbn [fold_left filter map fst snd totalValue]. rewrite app_nil_r.
    split; [reflexivity | ring].
  - cbn [fold_left filter]. rewrite coinStep_cases. cbn [fst snd].
    destruct (coinHit ax ay speed coin) eqn:Hh.
    + rewrite (coinHit_leaves _ _ _ scaleY _ Hh).
      destruct (IH kept (inc + CoinItem.value coin)) as [H1 H2].
      split; [exact H1|]. rewrite H2. cbn [totalValue]. ring.
    + destruct (coinStays ax ay speed scaleY coin).
      * destruct (IH (kept ++ [coinFall speed coin]) inc) as [H1 H2].
        split; [|exact H2]. rewrite H1, <- app_assoc. reflexivity.
      * apply IH.
Qed.

Lemma totalValue_fresh (l : list CoinItem.t) :
  freshCoins l ->
  totalValue l == ofNat (List.length l) * Game.POINTS_PER_COIN.
Proof.
  induction 1 as [|coin l [Hv _] _ IH]; [reflexivity|].
  cbn [totalValue List.length]. rewrite IH, Hv.
  change (S (List.length l)) with (1 + List.length l)%nat.
  rewrite ofNat_plus. change (ofNat 1) with 1. ring.
Qed.

Lemma freshCoins_filter (p : CoinItem.t -> bool) (l : list CoinItem.t) :
  freshCoins l -> freshCoins (filter p l).
Proof.
  unfold freshCoins. rewrite !Forall_forall. intros H c Hc.
  apply filter_In in Hc. apply H. exact (proj1 Hc).
Qed.

Lemma freshCoins_fall (speed : Q) (l : list CoinItem.t) :
  freshCoins l -> freshCoins (map (coinFall speed) l).
Proof.
  unfold freshCoins. rewrite !Forall_forall. intros H c Hc.
  apply in_map_iff in Hc. destruct Hc as [c0 [<- Hc0]]. exact (H c0 Hc0).
Qed.

Lemma freshCoins_spawn (f : Frame) (a : AppState) :
  freshCoins (coins a) -> freshCoins (coins (Game.spawnCoin f a)).
Proof.
  intro H. unfold Game.spawnCoin. destruct (Qltb _ _); [|exact H].
  cbn [coins setCoins setLastCoinSpawnTimeRef]. unfold freshCoins.
  apply Forall_app. split; [exact H|].
  constructor; [split; reflexivity | constructor].
Qed.

End CoinRound.

(** One frame of the coin game, coin by coin. *)
Lemma play_coins (M : MathLib) (f : Frame) (a a' : AppState) :
  freshCoins (coins a) ->
  Game.play f a = Return a' ->
  exists ax ay,
    Game.avatarPosition f = Return (ax, ay)
    /\ coins a'
       = map (coinFall (coinSpeed a))
           (filter (coinStays ax ay (coinSpeed a) (rectHeight f))
              (coins (Game.spawnCoin f a)))
    /\ scoreRef a'
       == scoreRef a
          + ofNat (List.length (filter (coinHit ax ay (coinSpeed a))
                                  (coins (Game.spawnCoin f a))))
            * Game.POINTS_PER_COIN
    /\ (List.length (coins a')
        + List.length (filter (coinHit ax ay (coinSpeed a))
                         (coins (Game.spawnCoin f a)))
        <= List.length (coins (Game.spawnCoin f a)))%nat
    /\ freshCoins (coins a')
    /\ (score a = scoreRef a -> score a' = scoreRef a')
    /\ stickers a' = stickers a.
Proof.
  intros Hfresh E.
  pose proof (play_stickers _ _ _ E) as Hst.
  unfold Game.play in E. cbv zeta in E.
  destruct (Game.avatarPosition f) as [[ax ay]|]; cbn [bind fst snd] in E;
    [|discriminate].
  assert (Hs : scoreRef (Game.spawnCoin f a) = scoreRef a).
  { clear. unfold Game.spawnCoin.
    destruct (Qltb Game.COIN_SPAWN_RATE_MS _); reflexivity. }
  assert (Hd : score (Game.spawnCoin f a) = score a).
  { clear. unfold Game.spawnCoin.
    destruct (Qltb Game.COIN_SPAWN_RATE_MS _); reflexivity. }
  rewrite Hs in E. fold (coinSpeed a) in E.
  set (before := coins (Game.spawnCoin f a)) in *.
  destruct (coinStep_fold ax ay (coinSpeed a) (rectHeight f) before [] 0)
    as [F1 F2].
  set (r := fold_left _ before ([], 0)) in *.
  assert (Hb : freshCoins before) by (apply freshCoins_spawn; exact Hfresh).
  pose proof (totalValue_fresh _ (freshCoins_filter
                (coinHit ax ay (coinSpeed a)) _ Hb)) as Hv.
  set (hits := filter (coinHit ax ay (coinSpeed a)) before) in *.
  assert (Hinc : snd r == ofNat (List.length hits) * Game.POINTS_PER_COIN).
  { rewrite F2, Hv. ring. }
  assert (Hn : 0 <= ofNat (List.length hits)) by (apply (ofNat_le 0); lia).
  exists ax, ay. split; [reflexivity|].
  assert (Hc : coins a' = fst r).
  { destruct (Qltb 0 (snd r)); injection E as <-; reflexivity. }
  split; [rewrite Hc; exact F1|].
  split.
  { destruct (Qltb 0 (snd r)) eqn:B; injection E as <-;
      cbn [scoreRef setScore setScoreRef setCoins]; rewrite ?Hs.
    - rewrite Hinc. reflexivity.
    - apply Qltb_ge in B. rewrite Hinc in B.
      unfold Game.POINTS_PER_COIN in *. fold hits. revert B Hn.
      generalize (ofNat (List.length hits)) (scoreRef a). clear.
      intros q s B Hn. lra. }
  split.
  { rewrite Hc, F1. cbn [app]. rewrite length_map. unfold hits.
    clear. induction before as [|c l IH]; [simpl; lia|].
    cbn [filter]. destruct (coinHit ax ay (coinSpeed a) c) eqn:Hh.
    - rewrite (coinHit_leaves _ _ _ (rectHeight f) _ Hh).
      cbn [List.length]. lia.
    - destruct (coinStays _ _ _ _ c); cbn [List.length]; lia. }
  split.
  { rewrite Hc, F1. cbn [app]. apply freshCoins_fall, freshCoins_filter.
    exact Hb. }
  split; [|exact Hst].
  intro Hsync.
  destruct (Qltb 0 (snd r)); injection E as <-;
    cbn [score scoreRef setScore setScoreRef setCoins]; [reflexivity|].
  rewrite Hs, Hd. exact Hsync.
Qed.

(** X8.  One frame of the coin game ([Game.play]), when the coins are as
    [spawnCoin] makes them.  After the coin that may be spawned, every
    coin that touches the avatar once it has fallen is removed and scores
    [POINTS_PER_COIN]; every other coin falls by the current speed, and is
    removed when it ends more than 50 pixels under the video; no coin is
    created, duplicated or scored twice.  The score counted and the score
    shown stay equal, and the stickers are not touched. *)
Theorem coin_round (M : MathLib) (f : Frame) (a a' : AppState) :
  freshCoins (coins a) ->
  Game.play f a = Return a' ->
  exists ax ay,
    Game.avatarPosition f = Return (ax, ay)
    /\ coins a'
       = map (coinFall (coinSpeed a))
           (filter (coinStays ax ay (coinSpeed a) (rectHeight f))
              (coins (Game.spawnCoin f a)))
    /\ scoreRef a'
       == scoreRef a
          + ofNat (List.length (filter (coinHit ax ay (coinSpeed a))
                                  (coins (Game.spawnCoin f a))))
            * Game.POINTS_PER_COIN
    /\ (List.length (coins a')
        + List.length (filter (coinHit ax ay (coinSpeed a))
                         (coins (Game.spawnCoin f a)))
        <= List.length (coins (Game.spawnCoin f a)))%nat
    /\ freshCoins (coins a')
    /\ (score a = scoreRef a -> score a' = scoreRef a')
    /\ stickers a' = stickers a.
Proof. exact (play_coins M f a a'). Qed.

Lemma coin_round_witness :
  freshCoins (coins dressedUp)
  /\ exists a',
       Game.play (M := scenarioMath) (seen 1000 "1000") dressedUp = Return a'
       /\ freshCoins (coins a')
       /\ stickers a' = stickers dressedUp.
Proof.
  assert (H : freshCoins (coins dressedUp)).
  { repeat constructor. }
  split; [exact H|].
  destruct (Game.play (M := scenarioMath) (seen 1000 "1000") dressedUp)
    as [a'|] eqn:E; [|vm_compute in E; discriminate].
  exists a'. split; [reflexivity|].
  destruct (coin_round scenarioMath (seen 1000 "1000") dressedUp a' H E)
    as [ax [ay [_ [_ [_ [_ [Hf [_ Hs]]]]]]]].
  split; assumption.
Defined.

(** ** The score along a run *)

Ltac game_fields_auto :=
  repeat break_match;
  cbn [coins score scoreRef isPlaying setStickers
       setActiveStickerId setSelectedCategory setInteractionState
       setIsPlaying setScore setCoins setShowWinModal setInteractingIdRef
       setLastFaceDataRef setHoverStartTimeRef setDropStartTimeRef
       setLastEffectSpawnTimeRef setLastGestureTimeRef setLastHandPosRef
       setScoreRef setLastCoinSpawnTimeRef fst snd];
  repeat split; reflexivity.

Lemma sameGame_trans (a b c : AppState) :
  sameGame a b -> sameGame b c -> sameGame a c.
Proof.
  unfold sameGame. intros [H1 [H2 [H3 H4]]] [K1 [K2 [K3 K4]]].
  repeat split; congruence.
Qed.

Section GameFields.
Context {M : MathLib}.

Lemma mirror_interactionLogic_game (f : Frame) (g : option Gesture)
  (cur : list StickerItem.t) (cs : InteractionState) (a : AppState) :
  sameGame a (MirrorApp.interactionLogic f g cur cs a).
Proof.
  unfold sameGame, MirrorApp.interactionLogic, MirrorApp.handInteraction,
    MirrorApp.handLost, MirrorApp.hoverLogic, MirrorApp.spawnEffect,
    MirrorApp.handleHandDrop, MirrorApp.handleAddSticker.
  game_fields_auto.
Qed.

Lemma arcade_interactionLogic_game (f : Frame) (g : option Gesture)
  (cur : list StickerItem.t) (cs : InteractionState) (a : AppState) :
  sameGame a (ArcadeApp.interactionLogic f g cur cs a).
Proof.
  unfold ArcadeApp.interactionLogic.
  destruct g as [g|]; [destruct (negb (isPlaying a))|].
  - exact (mirror_interactionLogic_game f (Some g) cur cs a).
  - repeat split; reflexivity.
  - exact (mirror_interactionLogic_game f None cur cs a).
Qed.

Lemma game_interactionLogic_game (f : Frame) (g : option Gesture)
  (cur : list StickerItem.t) (cs : InteractionState) (a : AppState) :
  sameGame a (GameApp.interactionLogic f g cur cs a).
Proof.
  unfold sameGame, GameApp.interactionLogic, GameApp.hoverLogic,
    GameApp.handleHandDrop, GameApp.handleSelectAsset.
  game_fields_auto.
Qed.

Lemma game_spawnEffect_game (f : Frame) (g : Gesture)
  (cur : list StickerItem.t) (a : AppState) :
  sameGame a (GameApp.spawnEffect f g cur a).
Proof. unfold sameGame, GameApp.spawnEffect. game_fields_auto. Qed.

Lemma mirror_performSwipe_game (f : Frame) (act : option SwipeAction)
  (a a' : AppState) :
  MirrorApp.performSwipe f act a = Return a' -> sameGame a a'.
Proof.
  destruct act as [[|]|]; simpl; intro E.
  - injection E as <-. repeat split; reflexivity.
  - destruct (MirrorApp.cycleAnimalFace f (stickers a)); simpl in E;
      [|discriminate].
    injection E as <-. repeat split; reflexivity.
  - injection E as <-. repeat split; reflexivity.
Qed.

Lemma game_performSwipe_game (f : Frame) (act : option SwipeAction)
  (a a' : AppState) :
  GameApp.performSwipe f act a = Return a' -> sameGame a a'.
Proof.
  destruct act as [[|]|]; simpl; intro E.
  - injection E as <-. repeat split; reflexivity.
  - destruct (GameApp.cycleAnimalFace f (stickers a)); simpl in E;
      [|discriminate].
    injection E as <-. repeat split; reflexivity.
  - injection E as <-. repeat split; reflexivity.
Qed.

Lemma mirror_faceTracking_game (f : Frame) (cs : InteractionState)
  (a a' : AppState) :
  MirrorApp.faceTracking f cs a = Return a' -> sameGame a a'.
Proof.
  unfold MirrorApp.faceTracking. intro E.
  destruct (faceResult f) as [r|];
    [|injection E as <-; repeat split; reflexivity].
  destruct (faceLandmarks r);
    [injection E as <-; repeat split; reflexivity|].
  destruct (MirrorApp.trackStickers _ _ _ _ _ _) as [p|]; simpl in E;
    [|discriminate].
  injection E as <-. repeat split; reflexivity.
Qed.

Lemma game_faceAnchoring_game (f : Frame) (cs : InteractionState)
  (a a' : AppState) :
  GameApp.faceAnchoring f cs a = Return a' -> sameGame a a'.
Proof.
  unfold GameApp.faceAnchoring. intro E.
  destruct (faceResult f) as [r|];
    [|injection E as <-; repeat split; reflexivity].
  destruct (faceLandmarks r);
    [injection E as <-; repeat split; reflexivity|].
  destruct (GameApp.anchorDataMap r) as [m|]; simpl in E; [|discriminate].
  injection E as <-. destruct (GameApp.map_face m); repeat split; reflexivity.
Qed.

(** What follows the game block in a frame leaves the game alone. *)
Lemma arcade_frame_rest_game (captured : list StickerItem.t) (f : Frame)
  (a0 a' : AppState) :
  (do p <- ArcadeApp.handProcessing f
             (setStickers (lifecycle ArcadeApp.EFFECT_FADE_DURATION (now f)) a0);
   MirrorApp.faceTracking f (interactionState a0)
     (ArcadeApp.interactionLogic f (snd p) captured (interactionState a0)
        (fst p))) = Return a' ->
  sameGame a0 a'.
Proof.
  unfold ArcadeApp.handProcessing. intro E.
  destruct (handResult f) as [h|].
  - destruct (MirrorApp.performSwipe f _ _) as [a1|] eqn:P;
      cbn [bind fst snd] in E; [|discriminate].
    apply mirror_performSwipe_game in P.
    apply mirror_faceTracking_game in E.
    refine (sameGame_trans _ _ _ _ E).
    refine (sameGame_trans _ _ _ _ (arcade_interactionLogic_game _ _ _ _ _)).
    destruct P as [P1 [P2 [P3 P4]]]. repeat split; assumption.
  - cbn [bind fst snd] in E. apply mirror_faceTracking_game in E.
    refine (sameGame_trans _ _ _ _ E).
    refine (sameGame_trans _ _ _ _ (arcade_interactionLogic_game _ _ _ _ _)).
    repeat split; reflexivity.
Qed.

Lemma game_frame_rest_game (f : Frame) (a0 a' : AppState) :
  (do p <- GameApp.handProcessing f (stickers a0)
             (setStickers (lifecycle GameApp.EFFECT_FADE_DURATION (now f)) a0);
   GameApp.faceAnchoring f (interactionState a0)
     (GameApp.interactionLogic f (snd p) (stickers a0) (interactionState a0)
        (fst p))) = Return a' ->
  sameGame a0 a'.
Proof.
  unfold GameApp.handProcessing. intro E.
  destruct (handResult f) as [h|].
  - destruct (GameApp.performSwipe f _ _) as [a1|] eqn:P;
      cbn [bind fst snd] in E; [|discriminate].
    apply game_performSwipe_game in P.
    apply game_faceAnchoring_game in E.
    refine (sameGame_trans _ _ _ _ E).
    refine (sameGame_trans _ _ _ _ (game_interactionLogic_game _ _ _ _ _)).
    refine (sameGame_trans _ _ _ _ (game_spawnEffect_game _ _ _ _)).
    destruct P as [P1 [P2 [P3 P4]]]. repeat split; assumption.
  - cbn [bind fst snd] in E. apply game_faceAnchoring_game in E.
    refine (sameGame_trans _ _ _ _ E).
    refine (sameGame_trans _ _ _ _ (game_interactionLogic_game _ _ _ _ _)).
    repeat split; reflexivity.
Qed.

End GameFields.

Lemma run_invariant {Event : Type}
  (react : Event -> AppState -> outcome AppState) (P : AppState -> Prop) :
  (forall e a a', P a -> react e a = Return a' -> P a') ->
  forall events a a', P a -> run react events a = Return a' -> P a'.
Proof.
  intros Hstep events. induction events as [|e rest IH]; intros a a' H E;
    simpl in E.
  - injection E as <-. exact H.
  - destruct (react e a) as [a1|] eqn:R; simpl in E; [|discriminate].
    exact (IH _ _ (Hstep _ _ _ H R) E).
Qed.

Lemma scoreSound_same (a a' : AppState) :
  sameGame a a' -> scoreSound a -> scoreSound a'.
Proof.
  unfold sameGame, scoreSound. intros [H1 [H2 [H3 _]]] [K1 [K2 K3]].
  rewrite H1, H2, H3. auto.
Qed.

Lemma scoreSound_reset (a' : AppState) :
  coins a' = [] -> score a' = 0 -> scoreRef a' = 0 -> scoreSound a'.
Proof.
  intros H1 H2 H3. unfold scoreSound. rewrite H1, H2, H3.
  split; [reflexivity|]. split; [constructor|]. exists 0%nat. reflexivity.
Qed.

Section GameScore.
Context {M : MathLib}.

Lemma play_sound (f : Frame) (a a' : AppState) :
  scoreSound a -> Game.play f a = Return a' -> scoreSound a'.
Proof.
  intros [H1 [H2 [n H3]]] E.
  destruct (play_coins M f a a' H2 E)
    as [ax [ay [_ [_ [Hs [_ [Hf [Hsync _]]]]]]]].
  split; [exact (Hsync H1)|]. split; [exact Hf|].
  match type of Hs with
  | _ == _ + ofNat ?h * _ => exists (n + h)%nat
  end.
  rewrite Hs, H3, ofNat_plus. ring.
Qed.

Lemma game_block_sound (f : Frame) (a a0 : AppState) :
  scoreSound a ->
  (if isPlaying a then Game.play f a else Return a) = Return a0 ->
  scoreSound a0 /\ isPlaying a0 = isPlaying a
  /\ (isPlaying a = false -> coins a0 = coins a).
Proof.
  intros H G. destruct (isPlaying a) eqn:Hp.
  - split; [exact (play_sound f a a0 H G)|].
    apply play_keeps in G. destruct G as [_ [_ [_ [_ [_ G]]]]].
    split; [congruence | discriminate].
  - injection G as <-. auto.
Qed.

Lemma declareWin_sound (a : AppState) :
  scoreSound a -> scoreSound (Game.declareWin a).
Proof.
  intros [H1 [_ H3]]. split; [exact H1|]. split; [constructor | exact H3].
Qed.

Lemma game_loop_sound (f : Frame) (a a' : AppState) :
  scoreSound a -> GameApp.loop f a = Return a' -> scoreSound a'.
Proof.
  intros H E. unfold GameApp.loop in E.
  destruct (Game.won a);
    [injection E as <-; exact (declareWin_sound a H)|].
  destruct (if isPlaying a then Game.play f a else Return a) as [a0|] eqn:G;
    cbn [bind] in E; [|discriminate].
  destruct (game_block_sound f a a0 H G) as [H0 _].
  exact (scoreSound_same _ _ (game_frame_rest_game f a0 a' E) H0).
Qed.

Lemma game_react_sound (e : GameApp.Event) (a a' : AppState) :
  scoreSound a -> GameApp.react e a = Return a' -> scoreSound a'.
Proof.
  intros H E. destruct e; simpl in E;
    try (exact (game_loop_sound _ _ _ H E));
    try (destruct (isPlaying a) eqn:Hp); injection E as <-; try exact H;
    try (refine (scoreSound_same a _ _ H);
         unfold sameGame, GameApp.handleSelectAsset,
           GameApp.handleDeleteSticker, GameApp.clearAll;
         game_fields_auto).
  - unfold GameApp.toggleGame. rewrite Hp. exact H.
  - unfold GameApp.toggleGame. rewrite Hp.
    apply scoreSound_reset; reflexivity.
Qed.

Lemma arcade_loop_sound (captured : list StickerItem.t) (f : Frame)
  (a a' : AppState) :
  scoreSound a /\ (isPlaying a = false -> coins a = []) ->
  ArcadeApp.loop captured f a = Return a' ->
  scoreSound a' /\ (isPlaying a' = false -> coins a' = []).
Proof.
  intros [H Hc] E. unfold ArcadeApp.loop in E.
  destruct (Game.won a).
  { injection E as <-. split; [exact (declareWin_sound a H) | reflexivity]. }
  destruct (if isPlaying a then Game.play f a else Return a) as [a0|] eqn:G;
    cbn [bind] in E; [|discriminate].
  destruct (game_block_sound f a a0 H G) as [H0 [Hp Hk]].
  pose proof (arcade_frame_rest_game captured f a0 a' E) as S.
  split; [exact (scoreSound_same _ _ S H0)|].
  unfold sameGame in S. destruct S as [S1 [_ [_ S4]]].
  rewrite S1, S4, Hp. intro Hf.
  rewrite (Hk Hf). exact (Hc Hf).
Qed.

Lemma arcade_react_sound (e : ArcadeApp.Event) (a a' : AppState) :
  scoreSound a /\ (isPlaying a = false -> coins a = []) ->
  ArcadeApp.react e a = Return a' ->
  scoreSound a' /\ (isPlaying a' = false -> coins a' = []).
Proof.
  intros H E. destruct e; simpl in E;
    try (exact (arcade_loop_sound _ _ _ _ H E));
    injection E as <-;
    try (match goal with
         | |- scoreSound ?x /\ _ => assert (S : sameGame a x)
         end;
         [| split; [exact (scoreSound_same _ _ S (proj1 H))
                   | unfold sameGame in S; destruct S as [S1 [_ [_ S4]]];
                     rewrite S1, S4;
                     exact (proj2 H)]];
         unfold sameGame, MirrorApp.handleAddSticker,
           MirrorApp.handleDeleteSticker, MirrorApp.handleInteractionStart,
           MirrorApp.handleInteractionEnd, MirrorApp.handleHandDrop;
         game_fields_auto).
  - unfold ArcadeApp.handleStartGame.
    destruct (negb (existsb isFace (stickers a))); [exact H|].
    split; [apply scoreSound_reset; reflexivity | discriminate].
  - split; [|reflexivity].
    destruct H as [[H1 [_ H3]] _].
    split; [exact H1|]. split; [constructor | exact H3].
  - split; [|reflexivity].
    destruct H as [[H1 [_ H3]] _].
    split; [exact H1|]. split; [constructor | exact H3].
Qed.

End GameScore.

(** X9.  The score along a run.  In the two versions that have the game,
    whatever events the component reacts to (frames with or without the
    game block, the game buttons, the selector and the canvas), the score
    shown always equals the score counted in [scoreRef], the score is a
    whole number of coins' worth, and every coin on the screen is worth
    [POINTS_PER_COIN] and not collected.  In [ArcadeApp], moreover, no
    coin is left when the game is not running: stopping, restarting and
    winning all clear them. *)
Theorem score_along_runs (M : MathLib) :
  scoreSound initialState
  /\ (forall events a a',
        scoreSound a ->
        run GameApp.react events a = Return a' ->
        scoreSound a')
  /\ (forall events a a',
        scoreSound a ->
        (isPlaying a = false -> coins a = []) ->
        run ArcadeApp.react events a = Return a' ->
        scoreSound a' /\ (isPlaying a' = false -> coins a' = [])).
Proof.
  split; [apply scoreSound_reset; reflexivity|]. split.
  - apply run_invariant. exact game_react_sound.
  - intros events a a' H Hc E.
    exact (run_invariant ArcadeApp.react
             (fun s => scoreSound s /\ (isPlaying s = false -> coins s = []))
             arcade_react_sound events a a' (conj H Hc) E).
Qed.

Lemma score_along_runs_witness :
  scoreSound dressedUp
  /\ exists a',
       run (GameApp.react (M := scenarioMath))
         [GameApp.GameButton; GameApp.Tick (seen 1000 "1000")] dressedUp
       = Return a'
       /\ scoreSound a'.
Proof.
  assert (H : scoreSound dressedUp).
  { split; [reflexivity|]. split; [repeat constructor|].
    exists 12%nat. reflexivity. }
  split; [exact H|].
  destruct (run (GameApp.react (M := scenarioMath))
              [GameApp.GameButton; GameApp.Tick (seen 1000 "1000")]
              dressedUp) as [a'|] eqn:E; [|vm_compute in E; discriminate].
  exists a'. split; [reflexivity|].
  exact (proj1 (proj2 (score_along_runs scenarioMath)) _ _ _ H E).
Defined.

(** ** Picking a sticker up and letting it go *)

(** X10.  The dwell on a sticker.  When the cursor resolves to a sticker:
    a frame whose interaction state has another target starts the dwell
    timer at progress 0; while less than 2500 ms have elapsed on the same
    target nothing is picked up and the progress is the elapsed share of
    the 2500 ms; once 2500 ms have elapsed the sticker becomes the active
    one and is held in a drag.  When the cursor resolves to nothing the
    interaction is idle again.  [GameApp] only counts the dwell while the
    state is [hovering], and leaves everything as it is when the target
    is the same in another state. *)
Theorem hover_dwell (M : MathLib) (f : Frame) (g : Gesture)
  (cur : list StickerItem.t) (cs : InteractionState) (a : AppState)
  (i : string) :
  (MirrorApp.resolveTarget f g cur = Some (i, sticker) ->
   let a' := MirrorApp.hoverLogic f g cur cs a in
   let elapsed := now f - hoverStartTimeRef a in
   (targetId cs <> Some i ->
    a' = setInteractionState
           (fun _ => mkInteraction hovering (Some i) sticker 0)
           (setHoverStartTimeRef (now f) a))
   /\ (targetId cs = Some i -> elapsed < HOVER_THRESHOLD_MS ->
       stickers a' = stickers a
       /\ interactingIdRef a' = interactingIdRef a
       /\ status (interactionState a') = status (interactionState a)
       /\ progress (interactionState a') == elapsed / HOVER_THRESHOLD_MS)
   /\ (targetId cs = Some i -> HOVER_THRESHOLD_MS <= elapsed ->
       interactionState a' = mkInteraction dragging (Some i) sticker 0
       /\ interactingIdRef a' = Some i
       /\ activeStickerId a' = Some i
       /\ dropStartTimeRef a' = now f
       /\ stickers a' = stickers a))
  /\ (MirrorApp.resolveTarget f g cur = None ->
      interactionState (MirrorApp.hoverLogic f g cur cs a) = idleState
      /\ hoverStartTimeRef (MirrorApp.hoverLogic f g cur cs a) = 0)
  /\ (GameApp.resolveTarget f g cur = Some (i, sticker) ->
      let a' := GameApp.hoverLogic f g cur cs a in
      let elapsed := now f - hoverStartTimeRef a in
      (targetId cs <> Some i ->
       a' = setInteractionState
              (fun _ => mkInteraction hovering (Some i) sticker 0)
              (setHoverStartTimeRef (now f) a))
      /\ (targetId cs = Some i -> status cs = hovering ->
          elapsed < HOVER_THRESHOLD_MS ->
          stickers a' = stickers a
          /\ interactingIdRef a' = interactingIdRef a
          /\ status (interactionState a') = hovering
          /\ progress (interactionState a') == elapsed / HOVER_THRESHOLD_MS)
      /\ (targetId cs = Some i -> status cs = hovering ->
          HOVER_THRESHOLD_MS <= elapsed ->
          interactionState a' = mkInteraction dragging (Some i) sticker 0
          /\ interactingIdRef a' = Some i
          /\ activeStickerId a' = Some i
          /\ stickers a' = stickers a)
      /\ (targetId cs = Some i -> status cs <> hovering -> a' = a)).
Proof.
  split; [|split].
  - intros R a' elapsed. subst a'. unfold MirrorApp.hoverLogic. rewrite R.
    split; [|split].
    + intro Hne. rewrite (proj1 (optStrEq_false _ _ Hne)). reflexivity.
    + intros Heq Hlt. rewrite Heq. cbn [optStrEq]. rewrite String.eqb_refl.
      cbn [negb]. cbv zeta. fold elapsed.
      destruct (dwell_pending HOVER_THRESHOLD_MS elapsed
                  ltac:(reflexivity) Hlt) as [B E].
      rewrite B. repeat split; try reflexivity. exact E.
    + intros Heq Hge. rewrite Heq. cbn [optStrEq]. rewrite String.eqb_refl.
      cbn [negb]. cbv zeta. fold elapsed.
      rewrite (dwell_done HOVER_THRESHOLD_MS elapsed ltac:(reflexivity) Hge).
      repeat split; reflexivity.
  - intro R. unfold MirrorApp.hoverLogic. rewrite R. split; reflexivity.
  - intros R a' elapsed. subst a'. unfold GameApp.hoverLogic. rewrite R.
    split; [|split; [|split]].
    + intro Hne. rewrite (proj1 (optStrEq_false _ _ Hne)). reflexivity.
    + intros Heq Hs Hlt. rewrite Heq, Hs. cbn [optStrEq Status_eqb].
      rewrite String.eqb_refl. cbn [andb TargetType_eqb]. cbv zeta.
      fold elapsed.
      destruct (dwell_pending HOVER_THRESHOLD_MS elapsed
                  ltac:(reflexivity) Hlt) as [B E].
      rewrite B. repeat split; try reflexivity. exact E.
    + intros Heq Hs Hge. rewrite Heq, Hs. cbn [optStrEq Status_eqb].
      rewrite String.eqb_refl. cbn [andb TargetType_eqb]. cbv zeta.
      fold elapsed.
      rewrite (dwell_done HOVER_THRESHOLD_MS elapsed ltac:(reflexivity) Hge).
      repeat split; reflexivity.
    + intros Heq Hs. rewrite Heq. cbn [optStrEq]. rewrite String.eqb_refl.
      rewrite (Status_eqb_false _ _ Hs). reflexivity.
Qed.

Lemma hover_dwell_witness :
  MirrorApp.resolveTarget (M := scenarioMath)
    (withHand (pointingHand 0.5 0.5) (seen 3600 "3600")) pointingGesture
    nearAndFar = Some ("near", sticker)
  /\ interactionState
       (MirrorApp.hoverLogic (M := scenarioMath)
          (withHand (pointingHand 0.5 0.5) (seen 3600 "3600"))
          pointingGesture nearAndFar
          (mkInteraction hovering (Some "near") sticker 0)
          (setHoverStartTimeRef 1000 initialState))
     = mkInteraction dragging (Some "near") sticker 0.
Proof.
  assert (R : MirrorApp.resolveTarget (M := scenarioMath)
                (withHand (pointingHand 0.5 0.5) (seen 3600 "3600"))
                pointingGesture nearAndFar = Some ("near", sticker))
    by (vm_compute; reflexivity).
  split; [exact R|].
  destruct (proj1 (hover_dwell scenarioMath
                     (withHand (pointingHand 0.5 0.5) (seen 3600 "3600"))
                     pointingGesture nearAndFar
                     (mkInteraction hovering (Some "near") sticker 0)
                     (setHoverStartTimeRef 1000 initialState) "near") R)
    as [_ [_ H]].
  exact (proj1 (H eq_refl ltac:(discriminate))).
Defined.

(** X11.  Holding and releasing with the hand.  In a frame whose
    interaction state is a drag of sticker [i], with a hand that neither
    pinches nor shows an open palm, the sticker is put under the cursor
    and the release timer runs from the start of the drag (it is started
    by the frame if it was 0).  While less than 1500 ms have run the drag
    goes on, with the elapsed share as progress; once 1500 ms have run
    the sticker is dropped where the cursor is and the interaction is
    idle again, however the hand moves.  The drop of [MirrorApp] commits
    the drop conversion; the drop of [GameApp] only clears the hold and
    the selection. *)
Theorem drag_hold_and_release (M : MathLib) (f : Frame) (g : Gesture)
  (cur : list StickerItem.t) (cs : InteractionState) (a : AppState)
  (i : string) :
  status cs = dragging -> targetId cs = Some i -> i <> "" ->
  targetType cs = sticker ->
  isResizingGesture g = false -> isOpenPalm g = false ->
  let start :=
    if Qeq_bool (dropStartTimeRef a) 0 then now f else dropStartTimeRef a in
  let moved := dragSticker i (cursorX g) (cursorY g) (stickers a) in
  (let a' := MirrorApp.handInteraction f g cur cs a in
   (now f - start < DROP_THRESHOLD_MS ->
    stickers a' = moved
    /\ status (interactionState a') = dragging
    /\ progress (interactionState a') == (now f - start) / DROP_THRESHOLD_MS
    /\ interactingIdRef a' = interactingIdRef a
    /\ dropStartTimeRef a' = start)
   /\ (DROP_THRESHOLD_MS <= now f - start ->
       stickers a' = MirrorApp.dropConversion f i (lastFaceDataRef a) moved
       /\ interactionState a' = idleState
       /\ interactingIdRef a' = None
       /\ dropStartTimeRef a' = 0))
  /\ (isPlaying a = false ->
      let a' := GameApp.interactionLogic f (Some g) cur cs a in
      stickers a' = moved
      /\ (now f - start < DROP_THRESHOLD_MS ->
          status (interactionState a') = dragging
          /\ progress (interactionState a')
             == (now f - start) / DROP_THRESHOLD_MS
          /\ interactingIdRef a' = interactingIdRef a)
      /\ (DROP_THRESHOLD_MS <= now f - start ->
          interactionState a' = idleState
          /\ interactingIdRef a' = None
          /\ activeStickerId a' = None
          /\ dropStartTimeRef a' = 0)).
Proof.
  intros Hs Ht Hi Hty Hr Ho start moved.
  assert (Htr : truthyStr (Some i) = true)
    by (exact (eqb_empty_false _ Hi)).
  split.
  - intro a'. subst a'. unfold MirrorApp.handInteraction.
    assert (Hsp : MirrorApp.spawnEffect f g a = a).
    { unfold MirrorApp.spawnEffect. rewrite Ho. reflexivity. }
    rewrite Hsp, Hr, Hs, Ht, Hty, Htr.
    cbn [andb orb Status_eqb TargetType_eqb]. cbv zeta.
    cbn [dropStartTimeRef setStickers].
    fold start.
    replace (dropStartTimeRef
               (if Qeq_bool (dropStartTimeRef a) 0
                then setDropStartTimeRef (now f)
                       (setStickers (dragSticker i (cursorX g) (cursorY g)) a)
                else setStickers (dragSticker i (cursorX g) (cursorY g)) a))
      with start
      by (unfold start; destruct (Qeq_bool (dropStartTimeRef a) 0);
          reflexivity).
    split.
    + intro Hlt.
      destruct (dwell_pending DROP_THRESHOLD_MS (now f - start)
                  ltac:(reflexivity) Hlt) as [B E].
      rewrite B. unfold start, moved.
      destruct (Qeq_bool (dropStartTimeRef a) 0);
        (split; [reflexivity|]; split; [reflexivity|];
         split; [exact E|]; split; reflexivity).
    + intro Hge.
      rewrite (dwell_done DROP_THRESHOLD_MS (now f - start)
                 ltac:(reflexivity) Hge).
      unfold MirrorApp.handleHandDrop, moved.
      destruct (Qeq_bool (dropStartTimeRef a) 0); repeat split; reflexivity.
  - intros Hp a'. subst a'. unfold GameApp.interactionLogic.
    rewrite Hp, Hr, Hs, Ht, Hty, Htr.
    cbn [negb andb orb Status_eqb TargetType_eqb]. cbv zeta.
    cbn [dropStartTimeRef setStickers].
    replace (dropStartTimeRef
               (if Qeq_bool (dropStartTimeRef a) 0
                then setDropStartTimeRef (now f)
                       (setStickers (dragSticker i (cursorX g) (cursorY g)) a)
                else setStickers (dragSticker i (cursorX g) (cursorY g)) a))
      with start
      by (unfold start; destruct (Qeq_bool (dropStartTimeRef a) 0);
          reflexivity).
    split; [|split].
    + unfold moved, GameApp.handleHandDrop.
      destruct (Qle_bool 1 _), (Qeq_bool (dropStartTimeRef a) 0);
        reflexivity.
    + intro Hlt.
      destruct (dwell_pending DROP_THRESHOLD_MS (now f - start)
                  ltac:(reflexivity) Hlt) as [B E].
      rewrite B.
      destruct (Qeq_bool (dropStartTimeRef a) 0);
        (split; [reflexivity|]; split; [exact E | reflexivity]).
    + intro Hge.
      rewrite (dwell_done DROP_THRESHOLD_MS (now f - start)
                 ltac:(reflexivity) Hge).
      unfold GameApp.handleHandDrop.
      destruct (Qeq_bool (dropStartTimeRef a) 0); repeat split; reflexivity.
Qed.

Lemma drag_hold_and_release_witness :
  stickers
    (MirrorApp.handInteraction (M := scenarioMath) pointingFrame
       pointingGesture (stickers maskAndHat) draggingHat maskAndHat)
  = dragSticker "hat-1" (cursorX pointingGesture) (cursorY pointingGesture)
      (stickers maskAndHat)
  /\ status
       (interactionState
          (MirrorApp.handInteraction (M := scenarioMath) pointingFrame
             pointingGesture (stickers maskAndHat) draggingHat maskAndHat))
     = dragging.
Proof.
  destruct (proj1 (drag_hold_and_release scenarioMath pointingFrame
                     pointingGesture (stickers maskAndHat) draggingHat
                     maskAndHat "hat-1" eq_refl eq_refl
                     ltac:(discriminate) eq_refl eq_refl eq_refl))
    as [H _].
  destruct (H ltac:(reflexivity)) as [H1 [H2 _]].
  split; assumption.
Defined.

(** ** Resizing with a pinch *)

(** X12.  The pinch of thumb and index finger.  The gesture counts as a
    pinch only while the two tips are less than 0.05 apart, and the base
    scale it gives is the distance times 15, but at least 0.2: so a pinch
    always leaves the target with a base scale from 0.2 up to, but not
    including, 0.75, and every other sticker as it is.  In [MirrorApp]
    the pinch comes before the drag: while the hand pinches, the target
    of a drag is resized, and is neither moved nor dropped. *)
Theorem pinch_resize_bounds (M : MathLib) (h : Hand.t) (sx sy : Q)
  (i : string) (l : list StickerItem.t) :
  isResizingGesture (classify h sx sy) = true ->
  let g := classify h sx sy in
  (forall s', In s' (resizeSticker i (pinchDistance g) l) ->
     (hasId i s' = true ->
      0.2 <= StickerItem.baseScale s' /\ StickerItem.baseScale s' < 0.75)
     /\ (hasId i s' = false -> In s' l))
  /\ map StickerItem.id (resizeSticker i (pinchDistance g) l)
     = map StickerItem.id l
  /\ (forall f cur cs a,
        targetId cs = Some i -> i <> "" -> targetType cs = sticker ->
        isOpenPalm g = false ->
        MirrorApp.handInteraction f g cur cs a
        = setStickers (resizeSticker i (pinchDistance g)) a).
Proof.
  intros Hr g.
  assert (Hp : pinchDistance g < RESIZE_START_THRESHOLD).
  { apply Qltb_lt. exact Hr. }
  split; [|split].
  - intros s' Hin. unfold resizeSticker in Hin. cbv zeta in Hin.
    apply in_map_iff in Hin. destruct Hin as [s [Hs' Hin]].
    destruct (hasId i s) eqn:E; subst s'.
    + split; [|unfold hasId in *; simpl; congruence].
      intros _. cbn [StickerItem.baseScale StickerItem.with_baseScale].
      split; [apply Q.le_max_l|].
      apply Q.max_lub_lt; [reflexivity|].
      unfold RESIZE_FACTOR, RESIZE_START_THRESHOLD in *. lra.
    + split; [congruence | intros _; exact Hin].
  - unfold resizeSticker. cbv zeta. rewrite map_map. apply map_ext.
    intro s. destruct (hasId i s); reflexivity.
  - intros f cur cs a Ht Hi Hty Ho.
    unfold MirrorApp.handInteraction.
    assert (Hsp : MirrorApp.spawnEffect f g a = a).
    { unfold MirrorApp.spawnEffect. rewrite Ho. reflexivity. }
    rewrite Hsp. fold g in Hr. rewrite Hr, Ht, Hty.
    cbn [truthyStr]. rewrite (eqb_empty_false _ Hi). cbn [andb orb].
    rewrite (eqb_empty_false _ Hi). reflexivity.
Qed.

Lemma pinch_resize_bounds_witness :
  isResizingGesture (classify (M := scenarioMath) pinchingHand 640 480) = true
  /\ forall s',
       In s' (resizeSticker "mask-1"
                (pinchDistance
                   (classify (M := scenarioMath) pinchingHand 640 480))
                (stickers maskAndHat)) ->
       hasId "mask-1" s' = true ->
       0.2 <= StickerItem.baseScale s' /\ StickerItem.baseScale s' < 0.75.
Proof.
  assert (H : isResizingGesture
                (classify (M := scenarioMath) pinchingHand 640 480) = true)
    by (vm_compute; reflexivity).
  split; [exact H|].
  intros s' Hin.
  exact (proj1 (proj1 (pinch_resize_bounds scenarioMath pinchingHand 640 480
                         "mask-1" (stickers maskAndHat) H) s' Hin)).
Defined.

(** ** What the tracking pass leaves alone *)

Section TrackingSpares.
Context {M : MathLib}.

Lemma mirror_trackStickers_ids (f : Frame) (r : FaceLandmarkerResult)
  (cs : InteractionState) (i : option string) (l : list StickerItem.t) :
  forall c l' c',
    MirrorApp.trackStickers f r cs i c l = Return (l', c') ->
    map StickerItem.id l' = map StickerItem.id l.
Proof.
  induction l as [|s l IH]; intros c l' c' E; simpl in E.
  - injection E as <- _. reflexivity.
  - destruct (MirrorApp.autoPosition f r cs i s) as [[s1 d1]|] eqn:A;
      simpl in E; [|discriminate].
    destruct (MirrorApp.trackStickers f r cs i _ l) as [[l1 c1]|] eqn:T;
      simpl in E; [|discriminate].
    injection E as <- _. simpl.
    rewrite (mirror_autoPosition_id _ _ _ _ _ _ _ A), (IH _ _ _ T).
    reflexivity.
Qed.

Lemma mirror_autoPosition_spares (f : Frame) (r : FaceLandmarkerResult)
  (cs : InteractionState) (i : option string) (s : StickerItem.t) :
  i = Some (StickerItem.id s) \/ StickerItem.anchorType s = none
  \/ status cs = dragging \/ truthy (StickerItem.lifespan s) = true ->
  MirrorApp.autoPosition f r cs i s = Return (s, None).
Proof.
  intro H. unfold MirrorApp.autoPosition.
  assert (C : optStrEq i (Some (StickerItem.id s))
              || AnchorType_eqb (StickerItem.anchorType s) none
              || Status_eqb (status cs) dragging
              || truthy (StickerItem.lifespan s) = true).
  { destruct H as [H|[H|[H|H]]]; rewrite H.
    - cbn [optStrEq]. rewrite String.eqb_refl. reflexivity.
    - cbn [AnchorType_eqb]. rewrite orb_true_r. reflexivity.
    - cbn [Status_eqb]. rewrite orb_true_r. reflexivity.
    - apply orb_true_r. }
  rewrite C. reflexivity.
Qed.

Lemma game_anchorSticker_spares (f : Frame) (m : GameApp.AnchorDataMap)
  (cs : InteractionState) (i : option string) (s : StickerItem.t) :
  i = Some (StickerItem.id s) \/ StickerItem.anchorType s = none
  \/ (status cs = dragging /\ targetId cs = Some (StickerItem.id s)) ->
  GameApp.anchorSticker f m cs i s = s.
Proof.
  intro H. unfold GameApp.anchorSticker.
  destruct H as [H|[H|[H1 H2]]].
  - rewrite H. cbn [optStrEq]. rewrite String.eqb_refl. reflexivity.
  - rewrite H. cbn [AnchorType_eqb negb]. destruct (_ || _); reflexivity.
  - rewrite H1, H2. cbn [Status_eqb optStrEq]. rewrite String.eqb_refl.
    rewrite orb_true_r. reflexivity.
Qed.

Lemma game_anchorSticker_id (f : Frame) (m : GameApp.AnchorDataMap)
  (cs : InteractionState) (i : option string) (s : StickerItem.t) :
  StickerItem.id (GameApp.anchorSticker f m cs i s) = StickerItem.id s.
Proof.
  unfold GameApp.anchorSticker. repeat break_match; reflexivity.
Qed.

End TrackingSpares.

(** X13.  The face tracking pass ([MirrorApp], [ArcadeApp]) and the face
    anchoring pass ([GameApp]) never add, drop, reorder or rename a
    sticker, and they leave in place, with its size and orientation,
    every sticker that is held through [interactingIdRef] or that is not
    anchored.  [MirrorApp] also leaves every sticker with a lifespan
    alone, and all of them while a drag is in progress; [GameApp] leaves
    the target of a drag alone.  Without a face in the frame the pass
    changes nothing. *)
Theorem tracking_spares (M : MathLib) (f : Frame) (cs : InteractionState)
  (a : AppState) :
  (forall a',
     MirrorApp.faceTracking f cs a = Return a' ->
     map StickerItem.id (stickers a') = map StickerItem.id (stickers a)
     /\ forall n s,
          nth_error (stickers a) n = Some s ->
          interactingIdRef a = Some (StickerItem.id s)
          \/ StickerItem.anchorType s = none
          \/ status cs = dragging
          \/ truthy (StickerItem.lifespan s) = true ->
          nth_error (stickers a') n = Some s)
  /\ (forall a',
        GameApp.faceAnchoring f cs a = Return a' ->
        map StickerItem.id (stickers a') = map StickerItem.id (stickers a)
        /\ forall n s,
             nth_error (stickers a) n = Some s ->
             interactingIdRef a = Some (StickerItem.id s)
             \/ StickerItem.anchorType s = none
             \/ (status cs = dragging
                 /\ targetId cs = Some (StickerItem.id s)) ->
             nth_error (stickers a') n = Some s)
  /\ (faceResult f = None ->
      MirrorApp.faceTracking f cs a = Return a
      /\ GameApp.faceAnchoring f cs a = Return a).
Proof.
  split; [|split].
  - intros a' E. unfold MirrorApp.faceTracking in E.
    destruct (faceResult f) as [r|]; [|injection E as <-; auto].
    destruct (faceLandmarks r) as [|x xs]; [injection E as <-; auto|].
    destruct (MirrorApp.trackStickers _ _ _ _ _ _) as [[l' c']|] eqn:T;
      cbn [bind fst snd] in E; [|discriminate].
    injection E as <-. cbn [stickers setStickers setLastFaceDataRef].
    split; [exact (mirror_trackStickers_ids _ _ _ _ _ _ _ _ T)|].
    intros n s Hn Hc.
    destruct (mirror_trackStickers_nth _ _ _ _ _ _ _ _ _ _ T Hn)
      as [s' [d [Hn' A]]].
    rewrite (mirror_autoPosition_spares f r cs _ s Hc) in A.
    injection A as <- _. exact Hn'.
  - intros a' E. unfold GameApp.faceAnchoring in E.
    destruct (faceResult f) as [r|]; [|injection E as <-; auto].
    destruct (faceLandmarks r) as [|x xs]; [injection E as <-; auto|].
    destruct (GameApp.anchorDataMap r) as [m|]; cbn [bind] in E;
      [|discriminate].
    injection E as <-. cbn [stickers setStickers].
    assert (Hst : forall b : AppState,
              stickers (match GameApp.map_face m with
                        | Some d => setLastFaceDataRef (Some d) b
                        | None => b
                        end) = stickers b
              /\ interactingIdRef (match GameApp.map_face m with
                                   | Some d => setLastFaceDataRef (Some d) b
                                   | None => b
                                   end) = interactingIdRef b).
    { intro b. destruct (GameApp.map_face m); split; reflexivity. }
    rewrite (proj1 (Hst a)), (proj2 (Hst a)).
    split.
    + rewrite map_map. apply map_ext. intro s. apply game_anchorSticker_id.
    + intros n s Hn Hc. rewrite nth_error_map, Hn. cbn [option_map].
      rewrite (game_anchorSticker_spares f m cs _ s Hc). reflexivity.
  - intro Hf. unfold MirrorApp.faceTracking, GameApp.faceAnchoring.
    rewrite Hf. split; reflexivity.
Qed.

Lemma tracking_spares_witness :
  exists a',
    MirrorApp.faceTracking (M := scenarioMath) faceFrame draggingHat
      maskAndHat = Return a'
    /\ nth_error (stickers a') 0 = Some maskSticker.
Proof.
  destruct (MirrorApp.faceTracking (M := scenarioMath) faceFrame draggingHat
              maskAndHat) as [a'|] eqn:E; [|vm_compute in E; discriminate].
  exists a'. split; [reflexivity|].
  exact (proj2 (proj1 (tracking_spares scenarioMath faceFrame draggingHat
                         maskAndHat) a' E)
           0%nat maskSticker eq_refl
           (or_intror (or_intror (or_introl eq_refl)))).
Defined.

(** ** The anchor resolver on a face *)

(** X14.  [getAnchorData] on a result with a face.  When the first face
    has the seven landmarks that the function reads, each of the four
    selectors yields a sample at its own landmark (the midpoint of the
    eyes, the top of the head, the nose tip, the chin), and the four
    samples share their scale, the distance between the cheeks, and their
    rotation, the roll of the line between the eyes in degrees.  When the
    landmark list of the first face stops before landmark 454, the
    function throws for every selector, known or not: the cheeks are
    read before the selector is looked at. *)
Theorem getAnchorData_samples (M : MathLib) (result : FaceLandmarkerResult)
  (lm : list Pt.t) (others : list (list Pt.t)) :
  faceLandmarks result = lm :: others ->
  ((List.length lm <= 454)%nat ->
   forall selector, getAnchorData result selector = Throw)
  /\ (forall nt le re th ch lc rc,
        nth_error lm 1 = Some nt -> nth_error lm 33 = Some le ->
        nth_error lm 263 = Some re -> nth_error lm 10 = Some th ->
        nth_error lm 152 = Some ch -> nth_error lm 234 = Some lc ->
        nth_error lm 454 = Some rc ->
        let scale := Math_hypot (Pt.x rc - Pt.x lc) (Pt.y rc - Pt.y lc) in
        let rotation :=
          Math_atan2 (Pt.y re - Pt.y le) (Pt.x re - Pt.x le)
          * (180 / Math_PI) in
        getAnchorData result "eyes"
        = Return (Some (AnchorData.mk ((Pt.x le + Pt.x re) / 2)
                          ((Pt.y le + Pt.y re) / 2) scale rotation))
        /\ getAnchorData result "head"
           = Return (Some (AnchorData.mk (Pt.x th) (Pt.y th) scale rotation))
        /\ getAnchorData result "face"
           = Return (Some (AnchorData.mk (Pt.x nt) (Pt.y nt) scale rotation))
        /\ getAnchorData result "body"
           = Return (Some (AnchorData.mk (Pt.x ch) (Pt.y ch) scale rotation))).
Proof.
  intro Hl. split.
  - intros Hshort selector. unfold getAnchorData. rewrite Hl. cbv zeta.
    assert (H : nth_error lm 454 = None) by (apply nth_error_None; exact Hshort).
    rewrite H. reflexivity.
  - intros nt le re th ch lc rc H1 H33 H263 H10 H152 H234 H454 scale rotation.
    unfold getAnchorData. rewrite Hl. cbv zeta.
    rewrite H1, H33, H263, H10, H152, H234, H454.
    repeat split; reflexivity.
Qed.

Lemma getAnchorData_samples_witness :
  faceLandmarks shortFace = map scenarioLandmark (seq 0 300) :: []
  /\ getAnchorData (M := scenarioMath) shortFace "face" = Throw
  /\ getAnchorData (M := scenarioMath) shortFace "tail" = Throw.
Proof.
  split; [reflexivity|].
  pose proof (proj1 (getAnchorData_samples scenarioMath shortFace
                       (map scenarioLandmark (seq 0 300)) [] eq_refl)) as H.
  assert (Hs : (List.length (map scenarioLandmark (seq 0 300)) <= 454)%nat).
  { rewrite length_map, length_seq. lia. }
  split; apply H; exact Hs.
Defined.

(** ** Dropping and losing the hand in [MirrorApp] and [ArcadeApp] *)

(** X15.  Dropping a sticker in [MirrorApp] (the same code serves
    [ArcadeApp]) and tracking it again.  The drop converts the position
    of the sticker with the sample cached in [lastFaceDataRef]; the
    tracking pass then places it with the sample that the frame gives for
    the anchor of the sticker.  So after the two the sticker has moved by
    the difference of the two samples on the screen, its scale is
    multiplied by the ratio of their scales and its rotation shifted by
    the difference of their rotations; it stays exactly where it was
    dropped, at its scale and rotation, when the two samples are the
    same.  The cache holds the sample of the last sticker that the
    tracking pass positioned, whatever its anchor type.  The cached face
    must not be of width zero on the screen: the conversion divides by
    it. *)
Theorem mirror_drop_round_trip (M : MathLib) (f : Frame)
  (r : FaceLandmarkerResult) (cs : InteractionState) (a : AppState)
  (i : string) (found : StickerItem.t) (d0 d : AnchorData.t) :
  faceResult f = Some r ->
  completeMesh r = true ->
  find (hasId i) (stickers a) = Some found ->
  lastFaceDataRef a = Some d0 ->
  StickerItem.anchorType found <> none ->
  truthy (StickerItem.lifespan found) = false ->
  status cs <> dragging ->
  getAnchorData r (anchorKey (StickerItem.anchorType found))
  = Return (Some d) ->
  ~ AnchorData.scale d0 * rectWidth f == 0 ->
  exists a2 s2,
    MirrorApp.faceTracking f cs (MirrorApp.handleHandDrop f i a) = Return a2
    /\ find (hasId i) (stickers a2) = Some s2
    /\ interactingIdRef a2 = None
    /\ StickerItem.x s2
       == StickerItem.x found
          + (AnchorData.x d0 - AnchorData.x d) * rectWidth f
    /\ StickerItem.y s2
       == StickerItem.y found
          + (AnchorData.y d - AnchorData.y d0) * rectHeight f
    /\ StickerItem.scale s2
       == StickerItem.scale found * (AnchorData.scale d / AnchorData.scale d0)
    /\ StickerItem.rotation s2
       == StickerItem.rotation found
          + (AnchorData.rotation d0 - AnchorData.rotation d)
    /\ (d0 = d ->
        StickerItem.x s2 == StickerItem.x found
        /\ StickerItem.y s2 == StickerItem.y found
        /\ StickerItem.scale s2 == StickerItem.scale found
        /\ StickerItem.rotation s2 == StickerItem.rotation found)
    /\ (forall b b' pre last last' d1,
          stickers b = pre ++ [last] ->
          MirrorApp.autoPosition f r cs (interactingIdRef b) last
          = Return (last', Some d1) ->
          MirrorApp.faceTracking f cs b = Return b' ->
          lastFaceDataRef b' = Some d1).
Proof.
  intros Hf Hm Hfind Hc Hty Hlife Hcs Hd Hw.
  destruct (mirror_drop_then_track_shift f r cs a i found d0 d
              Hf Hm Hfind Hc Hty Hlife Hcs Hd Hw)
    as [a2 [s2 [E [H1 [H2 [H3 [H4 H5]]]]]]].
  exists a2, s2. split; [exact E|]. split; [exact H1|].
  split.
  { apply mirror_faceTracking_keeps in E. destruct E as [_ [E _]].
    rewrite E. reflexivity. }
  do 4 (split; [assumption|]).
  split.
  { intros ->. rewrite H2, H3, H4, H5.
    split; [ring|]. split; [ring|]. split; [|ring].
    field. intro H. apply Hw. rewrite H. ring. }
  intros b b' pre last last' d1 Hb A T.
  unfold MirrorApp.faceTracking in T. rewrite Hf in T.
  unfold completeMesh in Hm.
  destruct (faceLandmarks r) as [|x0 xs]; [discriminate|].
  destruct (MirrorApp.trackStickers f r cs (interactingIdRef b)
              (lastFaceDataRef b) (stickers b)) as [[l' c']|] eqn:K;
    cbn [bind fst snd] in T; [|discriminate].
  injection T as <-. cbn [lastFaceDataRef setLastFaceDataRef setStickers].
  rewrite Hb in K.
  exact (mirror_trackStickers_cache f r cs _ pre last last' d1 _ _ _ K A).
Qed.

Lemma mirror_drop_round_trip_witness :
  (exists a2 s2,
     MirrorApp.faceTracking (M := scenarioMath) faceFrame idleState
       (MirrorApp.handleHandDrop faceFrame "mask-1" maskAndHatSeen)
     = Return a2
     /\ find (hasId "mask-1") (stickers a2) = Some s2
     /\ StickerItem.x s2 == 100 /\ StickerItem.y s2 == 100)
  /\ (exists a2 s2,
        MirrorApp.faceTracking (M := scenarioMath) faceFrame idleState
          (MirrorApp.handleHandDrop faceFrame "hat-1" maskAndHatSeen)
        = Return a2
        /\ find (hasId "hat-1") (stickers a2) = Some s2
        /\ StickerItem.x s2 == 300 /\ StickerItem.y s2 == 56).
Proof.
  split.
  - destruct (mirror_drop_round_trip scenarioMath faceFrame scenarioFace
                idleState maskAndHatSeen "mask-1" maskSticker scenarioSample
                scenarioSample
                eq_refl ltac:(vm_compute; reflexivity) eq_refl eq_refl
                ltac:(discriminate) eq_refl ltac:(discriminate)
                ltac:(vm_compute; reflexivity)
                ltac:(vm_compute; discriminate))
      as [a2 [s2 [E [H1 [_ [_ [_ [_ [_ [H _]]]]]]]]]].
    destruct (H eq_refl) as [H2 [H3 _]].
    exists a2, s2. split; [exact E|]. split; [exact H1|].
    split; [rewrite H2 | rewrite H3]; reflexivity.
  - destruct (mirror_drop_round_trip scenarioMath faceFrame scenarioFace
                idleState maskAndHatSeen "hat-1"
                (permanent "hat-1" hats head 300 200) scenarioSample
                headSample
                eq_refl ltac:(vm_compute; reflexivity) eq_refl eq_refl
                ltac:(discriminate) eq_refl ltac:(discriminate)
                ltac:(vm_compute; reflexivity)
                ltac:(vm_compute; discriminate))
      as [a2 [s2 [E [H1 [_ [H2 [H3 _]]]]]]].
    exists a2, s2. split; [exact E|]. split; [exact H1|].
    split; [rewrite H2 | rewrite H3]; vm_compute; reflexivity.
Defined.

(** X16.  Losing the hand in [MirrorApp] and [ArcadeApp].  A frame
    without a hand always ends with the interaction idle and with no
    hand position remembered; and when the interaction was the drag of a
    sticker the hold on it is released, so that the sticker is tracked
    again.  In [ArcadeApp] this holds for every frame but the one that
    declares the win. *)
Theorem hand_lost_resets (M : MathLib) (f : Frame) (a : AppState) :
  handResult f = None ->
  (forall a',
     MirrorApp.loop f a = Return a' ->
     interactionState a' = idleState
     /\ lastHandPosRef a' = None
     /\ (forall i,
           status (interactionState a) = dragging ->
           targetId (interactionState a) = Some i -> i <> "" ->
           targetType (interactionState a) = sticker ->
           interactingIdRef a' = None))
  /\ (forall captured a',
        Game.won a = false ->
        ArcadeApp.loop captured f a = Return a' ->
        interactionState a' = idleState
        /\ (forall i,
              isPlaying a = false ->
              status (interactionState a) = dragging ->
              targetId (interactionState a) = Some i -> i <> "" ->
              targetType (interactionState a) = sticker ->
              interactingIdRef a' = None)).
Proof.
  intro Hh. split.
  - intros a' E.
    split; [exact (mirror_loop_no_hand f a a' Hh E)|].
    split.
    { destruct (mirror_loop_stamp f a a' E) as [_ L]. rewrite L, Hh.
      reflexivity. }
    intros i Hs Ht Hi Hty.
    unfold MirrorApp.loop, MirrorApp.handProcessing in E.
    rewrite Hh in E. cbn [bind fst snd MirrorApp.interactionLogic] in E.
    apply mirror_faceTracking_keeps in E. destruct E as [_ [E _]].
    rewrite E, (mirror_handLost_drops f _ _ i Hs Ht Hi Hty). reflexivity.
  - intros captured a' Hw E.
    split; [exact (arcade_loop_no_hand captured f a a' Hh Hw E)|].
    intros i Hp Hs Ht Hi Hty.
    unfold ArcadeApp.loop, ArcadeApp.handProcessing in E.
    rewrite Hw, Hp, Hh in E.
    cbn [bind fst snd ArcadeApp.interactionLogic] in E.
    apply mirror_faceTracking_keeps in E. destruct E as [_ [E _]].
    rewrite E, (mirror_handLost_drops f _ _ i Hs Ht Hi Hty). reflexivity.
Qed.

Lemma hand_lost_resets_witness :
  exists a',
    MirrorApp.loop (M := scenarioMath) faceFrame maskAndHat = Return a'
    /\ interactionState a' = idleState
    /\ interactingIdRef a' = None.
Proof.
  destruct (MirrorApp.loop (M := scenarioMath) faceFrame maskAndHat)
    as [a'|] eqn:E; [|vm_compute in E; discriminate].
  exists a'. split; [reflexivity|].
  destruct (proj1 (hand_lost_resets scenarioMath faceFrame maskAndHat eq_refl)
              a' E) as [H1 [_ H3]].
  split; [exact H1|].
  exact (H3 "hat-1" eq_refl eq_refl ltac:(discriminate) eq_refl).
Defined.

(** ** Which fingers make a swipe *)

Ltac finger_step :=
  match goal with
  | |- context [lastHandPosRef ?s] => destruct (lastHandPosRef s)
  | |- context [lastFaceDataRef ?s] => destruct (lastFaceDataRef s)
  | |- context [faceResult ?s] => destruct (faceResult s)
  | |- context [Qltb ?u ?v] => destruct (Qltb u v)
  | |- context [(List.length ?l =? 0)%nat] => destruct (List.length l =? 0)%nat
  end.

Ltac finger_cases :=
  repeat (finger_step; cbv beta iota zeta);
  cbn; intros; try discriminate; repeat split; reflexivity.

(** X17.  The fingers of a swipe.  The hand counts as an open palm
    exactly when all five fingers are extended.  A swipe that clears the
    screen is recognised only with the index, middle and ring finger
    extended and the thumb and the little finger not; the face change of
    [MirrorApp] only with the four fingers extended and the thumb not;
    the face change of [GameApp] only with an open palm, outside the
    game and with a face sticker in the store.  So no frame recognises
    two swipes, and the open palm that casts effects never clears the
    screen. *)
Theorem swipe_fingers (M : MathLib) (f : Frame) (h : Hand.t)
  (cur : list StickerItem.t) (a : AppState) :
  let g := classify h (rectWidth f) (rectHeight f) in
  isOpenPalm g
  = isThumbExt g && isIndexExt g && isMiddleExt g && isRingExt g
    && isPinkyExt g
  /\ (MirrorApp.recognizeSwipe f g a = Some ClearScreen ->
      isIndexExt g = true /\ isMiddleExt g = true /\ isRingExt g = true
      /\ isPinkyExt g = false /\ isThumbExt g = false)
  /\ (MirrorApp.recognizeSwipe f g a = Some ChangeAnimal ->
      isIndexExt g = true /\ isMiddleExt g = true /\ isRingExt g = true
      /\ isPinkyExt g = true /\ isThumbExt g = false)
  /\ (GameApp.recognizeSwipe f g cur a = Some ClearScreen ->
      isIndexExt g = true /\ isMiddleExt g = true /\ isRingExt g = true
      /\ isPinkyExt g = false /\ isThumbExt g = false
      /\ isPlaying a = false)
  /\ (GameApp.recognizeSwipe f g cur a = Some ChangeAnimal ->
      isOpenPalm g = true /\ isPlaying a = false
      /\ existsb isFace cur = true).
Proof.
  intro g. subst g.
  split; [|split; [|split; [|split]]].
  - unfold classify. cbn [isOpenPalm isThumbExt isIndexExt isMiddleExt
                          isRingExt isPinkyExt]. finger_cases.
  - unfold MirrorApp.recognizeSwipe, classify.
    cbn [fingerCount isIndexExt isMiddleExt isRingExt isPinkyExt isThumbExt
         currentHandX].
    finger_cases.
  - unfold MirrorApp.recognizeSwipe, classify.
    cbn [fingerCount isIndexExt isMiddleExt isRingExt isPinkyExt isThumbExt
         currentHandX].
    finger_cases.
  - unfold GameApp.recognizeSwipe, classify.
    cbn [fingerCount isIndexExt isMiddleExt isRingExt isPinkyExt isThumbExt
         isOpenPalm currentHandX cursorX cursorY].
    destruct (isPlaying a); [rewrite andb_false_r; destruct (lastHandPosRef a);
                             discriminate|].
    destruct (existsb isFace cur); finger_cases.
  - unfold GameApp.recognizeSwipe, classify.
    cbn [fingerCount isIndexExt isMiddleExt isRingExt isPinkyExt isThumbExt
         isOpenPalm currentHandX cursorX cursorY].
    destruct (isPlaying a); [rewrite andb_false_r; destruct (lastHandPosRef a);
                             discriminate|].
    destruct (existsb isFace cur); finger_cases.
Qed.

(** ** A frame of [GameApp] while the game runs *)

Ltac panel_fields_auto :=
  repeat break_match;
  cbn [showWinModal setStickers
       setActiveStickerId setSelectedCategory setInteractionState
       setIsPlaying setScore setCoins setShowWinModal setInteractingIdRef
       setLastFaceDataRef setHoverStartTimeRef setDropStartTimeRef
       setLastEffectSpawnTimeRef setLastGestureTimeRef setLastHandPosRef
       setScoreRef setLastCoinSpawnTimeRef fst snd];
  reflexivity.

Section GameFrame.
Context {M : MathLib}.

Lemma play_panel (f : Frame) (a a' : AppState) :
  Game.play f a = Return a' ->
  activeStickerId a' = activeStickerId a
  /\ selectedCategory a' = selectedCategory a
  /\ showWinModal a' = showWinModal a.
Proof.
  unfold Game.play, Game.spawnCoin. intro E.
  destruct (Game.avatarPosition f) as [av|]; simpl in E; [|discriminate].
  injection E as <-. repeat break_match; repeat split; reflexivity.
Qed.

Lemma game_faceAnchoring_panel (f : Frame) (cs : InteractionState)
  (a a' : AppState) :
  GameApp.faceAnchoring f cs a = Return a' ->
  activeStickerId a' = activeStickerId a
  /\ selectedCategory a' = selectedCategory a
  /\ showWinModal a' = showWinModal a
  /\ map StickerItem.id (stickers a') = map StickerItem.id (stickers a).
Proof.
  unfold GameApp.faceAnchoring. intro E.
  destruct (faceResult f) as [r|];
    [|injection E as <-; repeat split; reflexivity].
  destruct (faceLandmarks r);
    [injection E as <-; repeat split; reflexivity|].
  destruct (GameApp.anchorDataMap r) as [m|]; simpl in E; [|discriminate].
  injection E as <-.
  destruct (GameApp.map_face m); (repeat split; try reflexivity);
    cbn [stickers setStickers setLastFaceDataRef]; rewrite map_map;
    apply map_ext; intro s; apply game_anchorSticker_id.
Qed.

Lemma game_interactionLogic_modal (f : Frame) (g : option Gesture)
  (cur : list StickerItem.t) (cs : InteractionState) (a : AppState) :
  showWinModal (GameApp.interactionLogic f g cur cs a) = showWinModal a.
Proof.
  unfold GameApp.interactionLogic, GameApp.hoverLogic,
    GameApp.handleHandDrop, GameApp.handleSelectAsset.
  panel_fields_auto.
Qed.

Lemma game_spawnEffect_modal (f : Frame) (g : Gesture)
  (cur : list StickerItem.t) (a : AppState) :
  showWinModal (GameApp.spawnEffect f g cur a) = showWinModal a.
Proof. unfold GameApp.spawnEffect. panel_fields_auto. Qed.

Lemma game_performSwipe_modal (f : Frame) (act : option SwipeAction)
  (a a' : AppState) :
  GameApp.performSwipe f act a = Return a' ->
  showWinModal a' = showWinModal a.
Proof.
  destruct act as [[|]|]; simpl; intro E.
  - injection E as <-. reflexivity.
  - destruct (GameApp.cycleAnimalFace f (stickers a)); simpl in E;
      [|discriminate].
    injection E as <-. reflexivity.
  - injection E as <-. reflexivity.
Qed.

(** A frame that does not declare the win leaves the win panel alone. *)
Lemma game_loop_modal (f : Frame) (a a' : AppState) :
  Game.won a = false ->
  GameApp.loop f a = Return a' ->
  showWinModal a' = showWinModal a.
Proof.
  intros Hw E. unfold GameApp.loop in E. rewrite Hw in E.
  destruct (if isPlaying a then Game.play f a else Return a) as [a0|] eqn:G;
    cbn [bind] in E; [|discriminate].
  assert (H0 : showWinModal a0 = showWinModal a).
  { destruct (isPlaying a).
    - exact (proj2 (proj2 (play_panel f a a0 G))).
    - injection G as <-. reflexivity. }
  unfold GameApp.handProcessing in E.
  destruct (handResult f) as [h|].
  - destruct (GameApp.performSwipe f _ _) as [a1|] eqn:P;
      cbn [bind fst snd] in E; [|discriminate].
    apply game_performSwipe_modal in P.
    apply game_faceAnchoring_panel in E. destruct E as [_ [_ [E _]]].
    rewrite E, game_interactionLogic_modal, game_spawnEffect_modal.
    cbn [showWinModal setLastHandPosRef]. rewrite P. exact H0.
  - cbn [bind fst snd] in E.
    apply game_faceAnchoring_panel in E. destruct E as [_ [_ [E _]]].
    rewrite E, game_interactionLogic_modal. exact H0.
Qed.

(** While the game runs, a frame that does not declare the win is the
    game block, the lifecycle pass and the face anchoring, and nothing
    else. *)
Lemma game_loop_playing (f : Frame) (a a' : AppState) :
  isPlaying a = true -> Game.won a = false ->
  GameApp.loop f a = Return a' ->
  exists a0,
    Game.play f a = Return a0
    /\ GameApp.faceAnchoring f (interactionState a0)
         (setLastHandPosRef (option_map knuckle (handResult f))
            (setStickers (lifecycle GameApp.EFFECT_FADE_DURATION (now f)) a0))
       = Return a'.
Proof.
  intros Hp Hw E. unfold GameApp.loop in E. rewrite Hw, Hp in E.
  destruct (Game.play f a) as [a0|] eqn:G; cbn [bind] in E; [|discriminate].
  exists a0. split; [reflexivity|].
  pose proof (play_keeps f a a0 G) as K.
  destruct K as [_ [_ [_ [_ [_ K]]]]]. rewrite Hp in K.
  unfold GameApp.handProcessing in E.
  destruct (handResult f) as [h|].
  - assert (R : GameApp.recognizeSwipe f
                  (classify h (rectWidth f) (rectHeight f)) (stickers a0)
                  (setStickers
                     (lifecycle GameApp.EFFECT_FADE_DURATION (now f)) a0)
                = None).
    { unfold GameApp.recognizeSwipe.
      cbn [isPlaying lastHandPosRef lastGestureTimeRef setStickers].
      rewrite K. cbn [negb]. rewrite andb_false_r.
      destruct (lastHandPosRef a0); reflexivity. }
    rewrite R in E. cbn [GameApp.performSwipe bind fst snd] in E.
    assert (S : forall g cur x, isPlaying x = true ->
                  GameApp.spawnEffect f g cur x = x).
    { intros g cur x Hx. unfold GameApp.spawnEffect. rewrite Hx.
      cbn [negb]. rewrite andb_false_r. reflexivity. }
    assert (I : forall g cur cs x, isPlaying x = true ->
                  GameApp.interactionLogic f g cur cs x = x).
    { intros g cur cs x Hx. unfold GameApp.interactionLogic. rewrite Hx.
      destruct g; reflexivity. }
    rewrite S, I in E by exact K. exact E.
  - cbn [bind fst snd GameApp.interactionLogic option_map] in E. exact E.
Qed.

End GameFrame.

(** X18.  A frame of [GameApp] and the game.  While the game runs the
    hand is ignored: a frame that does not declare the win leaves the
    interaction state, the held sticker, the selection, the category and
    the swipe stamp as they are, and the stickers are the ones that the
    lifecycle pass lets through, under their ids.  A frame that starts
    with the game running and at least [WIN_SCORE_THRESHOLD] points
    stops the game, shows the win panel and clears the coins, and does
    nothing else; no other frame ever shows the win panel. *)
Theorem game_frame_while_playing (M : MathLib) (f : Frame)
  (a a' : AppState) :
  GameApp.loop f a = Return a' ->
  (isPlaying a = true -> scoreRef a < Game.WIN_SCORE_THRESHOLD ->
   interactionState a' = interactionState a
   /\ interactingIdRef a' = interactingIdRef a
   /\ activeStickerId a' = activeStickerId a
   /\ selectedCategory a' = selectedCategory a
   /\ lastGestureTimeRef a' = lastGestureTimeRef a
   /\ isPlaying a' = true
   /\ map StickerItem.id (stickers a')
      = map StickerItem.id
          (lifecycle GameApp.EFFECT_FADE_DURATION (now f) (stickers a)))
  /\ (isPlaying a = true -> Game.WIN_SCORE_THRESHOLD <= scoreRef a ->
      isPlaying a' = false /\ showWinModal a' = true /\ coins a' = []
      /\ stickers a' = stickers a /\ score a' = score a
      /\ interactionState a' = interactionState a)
  /\ (showWinModal a' = true ->
      showWinModal a = true
      \/ (isPlaying a = true /\ Game.WIN_SCORE_THRESHOLD <= scoreRef a)).
Proof.
  intro E. split; [|split].
  - intros Hp Hlt.
    assert (Hw : Game.won a = false).
    { unfold Game.won. rewrite Hp. cbn [andb].
      destruct (Qle_bool Game.WIN_SCORE_THRESHOLD (scoreRef a)) eqn:B;
        [|reflexivity].
      apply Qle_bool_iff in B. exfalso. exact (Qlt_not_le _ _ Hlt B). }
    destruct (game_loop_playing f a a' Hp Hw E) as [a0 [G A]].
    pose proof (play_stickers _ _ _ G) as Hst.
    destruct (play_panel f a a0 G) as [P1 [P2 _]].
    destruct (play_keeps f a a0 G) as [K1 [K2 [K3 [_ [_ K6]]]]].
    destruct (game_faceAnchoring_keeps _ _ _ _ A) as [A1 [A2 [A3 [_ A5]]]].
    destruct (game_faceAnchoring_panel _ _ _ _ A) as [B1 [B2 [_ B4]]].
    cbn [interactionState interactingIdRef lastGestureTimeRef isPlaying
         activeStickerId selectedCategory stickers
         setLastHandPosRef setStickers] in A1, A2, A3, A5, B1, B2, B4.
    rewrite A1, A2, A3, A5, B1, B2, B4, K1, K2, K3, K6, P1, P2, Hst, Hp.
    repeat split; reflexivity.
  - intros Hp Hge.
    assert (Hw : Game.won a = true).
    { unfold Game.won. rewrite Hp. cbn [andb]. apply Qle_bool_iff.
      exact Hge. }
    unfold GameApp.loop in E. rewrite Hw in E. injection E as <-.
    repeat split; reflexivity.
  - intro Hm. destruct (Game.won a) eqn:Hw.
    + right. unfold Game.won in Hw. apply andb_true_iff in Hw.
      destruct Hw as [H1 H2]. split; [exact H1|].
      apply Qle_bool_iff. exact H2.
    + left. rewrite <- (game_loop_modal f a a' Hw E). exact Hm.
Qed.

Lemma game_frame_while_playing_witness :
  exists a',
    GameApp.loop (M := scenarioMath)
      (withHand (pointingHand 0.5 0.5) (seen 1000 "1000"))
      (GameApp.toggleGame dressedUp) = Return a'
    /\ interactionState a' = idleState
    /\ isPlaying a' = true.
Proof.
  destruct (GameApp.loop (M := scenarioMath)
              (withHand (pointingHand 0.5 0.5) (seen 1000 "1000"))
              (GameApp.toggleGame dressedUp)) as [a'|] eqn:E;
    [|vm_compute in E; discriminate].
  exists a'. split; [reflexivity|].
  destruct (proj1 (game_frame_while_playing scenarioMath _ _ _ E)
              eq_refl ltac:(reflexivity))
    as [H1 [_ [_ [_ [_ [H6 _]]]]]].
  split; [rewrite H1; reflexivity | exact H6].
Defined.

(** ** The virtual touch on the selector in [GameApp] *)

Section GameSelectorTouch.
Context {M : MathLib}.

Lemma game_resolve_assetButton (f : Frame) (g : Gesture)
  (cur : list StickerItem.t) (asset : Asset.t) (pre post : list DomElement) :
  In asset ASSETS ->
  elementFromPoint f = pre ++ AssetSelector.assetButton asset :: post ->
  (forall e, In e pre -> prefix "asset-btn-" (domId e) = false) ->
  GameApp.resolveTarget f g cur = Some (Asset.id asset, button_asset).
Proof.
  intros Hin He Hpre. destruct (assets_by_id asset Hin) as [Hid _].
  unfold GameApp.resolveTarget, GameApp.hoveredButton,
    GameApp.closestWithIdPrefix.
  rewrite He.
  rewrite (find_skip (fun e => prefix "asset-btn-" (domId e)) pre
             (AssetSelector.assetButton asset) post Hpre)
    by (unfold AssetSelector.assetButton; cbn [domId]; apply prefix_app).
  unfold AssetSelector.assetButton. cbn [domId]. rewrite stripPrefix_app.
  rewrite (eqb_empty_false _ Hid). reflexivity.
Qed.

Lemma game_resolve_categoryButton (f : Frame) (g : Gesture)
  (cur : list StickerItem.t) (cat : Category) (pre post : list DomElement) :
  elementFromPoint f = pre ++ AssetSelector.categoryButton cat :: post ->
  (forall e, In e pre -> prefix "cat-btn-" (domId e) = false) ->
  (forall e, In e (pre ++ post) -> prefix "asset-btn-" (domId e) = false) ->
  GameApp.resolveTarget f g cur
  = Some (AssetSelector.categoryKey cat, button_cat).
Proof.
  intros He Hpre Hall.
  assert (Hc : prefix "asset-btn-"
                 (domId (AssetSelector.categoryButton cat)) = false)
    by (destruct cat; reflexivity).
  assert (Hn : find (fun e => prefix "asset-btn-" (domId e))
                 (pre ++ AssetSelector.categoryButton cat :: post) = None).
  { apply find_none. intros e Hin. apply in_app_or in Hin.
    destruct Hin as [Hin | [<- | Hin]];
      [apply Hall; apply in_or_app; left; exact Hin | exact Hc
      | apply Hall; apply in_or_app; right; exact Hin]. }
  unfold GameApp.resolveTarget, GameApp.hoveredButton,
    GameApp.closestWithIdPrefix.
  rewrite He, Hn.
  rewrite (find_skip (fun e => prefix "cat-btn-" (domId e)) pre
             (AssetSelector.categoryButton cat) post Hpre)
    by (unfold AssetSelector.categoryButton; cbn [domId]; apply prefix_app).
  unfold AssetSelector.categoryButton. cbn [domId]. rewrite stripPrefix_app.
  destruct cat; reflexivity.
Qed.

End GameSelectorTouch.

(** X19.  The virtual touch on the selector, in [GameApp].  On the button
    of an asset of the catalogue, or on an element inside it (the nearest
    ancestor with an asset id is that button): a frame with another
    target starts the dwell timer; while the state hovers on the button
    and less than 1500 ms have elapsed the store is untouched; once
    1500 ms have elapsed a sticker of that very asset is added, at the
    centre of the window and not at the cursor, in the one update of
    [handleSelectAsset] (a face replaces the face), and the interaction
    goes back to idle: nothing is held.  On the button of a category, or
    inside it, with no ancestor that has an asset id, the 1500 ms select
    that category. *)
Theorem game_selector_touch (M : MathLib) (f : Frame) (g : Gesture)
  (cur : list StickerItem.t) (cs : InteractionState) (a : AppState) :
  (forall asset pre post,
     In asset ASSETS ->
     elementFromPoint f = pre ++ AssetSelector.assetButton asset :: post ->
     (forall e, In e pre -> prefix "asset-btn-" (domId e) = false) ->
     let a' := GameApp.hoverLogic f g cur cs a in
     let elapsed := now f - hoverStartTimeRef a in
     (targetId cs <> Some (Asset.id asset) ->
      a' = setInteractionState
             (fun _ => mkInteraction hovering (Some (Asset.id asset))
                         button_asset 0)
             (setHoverStartTimeRef (now f) a))
     /\ (targetId cs = Some (Asset.id asset) -> status cs = hovering ->
         elapsed < BUTTON_HOVER_THRESHOLD_MS ->
         stickers a' = stickers a
         /\ status (interactionState a') = hovering
         /\ progress (interactionState a')
            == elapsed / BUTTON_HOVER_THRESHOLD_MS)
     /\ (targetId cs = Some (Asset.id asset) -> status cs = hovering ->
         BUTTON_HOVER_THRESHOLD_MS <= elapsed ->
         stickers a'
         = GameApp.selectAsset asset (GameApp.newSticker f asset) (stickers a)
         /\ StickerItem.x (GameApp.newSticker f asset) = innerWidth f / 2
         /\ StickerItem.y (GameApp.newSticker f asset) = innerHeight f / 2
         /\ interactionState a' = idleState
         /\ interactingIdRef a' = interactingIdRef a))
  /\ (forall cat pre post,
        elementFromPoint f = pre ++ AssetSelector.categoryButton cat :: post ->
        (forall e, In e pre -> prefix "cat-btn-" (domId e) = false) ->
        (forall e, In e (pre ++ post) ->
                   prefix "asset-btn-" (domId e) = false) ->
        targetId cs = Some (AssetSelector.categoryKey cat) ->
        status cs = hovering ->
        BUTTON_HOVER_THRESHOLD_MS <= now f - hoverStartTimeRef a ->
        let a' := GameApp.hoverLogic f g cur cs a in
        selectedCategory a' = AssetSelector.categoryKey cat
        /\ interactionState a' = idleState
        /\ stickers a' = stickers a).
Proof.
  split.
  - intros asset pre post Hin He Hpre a' elapsed.
    pose proof (game_resolve_assetButton f g cur asset pre post Hin He Hpre)
      as R.
    destruct (assets_by_id asset Hin) as [_ Hfind].
    subst a'. unfold GameApp.hoverLogic. rewrite R.
    split; [|split].
    + intro Hne. rewrite (proj1 (optStrEq_false _ _ Hne)). reflexivity.
    + intros Heq Hs Hlt. rewrite Heq, Hs. cbn [optStrEq Status_eqb].
      rewrite String.eqb_refl. cbn [andb TargetType_eqb]. cbv zeta.
      fold elapsed.
      destruct (dwell_pending BUTTON_HOVER_THRESHOLD_MS elapsed
                  ltac:(reflexivity) Hlt) as [B E].
      rewrite B. split; [reflexivity|]. split; [reflexivity | exact E].
    + intros Heq Hs Hge. rewrite Heq, Hs. cbn [optStrEq Status_eqb].
      rewrite String.eqb_refl. cbn [andb TargetType_eqb]. cbv zeta.
      fold elapsed.
      rewrite (dwell_done BUTTON_HOVER_THRESHOLD_MS elapsed
                 ltac:(reflexivity) Hge).
      rewrite Hfind. repeat split; reflexivity.
  - intros cat pre post He Hpre Hall Heq Hs Hge a'.
    pose proof (game_resolve_categoryButton f g cur cat pre post He Hpre Hall)
      as R.
    subst a'. unfold GameApp.hoverLogic. rewrite R, Heq, Hs.
    cbn [optStrEq Status_eqb]. rewrite String.eqb_refl.
    cbn [andb TargetType_eqb]. cbv zeta.
    rewrite (dwell_done BUTTON_HOVER_THRESHOLD_MS _ ltac:(reflexivity) Hge).
    repeat split; reflexivity.
Qed.

Lemma game_selector_touch_witness :
  In crown ASSETS
  /\ stickers
       (GameApp.hoverLogic (M := scenarioMath)
          (touching [iconWrapper; AssetSelector.assetButton crown]
             (quietFrame 2000))
          pointingGesture [] overCrownButton initialState)
     = [GameApp.newSticker
          (touching [iconWrapper; AssetSelector.assetButton crown]
             (quietFrame 2000))
          crown].
Proof.
  assert (Hin : In crown ASSETS) by (unfold ASSETS, crown; simpl; tauto).
  split; [exact Hin|].
  destruct (proj1 (game_selector_touch scenarioMath
                     (touching [iconWrapper; AssetSelector.assetButton crown]
                        (quietFrame 2000))
                     pointingGesture [] overCrownButton initialState)
              crown [iconWrapper] [] Hin eq_refl
              ltac:(intros e [<- | []]; reflexivity)) as [_ [_ H]].
  exact (proj1 (H eq_refl eq_refl ltac:(discriminate))).
Defined.

(** ** The shape of the interaction state *)

Ltac istate_auto :=
  repeat break_match;
  cbn [interactionState setStickers
       setActiveStickerId setSelectedCategory setInteractionState
       setIsPlaying setScore setCoins setShowWinModal setInteractingIdRef
       setLastFaceDataRef setHoverStartTimeRef setDropStartTimeRef
       setLastEffectSpawnTimeRef setLastGestureTimeRef setLastHandPosRef
       setScoreRef setLastCoinSpawnTimeRef fst snd];
  reflexivity.

Section InteractionShape.
Context {M : MathLib}.

Lemma mirror_spawnEffect_istate (f : Frame) (g : Gesture) (a : AppState) :
  interactionState (MirrorApp.spawnEffect f g a) = interactionState a.
Proof. unfold MirrorApp.spawnEffect. istate_auto. Qed.

Lemma game_spawnEffect_istate (f : Frame) (g : Gesture)
  (cur : list StickerItem.t) (a : AppState) :
  interactionState (GameApp.spawnEffect f g cur a) = interactionState a.
Proof. unfold GameApp.spawnEffect. istate_auto. Qed.

Lemma mirror_performSwipe_istate (f : Frame) (act : option SwipeAction)
  (a a' : AppState) :
  MirrorApp.performSwipe f act a = Return a' ->
  interactionState a' = interactionState a.
Proof.
  destruct act as [[|]|]; simpl; intro E.
  - injection E as <-. reflexivity.
  - destruct (MirrorApp.cycleAnimalFace f (stickers a)); simpl in E;
      [|discriminate].
    injection E as <-. reflexivity.
  - injection E as <-. reflexivity.
Qed.

Lemma game_performSwipe_istate (f : Frame) (act : option SwipeAction)
  (a a' : AppState) :
  GameApp.performSwipe f act a = Return a' ->
  interactionState a' = interactionState a.
Proof.
  destruct act as [[|]|]; simpl; intro E.
  - injection E as <-. reflexivity.
  - destruct (GameApp.cycleAnimalFace f (stickers a)); simpl in E;
      [|discriminate].
    injection E as <-. reflexivity.
  - injection E as <-. reflexivity.
Qed.

Lemma mirror_faceTracking_istate (f : Frame) (cs : InteractionState)
  (a a' : AppState) :
  MirrorApp.faceTracking f cs a = Return a' ->
  interactionState a' = interactionState a.
Proof.
  unfold MirrorApp.faceTracking. intro E.
  destruct (faceResult f) as [r|]; [|injection E as <-; reflexivity].
  destruct (faceLandmarks r); [injection E as <-; reflexivity|].
  destruct (MirrorApp.trackStickers _ _ _ _ _ _) as [p|]; simpl in E;
    [|discriminate].
  injection E as <-. reflexivity.
Qed.

Lemma game_faceAnchoring_istate (f : Frame) (cs : InteractionState)
  (a a' : AppState) :
  GameApp.faceAnchoring f cs a = Return a' ->
  interactionState a' = interactionState a.
Proof.
  unfold GameApp.faceAnchoring. intro E.
  destruct (faceResult f) as [r|]; [|injection E as <-; reflexivity].
  destruct (faceLandmarks r); [injection E as <-; reflexivity|].
  destruct (GameApp.anchorDataMap r) as [m|]; simpl in E; [|discriminate].
  injection E as <-. destruct (GameApp.map_face m); reflexivity.
Qed.

Lemma play_istate (f : Frame) (a a' : AppState) :
  Game.play f a = Return a' -> interactionState a' = interactionState a.
Proof.
  unfold Game.play, Game.spawnCoin. intro E.
  destruct (Game.avatarPosition f) as [av|]; simpl in E; [|discriminate].
  injection E as <-. repeat break_match; reflexivity.
Qed.

Lemma idleState_ok : interactionOk idleState.
Proof.
  unfold interactionOk, idleState. cbn. split; [lra|].
  split; [split; reflexivity | discriminate].
Qed.

Ltac ok_solve :=
  unfold interactionOk;
  cbn [progress status targetId targetType interactionState
       setStickers withProgress
       setActiveStickerId setSelectedCategory setInteractionState
       setIsPlaying setScore setCoins setShowWinModal setInteractingIdRef
       setLastFaceDataRef setHoverStartTimeRef setDropStartTimeRef
       setLastEffectSpawnTimeRef setLastGestureTimeRef setLastHandPosRef
       setScoreRef setLastCoinSpawnTimeRef fst snd idleState];
  repeat match goal with
         | |- _ /\ _ => split
         | |- _ <-> _ => split
         end;
  try (intros; first [ reflexivity | discriminate | assumption
                     | apply Q.le_min_r | congruence ]).

Ltac ok_start H cs :=
  destruct cs as [st tid ty pr];
  unfold interactionOk in H; cbn [progress status targetId targetType] in *;
  destruct H as [H1 [H2 H3]].

Ltac ok_finish S :=
  repeat break_match; ok_solve; try rewrite S; ok_solve;
  try tauto;
  try (intros _;
       match goal with
       | E : Status_eqb ?st dragging && _ && TargetType_eqb ?ty sticker = true
         |- _ => apply andb_prop in E; destruct E as [_ E];
                 destruct ty; [reflexivity | discriminate E ..]
       end).

Lemma mirror_handInteraction_ok (f : Frame) (g : Gesture)
  (cur : list StickerItem.t) (cs : InteractionState) (a : AppState) :
  interactionState a = cs -> interactionOk cs ->
  interactionOk
    (interactionState (MirrorApp.handInteraction f g cur cs a)).
Proof.
  intros E H. unfold MirrorApp.handInteraction, MirrorApp.hoverLogic.
  rewrite <- (mirror_spawnEffect_istate f g a) in E.
  revert E. generalize (MirrorApp.spawnEffect f g a). intros a1 S.
  ok_start H cs. ok_finish S.
Qed.

Lemma mirror_interactionLogic_ok (f : Frame) (g : option Gesture)
  (cur : list StickerItem.t) (cs : InteractionState) (a : AppState) :
  interactionState a = cs -> interactionOk cs ->
  interactionOk
    (interactionState (MirrorApp.interactionLogic f g cur cs a)).
Proof.
  intros E H. destruct g as [g|]; cbn [MirrorApp.interactionLogic].
  - exact (mirror_handInteraction_ok f g cur cs a E H).
  - exact idleState_ok.
Qed.

Lemma arcade_interactionLogic_ok (f : Frame) (g : option Gesture)
  (cur : list StickerItem.t) (cs : InteractionState) (a : AppState) :
  interactionState a = cs -> interactionOk cs ->
  interactionOk
    (interactionState (ArcadeApp.interactionLogic f g cur cs a)).
Proof.
  intros E H. unfold ArcadeApp.interactionLogic.
  destruct g as [g|]; [destruct (negb (isPlaying a))|].
  - exact (mirror_handInteraction_ok f g cur cs a E H).
  - rewrite E. exact H.
  - exact idleState_ok.
Qed.

Lemma game_interactionLogic_ok (f : Frame) (g : option Gesture)
  (cur : list StickerItem.t) (cs : InteractionState) (a : AppState) :
  interactionState a = cs -> interactionOk cs ->
  interactionOk
    (interactionState (GameApp.interactionLogic f g cur cs a)).
Proof.
  intros S H. unfold GameApp.interactionLogic, GameApp.hoverLogic.
  ok_start H cs. ok_finish S.
Qed.

Lemma mirror_loop_ok (f : Frame) (a a' : AppState) :
  interactionOk (interactionState a) ->
  MirrorApp.loop f a = Return a' ->
  interactionOk (interactionState a').
Proof.
  intros H E. unfold MirrorApp.loop, MirrorApp.handProcessing in E.
  destruct (handResult f) as [h|].
  - destruct (MirrorApp.performSwipe f _ _) as [a1|] eqn:P;
      cbn [bind fst snd] in E; [|discriminate].
    apply mirror_performSwipe_istate in P.
    apply mirror_faceTracking_istate in E. rewrite E.
    apply mirror_interactionLogic_ok; [exact P | exact H].
  - cbn [bind fst snd] in E.
    apply mirror_faceTracking_istate in E. rewrite E.
    apply mirror_interactionLogic_ok; [reflexivity | exact H].
Qed.

Lemma arcade_loop_ok (captured : list StickerItem.t) (f : Frame)
  (a a' : AppState) :
  interactionOk (interactionState a) ->
  ArcadeApp.loop captured f a = Return a' ->
  interactionOk (interactionState a').
Proof.
  intros H E. unfold ArcadeApp.loop in E.
  destruct (Game.won a); [injection E as <-; exact H|].
  destruct (if isPlaying a then Game.play f a else Return a) as [a0|] eqn:G;
    cbn [bind] in E; [|discriminate].
  assert (H0 : interactionOk (interactionState a0)).
  { destruct (isPlaying a).
    - rewrite (play_istate f a a0 G). exact H.
    - injection G as <-. exact H. }
  unfold ArcadeApp.handProcessing in E.
  destruct (handResult f) as [h|].
  - destruct (MirrorApp.performSwipe f _ _) as [a1|] eqn:P;
      cbn [bind fst snd] in E; [|discriminate].
    apply mirror_performSwipe_istate in P.
    apply mirror_faceTracking_istate in E. rewrite E.
    apply arcade_interactionLogic_ok; [exact P | exact H0].
  - cbn [bind fst snd] in E.
    apply mirror_faceTracking_istate in E. rewrite E.
    apply arcade_interactionLogic_ok; [reflexivity | exact H0].
Qed.

Lemma game_loop_ok (f : Frame) (a a' : AppState) :
  interactionOk (interactionState a) ->
  GameApp.loop f a = Return a' ->
  interactionOk (interactionState a').
Proof.
  intros H E. unfold GameApp.loop in E.
  destruct (Game.won a); [injection E as <-; exact H|].
  destruct (if isPlaying a then Game.play f a else Return a) as [a0|] eqn:G;
    cbn [bind] in E; [|discriminate].
  assert (H0 : interactionOk (interactionState a0)).
  { destruct (isPlaying a).
    - rewrite (play_istate f a a0 G). exact H.
    - injection G as <-. exact H. }
  unfold GameApp.handProcessing in E.
  destruct (handResult f) as [h|].
  - destruct (GameApp.performSwipe f _ _) as [a1|] eqn:P;
      cbn [bind fst snd] in E; [|discriminate].
    apply game_performSwipe_istate in P.
    apply game_faceAnchoring_istate in E. rewrite E.
    apply game_interactionLogic_ok; [|exact H0].
    rewrite game_spawnEffect_istate. exact P.
  - cbn [bind fst snd] in E.
    apply game_faceAnchoring_istate in E. rewrite E.
    apply game_interactionLogic_ok; [reflexivity | exact H0].
Qed.

Lemma mirror_react_ok (e : MirrorApp.Event) (a a' : AppState) :
  interactionOk (interactionState a) ->
  MirrorApp.react e a = Return a' ->
  interactionOk (interactionState a').
Proof.
  intros H E. destruct e; cbn [MirrorApp.react] in E;
    try (injection E as <-).
  - exact (mirror_loop_ok f a a' H E).
  - unfold MirrorApp.handleAddSticker. repeat break_match; exact H.
  - exact H.
  - exact H.
  - exact H.
  - unfold MirrorApp.handleDeleteSticker. repeat break_match; exact H.
  - exact H.
  - unfold MirrorApp.handleInteractionEnd, MirrorApp.handleHandDrop.
    repeat break_match; exact H.
Qed.

Lemma arcade_react_ok (e : ArcadeApp.Event) (a a' : AppState) :
  interactionOk (interactionState a) ->
  ArcadeApp.react e a = Return a' ->
  interactionOk (interactionState a').
Proof.
  intros H E. destruct e; cbn [ArcadeApp.react] in E;
    try (injection E as <-).
  - exact (arcade_loop_ok captured f a a' H E).
  - unfold MirrorApp.handleAddSticker. repeat break_match; exact H.
  - exact H.
  - exact H.
  - exact H.
  - unfold MirrorApp.handleDeleteSticker. repeat break_match; exact H.
  - exact H.
  - unfold MirrorApp.handleInteractionEnd, MirrorApp.handleHandDrop.
    repeat break_match; exact H.
  - unfold ArcadeApp.handleStartGame. repeat break_match; exact H.
  - exact H.
  - exact H.
Qed.

Lemma game_react_ok (e : GameApp.Event) (a a' : AppState) :
  interactionOk (interactionState a) ->
  GameApp.react e a = Return a' ->
  interactionOk (interactionState a').
Proof.
  intros H E.
  destruct e; cbn [GameApp.react] in E;
    try (destruct (isPlaying a) eqn:Hp);
    try (injection E as <-); try exact H;
    try exact (game_loop_ok f a a' H E);
    unfold GameApp.toggleGame, GameApp.handleDeleteSticker,
      GameApp.onInteractionEnd, GameApp.handleHandDrop;
    repeat break_match; exact H.
Qed.

End InteractionShape.

(** X20.  The interaction state along a run.  In the three versions,
    whatever events the component reacts to, the interaction state stays
    as the cursor can show it: its progress never exceeds 1, it is idle
    exactly when it has no target, and a drag is always the drag of a
    sticker, never of a button. *)
Theorem interaction_along_runs (M : MathLib) :
  interactionOk (interactionState initialState)
  /\ (forall events a a',
        interactionOk (interactionState a) ->
        run MirrorApp.react events a = Return a' ->
        interactionOk (interactionState a'))
  /\ (forall events a a',
        interactionOk (interactionState a) ->
        run ArcadeApp.react events a = Return a' ->
        interactionOk (interactionState a'))
  /\ (forall events a a',
        interactionOk (interactionState a) ->
        run GameApp.react events a = Return a' ->
        interactionOk (interactionState a')).
Proof.
  split; [exact idleState_ok|]. split; [|split].
  - exact (run_invariant MirrorApp.react
             (fun s => interactionOk (interactionState s)) mirror_react_ok).
  - exact (run_invariant ArcadeApp.react
             (fun s => interactionOk (interactionState s)) arcade_react_ok).
  - exact (run_invariant GameApp.react
             (fun s => interactionOk (interactionState s)) game_react_ok).
Qed.

Lemma interaction_along_runs_witness :
  exists a',
    run (MirrorApp.react (M := scenarioMath)) (mirrorTrace pickUp)
      initialState = Return a'
    /\ status (interactionState a') = dragging
    /\ interactionOk (interactionState a').
Proof.
  destruct (run (MirrorApp.react (M := scenarioMath)) (mirrorTrace pickUp)
              initialState) as [a'|] eqn:E; [|vm_compute in E; discriminate].
  exists a'. split; [reflexivity|].
  pose proof (proj1 (proj2 (interaction_along_runs scenarioMath))
                (mirrorTrace pickUp) initialState a'
                (proj1 (interaction_along_runs scenarioMath)) E) as H.
  split; [|exact H].
  vm_compute in E. injection E as <-. reflexivity.
Defined.
